(** * Kilua: a shallow embedding of the editor core

    The development follows [kilua.c] (the multi-buffer editor); [kilo.c] is
    the earlier single-buffer variant of the same code and is mentioned where
    its text differs.  The structure declarations live in [kilua.h]; the
    records below take their fields from the uses in [kilua.c] and from the
    declarations that [kilo.c] carries inline.

    Conventions.
    - A C [int] is a [Z]; the development assumes the counters stay far from
      [INT_MAX] (signed overflow is undefined in C and is not modelled).
    - A byte is an [ascii]; a buffer of [n] bytes followed by its NUL
      terminator is the [list ascii] of the [n] bytes.  The fields [size] and
      [rsize] of a row are the lengths of [chars] and [render].
    - A pointer to a row ([erow *]) is the index of its slot in the row array.
    - Behaviour that C leaves undefined (a read or a write outside an array,
      a division by zero) is a [Fault] of the error monad [result].
    - A number that the script passes is the [Z] of its integral part; the
      conversion to [int] is [lua_to_int]. *)

From Stdlib Require Import ZArith List Ascii String Bool Lia DecimalString.
Import ListNotations.
Local Open Scope Z_scope.

(** ** Faults and the error monad *)

Inductive fault : Type :=
| RowIndexOutOfRange (i : Z)      (* E.file[..]->row[i] outside the array *)
| FileIndexOutOfRange (i : Z)     (* E.file[i] outside the buffer list *)
| HlWriteOutOfRange (i : Z)       (* row->hl[i] = ... with i outside 0..rsize-1 *)
| HlReadOutOfRange (i : Z)        (* row->hl[i] read outside 0..rsize-1 *)
| RenderReadOutOfRange (i : Z)    (* row->render[i] outside 0..rsize *)
| RenderWriteOutOfRange (i : Z)   (* row->render[i] = ... outside the allocation *)
| CharsIndexOutOfRange (i : Z)    (* row->chars moved at a negative offset *)
| KeywordReadOutOfRange           (* keywords[j][-1] on an empty keyword *)
| DivisionByZero                  (* x % 0 *)
| NullSyntax                      (* E.file[..]->syntax dereferenced while NULL *)
| DelimiterWriteOutOfRange (n : Z) (* strcpy of n bytes and a NUL into a char[5] *)
| ProcessExit (code : Z)          (* exit(code) *)
| OutOfFuel.                      (* a loop bound of the model was exhausted *)

Inductive result (A : Type) : Type :=
| Done (a : A)
| Fault (e : fault).
Arguments Done {A} a.
Arguments Fault {A} e.

Definition bind {A B : Type} (m : result A) (k : A -> result B) : result B :=
  match m with
  | Done a => k a
  | Fault e => Fault e
  end.

Declare Scope result_scope.
Delimit Scope result_scope with result.
Notation "x <- m ;; k" := (bind m (fun x => k))
  (at level 61, m at next level, right associativity) : result_scope.
Notation "' pat <- m ;; k" := (bind m (fun x => match x with pat => k end))
  (at level 61, pat pattern, m at next level, right associativity) : result_scope.
Local Open Scope result_scope.

Definition is_done {A : Type} (m : result A) : bool :=
  match m with Done _ => true | Fault _ => false end.

(** ** Bytes and the <ctype.h> predicates (C locale) *)

Definition byte_val (c : ascii) : Z := Z.of_nat (nat_of_ascii c).

Definition INT_MAX : Z := 2147483647.
Definition INT_MIN : Z := -2147483648.

(** [int x = lua_tonumber(L, i);]: the conversion of a Lua number (a
    [double]) to [int].  C defines it for the numbers whose integral part is
    an [int]; for the others the instruction that the x86-64 compilers emit
    yields [INT_MIN], and the model follows it. *)
Definition lua_to_int (n : Z) : Z :=
  if (INT_MIN <=? n) && (n <=? INT_MAX) then n else INT_MIN.

Definition NUL : ascii := zero.
Definition TAB : ascii := "009"%char.
Definition NEWLINE : ascii := "010"%char.
Definition SPACE : ascii := " "%char.
Definition DQUOTE : ascii := ascii_of_nat 34.
Definition BACKSLASH : ascii := "\"%char.

Definition isspace (c : ascii) : bool :=
  let v := byte_val c in ((9 <=? v) && (v <=? 13)) || (v =? 32).

Definition isdigit (c : ascii) : bool :=
  let v := byte_val c in (48 <=? v) && (v <=? 57).

Definition isprint (c : ascii) : bool :=
  let v := byte_val c in (32 <=? v) && (v <=? 126).

Definition bytes (s : string) : list ascii := list_ascii_of_string s.

(** [strlen]: the number of bytes before the first NUL. *)
Fixpoint strlen (s : list ascii) : nat :=
  match s with
  | [] => O
  | c :: s' => if Ascii.eqb c NUL then O else S (strlen s')
  end.

(** [strncmp_eq s t n] is [strncmp(s, t, n) == 0]; both lists are read as
    NUL-terminated, so the end of a list reads as NUL. *)
Fixpoint strncmp_eq (s t : list ascii) (n : nat) : bool :=
  match n with
  | O => true
  | S n' =>
      let a := hd NUL s in
      let b := hd NUL t in
      if negb (Ascii.eqb a b) then false
      else if Ascii.eqb a NUL then true
      else strncmp_eq (tl s) (tl t) n'
  end.

(** [strchr(set, c) != NULL] for a byte [c] other than NUL. *)
Definition strchr_in (set : list ascii) (c : ascii) : bool :=
  existsb (Ascii.eqb c) set.

(** ** Highlight tags (the HL_* defines) *)

Inductive hl_t : Type :=
| HL_NORMAL | HL_NONPRINT | HL_COMMENT | HL_MLCOMMENT | HL_KEYWORD1
| HL_KEYWORD2 | HL_STRING | HL_NUMBER | HL_MATCH | HL_SELECTION.

Definition hl_eqb (a b : hl_t) : bool :=
  match a, b with
  | HL_NORMAL, HL_NORMAL | HL_NONPRINT, HL_NONPRINT | HL_COMMENT, HL_COMMENT
  | HL_MLCOMMENT, HL_MLCOMMENT | HL_KEYWORD1, HL_KEYWORD1
  | HL_KEYWORD2, HL_KEYWORD2 | HL_STRING, HL_STRING | HL_NUMBER, HL_NUMBER
  | HL_MATCH, HL_MATCH | HL_SELECTION, HL_SELECTION => true
  | _, _ => false
  end.

Definition HL_HIGHLIGHT_STRINGS : Z := Z.shiftl 1 0.
Definition HL_HIGHLIGHT_NUMBERS : Z := Z.shiftl 1 1.

(** ** The data model: rows, syntax, buffers *)

Record editorSyntax : Type := {
  keywords : list (list ascii);
  singleline_comment_start : list ascii;
  multiline_comment_start : list ascii;
  multiline_comment_end : list ascii;
  flags : Z
}.

Record erow : Type := {
  idx : Z;                 (* row index in the file, zero-based *)
  chars : list ascii;      (* row content; [size] is its length *)
  render : list ascii;     (* rendered content; [rsize] is its length *)
  hl : list hl_t;          (* one tag per rendered byte *)
  hl_oc : bool             (* row had an open comment at its end *)
}.

Definition size (r : erow) : Z := Z.of_nat (List.length (chars r)).
Definition rsize (r : erow) : Z := Z.of_nat (List.length (render r)).

Record fileState : Type := {
  cx : Z; cy : Z;
  markx : Z; marky : Z;
  rowoff : Z; coloff : Z;
  numrows : Z;
  row : list erow;
  dirty : Z;
  filename : option (list ascii);
  syntax : option editorSyntax;
  tab_size : Z
}.

(** Field updates, one per assigned field. *)
Definition set_cx (v : Z) (f : fileState) : fileState :=
  {| cx := v; cy := cy f; markx := markx f; marky := marky f;
     rowoff := rowoff f; coloff := coloff f; numrows := numrows f;
     row := row f; dirty := dirty f; filename := filename f;
     syntax := syntax f; tab_size := tab_size f |}.
Definition set_cy (v : Z) (f : fileState) : fileState :=
  {| cx := cx f; cy := v; markx := markx f; marky := marky f;
     rowoff := rowoff f; coloff := coloff f; numrows := numrows f;
     row := row f; dirty := dirty f; filename := filename f;
     syntax := syntax f; tab_size := tab_size f |}.
Definition set_mark (x y : Z) (f : fileState) : fileState :=
  {| cx := cx f; cy := cy f; markx := x; marky := y;
     rowoff := rowoff f; coloff := coloff f; numrows := numrows f;
     row := row f; dirty := dirty f; filename := filename f;
     syntax := syntax f; tab_size := tab_size f |}.
Definition set_rowoff (v : Z) (f : fileState) : fileState :=
  {| cx := cx f; cy := cy f; markx := markx f; marky := marky f;
     rowoff := v; coloff := coloff f; numrows := numrows f;
     row := row f; dirty := dirty f; filename := filename f;
     syntax := syntax f; tab_size := tab_size f |}.
Definition set_coloff (v : Z) (f : fileState) : fileState :=
  {| cx := cx f; cy := cy f; markx := markx f; marky := marky f;
     rowoff := rowoff f; coloff := v; numrows := numrows f;
     row := row f; dirty := dirty f; filename := filename f;
     syntax := syntax f; tab_size := tab_size f |}.
Definition set_numrows (v : Z) (f : fileState) : fileState :=
  {| cx := cx f; cy := cy f; markx := markx f; marky := marky f;
     rowoff := rowoff f; coloff := coloff f; numrows := v;
     row := row f; dirty := dirty f; filename := filename f;
     syntax := syntax f; tab_size := tab_size f |}.
Definition set_row (v : list erow) (f : fileState) : fileState :=
  {| cx := cx f; cy := cy f; markx := markx f; marky := marky f;
     rowoff := rowoff f; coloff := coloff f; numrows := numrows f;
     row := v; dirty := dirty f; filename := filename f;
     syntax := syntax f; tab_size := tab_size f |}.
Definition set_dirty (v : Z) (f : fileState) : fileState :=
  {| cx := cx f; cy := cy f; markx := markx f; marky := marky f;
     rowoff := rowoff f; coloff := coloff f; numrows := numrows f;
     row := row f; dirty := v; filename := filename f;
     syntax := syntax f; tab_size := tab_size f |}.
Definition set_filename (v : option (list ascii)) (f : fileState) : fileState :=
  {| cx := cx f; cy := cy f; markx := markx f; marky := marky f;
     rowoff := rowoff f; coloff := coloff f; numrows := numrows f;
     row := row f; dirty := dirty f; filename := v;
     syntax := syntax f; tab_size := tab_size f |}.
Definition set_syntax (v : option editorSyntax) (f : fileState) : fileState :=
  {| cx := cx f; cy := cy f; markx := markx f; marky := marky f;
     rowoff := rowoff f; coloff := coloff f; numrows := numrows f;
     row := row f; dirty := dirty f; filename := filename f;
     syntax := v; tab_size := tab_size f |}.

Definition set_chars (v : list ascii) (r : erow) : erow :=
  {| idx := idx r; chars := v; render := render r; hl := hl r; hl_oc := hl_oc r |}.
Definition set_render (v : list ascii) (r : erow) : erow :=
  {| idx := idx r; chars := chars r; render := v; hl := hl r; hl_oc := hl_oc r |}.
Definition set_hl (v : list hl_t) (r : erow) : erow :=
  {| idx := idx r; chars := chars r; render := render r; hl := v; hl_oc := hl_oc r |}.
Definition set_hl_oc (v : bool) (r : erow) : erow :=
  {| idx := idx r; chars := chars r; render := render r; hl := hl r; hl_oc := v |}.
Definition set_idx (v : Z) (r : erow) : erow :=
  {| idx := v; chars := chars r; render := render r; hl := hl r; hl_oc := hl_oc r |}.

(** ** Array access *)

(** [row_at f i] is [E.file[..]->row[i]] read as a value. *)
Definition row_at (f : fileState) (i : Z) : result erow :=
  if i <? 0 then Fault (RowIndexOutOfRange i)
  else match nth_error (row f) (Z.to_nat i) with
       | Some r => Done r
       | None => Fault (RowIndexOutOfRange i)
       end.

Fixpoint list_set {A : Type} (l : list A) (n : nat) (v : A) : list A :=
  match l, n with
  | [], _ => []
  | _ :: l', O => v :: l'
  | a :: l', S n' => a :: list_set l' n' v
  end.

(** [row_put f i r] stores [r] in slot [i] of the row array. *)
Definition row_put (f : fileState) (i : Z) (r : erow) : result fileState :=
  if (i <? 0) || (Z.of_nat (List.length (row f)) <=? i)
  then Fault (RowIndexOutOfRange i)
  else Done (set_row (list_set (row f) (Z.to_nat i) r) f).

(** The idiom [(filerow >= numrows) ? NULL : &row[filerow]]. *)
Definition row_ptr (f : fileState) (filerow : Z) : option Z :=
  if filerow >=? numrows f then None else Some filerow.

(** ** Row rendering ([editorUpdateRow], first half) *)

(** The loop [while ((idx + 1) % tab_size != 0) render[idx++] = ' ';]
    entered with index [i]; the result is the index at which it stops.
    C's [%] truncates, which is [Z.rem]. *)
Fixpoint tab_fill (fuel : nat) (ts i : Z) : result Z :=
  match fuel with
  | O => Fault OutOfFuel
  | S k => if Z.rem (i + 1) ts =? 0 then Done i else tab_fill k ts (i + 1)
  end.

(** The loop [for (j = 0; j < row->size; j++)] over the bytes still to be
    copied; [out] is [render[0..idx)]. *)
Fixpoint render_loop (ts : Z) (cs : list ascii) (out : list ascii)
  : result (list ascii) :=
  match cs with
  | [] => Done out
  | c :: cs' =>
      if Ascii.eqb c TAB then
        if ts =? 0 then Fault DivisionByZero
        else
          let i := Z.of_nat (List.length out) in
          i' <- tab_fill (S (Z.abs_nat ts)) ts (i + 1) ;;
          render_loop ts cs' (out ++ repeat SPACE (Z.to_nat (i' - i)))
      else render_loop ts cs' (out ++ [c])
  end.

Definition count_tabs (cs : list ascii) : Z :=
  Z.of_nat (List.length (filter (Ascii.eqb TAB) cs)).

(** The rendered bytes of a row whose content is [cs].  The buffer is
    [malloc(size + tabs * tab_size + 1)] bytes; the last write is the NUL at
    index [rsize], so the writes stay inside it iff [rsize] does. *)
Definition editorUpdateRow_render (ts : Z) (cs : list ascii)
  : result (list ascii) :=
  let alloc := Z.of_nat (List.length cs) + count_tabs cs * ts + 1 in
  out <- render_loop ts cs [] ;;
  if Z.of_nat (List.length out) <? alloc then Done out
  else Fault (RenderWriteOutOfRange alloc).

(** ** Syntax highlighting *)

(** The two source files differ in the highlighter in three places: [kilo.c]
    has no [':'] among the separators, tests [!isprint] before the numbers,
    and does not test the single-line delimiter for emptiness. *)
Inductive source_variant : Type := Kilo | Kilua.

Definition separators (v : source_variant) : list ascii :=
  match v with
  | Kilo => bytes "{},.()+-/*=~%[];<>|&"
  | Kilua => bytes ":{},.()+-/*=~%[];<>|&"
  end.

Definition is_separator (v : source_variant) (c : ascii) : bool :=
  Ascii.eqb c NUL || isspace c || strchr_in (separators v) c.

(** [render[i]] read through the pointer [p]: index [rsize] holds the NUL. *)
Definition render_byte (rnd : list ascii) (i : Z) : result ascii :=
  if (i <? 0) || (Z.of_nat (List.length rnd) <? i)
  then Fault (RenderReadOutOfRange i)
  else Done (nth (Z.to_nat i) rnd NUL).

Definition hl_get (h : list hl_t) (i : Z) : result hl_t :=
  if (i <? 0) || (Z.of_nat (List.length h) <=? i)
  then Fault (HlReadOutOfRange i)
  else Done (nth (Z.to_nat i) h HL_NORMAL).

Definition hl_put (h : list hl_t) (i : Z) (t : hl_t) : result (list hl_t) :=
  if (i <? 0) || (Z.of_nat (List.length h) <=? i)
  then Fault (HlWriteOutOfRange i)
  else Done (list_set h (Z.to_nat i) t).

(** [memset(row->hl + i, t, n)] and the [for (x = 0; x < n; x++)] paint
    loops: [n] writes at increasing indices. *)
Fixpoint hl_fill (h : list hl_t) (i : Z) (n : nat) (t : hl_t)
  : result (list hl_t) :=
  match n with
  | O => Done h
  | S n' => h' <- hl_put h i t ;; hl_fill h' (i + 1) n' t
  end.

(** [memcmp(p, kw, n) == 0], compared byte by byte up to the first
    difference; [s] is the rest of the rendered row, whose end is its NUL. *)
Fixpoint memcmp_eq (s kw : list ascii) (n : nat) : bool :=
  match n with
  | O => true
  | S n' =>
      if Ascii.eqb (hd NUL s) (hd NUL kw)
      then memcmp_eq (tl s) (tl kw) n'
      else false
  end.

(** The local variables of [editorUpdateSyntax] across its main loop. *)
Record tok : Type := {
  t_i : Z;              (* i, and p = row->render + i *)
  prev_sep : bool;
  in_string : ascii;    (* 0, or the opening quote *)
  in_comment : bool;
  t_hl : list hl_t      (* row->hl *)
}.

Inductive step_result : Type :=
| Continue (t : tok)        (* [continue], or the end of the loop body *)
| Break (t : tok)           (* the loop test failed: p points to NUL *)
| Return (h : list hl_t).   (* the [return] of the single-line comment *)

(** The [for (j = 0; keywords[j]; j++)] loop (the build without _REGEXP):
    the length and the kind of the first keyword that matches at [i]. *)
Fixpoint keyword_match (v : source_variant) (kws : list (list ascii))
    (rnd : list ascii) (i : Z) : result (option (nat * bool)) :=
  match kws with
  | [] => Done None
  | kw :: kws' =>
      match strlen kw with
      | O => Fault KeywordReadOutOfRange
      | S k =>
          let kw2 := Ascii.eqb (nth k kw NUL) "|"%char in
          let klen := if kw2 then k else S k in
          if memcmp_eq (skipn (Z.to_nat i) rnd) kw klen then
            nxt <- render_byte rnd (i + Z.of_nat klen) ;;
            if is_separator v nxt then Done (Some (klen, kw2))
            else keyword_match v kws' rnd i
          else keyword_match v kws' rnd i
      end
  end.

Definition has_flag (syn : editorSyntax) (fl : Z) : bool :=
  negb (Z.land (flags syn) fl =? 0).

Definition put_if (b : bool) (h : list hl_t) (i : Z) (t : hl_t)
  : result (list hl_t) :=
  if b then hl_put h i t else Done h.

(** The last part of the loop body: separators, keywords, "not special
    chars" (kilua.c lines 2117-2217, kilo.c lines 458-487). *)
Definition syntax_step_word (v : source_variant) (syn : editorSyntax)
    (rnd : list ascii) (t : tok) (c : ascii) : result step_result :=
  let i := t_i t in
  h1 <- put_if (is_separator v c) (t_hl t) i HL_KEYWORD1 ;;
  m <- (if prev_sep t then keyword_match v (keywords syn) rnd i
        else Done None) ;;
  match m with
  | Some (klen, kw2) =>
      h2 <- hl_fill h1 i klen (if kw2 then HL_KEYWORD2 else HL_KEYWORD1) ;;
      Done (Continue {| t_i := i + Z.of_nat klen; prev_sep := false;
                        in_string := in_string t; in_comment := in_comment t;
                        t_hl := h2 |})
  | None =>
      Done (Continue {| t_i := i + 1; prev_sep := is_separator v c;
                        in_string := in_string t; in_comment := in_comment t;
                        t_hl := h1 |})
  end.

(** The test of the number branch: the byte is a digit and ([prev_sep] or
    [hl[i-1] == HL_NUMBER]), or it is a dot with [i > 0] and
    [hl[i-1] == HL_NUMBER]; evaluated with C's short circuit. *)
Definition number_test (t : tok) (c : ascii) : result bool :=
  let prev_is_number :=
    x <- hl_get (t_hl t) (t_i t - 1) ;; Done (hl_eqb x HL_NUMBER) in
  a <- (if isdigit c then
          if prev_sep t then Done true else prev_is_number
        else Done false) ;;
  if a then Done true
  else if Ascii.eqb c "."%char && (t_i t >? 0) then prev_is_number
  else Done false.

(** One evaluation of the loop test (the byte under [p] is not NUL) followed
    by one loop body. *)
Definition syntax_step (v : source_variant) (syn : editorSyntax)
    (rnd : list ascii) (t : tok) : result step_result :=
  let i := t_i t in
  let h := t_hl t in
  c <- render_byte rnd i ;;
  if Ascii.eqb c NUL then Done (Break t) else
  let p := skipn (Z.to_nat i) rnd in
  let mcs := multiline_comment_start syn in
  let mce := multiline_comment_end syn in
  let scs := singleline_comment_start syn in
  let strings := has_flag syn HL_HIGHLIGHT_STRINGS in
  if in_comment t then
    h1 <- hl_put h i HL_MLCOMMENT ;;
    if strncmp_eq p mce (strlen mce) then
      h2 <- hl_fill h1 i (strlen mce) HL_MLCOMMENT ;;
      Done (Continue {| t_i := i + Z.of_nat (strlen mce); prev_sep := true;
                        in_string := in_string t; in_comment := false;
                        t_hl := h2 |})
    else
      Done (Continue {| t_i := i + 1; prev_sep := false;
                        in_string := in_string t; in_comment := true;
                        t_hl := h1 |})
  else if negb (Nat.eqb (strlen mcs) 0) && strncmp_eq p mcs (strlen mcs) then
    h1 <- hl_fill h i (strlen mcs) HL_MLCOMMENT ;;
    Done (Continue {| t_i := i + Z.of_nat (strlen mcs); prev_sep := false;
                      in_string := in_string t; in_comment := true;
                      t_hl := h1 |})
  else if prev_sep t
          && (match v with Kilo => true
                         | Kilua => negb (Nat.eqb (strlen scs) 0) end)
          && strncmp_eq p scs (strlen scs) then
    h1 <- hl_fill h i (Z.to_nat (Z.of_nat (List.length rnd) - i)) HL_COMMENT ;;
    Done (Return h1)
  else if negb (Ascii.eqb (in_string t) NUL) then
    h1 <- put_if strings h i HL_STRING ;;
    if Ascii.eqb c BACKSLASH then
      h2 <- put_if strings h1 (i + 1) HL_STRING ;;
      Done (Continue {| t_i := i + 2; prev_sep := false;
                        in_string := in_string t; in_comment := false;
                        t_hl := h2 |})
    else
      Done (Continue {| t_i := i + 1; prev_sep := prev_sep t;
                        in_string := if Ascii.eqb c (in_string t) then NUL
                                     else in_string t;
                        in_comment := false; t_hl := h1 |})
  else if Ascii.eqb c DQUOTE || Ascii.eqb c "'"%char then
    h1 <- put_if strings h i HL_STRING ;;
    Done (Continue {| t_i := i + 1; prev_sep := false; in_string := c;
                      in_comment := false; t_hl := h1 |})
  else if (match v with Kilo => negb (isprint c) | Kilua => false end) then
    h1 <- hl_put h i HL_NONPRINT ;;
    Done (Continue {| t_i := i + 1; prev_sep := false;
                      in_string := in_string t; in_comment := false;
                      t_hl := h1 |})
  else
    num <- number_test t c ;;
    if num then
      h1 <- put_if (has_flag syn HL_HIGHLIGHT_NUMBERS) h i HL_NUMBER ;;
      Done (Continue {| t_i := i + 1; prev_sep := false;
                        in_string := in_string t; in_comment := false;
                        t_hl := h1 |})
    else syntax_step_word v syn rnd t c.

Inductive loop_result : Type :=
| LoopEnd (t : tok)
| EarlyReturn (h : list hl_t).

(** The main loop of [editorUpdateSyntax]. *)
Fixpoint syntax_loop (fuel : nat) (v : source_variant) (syn : editorSyntax)
    (rnd : list ascii) (t : tok) : result loop_result :=
  match fuel with
  | O => Fault OutOfFuel
  | S k =>
      s <- syntax_step v syn rnd t ;;
      match s with
      | Continue t' => syntax_loop k v syn rnd t'
      | Break t' => Done (LoopEnd t')
      | Return h => Done (EarlyReturn h)
      end
  end.

(** Every loop body either advances [i] or clears a flag, so this many
    iterations are enough for a row of [n] rendered bytes. *)
Definition syntax_fuel (n : nat) : nat := 4 * n + 8.

(** The first loop: skip the leading white space, counting it in [i]. *)
Fixpoint skip_spaces (rnd : list ascii) : Z :=
  match rnd with
  | c :: rnd' =>
      if negb (Ascii.eqb c NUL) && isspace c then 1 + skip_spaces rnd' else 0
  | [] => 0
  end.

Definition get_syntax (f : fileState) : result editorSyntax :=
  match syntax f with
  | Some s => Done s
  | None => Fault NullSyntax
  end.

(** [editorRowHasOpenComment]; [fuel] bounds the chain of empty rows, which
    follows the [idx] fields downwards. *)
Fixpoint editorRowHasOpenComment (fuel : nat) (f : fileState) (r : erow)
  : result bool :=
  match fuel with
  | O => Fault OutOfFuel
  | S k =>
      if rsize r =? 0 then
        if idx r >? 0 then
          prev <- row_at f (idx r - 1) ;;
          editorRowHasOpenComment k f prev
        else Done false
      else
        last <- (match hl r with
                 | [] => Done HL_MLCOMMENT    (* row->hl is NULL: no test *)
                 | _ => hl_get (hl r) (rsize r - 1)
                 end) ;;
        if negb (hl_eqb last HL_MLCOMMENT) then Done false
        else
          syn <- get_syntax f ;;
          let mce := multiline_comment_end syn in
          let len := Z.of_nat (strlen mce) in
          if len =? 0 then Done true
          else if rsize r <? len then Fault (RenderReadOutOfRange (rsize r - len))
          else if strncmp_eq (skipn (Z.to_nat (rsize r - len)) (render r))
                             mce (strlen mce)
               then Done false
               else Done true
  end.

Definition row_fuel (f : fileState) : nat := S (List.length (row f)).

(** [editorUpdateSyntax(row)] for the row in slot [ri]; [fuel] bounds the
    propagation to the following rows.  kilua.c lines 1976-2229. *)
Fixpoint editorUpdateSyntax (fuel : nat) (f : fileState) (ri : Z)
  : result fileState :=
  match fuel with
  | O => Fault OutOfFuel
  | S k =>
      r <- row_at f ri ;;
      let r0 := set_hl (repeat HL_NORMAL (List.length (render r))) r in
      f0 <- row_put f ri r0 ;;
      match syntax f with
      | None => Done f0
      | Some syn =>
          inc <- (if idx r >? 0 then
                    prev <- row_at f0 (idx r - 1) ;;
                    editorRowHasOpenComment (row_fuel f0) f0 prev
                  else Done false) ;;
          out <- syntax_loop (syntax_fuel (List.length (render r))) Kilua syn
                   (render r)
                   {| t_i := skip_spaces (render r); prev_sep := true;
                      in_string := NUL; in_comment := inc; t_hl := hl r0 |} ;;
          match out with
          | EarlyReturn h => row_put f0 ri (set_hl h r0)
          | LoopEnd t =>
              let r1 := set_hl (t_hl t) r0 in
              f1 <- row_put f0 ri r1 ;;
              oc <- editorRowHasOpenComment (row_fuel f1) f1 r1 ;;
              f2 <- (if negb (Bool.eqb (hl_oc r1) oc)
                        && (idx r1 + 1 <? numrows f1)
                     then editorUpdateSyntax k f1 (idx r1 + 1)
                     else Done f1) ;;
              r2 <- row_at f2 ri ;;
              row_put f2 ri (set_hl_oc oc r2)
          end
      end
  end.

(** [editorUpdateRow(row)] for the row in slot [ri].  kilua.c lines
    2323-2358; kilo.c lines 554-578 are the same with [tab_size] fixed to 8. *)
Definition editorUpdateRow (f : fileState) (ri : Z) : result fileState :=
  r <- row_at f ri ;;
  rnd <- editorUpdateRow_render (tab_size f) (chars r) ;;
  f1 <- row_put f ri (set_render rnd r) ;;
  editorUpdateSyntax (row_fuel f1) f1 ri.

(** ** Row operations *)

Definition incr_idx (d : Z) (r : erow) : erow := set_idx (idx r + d) r.

(** [editorInsertRow(at, s, len)].  The new row is rendered and highlighted
    while [numrows] still holds the old count. *)
Definition editorInsertRow (f : fileState) (at_ : Z) (s : list ascii)
  : result fileState :=
  if at_ >? numrows f then Done f
  else if at_ <? 0 then Fault (RowIndexOutOfRange at_)
  else
    let n := Z.to_nat at_ in
    let fresh := {| idx := at_; chars := s; render := []; hl := [];
                    hl_oc := false |} in
    let rows := firstn n (row f) ++ fresh :: map (incr_idx 1) (skipn n (row f)) in
    f1 <- editorUpdateRow (set_row rows f) at_ ;;
    Done (set_dirty (dirty f1 + 1) (set_numrows (numrows f1 + 1) f1)).

(** [editorDelRow(at)]. *)
Definition editorDelRow (f : fileState) (at_ : Z) : result fileState :=
  if at_ >=? numrows f then Done f
  else if at_ <? 0 then Fault (RowIndexOutOfRange at_)
  else
    let n := Z.to_nat at_ in
    let rows := firstn n (row f) ++ map (incr_idx (-1)) (skipn (S n) (row f)) in
    Done (set_dirty (dirty f + 1) (set_numrows (numrows f - 1) (set_row rows f))).

(** [editorRowsToString(&buflen)]: the heap buffer (with its final NUL) and
    the length stored in [*buflen].  kilua.c lines 2426-2451, kilo.c lines
    628-648. *)
Fixpoint rows_total (f : fileState) (n : nat) (j : Z) : result Z :=
  match n with
  | O => Done 0
  | S n' => r <- row_at f j ;; t <- rows_total f n' (j + 1) ;; Done (size r + 1 + t)
  end.

Fixpoint rows_copy (f : fileState) (n : nat) (j : Z) : result (list ascii) :=
  match n with
  | O => Done []
  | S n' =>
      r <- row_at f j ;; rest <- rows_copy f n' (j + 1) ;;
      Done (chars r ++ NEWLINE :: rest)
  end.

Definition editorRowsToString (f : fileState) : result (list ascii * Z) :=
  totlen <- rows_total f (Z.to_nat (numrows f)) 0 ;;
  body <- rows_copy f (Z.to_nat (numrows f)) 0 ;;
  Done (body ++ [NUL], totlen).

(** [editorRowInsertChar(row, at, c)]. *)
Definition editorRowInsertChar (f : fileState) (ri : Z) (at_ : Z) (c : ascii)
  : result fileState :=
  r <- row_at f ri ;;
  cs <- (if at_ >? size r then
           Done (chars r ++ repeat SPACE (Z.to_nat (at_ - size r)) ++ [c])
         else if at_ <? 0 then Fault (CharsIndexOutOfRange at_)
         else Done (firstn (Z.to_nat at_) (chars r) ++ c
                      :: skipn (Z.to_nat at_) (chars r))) ;;
  f1 <- row_put f ri (set_chars cs r) ;;
  f2 <- editorUpdateRow f1 ri ;;
  Done (set_dirty (dirty f2 + 1) f2).

(** [editorRowAppendString(row, s, len)]. *)
Definition editorRowAppendString (f : fileState) (ri : Z) (s : list ascii)
  : result fileState :=
  r <- row_at f ri ;;
  f1 <- row_put f ri (set_chars (chars r ++ s) r) ;;
  f2 <- editorUpdateRow f1 ri ;;
  Done (set_dirty (dirty f2 + 1) f2).

(** [editorRowDelChar(row, at)].  The row is rendered after the [memmove]
    and before [row->size--]: at that point the [size] bytes of [chars] end
    with the NUL that the move has shifted in. *)
Definition editorRowDelChar (f : fileState) (ri : Z) (at_ : Z)
  : result fileState :=
  r <- row_at f ri ;;
  if size r <=? at_ then Done f
  else if at_ <? 0 then Done f
  else
    let moved := firstn (Z.to_nat at_) (chars r)
                 ++ skipn (S (Z.to_nat at_)) (chars r) in
    f1 <- row_put f ri (set_chars (moved ++ [NUL]) r) ;;
    f2 <- editorUpdateRow f1 ri ;;
    r2 <- row_at f2 ri ;;
    f3 <- row_put f2 ri (set_chars moved r2) ;;
    Done (set_dirty (dirty f3 + 1) f3).

(** ** Cursor motion, selection and editing of the current buffer

    The functions of this section act on [E.file[E.current_file]]; the
    screen geometry [E.screenrows], [E.screencols] is shared by all buffers. *)

Inductive KEY_ACTION : Type := ARROW_LEFT | ARROW_RIGHT | ARROW_UP | ARROW_DOWN.

Section CurrentBuffer.

Variables screenrows screencols : Z.

(** [editorMoveCursor(key)].  kilua.c lines 3001-3118. *)
Definition editorMoveCursor (key : KEY_ACTION) (f : fileState)
  : result fileState :=
  let filerow := rowoff f + cy f in
  let filecol := coloff f + cx f in
  f1 <- (match key with
         | ARROW_LEFT =>
             if cx f =? 0 then
               if negb (coloff f =? 0) then Done (set_coloff (coloff f - 1) f)
               else if filerow >? 0 then
                 prev <- row_at f (filerow - 1) ;;
                 let f' := set_cx (size prev) (set_cy (cy f - 1) f) in
                 if cx f' >? screencols - 1 then
                   Done (set_cx (screencols - 1)
                           (set_coloff (cx f' - screencols + 1) f'))
                 else Done f'
               else Done f
             else Done (set_cx (cx f - 1) f)
         | ARROW_RIGHT =>
             match row_ptr f filerow with
             | Some ri =>
                 r <- row_at f ri ;;
                 if filecol <? size r then
                   if cx f =? screencols - 1
                   then Done (set_coloff (coloff f + 1) f)
                   else Done (set_cx (cx f + 1) f)
                 else if filecol =? size r then
                   if cy f =? screenrows - 1 then
                     Done (set_rowoff (rowoff f + 1) (set_coloff 0 (set_cx 0 f)))
                   else if filerow <? numrows f - 1 then
                     Done (set_cy (cy f + 1) (set_coloff 0 (set_cx 0 f)))
                   else Done f
                 else Done f
             | None => Done f
             end
         | ARROW_UP =>
             if cy f =? 0 then
               if negb (rowoff f =? 0) then Done (set_rowoff (rowoff f - 1) f)
               else Done f
             else Done (set_cy (cy f - 1) f)
         | ARROW_DOWN =>
             if filerow <? numrows f - 1 then
               if cy f =? screenrows - 1
               then Done (set_rowoff (rowoff f + 1) f)
               else Done (set_cy (cy f + 1) f)
             else Done f
         end) ;;
  (* Fix cx if the current line has not enough chars. *)
  let filerow := rowoff f1 + cy f1 in
  let filecol := coloff f1 + cx f1 in
  rowlen <- (match row_ptr f1 filerow with
             | Some ri => r <- row_at f1 ri ;; Done (size r)
             | None => Done 0
             end) ;;
  if filecol >? rowlen then
    let f2 := set_cx (cx f1 - (filecol - rowlen)) f1 in
    if cx f2 <? 0 then Done (set_cx 0 (set_coloff (coloff f2 + cx f2) f2))
    else Done f2
  else Done f1.

(** [at()]: the byte under the cursor.  kilua.c lines 299-313. *)
Definition at_ (f : fileState) : result ascii :=
  let filerow := rowoff f + cy f in
  match row_ptr f filerow with
  | None => Done NEWLINE
  | Some ri =>
      r <- row_at f ri ;;
      if cx f <? rsize r then
        if cx f <? 0 then Fault (RenderReadOutOfRange (cx f))
        else Done (nth (Z.to_nat (cx f)) (render r) NUL)
      else Done NEWLINE
  end.

Fixpoint move_times (n : nat) (key : KEY_ACTION) (f : fileState)
  : result fileState :=
  match n with
  | O => Done f
  | S n' => f1 <- editorMoveCursor key f ;; move_times n' key f1
  end.

(** [warp(x, y)]. *)
Definition warp (x y : Z) (f : fileState) : result fileState :=
  let y := if y <? 0 then 0 else y in
  let x := if x <? 0 then 0 else x in
  let f0 := set_rowoff 0 (set_cy 0 (set_coloff 0 (set_cx 0 f))) in
  if (x =? 0) && (y =? 0) then Done f0
  else
    f1 <- move_times (Z.to_nat y) ARROW_DOWN f0 ;;
    move_times (Z.to_nat x) ARROW_RIGHT f1.

(** [strrev(p)]: reverses the bytes before the first NUL. *)
Definition strrev (p : list ascii) : list ascii :=
  rev (firstn (strlen p) p) ++ skipn (strlen p) p.

Definition at_mark (f : fileState) : bool :=
  (coloff f + cx f =? markx f) && (rowoff f + cy f =? marky f).

(** The loops [while (1) { at(); abAppend; editorMoveCursor(key); if (cursor
    is at the mark) break; }] of [get_selection].  The C loop has no bound;
    [fuel] is the number of iterations the model follows. *)
Fixpoint selection_walk (fuel : nat) (key : KEY_ACTION) (f : fileState)
    (ab : list ascii) : result (list ascii * fileState) :=
  match fuel with
  | O => Fault OutOfFuel
  | S k =>
      c <- at_ f ;;
      f1 <- editorMoveCursor key f ;;
      if at_mark f1 then Done (ab ++ [c], f1)
      else selection_walk k key f1 (ab ++ [c])
  end.

(** No walk that reaches the mark is longer than the number of cursor
    positions of the buffer. *)
Definition selection_fuel (f : fileState) : nat :=
  fold_right (fun r n => (S (List.length (chars r)) + n)%nat) 2%nat (row f).

Definition cursor_after_mark (f : fileState) : bool :=
  let x := coloff f + cx f in
  let y := rowoff f + cy f in
  (y >? marky f) || ((x >? markx f) && (y =? marky f)).

(** [get_selection()]: the bytes of the heap buffer before its final NUL,
    and the state with the cursor restored.  kilua.c lines 355-457. *)
Definition get_selection (f : fileState) : result (list ascii * fileState) :=
  let restore (g : fileState) :=
    set_rowoff (rowoff f) (set_coloff (coloff f) (set_cy (cy f) (set_cx (cx f) g))) in
  if cursor_after_mark f then
    '(ab, f1) <- selection_walk (selection_fuel f) ARROW_LEFT f [] ;;
    c <- at_ f1 ;;
    Done (strrev (ab ++ [c]), restore f1)
  else
    '(ab, f1) <- selection_walk (selection_fuel f) ARROW_RIGHT f [] ;;
    c <- at_ f1 ;;
    Done (ab ++ [c], restore f1).

(** The C string held by a buffer: what [lua_pushstring] and [strlen] see. *)
Definition c_string (p : list ascii) : list ascii := firstn (strlen p) p.

(** [selection_lua]: [None] is Lua's nil. *)
Definition selection_lua (f : fileState)
  : result (option (list ascii) * fileState) :=
  let x := coloff f + cx f in
  let y := rowoff f + cy f in
  if (markx f =? -1) && (marky f =? -1) then Done (None, f)
  else if (markx f =? x) && (marky f =? y) then Done (None, f)
  else
    '(t, f1) <- get_selection f ;;
    Done (Some (c_string t), f1).

(** [delete_lua].  kilua.c lines 798-865 (the build without _UNDO). *)
Definition delete_lua (f : fileState) : result fileState :=
  let filerow := rowoff f + cy f in
  let filecol := coloff f + cx f in
  match row_ptr f filerow with
  | None => Done f
  | Some ri =>
      if (filecol =? 0) && (filerow =? 0) then Done f
      else
        '(f1, row) <-
          (if filecol =? 0 then
             prev <- row_at f (filerow - 1) ;;
             r <- row_at f ri ;;
             let filecol := size prev in
             f1 <- editorRowAppendString f (filerow - 1) (chars r) ;;
             f2 <- editorDelRow f1 filerow ;;
             let f3 := if cy f2 =? 0 then set_rowoff (rowoff f2 - 1) f2
                       else set_cy (cy f2 - 1) f2 in
             let f4 := set_cx filecol f3 in
             let f5 := if cx f4 >=? screencols then
                         let shift := (screencols - cx f4) + 1 in
                         set_coloff (coloff f4 + shift) (set_cx (cx f4 - shift) f4)
                       else f4 in
             Done (f5, None)
           else
             f1 <- editorRowDelChar f ri (filecol - 1) ;;
             let f2 := if (cx f1 =? 0) && negb (coloff f1 =? 0)
                       then set_coloff (coloff f1 - 1) f1
                       else set_cx (cx f1 - 1) f1 in
             Done (f2, Some ri)) ;;
        let f2 := if coloff f1 <? 0 then set_coloff 0 f1 else f1 in
        let f3 := if rowoff f2 <? 0 then set_rowoff 0 f2 else f2 in
        f4 <- (match row with
               | Some ri => editorUpdateRow f3 ri
               | None => Done f3
               end) ;;
        Done (set_dirty (dirty f4 + 1) f4)
  end.

Fixpoint cut_right (n : nat) (f : fileState) : result fileState :=
  match n with
  | O => Done f
  | S n' =>
      f1 <- editorMoveCursor ARROW_RIGHT f ;;
      f2 <- delete_lua f1 ;;
      cut_right n' f2
  end.

Fixpoint cut_left (n : nat) (f : fileState) : result fileState :=
  match n with
  | O => Done f
  | S n' => f1 <- delete_lua f ;; cut_left n' f1
  end.

(** [cut_selection_lua].  kilua.c lines 716-763. *)
Definition cut_selection_lua (f : fileState) : result fileState :=
  let x := coloff f + cx f in
  let y := rowoff f + cy f in
  if (markx f =? -1) && (marky f =? -1) then Done f
  else if (markx f =? x) && (marky f =? y) then Done f
  else
    let left := cursor_after_mark f in
    '(sel, f1) <- get_selection f ;;
    let max := strlen sel in
    f2 <- (if negb left then cut_right max f1
           else f' <- editorMoveCursor ARROW_RIGHT f1 ;; cut_left max f') ;;
    Done (set_mark (-1) (-1) f2).

(** [mark_lua]: [args] are the two numbers on the Lua stack, if any.
    kilua.c lines 939-959. *)
Definition mark_lua (args : option (Z * Z)) (f : fileState)
  : fileState * (Z * Z) :=
  let f1 := match args with
            | Some (x, y) =>
                let y := lua_to_int y in
                let x := lua_to_int x in
                if ((x >=? 0) || (x =? -1)) && ((y >=? 0) || (y =? -1))
                then set_mark x y f else f
            | None => f
            end in
  (f1, (markx f1, marky f1)).

(** [point_lua]: the setter takes 1-based coordinates.  kilua.c lines
    962-976. *)
Definition point_lua (args : option (Z * Z)) (f : fileState)
  : result (fileState * (Z * Z)) :=
  f1 <- (match args with
         | Some (x, y) =>
             let y := lua_to_int (y - 1) in
             let x := lua_to_int (x - 1) in
             warp x y f
         | None => Done f
         end) ;;
  Done (f1, (cx f1 + coloff f1, cy f1 + rowoff f1)).

(** [editorInsertNewline].  kilua.c lines 2556-2604. *)
Definition editorInsertNewline (f : fileState) : result fileState :=
  let filerow := rowoff f + cy f in
  let filecol := coloff f + cx f in
  let fixcursor (g : fileState) :=
    let g1 := if cy g =? screenrows - 1 then set_rowoff (rowoff g + 1) g
              else set_cy (cy g + 1) g in
    set_coloff 0 (set_cx 0 g1) in
  match row_ptr f filerow with
  | None =>
      if filerow =? numrows f then
        f1 <- editorInsertRow f filerow [] ;;
        Done (fixcursor f1)
      else Done f
  | Some ri =>
      r <- row_at f ri ;;
      let filecol := if filecol >=? size r then size r else filecol in
      if filecol =? 0 then
        f1 <- editorInsertRow f filerow [] ;;
        Done (fixcursor f1)
      else
        if filecol <? 0 then Fault (CharsIndexOutOfRange filecol) else
        f1 <- editorInsertRow f (filerow + 1)
                (skipn (Z.to_nat filecol) (chars r)) ;;
        r1 <- row_at f1 filerow ;;
        f2 <- row_put f1 filerow
                (set_chars (firstn (Z.to_nat filecol) (chars r1)) r1) ;;
        f3 <- editorUpdateRow f2 filerow ;;
        Done (fixcursor f3)
  end.

Fixpoint fill_rows (n : nat) (filerow : Z) (f : fileState) : result fileState :=
  match n with
  | O => Done f
  | S n' =>
      if numrows f <=? filerow then
        f1 <- editorInsertRow f (numrows f) [] ;; fill_rows n' filerow f1
      else Done f
  end.

(** [editorInsertChar(c)].  kilua.c lines 2523-2552. *)
Definition editorInsertChar (c : ascii) (f : fileState) : result fileState :=
  if Ascii.eqb c NEWLINE then editorInsertNewline f
  else
    let filerow := rowoff f + cy f in
    let filecol := coloff f + cx f in
    f1 <- (match row_ptr f filerow with
           | None => fill_rows (Z.to_nat (filerow - numrows f + 1)) filerow f
           | Some _ => Done f
           end) ;;
    f2 <- editorRowInsertChar f1 filerow filecol c ;;
    let f3 := if cx f2 =? screencols - 1 then set_coloff (coloff f2 + 1) f2
              else set_cx (cx f2 + 1) f2 in
    Done (set_dirty (dirty f3 + 1) f3).

(** The loop [for (i = 0; i < strlen(str); i++) editorInsertChar(str[i]);]
    of [insert_lua] and of [editorSetStatusMessage]. *)
Fixpoint insert_chars (str : list ascii) (f : fileState) : result fileState :=
  match str with
  | [] => Done f
  | c :: str' => f1 <- editorInsertChar c f ;; insert_chars str' f1
  end.

(** [insert_lua] (the build without _UNDO); [None] is a missing argument. *)
Definition insert_lua (str : option (list ascii)) (f : fileState)
  : result fileState :=
  match str with
  | Some s => insert_chars (c_string s) f
  | None => Done f
  end.

(** The loop [for (i = 0; i < numrows; i++) editorUpdateRow(row + i);] that
    the setters below use to force a re-render. *)
Fixpoint rerender_rows (n : nat) (i : Z) (f : fileState) : result fileState :=
  match n with
  | O => Done f
  | S n' => f1 <- editorUpdateRow f i ;; rerender_rows n' (i + 1) f1
  end.

Definition rerender_all (f : fileState) : result fileState :=
  rerender_rows (Z.to_nat (numrows f)) 0 f.

(** [set_syntax_keywords_lua]; [kws] is the Lua table, [None] when the
    argument is not a table.  kilua.c lines 1484-1523. *)
Definition set_syntax_keywords_lua (kws : option (list (list ascii)))
    (f : fileState) : result fileState :=
  match kws with
  | None => Done f
  | Some kws =>
      let s := match syntax f with
               | Some s => s
               | None =>
                   {| keywords := []; singleline_comment_start := [];
                      multiline_comment_start := [];
                      multiline_comment_end := [];
                      flags := Z.lor HL_HIGHLIGHT_STRINGS HL_HIGHLIGHT_NUMBERS |}
               end in
      let s' := {| keywords := map c_string kws;
                   singleline_comment_start := singleline_comment_start s;
                   multiline_comment_start := multiline_comment_start s;
                   multiline_comment_end := multiline_comment_end s;
                   flags := flags s |} in
      rerender_all (set_syntax (Some s') f)
  end.

(** [strcpy(field, s)] into one of the [char[5]] fields of
    [struct editorSyntax]: the bytes of [s] and the NUL fit iff [s] has at
    most four bytes; a longer one is written over the field that follows. *)
Definition strcpy_delimiter (s : list ascii) : result (list ascii) :=
  if 5 <=? Z.of_nat (strlen s)
  then Fault (DelimiterWriteOutOfRange (Z.of_nat (strlen s)))
  else Done (c_string s).

(** [set_syntax_comments_lua]; a [None] argument is a missing string.
    kilua.c lines 1453-1481. *)
Definition set_syntax_comments_lua (single multi_open multi_end : option (list ascii))
    (f : fileState) : result fileState :=
  match single, multi_open, multi_end with
  | Some single, Some multi_open, Some multi_end =>
      match syntax f with
      | None => Done f
      | Some s =>
          scs <- strcpy_delimiter single ;;
          mcs <- strcpy_delimiter multi_open ;;
          mce <- strcpy_delimiter multi_end ;;
          let s' := {| keywords := keywords s;
                       singleline_comment_start := scs;
                       multiline_comment_start := mcs;
                       multiline_comment_end := mce;
                       flags := flags s |} in
          rerender_all (set_syntax (Some s') f)
      end
  | _, _, _ => Done f
  end.


End CurrentBuffer.

(** ** The editor: the list of buffers, the status line, the script runtime *)

Record editorConfig : Type := {
  file : list fileState;
  current_file : Z;
  max_files : Z;
  screenrows : Z;
  screencols : Z;
  statusmsg : list ascii
}.

Definition set_file (v : list fileState) (E : editorConfig) : editorConfig :=
  {| file := v; current_file := current_file E; max_files := max_files E;
     screenrows := screenrows E; screencols := screencols E;
     statusmsg := statusmsg E |}.
Definition set_statusmsg (v : list ascii) (E : editorConfig) : editorConfig :=
  {| file := file E; current_file := current_file E; max_files := max_files E;
     screenrows := screenrows E; screencols := screencols E; statusmsg := v |}.

Definition file_at (E : editorConfig) (i : Z) : result fileState :=
  if i <? 0 then Fault (FileIndexOutOfRange i)
  else match nth_error (file E) (Z.to_nat i) with
       | Some f => Done f
       | None => Fault (FileIndexOutOfRange i)
       end.

Definition file_put (E : editorConfig) (i : Z) (f : fileState)
  : result editorConfig :=
  if (i <? 0) || (Z.of_nat (List.length (file E)) <=? i)
  then Fault (FileIndexOutOfRange i)
  else Done (set_file (list_set (file E) (Z.to_nat i) f) E).

(** Run an operation of the previous section on [E.file[i]]. *)
Definition on_file (i : Z) (op : Z -> Z -> fileState -> result fileState)
    (E : editorConfig) : result editorConfig :=
  f <- file_at E i ;;
  f' <- op (screenrows E) (screencols E) f ;;
  file_put E i f'.

Definition on_current (op : Z -> Z -> fileState -> result fileState)
    (E : editorConfig) : result editorConfig :=
  on_file (current_file E) op E.

(** A global function of the script, as [lua_pcall] sees it: it receives its
    string argument ([None] is nil) and the editor, and leaves the editor it
    has driven through the primitives, with an error message if it failed. *)
Definition lua_function : Type :=
  option (list ascii) -> editorConfig
  -> result (editorConfig * option (list ascii)).

Record lua_State : Type := {
  lua_getglobal : string -> option lua_function
}.

Fixpoint list_ascii_eqb (a b : list ascii) : bool :=
  match a, b with
  | [], [] => true
  | x :: a', y :: b' => Ascii.eqb x y && list_ascii_eqb a' b'
  | _, _ => false
  end.

Definition decimal (n : Z) : list ascii :=
  bytes (NilZero.string_of_int (Z.to_int n)).

Section Editor.

(** [sizeof(E.statusmsg)], declared in kilua.h (80 in kilo.c). *)
Variable STATUSMSG_SIZE : nat.

(** The script runtime behind the global [lua]. *)
Variable lua : lua_State.

(** The first [i < E.max_files] whose buffer is named "*Messages*". *)
Fixpoint find_messages (n : nat) (i : Z) (E : editorConfig) : result (option Z) :=
  match n with
  | O => Done None
  | S n' =>
      tmp <- file_at E i ;;
      match filename tmp with
      | Some name =>
          if list_ascii_eqb (c_string name) (bytes "*Messages*")
          then Done (Some i) else find_messages n' (i + 1) E
      | None => find_messages n' (i + 1) E
      end
  end.

(** [editorSetStatusMessage(log, fmt, ...)]; [msg] is the text that
    [vsnprintf] formats.  kilua.c lines 2956-2995. *)
Definition editorSetStatusMessage (log : bool) (msg : list ascii)
    (E : editorConfig) : result editorConfig :=
  let E1 := set_statusmsg (firstn (pred STATUSMSG_SIZE) (c_string msg)) E in
  if log then
    m <- find_messages (Z.to_nat (max_files E1)) 0 E1 ;;
    match m with
    | Some i =>
        on_file i (fun sr sc f =>
                     f1 <- insert_chars sr sc (statusmsg E1) f ;;
                     editorInsertChar sr sc NEWLINE f1) E1
    | None => Done E1
    end
  else Done E1.

(** [call_lua(function, arg)].  kilua.c lines 266-282. *)
Definition call_lua (function : string) (arg : option (list ascii))
    (E : editorConfig) : result editorConfig :=
  match lua_getglobal lua function with
  | None =>
      editorSetStatusMessage true
        (bytes "Failed to find function " ++ bytes function) E
  | Some fn =>
      '(E1, err) <- fn arg E ;;
      match err with
      | Some e =>
          editorSetStatusMessage true
            (bytes function ++ bytes " failed " ++ c_string e) E1
      | None => Done E1
      end
  end.

(** What [fopen(filename, "r")] and the [getline] loop deliver. *)
Inductive fopen_result : Type :=
| FopenENOENT
| FopenError                                (* any other errno *)
| FopenLines (lines : list (list ascii)).   (* each with its terminator *)

Definition strip_eol (line : list ascii) : list ascii :=
  match rev line with
  | c :: _ =>
      if Ascii.eqb c NEWLINE || Ascii.eqb c "013"%char
      then removelast line else line
  | [] => line
  end.

Fixpoint load_lines (lines : list (list ascii)) (f : fileState)
  : result fileState :=
  match lines with
  | [] => Done f
  | l :: ls => f1 <- editorInsertRow f (numrows f) (strip_eol l) ;; load_lines ls f1
  end.

(** [editorOpen(filename)] (the build without _UNDO); the second component
    is the value returned.  kilua.c lines 483-567. *)
Definition editorOpen (name : option (list ascii)) (fo : fopen_result)
    (E : editorConfig) : result (editorConfig * Z) :=
  f <- file_at E (current_file E) ;;
  let f0 := if numrows f =? 0 then f else set_row [] f in
  let f1 := set_numrows 0 (set_mark (-1) (-1) (set_coloff 0 (set_rowoff 0
              (set_cy 0 (set_cx 0 (set_dirty 0 f0)))))) in
  let f2 := set_filename name f1 in
  E2 <- file_put E (current_file E) f2 ;;
  match name with
  | Some _ =>
      match fo with
      | FopenError => Fault (ProcessExit 1)
      | FopenENOENT =>
          E3 <- call_lua "on_loaded" (filename f2) E2 ;;
          Done (E3, 1)
      | FopenLines lines =>
          f3 <- load_lines lines f2 ;;
          E3 <- file_put E2 (current_file E2) (set_dirty 0 f3) ;;
          E4 <- call_lua "on_loaded" (filename f2) E3 ;;
          Done (E4, 0)
      end
  | None =>
      E3 <- file_put E2 (current_file E2) (set_dirty 0 f2) ;;
      E4 <- call_lua "on_loaded" (filename f2) E3 ;;
      Done (E4, 0)
  end.

(** What [open], [ftruncate] and [write] deliver in [save_lua]. *)
Inductive save_io : Type :=
| SaveOk
| SaveFails (strerror : list ascii).   (* one of the three calls failed *)

Record save_result : Type := {
  sr_editor : editorConfig;
  sr_return : Z;
  sr_written : option (list ascii * list ascii)   (* file name, new content *)
}.

(** [save_lua] (the build without _UNDO).  kilua.c lines 1199-1257. *)
Definition save_lua (path : option (list ascii)) (io : save_io)
    (E : editorConfig) : result save_result :=
  f <- file_at E (current_file E) ;;
  let f1 := match path with
            | Some p => set_filename (Some (c_string p)) f
            | None => f
            end in
  E1 <- file_put E (current_file E) f1 ;;
  match filename f1 with
  | None =>
      E2 <- editorSetStatusMessage true (bytes "No filename is set!") E1 ;;
      Done {| sr_editor := E2; sr_return := 0; sr_written := None |}
  | Some name =>
      '(buf, len) <- editorRowsToString f1 ;;
      match io with
      | SaveFails msg =>
          E2 <- editorSetStatusMessage true
                  (bytes "Can't save! I/O error: " ++ msg) E1 ;;
          Done {| sr_editor := E2; sr_return := 1; sr_written := None |}
      | SaveOk =>
          E2 <- file_put E1 (current_file E1) (set_dirty 0 f1) ;;
          E3 <- editorSetStatusMessage true
                  (decimal len ++ bytes " bytes written to " ++ name) E2 ;;
          f3 <- file_at E3 (current_file E3) ;;
          E4 <- call_lua "on_saved" (filename f3) E3 ;;
          Done {| sr_editor := E4; sr_return := 0;
                  sr_written := Some (name, firstn (Z.to_nat len) buf) |}
      end
  end.

(** The inner loop of [search_lua] on one row (the build without _REGEXP):
    the first column [x' >= x] below [rsize] at which [term] matches. *)
Fixpoint search_row (fuel : nat) (rnd term : list ascii) (x : Z) : result (option Z) :=
  match fuel with
  | O => Done None
  | S k =>
      if x <? Z.of_nat (List.length rnd) then
        if x <? 0 then Fault (RenderReadOutOfRange x)
        else if strncmp_eq (skipn (Z.to_nat x) rnd) term (strlen term)
             then Done (Some x)
             else search_row k rnd term (x + 1)
      else Done None
  end.

(** The outer loop of [search_lua]: [n] rows are still to be scanned, the
    next one is [current]. *)
Fixpoint search_rows (n : nat) (sc : Z) (term : list ascii) (current : Z)
    (f : fileState) : result (fileState * option Z) :=
  match n with
  | O => Done (f, None)
  | S n' =>
      r <- row_at f current ;;
      m <- search_row (S (List.length (render r))) (render r) term
             (cx f + coloff f) ;;
      match m with
      | Some x =>
          let f1 := set_rowoff current (set_cy 0 (set_coloff 0 (set_cx x f))) in
          let f2 := if cx f1 >? sc then
                      let diff := Z.abs (cx f1 - sc) in
                      set_coloff (coloff f1 + diff) (set_cx (cx f1 - diff) f1)
                    else f1 in
          Done (f2, Some (Z.of_nat (strlen term)))
      | None =>
          let current := current + 1 in
          let current := if current =? numrows f then 0 else current in
          search_rows n' sc term current (set_coloff 0 (set_cx 0 f))
      end
  end.

(** [search_lua] (the build without _REGEXP); the second component is the
    number pushed on the Lua stack, if any.  kilua.c lines 1261-1396. *)
Definition search_lua (term : option (list ascii)) (E : editorConfig)
    : result (editorConfig * option Z) :=
  match term with
  | None =>
      E1 <- editorSetStatusMessage true (bytes "No search term given!") E ;;
      Done (E1, None)
  | Some term =>
      f <- file_at E (current_file E) ;;
      f1 <- editorMoveCursor (screenrows E) (screencols E) ARROW_RIGHT f ;;
      let current := cy f1 + rowoff f1 in
      '(f2, m) <- search_rows (Z.to_nat (numrows f1)) (screencols E) term
                    current f1 ;;
      E2 <- file_put E (current_file E) f2 ;;
      match m with
      | Some len => Done (E2, Some len)
      | None =>
          E3 <- editorSetStatusMessage true (bytes "No match found") E2 ;;
          f3 <- file_at E3 (current_file E3) ;;
          E4 <- file_put E3 (current_file E3)
                  (set_rowoff (rowoff f) (set_coloff (coloff f)
                     (set_cy (cy f) (set_cx (cx f) f3)))) ;;
          Done (E4, Some 0)
      end
  end.

(** [create_buffer_lua]: the state of a new buffer.  kilua.c lines
    1704-1749. *)
Definition new_buffer (name : option (list ascii)) : fileState :=
  {| cx := 0; cy := 0; markx := -1; marky := -1; rowoff := 0; coloff := 0;
     numrows := 0; row := []; dirty := 0; filename := name; syntax := None;
     tab_size := 8 |}.

End Editor.

(** * The rest of the script interface

    The primitives that the Lua configuration calls and that the sections
    above have not needed yet: the accessors, the motions built on
    [editorMoveCursor], the line killer, the highlighter switches and the
    buffer list.  The screen geometry is passed as [sr] ([E.screenrows]) and
    [sc] ([E.screencols]). *)

(** ** Accessors *)

(** [dirty()]: a buffer whose name starts with a star never counts as
    modified.  (The counter itself is the field [dirty].)  kilua.c lines
    460-478. *)
Definition dirty_flag (f : fileState) : Z :=
  let starred := match filename f with
                 | Some name => Ascii.eqb (hd NUL name) "*"%char
                 | None => false
                 end in
  if starred then 0
  else if negb (dirty f =? 0) then 1 else 0.

(** [dirty_lua]: the boolean pushed on the Lua stack. *)
Definition dirty_lua (f : fileState) : bool := negb (dirty_flag f =? 0).

(** [at_lua]: the string pushed on the Lua stack. *)
Definition at_lua (f : fileState) : result (list ascii) :=
  c <- at_ f ;; Done (c_string [c]).

(** [get_line_lua]: [row->chars + cx] as a C string; nothing is pushed when
    the cursor is below the last row.  The pointer is inside the [size + 1]
    bytes of [chars] iff [0 <= cx <= size].  kilua.c lines 598-610. *)
Definition get_line_lua (f : fileState) : result (option (list ascii)) :=
  let filerow := rowoff f + cy f in
  match row_ptr f filerow with
  | Some ri =>
      r <- row_at f ri ;;
      if (cx f <? 0) || (size r <? cx f) then Fault (CharsIndexOutOfRange (cx f))
      else Done (Some (c_string (skipn (Z.to_nat (cx f)) (chars r))))
  | None => Done None
  end.

(** ** Motions *)

Definition down_lua (sr sc : Z) (f : fileState) : result fileState :=
  editorMoveCursor sr sc ARROW_DOWN f.

Definition up_lua (sr sc : Z) (f : fileState) : result fileState :=
  editorMoveCursor sr sc ARROW_UP f.

Definition left_lua (sr sc : Z) (f : fileState) : result fileState :=
  editorMoveCursor sr sc ARROW_LEFT f.

Definition right_lua (sr sc : Z) (f : fileState) : result fileState :=
  editorMoveCursor sr sc ARROW_RIGHT f.

(** [eol_lua]: [while (x < size) { editorMoveCursor(ARROW_RIGHT); x += 1; }]
    where [size] is the row's [rsize].  kilua.c lines 623-646. *)
Definition eol_lua (sr sc : Z) (f : fileState) : result fileState :=
  let filerow := rowoff f + cy f in
  match row_ptr f filerow with
  | Some ri =>
      r <- row_at f ri ;;
      let x := coloff f + cx f in
      move_times sr sc (Z.to_nat (rsize r - x)) ARROW_RIGHT f
  | None => Done f
  end.

(** A loop [while (n) { ...; n -= 1; }] or [while (n--) ...] runs [n] times
    when [n >= 0]; from a negative [n] it counts down towards [INT_MIN],
    and the model does not follow it there. *)
Definition count_down (n : Z) (body : nat -> result fileState)
  : result fileState :=
  if n <? 0 then Fault OutOfFuel else body (Z.to_nat n).

(** [sol_lua]: [while (x) { editorMoveCursor(ARROW_LEFT); x -= 1; }].
    kilua.c lines 690-703. *)
Definition sol_lua (sr sc : Z) (f : fileState) : result fileState :=
  count_down (coloff f + cx f) (fun n => move_times sr sc n ARROW_LEFT f).

(** [page_down_lua], [page_up_lua]: [E.screenrows - 1] single steps.
    kilua.c lines 657-679. *)
Definition page_down_lua (sr sc : Z) (f : fileState) : result fileState :=
  count_down (sr - 1) (fun n => move_times sr sc n ARROW_DOWN f).

Definition page_up_lua (sr sc : Z) (f : fileState) : result fileState :=
  count_down (sr - 1) (fun n => move_times sr sc n ARROW_UP f).

(** ** Removals *)

(** [kill_line_lua]: to the end of the line, [rsize] deletions, one step
    right, one more deletion.  kilua.c lines 868-898. *)
Definition kill_line_lua (sr sc : Z) (f : fileState) : result fileState :=
  f1 <- eol_lua sr sc f ;;
  let filerow := rowoff f1 + cy f1 in
  len <- (match row_ptr f1 filerow with
          | Some ri => r <- row_at f1 ri ;; Done (rsize r)
          | None => Done 0
          end) ;;
  f2 <- cut_left sc (Z.to_nat len) f1 ;;
  f3 <- right_lua sr sc f2 ;;
  delete_lua sc f3.

(** ** The highlighter switches *)

Definition set_flags (v : Z) (s : editorSyntax) : editorSyntax :=
  {| keywords := keywords s;
     singleline_comment_start := singleline_comment_start s;
     multiline_comment_start := multiline_comment_start s;
     multiline_comment_end := multiline_comment_end s;
     flags := v |}.

(** [syntax->flags |= bit] when [cond == 1], [syntax->flags &= ~bit]
    otherwise, and a forced re-render; nothing without a syntax. *)
Definition switch_flag (bit cond : Z) (f : fileState) : result fileState :=
  match syntax f with
  | Some s =>
      let v := if lua_to_int cond =? 1 then Z.lor (flags s) bit
               else Z.land (flags s) (Z.lnot bit) in
      rerender_all (set_syntax (Some (set_flags v s)) f)
  | None => Done f
  end.

(** [syntax_highlight_numbers_lua]; [cond] is [(int) lua_tonumber(L, -1)].
    kilua.c lines 1526-1545. *)
Definition syntax_highlight_numbers_lua (cond : Z) (f : fileState)
  : result fileState :=
  switch_flag HL_HIGHLIGHT_NUMBERS cond f.

(** [syntax_highlight_strings_lua].  kilua.c lines 1548-1567. *)
Definition syntax_highlight_strings_lua (cond : Z) (f : fileState)
  : result fileState :=
  switch_flag HL_HIGHLIGHT_STRINGS cond f.

(** [editorSyntaxToColor].  kilua.c lines 2232-2261. *)
Definition editorSyntaxToColor (t : hl_t) : Z :=
  match t with
  | HL_COMMENT | HL_MLCOMMENT => 36
  | HL_KEYWORD1 => 33
  | HL_KEYWORD2 => 32
  | HL_STRING => 35
  | HL_NUMBER => 31
  | HL_MATCH => 34
  | HL_SELECTION => 30
  | _ => 37
  end.

(** ** The buffer list *)

Definition set_current_file (v : Z) (E : editorConfig) : editorConfig :=
  {| file := file E; current_file := v; max_files := max_files E;
     screenrows := screenrows E; screencols := screencols E;
     statusmsg := statusmsg E |}.

Definition set_max_files (v : Z) (E : editorConfig) : editorConfig :=
  {| file := file E; current_file := current_file E; max_files := v;
     screenrows := screenrows E; screencols := screencols E;
     statusmsg := statusmsg E |}.

Definition count_buffers_lua (E : editorConfig) : Z := max_files E.

Definition current_buffer_lua (E : editorConfig) : Z := current_file E.

(** The loop [for (i = 0; i < E.file[E.current_file]->numrows; i++)
    editorUpdateRow(...)] that closes the functions below. *)
Definition rerender_current (E : editorConfig) : result editorConfig :=
  on_current (fun _ _ f => rerender_all f) E.

(** [next_buffer_lua].  kilua.c lines 1833-1853. *)
Definition next_buffer_lua (E : editorConfig) : result editorConfig :=
  let E1 := if current_file E <? max_files E - 1
            then set_current_file (current_file E + 1) E
            else set_current_file 0 E in
  rerender_current E1.

(** [prev_buffer_lua].  kilua.c lines 1856-1876. *)
Definition prev_buffer_lua (E : editorConfig) : result editorConfig :=
  let E1 := if current_file E >? 0
            then set_current_file (current_file E - 1) E
            else set_current_file (max_files E - 1) E in
  rerender_current E1.

(** The argument of [select_buffer_lua] as its two tests see it:
    [lua_isnumber] accepts a number and a string that converts to one. *)
Inductive buffer_arg : Type :=
| ByIndex (offset : Z)          (* lua_isnumber: (int) lua_tonumber(L, -1) *)
| ByName (name : list ascii)    (* otherwise lua_isstring *)
| ByNothing.

(** The loop of [select_buffer_lua] over the names: the first [i] at or
    after the start whose buffer is called [name]. *)
Fixpoint find_buffer (n : nat) (i : Z) (name : list ascii) (E : editorConfig)
  : result (option Z) :=
  match n with
  | O => Done None
  | S n' =>
      tmp <- file_at E i ;;
      match filename tmp with
      | Some fn =>
          if list_ascii_eqb (c_string fn) (c_string name) then Done (Some i)
          else find_buffer n' (i + 1) name E
      | None => find_buffer n' (i + 1) name E
      end
  end.

(** [select_buffer_lua]; the second component is the number pushed.
    kilua.c lines 1879-1924. *)
Definition select_buffer_lua (arg : buffer_arg) (E : editorConfig)
  : result (editorConfig * Z) :=
  match arg with
  | ByIndex offset =>
      let offset := lua_to_int offset in
      if (offset >=? 0) && (offset <=? max_files E - 1)
      then Done (set_current_file offset E, 1)
      else Done (E, 0)
  | ByName name =>
      m <- find_buffer (Z.to_nat (max_files E)) 0 name E ;;
      match m with
      | Some i => Done (set_current_file i E, 1)
      | None => Done (E, 0)
      end
  | ByNothing => Done (E, 0)
  end.

(** The copy loop of [kill_buffer_lua]: the slots that are not NULL, in
    order. *)
Fixpoint copy_buffers (n : nat) (i : Z) (slots : list (option fileState))
  : result (list fileState) :=
  match n with
  | O => Done []
  | S n' =>
      match nth_error slots (Z.to_nat i) with
      | None => Fault (FileIndexOutOfRange i)
      | Some None => copy_buffers n' (i + 1) slots
      | Some (Some f) =>
          rest <- copy_buffers n' (i + 1) slots ;; Done (f :: rest)
      end
  end.

(** [kill_buffer_lua]; with a single buffer it is [exit_lua], that is
    [exit(0)].  kilua.c lines 1759-1830. *)
Definition kill_buffer_lua (E : editorConfig) : result editorConfig :=
  if max_files E >? 1 then
    cur <- file_at E (current_file E) ;;
    let slots := list_set (map Some (file E)) (Z.to_nat (current_file E)) None in
    tmp <- copy_buffers (Z.to_nat (max_files E)) 0 slots ;;
    let E1 := set_max_files (max_files E - 1) (set_file tmp E) in
    let E2 := if current_file E1 >? 0
              then set_current_file (current_file E1 - 1) E1
              else set_current_file (max_files E1 - 1) E1 in
    rerender_current E2
  else Fault (ProcessExit 0).

(** [create_buffer_lua].  The list is grown by
    [realloc(E.file, sizeof(struct fileState * ) * E.max_files + 1)], one
    byte more than the [E.max_files] pointers it holds, and the new pointer
    is stored in slot [E.max_files]; [ptr] is the size of a pointer.
    kilua.c lines 1704-1749. *)
Definition create_buffer_lua (ptr : Z) (name : option (list ascii))
    (E : editorConfig) : result editorConfig :=
  let block := ptr * max_files E + 1 in
  let E1 := set_max_files (max_files E + 1) E in
  let E2 := set_current_file (max_files E1 - 1) E1 in
  let i := current_file E2 in
  if (i <? 0) || (block <? ptr * (i + 1)) then Fault (FileIndexOutOfRange i)
  else
    Done (set_file (firstn (Z.to_nat i) (file E2)
                    ++ new_buffer (option_map c_string name)
                    :: skipn (S (Z.to_nat i)) (file E2)) E2).



(** * Definitions used by the statements *)

(** ** Rendering *)

(** The distance from index [i] to the next index [j >= i] with
    [(j + 1) mod ts = 0]. *)
Definition tab_gap (ts i : Z) : Z := ts - 1 - i mod ts.

(** The number of spaces a TAB produces when [col] bytes are already
    rendered. *)
Definition tab_width (ts col : Z) : Z := ts - (col + 1) mod ts.

(** ** Frames *)

(** The part of a row that the highlighter leaves alone. *)
Definition row_text (r : erow) : Z * list ascii * list ascii :=
  (idx r, chars r, render r).

(** [same_text f f']: [f'] differs from [f] in the [hl] and [hl_oc] fields
    of its rows at most. *)
Definition same_text (f f' : fileState) : Prop :=
  set_row (row f') f = f'
  /\ map row_text (row f') = map row_text (row f).

(** ** Concrete buffers *)

(** A buffer holding [rows], loaded the way [editorOpen] loads a file into
    a new buffer. *)
Definition buffer_of (rows : list string) : result fileState :=
  load_lines (map bytes rows) (new_buffer None).

Definition row_chars (f : fileState) : list string :=
  map (fun r => string_of_list_ascii (chars r)) (row f).

Definition row_renders (f : fileState) : list string :=
  map (fun r => string_of_list_ascii (render r)) (row f).

(** The buffer [hello world] on a screen of 22 text rows and 80 columns
    (an 80x24 terminal), with the cursor warped to (6,0) and the mark set
    to [(mx, 0)] through [mark_lua]. *)
Definition hello_world (mx : Z) : result fileState :=
  f <- buffer_of ["hello world"%string] ;;
  f1 <- warp 22 80 6 0 f ;;
  Done (fst (mark_lua (Some (mx, 0)) f1)).

Definition selected (f : fileState) : result (option string) :=
  '(s, _) <- selection_lua 22 80 f ;;
  Done (option_map string_of_list_ascii s).

(** ** Highlighting scenarios *)

(** The keyword table of a buffer comes from the Lua configuration, which is
    not part of the C sources; the scenarios use the C table of the original
    kilo: a trailing [|] marks a type name. *)
Definition C_HL_keywords : list (list ascii) :=
  map bytes
    ["switch"; "if"; "while"; "for"; "break"; "continue"; "return"; "else";
     "struct"; "union"; "typedef"; "static"; "enum"; "class";
     "int|"; "long|"; "double|"; "float|"; "char|"; "unsigned|"; "signed|";
     "void|"]%string.

(** C syntax, configured the way the script does it: the keywords first
    (which creates the syntax with both flags set), then the comment
    delimiters. *)
Definition with_C_syntax (f : fileState) : result fileState :=
  f1 <- set_syntax_keywords_lua (Some C_HL_keywords) f ;;
  set_syntax_comments_lua (Some (bytes "//")) (Some (bytes "/*"))
    (Some (bytes "*/")) f1.

Definition row_hl (f : fileState) : list (list hl_t) := map hl (row f).
Definition row_hl_oc (f : fileState) : list bool := map hl_oc (row f).

(** S3: the three rows are loaded, then the syntax is configured. *)
Definition comment_rows : result fileState :=
  f <- buffer_of ["/* open"; "still in"; "done */ code"]%string ;;
  with_C_syntax f.

(** The same rows without the opening slash, highlighted as C. *)
Definition comment_rows_unopened : result fileState :=
  f <- buffer_of ["* open"; "still in"; "done */ code"]%string ;;
  with_C_syntax f.

(** Enter pressed in front of the comment opener of [x // /*zz], above the
    row [ww yy]: the rows are loaded, the syntax is configured, the cursor
    goes to (5,0), and [editorInsertNewline] splits the row. *)
Definition enter_before_comment : result fileState :=
  f <- buffer_of ["x // /*zz"; "ww yy"]%string ;;
  f1 <- with_C_syntax f ;;
  f2 <- warp 22 80 5 0 f1 ;;
  editorInsertNewline 22 f2.

(** The rows that [enter_before_comment] leaves, loaded and highlighted
    afresh. *)
Definition enter_before_comment_fresh : result fileState :=
  f <- buffer_of ["x // "; "/*zz"; "ww yy"]%string ;;
  with_C_syntax f.

(** A slash typed at (0,0) of [/* a], above the row [still in]: the first
    row becomes the single-line comment [//* a]. *)
Definition slash_before_comment : result fileState :=
  f <- buffer_of ["/* a"; "still in"]%string ;;
  f1 <- with_C_syntax f ;;
  editorInsertChar 22 80 "/" f1.

(** The rows that [slash_before_comment] leaves, loaded and highlighted
    afresh. *)
Definition slash_before_comment_fresh : result fileState :=
  f <- buffer_of ["//* a"; "still in"]%string ;;
  with_C_syntax f.

(** A row of one byte below an open comment. *)
Definition short_row_in_comment : result fileState :=
  f <- buffer_of ["/* a"; "b"]%string ;;
  with_C_syntax f.

Definition get {A : Type} (d : A) (m : result A) : A :=
  match m with Done a => a | Fault _ => d end.

(** The syntax that [with_C_syntax] installs. *)
Definition C_syntax : editorSyntax :=
  {| keywords := C_HL_keywords;
     singleline_comment_start := bytes "//";
     multiline_comment_start := bytes "/*";
     multiline_comment_end := bytes "*/";
     flags := Z.lor HL_HIGHLIGHT_STRINGS HL_HIGHLIGHT_NUMBERS |}.

(** The state in which [editorUpdateSyntax] enters its main loop on a row
    that does not start inside a comment. *)
Definition tok_start (rnd : list ascii) : tok :=
  {| t_i := skip_spaces rnd; prev_sep := true; in_string := NUL;
     in_comment := false; t_hl := repeat HL_NORMAL (List.length rnd) |}.

(** The tags of a row highlighted on its own, in either source variant. *)
Definition highlight_alone (v : source_variant) (syn : editorSyntax)
    (rnd : list ascii) : result (list hl_t) :=
  out <- syntax_loop (syntax_fuel (List.length rnd)) v syn rnd (tok_start rnd) ;;
  match out with
  | LoopEnd t => Done (t_hl t)
  | EarlyReturn h => Done h
  end.

(** The byte [c] under [p] gets through every earlier branch of the loop
    body: the loop test holds, the row is neither in a comment nor in a
    string, no comment delimiter and no quote starts here, and the byte is
    not taken as non-printable ([kilo.c] only), as part of a number or as
    the start of a keyword. *)
Definition reaches_final_step (v : source_variant) (syn : editorSyntax)
    (rnd : list ascii) (t : tok) (c : ascii) : Prop :=
  let p := skipn (Z.to_nat (t_i t)) rnd in
  let mcs := multiline_comment_start syn in
  let scs := singleline_comment_start syn in
  render_byte rnd (t_i t) = Done c
  /\ Ascii.eqb c NUL = false
  /\ in_comment t = false
  /\ negb (Nat.eqb (strlen mcs) 0) && strncmp_eq p mcs (strlen mcs) = false
  /\ prev_sep t
     && (match v with Kilo => true | Kilua => negb (Nat.eqb (strlen scs) 0) end)
     && strncmp_eq p scs (strlen scs) = false
  /\ in_string t = NUL
  /\ Ascii.eqb c DQUOTE || Ascii.eqb c "'"%char = false
  /\ (match v with Kilo => negb (isprint c) | Kilua => false end) = false
  /\ number_test t c = Done false
  /\ (if prev_sep t then keyword_match v (keywords syn) rnd (t_i t)
      else Done None) = Done None.

(** ** Saving *)

(** Every row followed by a newline byte. *)
Definition rows_with_newlines (rows : list erow) : list ascii :=
  List.concat (map (fun r => chars r ++ [NEWLINE]) rows).

(** The rows joined by newline bytes, none after the last row. *)
Fixpoint rows_joined (rows : list erow) : list ascii :=
  match rows with
  | [] => []
  | [r] => chars r
  | r :: rows' => chars r ++ NEWLINE :: rows_joined rows'
  end.

(** The editor after [initEditor] and one more [create_buffer]: buffer 0 is
    the message log, buffer 1 is [f] and is current; the terminal is 80x24,
    which leaves 22 text rows. *)
Definition editor_of (f : fileState) : editorConfig :=
  {| file := [new_buffer (Some (bytes "*Messages*")); f];
     current_file := 1; max_files := 2;
     screenrows := 22; screencols := 80; statusmsg := [] |}.

(** A script that defines no callback. *)
Definition no_script : lua_State := {| lua_getglobal := fun _ => None |}.

(** ** Cursor scenarios *)

Definition cursor_of (f : fileState) : Z * Z * Z * Z :=
  (cx f, cy f, coloff f, rowoff f).

(** 23 rows on the 22 text rows of the screen; the cursor goes down to the
    last row, which scrolls the view by one, and back up to the top line of
    the screen. *)
Definition scrolled_view : result fileState :=
  f <- buffer_of (repeat "x"%string 23) ;;
  f1 <- move_times 22 80 22 ARROW_DOWN f ;;
  move_times 22 80 21 ARROW_UP f1.

(** A row of 100 bytes followed by a short one, the cursor at the start of
    the second row, and the two rows joined by [delete]. *)
Definition joined_long_row : result fileState :=
  f <- load_lines [repeat "a"%char 100; bytes "b"] (new_buffer None) ;;
  f1 <- editorMoveCursor 22 80 ARROW_DOWN f ;;
  delete_lua 80 f1.

(** 22 rows [ab] fill the screen; the cursor is at the end of the last row,
    on the bottom line of the screen. *)
Definition cursor_at_bottom_right : result fileState :=
  f <- buffer_of (repeat "ab"%string 22) ;;
  f1 <- move_times 22 80 21 ARROW_DOWN f ;;
  move_times 22 80 2 ARROW_RIGHT f1.

(** [term] occurs in the rendered row [rnd]. *)
Definition occurs_in (term rnd : list ascii) : Prop :=
  exists pre post : list ascii, rnd = pre ++ term ++ post.

(** ** The message log and the callbacks *)

(** [f] is a buffer that [editorSetStatusMessage] takes for the log. *)
Definition is_log_buffer (f : fileState) : bool :=
  match filename f with
  | Some name => list_ascii_eqb (c_string name) (bytes "*Messages*")
  | None => false
  end.

(** The callback [name], when the script defines it, ends without an error,
    keeps the current buffer current and does not touch its [dirty]
    counter. *)
Definition callback_keeps_dirty (lua : lua_State) (name : string) : Prop :=
  forall (fn : lua_function) (arg : option (list ascii))
         (E E1 : editorConfig) (err : option (list ascii)),
    lua_getglobal lua name = Some fn ->
    fn arg E = Done (E1, err) ->
    err = None
    /\ current_file E1 = current_file E
    /\ forall f, file_at E (current_file E) = Done f ->
                 exists f1, file_at E1 (current_file E1) = Done f1
                            /\ dirty f1 = dirty f.

(** The buffer [f] with the name that [save_lua] gives it. *)
Definition renamed (path : option (list ascii)) (f : fileState) : fileState :=
  match path with
  | Some p => set_filename (Some (c_string p)) f
  | None => f
  end.

(** ** Editing scenarios *)

(** The rows [ab], [cd] with the cursor at (x, y). *)
Definition ab_cd (x y : Z) : result fileState :=
  f <- buffer_of ["ab"; "cd"]%string ;;
  warp 22 80 x y f.

(** The change of [dirty] caused by an operation started in state [m]. *)
Definition dirty_change (m : result fileState)
    (op : fileState -> result fileState) : result Z :=
  f <- m ;; f' <- op f ;; Done (dirty f' - dirty f).

(** ** Positions and the text between two positions *)

(** A position [(x, y)] in buffer coordinates: column and row. *)
Definition pos : Type := (Z * Z)%type.

Definition row_size (rows : list erow) (y : Z) : Z :=
  match nth_error rows (Z.to_nat y) with
  | Some r => size r
  | None => 0
  end.

(** A position on an existing row, at most one past its last byte. *)
Definition valid_pos (rows : list erow) (p : pos) : Prop :=
  0 <= snd p < Z.of_nat (List.length rows)
  /\ 0 <= fst p <= row_size rows (snd p).

(** The position after [p] in document order. *)
Definition next_pos (rows : list erow) (p : pos) : pos :=
  if fst p <? row_size rows (snd p) then (fst p + 1, snd p)
  else (0, snd p + 1).

(** [p] comes before [q] in document order. *)
Definition before (p q : pos) : Prop :=
  snd p < snd q \/ (snd p = snd q /\ fst p < fst q).

(** The byte that [at] yields at position [p] when the view is not scrolled
    sideways: the rendered byte, or a newline past the rendered row. *)
Definition byte_at (rows : list erow) (p : pos) : ascii :=
  match nth_error rows (Z.to_nat (snd p)) with
  | Some r =>
      if fst p <? rsize r then nth (Z.to_nat (fst p)) (render r) NUL
      else NEWLINE
  | None => NEWLINE
  end.

(** The [n] positions from [p] on. *)
Fixpoint span (rows : list erow) (n : nat) (p : pos) : list pos :=
  match n with
  | O => []
  | S k => p :: span rows k (next_pos rows p)
  end.

(** The bytes of the [n] positions from [p] on. *)
Definition text_from (rows : list erow) (n : nat) (p : pos) : list ascii :=
  map (byte_at rows) (span rows n p).

(** The cursor of [f] is at position [p] and the view is not scrolled
    sideways. *)
Definition cursor_at (f : fileState) (p : pos) : Prop :=
  coloff f = 0 /\ cx f = fst p /\ rowoff f + cy f = snd p.

Definition mark_at (f : fileState) (p : pos) : Prop :=
  markx f = fst p /\ marky f = snd p.

(** [g] with the cursor and the view of [f]: the last four assignments of
    [get_selection]. *)
Definition restore_cursor (f g : fileState) : fileState :=
  set_rowoff (rowoff f) (set_coloff (coloff f) (set_cy (cy f) (set_cx (cx f) g))).

(** The number of cursor positions on the rows. *)
Definition total_cells (rows : list erow) : Z :=
  fold_right (fun r n => size r + 1 + n) 0 rows.

(** The rank of a position in document order. *)
Definition lin (rows : list erow) (p : pos) : Z :=
  total_cells (firstn (Z.to_nat (snd p)) rows) + fst p.

(** Every row fits on a screen line and holds no NUL byte when rendered. *)
Definition rows_fit (sc : Z) (rows : list erow) : Prop :=
  Forall (fun r => size r < sc /\ Forall (fun c => c <> NUL) (render r)) rows.

(** The row [ab] with the cursor at column [x] and the mark at column
    [mx]. *)
Definition ab_row (x mx : Z) : result fileState :=
  f <- buffer_of ["ab"%string] ;;
  f1 <- warp 22 80 x 0 f ;;
  Done (fst (mark_lua (Some (mx, 0)) f1)).

Definition selection_text (f : fileState) : result (list ascii) :=
  '(s, _) <- get_selection 22 80 f ;; Done s.

(** The [k]-th successor of [p]. *)
Fixpoint nth_next (rows : list erow) (k : nat) (p : pos) : pos :=
  match k with
  | O => p
  | S k' => next_pos rows (nth_next rows k' p)
  end.

(** [g] differs from [f] in the cursor and the view at most. *)
Definition only_cursor (f g : fileState) : Prop := restore_cursor f g = f.

(** [f] holds the rows [rows] and its cursor is at [p]. *)
Definition holds (rows : list erow) (f : fileState) (p : pos) : Prop :=
  row f = rows /\ numrows f = Z.of_nat (List.length rows) /\ cursor_at f p.

(** [p] has a successor on the rows. *)
Definition steppable (rows : list erow) (p : pos) : Prop :=
  valid_pos rows p
  /\ (fst p < row_size rows (snd p)
      \/ snd p + 1 < Z.of_nat (List.length rows)).

(** ** Termination of the highlighter's loop *)

(** A quantity that every iteration of the main loop decreases. *)
Definition tok_measure (n : nat) (t : tok) : nat :=
  4 * Z.to_nat (Z.of_nat n + 1 - t_i t)
  + (if in_comment t then 2 else 0)
  + (if prev_sep t then 1 else 0).

(** The computation did not stop for lack of fuel. *)
Definition fuel_sufficed {A : Type} (m : result A) : Prop :=
  m <> Fault OutOfFuel.

(** Every row's [idx] field is its position in the row array. *)
Definition index_consistent (f : fileState) : Prop :=
  forall (i : nat) (r : erow),
    nth_error (row f) i = Some r -> idx r = Z.of_nat i.

(** [g] keeps the configuration of [f], its cursor and the number of its
    rows. *)
Definition keeps_shape (f g : fileState) : Prop :=
  syntax g = syntax f /\ tab_size g = tab_size f /\ numrows g = numrows f
  /\ cursor_of g = cursor_of f
  /\ List.length (row g) = List.length (row f).

(** The increase of [dirty] that [delete_lua] causes in state [f]. *)
Definition delete_lua_increase (f : fileState) : Z :=
  let filerow := rowoff f + cy f in
  let filecol := coloff f + cx f in
  if (filerow >=? numrows f) || ((filecol =? 0) && (filerow =? 0)) then 0
  else if filecol =? 0 then 3
  else match row_at f filerow with
       | Done r => if (0 <? filecol) && (filecol <=? size r) then 2 else 1
       | Fault _ => 0
       end.

(** The bounds of C4, on the cursor and the view of [f]. *)
Definition cursor_in_screen (sr sc : Z) (f : fileState) : Prop :=
  0 <= cx f < sc /\ 0 <= cy f < sr /\ 0 <= coloff f /\ 0 <= rowoff f.


(** * Definitions used by the statements on the rest of the code *)

(** ** What the highlighter writes *)

(** The tags that the highlighter of variant [v] writes under syntax [syn]. *)
Definition tag_allowed (v : source_variant) (syn : editorSyntax) (t : hl_t)
  : bool :=
  match t with
  | HL_NORMAL | HL_COMMENT | HL_MLCOMMENT | HL_KEYWORD1 | HL_KEYWORD2 => true
  | HL_STRING => has_flag syn HL_HIGHLIGHT_STRINGS
  | HL_NUMBER => has_flag syn HL_HIGHLIGHT_NUMBERS
  | HL_NONPRINT => match v with Kilo => true | Kilua => false end
  | HL_MATCH | HL_SELECTION => false
  end.

(** ** The content and the shape of a buffer *)

(** The content of a buffer: the bytes of its rows. *)
Definition texts (f : fileState) : list (list ascii) := map chars (row f).

(** The position of the cursor in the file. *)
Definition file_col (f : fileState) : Z := coloff f + cx f.
Definition file_row (f : fileState) : Z := rowoff f + cy f.

(** The row is rendered: [render] is the tab expansion of [chars] and [hl]
    has one tag per rendered byte. *)
Definition row_rendered (ts : Z) (r : erow) : Prop :=
  editorUpdateRow_render ts (chars r) = Done (render r)
  /\ List.length (hl r) = List.length (render r).

(** The invariant of a buffer between two editing operations. *)
Definition well_formed (f : fileState) : Prop :=
  numrows f = Z.of_nat (List.length (row f))
  /\ index_consistent f
  /\ forall (j : nat) (r : erow),
       nth_error (row f) j = Some r -> row_rendered (tab_size f) r.

(** The invariant with row [ri] left out of the rendering condition: the
    state between a change of [row[ri].chars] and the call of
    [editorUpdateRow] that follows it. *)
Definition well_formed_but (ri : Z) (f : fileState) : Prop :=
  numrows f = Z.of_nat (List.length (row f))
  /\ index_consistent f
  /\ forall (j : nat) (r : erow),
       nth_error (row f) j = Some r -> j <> Z.to_nat ri ->
       row_rendered (tab_size f) r.

(** The bytes of a row after [editorRowInsertChar(row, at, c)]. *)
Definition row_insert (cs : list ascii) (at_ : Z) (c : ascii) : list ascii :=
  if at_ >? Z.of_nat (List.length cs)
  then cs ++ repeat SPACE (Z.to_nat (at_ - Z.of_nat (List.length cs))) ++ [c]
  else firstn (Z.to_nat at_) cs ++ c :: skipn (Z.to_nat at_) cs.

(** The bytes of a row after [editorRowDelChar(row, at)]. *)
Definition row_delete (cs : list ascii) (at_ : Z) : list ascii :=
  if (Z.of_nat (List.length cs) <=? at_) || (at_ <? 0) then cs
  else firstn (Z.to_nat at_) cs ++ skipn (S (Z.to_nat at_)) cs.

(** [f'] differs from [f] in the rows, their number, the counter, the
    cursor and the view at most. *)
Definition edits_only (f f' : fileState) : Prop :=
  set_row (row f) (set_dirty (dirty f) (set_numrows (numrows f)
    (restore_cursor f f'))) = f.

(** ** A decision procedure for the invariant *)

Definition row_rendered_b (ts : Z) (r : erow) : bool :=
  match editorUpdateRow_render ts (chars r) with
  | Done x => list_ascii_eqb x (render r)
  | Fault _ => false
  end
  && Nat.eqb (List.length (hl r)) (List.length (render r)).

Fixpoint indices_from (i : Z) (rows : list erow) : bool :=
  match rows with
  | [] => true
  | r :: rows' => (idx r =? i) && indices_from (i + 1) rows'
  end.

Definition well_formed_b (f : fileState) : bool :=
  (numrows f =? Z.of_nat (List.length (row f)))
  && indices_from 0 (row f)
  && forallb (row_rendered_b (tab_size f)) (row f).

(** The buffer is well formed and its cursor and view are not negative. *)
Definition editable (f : fileState) : Prop :=
  well_formed f /\ 0 <= cx f /\ 0 <= cy f /\ 0 <= coloff f /\ 0 <= rowoff f.

(** The callback [name], when the script defines it, keeps the current
    buffer current and leaves its rows and its name alone (it may fail). *)
Definition callback_keeps_buffer (lua : lua_State) (name : string) : Prop :=
  forall (fn : lua_function) (arg : option (list ascii))
         (E E1 : editorConfig) (err : option (list ascii)),
    lua_getglobal lua name = Some fn ->
    fn arg E = Done (E1, err) ->
    current_file E1 = current_file E
    /\ forall f, file_at E (current_file E) = Done f ->
                 exists f1, file_at E1 (current_file E1) = Done f1
                            /\ row f1 = row f /\ numrows f1 = numrows f
                            /\ filename f1 = filename f.

(** The tags that a row can carry after [editorUpdateSyntax] under the
    syntax [osyn] of its buffer. *)
Definition tag_expected (osyn : option editorSyntax) (t : hl_t) : bool :=
  match osyn with
  | Some syn => tag_allowed Kilua syn t
  | None => hl_eqb t HL_NORMAL
  end.

(** [strcmp(tmp->filename, name) == 0] for a buffer that has a name. *)
Definition has_name (name : list ascii) (g : fileState) : bool :=
  match filename g with
  | Some fn => list_ascii_eqb (c_string fn) (c_string name)
  | None => false
  end.

(** The buffer can be rendered again: it has no syntax, a positive
    [tab_size], and as many rows as [numrows] says. *)
Definition plain_buffer (g : fileState) : Prop :=
  syntax g = None /\ 1 <= tab_size g
  /\ numrows g = Z.of_nat (List.length (row g)).

(** * Frame properties of the highlighter *)

(** Case analysis on the first computation of a [bind] that is known to
    finish. *)
Ltac bind_done H :=
  match type of H with
  | bind ?m _ = Done _ =>
      let x := fresh "x" in
      let E := fresh "E" in
      destruct m as [x|] eqn:E; cbn [bind] in H; [|discriminate H]
  end.

(** The conversion of a number that is an [int] is the number. *)
Lemma lua_to_int_id (n : Z) : INT_MIN <= n <= INT_MAX -> lua_to_int n = n.
Proof.
  intros H. unfold lua_to_int.
  destruct (Z.leb_spec INT_MIN n); [|lia].
  destruct (Z.leb_spec n INT_MAX); [reflexivity|lia].
Qed.

Lemma lua_to_int_not_1 (n : Z) : n <> 1 -> lua_to_int n <> 1.
Proof.
  intros H. unfold lua_to_int. destruct (_ && _); [exact H|discriminate].
Qed.

Lemma list_set_length {A : Type} (l : list A) (n : nat) (v : A) :
  List.length (list_set l n v) = List.length l.
Proof.
  revert n. induction l as [|a l IH]; intros [|n]; cbn; auto.
Qed.

Lemma nth_error_list_set_eq {A : Type} (l : list A) (n : nat) (v : A) :
  (n < List.length l)%nat -> nth_error (list_set l n v) n = Some v.
Proof.
  revert n. induction l as [|a l IH]; intros [|n] H; cbn in *; try lia; auto.
  apply IH. lia.
Qed.

Lemma nth_error_list_set_neq {A : Type} (l : list A) (n m : nat) (v : A) :
  n <> m -> nth_error (list_set l n v) m = nth_error l m.
Proof.
  revert n m. induction l as [|a l IH]; intros [|n] [|m] H; cbn; auto; try lia.
Qed.

Lemma map_list_set_same {A B : Type} (g : A -> B) (l : list A) (n : nat) (v r : A) :
  nth_error l n = Some r -> g v = g r -> map g (list_set l n v) = map g l.
Proof.
  revert n. induction l as [|a l IH]; intros [|n] Hn Hg; cbn in *; try discriminate.
  - injection Hn as ->. now rewrite Hg.
  - f_equal. now apply IH.
Qed.

Lemma same_text_refl (f : fileState) : same_text f f.
Proof. split; [now destruct f|reflexivity]. Qed.

Lemma same_text_trans (f g h : fileState) :
  same_text f g -> same_text g h -> same_text f h.
Proof.
  intros [E1 M1] [E2 M2]. split; [|congruence].
  rewrite <- E2, <- E1. reflexivity.
Qed.

Lemma row_at_nth (f : fileState) (i : Z) (r : erow) :
  row_at f i = Done r ->
  0 <= i /\ nth_error (row f) (Z.to_nat i) = Some r.
Proof.
  unfold row_at. destruct (Z.ltb_spec i 0); [discriminate|].
  destruct (nth_error (row f) (Z.to_nat i)) eqn:E; [|discriminate].
  intros [= ->]. auto.
Qed.

Lemma row_put_same_text (f f' : fileState) (i : Z) (r r' : erow) :
  row_at f i = Done r -> row_text r' = row_text r ->
  row_put f i r' = Done f' -> same_text f f'.
Proof.
  intros Hr Ht. unfold row_put.
  destruct ((i <? 0) || (Z.of_nat (List.length (row f)) <=? i)); [discriminate|].
  intros [= <-]. apply row_at_nth in Hr as [_ Hr].
  split; [reflexivity|]. cbn. eapply map_list_set_same; eauto.
Qed.

Lemma row_put_at (f f' : fileState) (i : Z) (r : erow) :
  row_put f i r = Done f' -> row_at f' i = Done r.
Proof.
  unfold row_put, row_at.
  destruct (Z.ltb_spec i 0); [discriminate|]. cbn [orb].
  destruct (Z.leb_spec (Z.of_nat (List.length (row f))) i); [discriminate|].
  intros [= <-]. cbn. rewrite nth_error_list_set_eq; [reflexivity|lia].
Qed.

Lemma same_text_row_at (f f' : fileState) (i : Z) (r : erow) :
  same_text f f' -> row_at f i = Done r ->
  exists r', row_at f' i = Done r' /\ row_text r' = row_text r.
Proof.
  intros [_ M] Hr. apply row_at_nth in Hr as [Hi Hr].
  assert (nth_error (map row_text (row f')) (Z.to_nat i) = Some (row_text r)) as H.
  { rewrite M. now apply map_nth_error. }
  rewrite nth_error_map in H.
  destruct (nth_error (row f') (Z.to_nat i)) as [r'|] eqn:E; [|discriminate].
  exists r'. cbn in H. assert (Ht : row_text r' = row_text r) by congruence. split; [|exact Ht].
  unfold row_at. destruct (Z.ltb_spec i 0); [lia|]. now rewrite E.
Qed.

Lemma editorUpdateSyntax_same_text (fuel : nat) :
  forall (f f' : fileState) (ri : Z),
    editorUpdateSyntax fuel f ri = Done f' -> same_text f f'.
Proof.
  induction fuel as [|k IH]; intros f f' ri H; [discriminate|].
  cbn [editorUpdateSyntax] in H.
  bind_done H. rename x into r, E into Hr.
  bind_done H. rename x into f0, E into Hf0.
  assert (S0 : same_text f f0)
    by (eapply row_put_same_text; [exact Hr| |exact Hf0]; reflexivity).
  destruct (syntax f) as [syn|]; [|congruence].
  bind_done H. clear E. bind_done H. clear E.
  pose proof (row_put_at _ _ _ _ Hf0) as Hr0.
  eapply same_text_trans; [exact S0|].
  destruct x0 as [t|h].
  - bind_done H. rename x0 into f1, E into Hf1.
    assert (S1 : same_text f0 f1)
      by (eapply row_put_same_text; [exact Hr0| |exact Hf1]; reflexivity).
    bind_done H. clear E. bind_done H. rename x1 into f2, E into Hf2.
    assert (S2 : same_text f1 f2).
    { destruct (_ && _) in Hf2; [eauto|injection Hf2 as <-; apply same_text_refl]. }
    bind_done H. rename x1 into r2, E into Hr2.
    eapply same_text_trans; [exact S1|]. eapply same_text_trans; [exact S2|].
    eapply row_put_same_text; [exact Hr2| |exact H]; reflexivity.
  - eapply row_put_same_text; [exact Hr0| |exact H]; reflexivity.
Qed.

(** [editorUpdateRow] stores the rendered bytes in the row and changes
    nothing else but the highlight fields. *)
Lemma editorUpdateRow_render_stored (f f' : fileState) (ri : Z) :
  editorUpdateRow f ri = Done f' ->
  exists r r',
    row_at f ri = Done r /\ row_at f' ri = Done r'
    /\ chars r' = chars r /\ idx r' = idx r
    /\ editorUpdateRow_render (tab_size f) (chars r) = Done (render r')
    /\ set_row (row f') f = f'.
Proof.
  unfold editorUpdateRow. intros H.
  bind_done H. rename x into r, E into Hr.
  bind_done H. rename x into rnd, E into Hrnd.
  bind_done H. rename x into f1, E into Hf1.
  apply editorUpdateSyntax_same_text in H.
  pose proof (row_put_at _ _ _ _ Hf1) as Hr1.
  destruct (same_text_row_at _ _ _ _ H Hr1) as (r' & Hr' & Ht).
  exists r, r'. injection Ht as Hi Hc Hre. cbn in *.
  repeat split; auto; try congruence.
  destruct H as [H _]. rewrite <- H.
  unfold row_put in Hf1.
  destruct (_ || _) in Hf1; [discriminate|]. injection Hf1 as <-. reflexivity.
Qed.

(** ** The buffer table *)

Lemma file_at_nth (E : editorConfig) (i : Z) (f : fileState) :
  file_at E i = Done f -> 0 <= i /\ nth_error (file E) (Z.to_nat i) = Some f.
Proof.
  unfold file_at. destruct (Z.ltb_spec i 0); [discriminate|].
  destruct (nth_error (file E) (Z.to_nat i)) eqn:Hnth; [|discriminate].
  intros [= ->]. auto.
Qed.

Lemma file_put_at (E E' : editorConfig) (i : Z) (f : fileState) :
  file_put E i f = Done E' ->
  file_at E' i = Done f /\ current_file E' = current_file E
  /\ screenrows E' = screenrows E /\ screencols E' = screencols E
  /\ max_files E' = max_files E.
Proof.
  unfold file_put, file_at.
  destruct (Z.ltb_spec i 0); [discriminate|]. cbn [orb].
  destruct (Z.leb_spec (Z.of_nat (List.length (file E))) i); [discriminate|].
  intros [= <-]. cbn. rewrite nth_error_list_set_eq by lia. auto.
Qed.

Lemma file_put_other (E E' : editorConfig) (i j : Z) (f : fileState) :
  file_put E i f = Done E' -> i <> j -> file_at E' j = file_at E j.
Proof.
  unfold file_put, file_at.
  destruct (Z.ltb_spec i 0); [discriminate|]. cbn [orb].
  destruct (Z.leb_spec (Z.of_nat (List.length (file E))) i); [discriminate|].
  intros [= <-] Hij. cbn. destruct (Z.ltb_spec j 0); [reflexivity|].
  rewrite nth_error_list_set_neq by lia. reflexivity.
Qed.


(** * Properties of row rendering *)

Section Rendering.

Variable ts : Z.
Hypothesis ts_pos : 1 <= ts.

Lemma tab_gap_range (i : Z) : 0 <= tab_gap ts i < ts.
Proof.
  unfold tab_gap. pose proof (Z.mod_pos_bound i ts ltac:(lia)). lia.
Qed.

Lemma tab_gap_stop (i : Z) : (i + tab_gap ts i + 1) mod ts = 0.
Proof.
  unfold tab_gap.
  replace (i + (ts - 1 - i mod ts) + 1) with (i - i mod ts + 1 * ts) by lia.
  rewrite Z.mod_add by lia.
  rewrite Zminus_mod_idemp_r, Z.sub_diag. apply Z.mod_0_l. lia.
Qed.

Lemma tab_fill_runs (fuel : nat) (i : Z) :
  0 <= i -> (Z.to_nat (tab_gap ts i) < fuel)%nat ->
  tab_fill fuel ts i = Done (i + tab_gap ts i).
Proof.
  revert i. induction fuel as [|k IH]; intros i Hi Hfuel; [lia|].
  pose proof (tab_gap_range i) as Hg.
  pose proof (Z.mod_pos_bound i ts ltac:(lia)) as Hm.
  pose proof (Z.mod_pos_bound (i + 1) ts ltac:(lia)) as Hm1.
  cbn [tab_fill]. rewrite Z.rem_mod_nonneg by lia.
  destruct (Z.eqb_spec ((i + 1) mod ts) 0) as [E|E].
  - f_equal. unfold tab_gap in *.
    assert (i mod ts = ts - 1); [|lia].
    destruct (Z.eq_dec ts 1) as [->|]; [rewrite Z.mod_1_r; lia|].
    rewrite <- Zplus_mod_idemp_l in E.
    destruct (Z.eq_dec (i mod ts) (ts - 1)); [lia|].
    rewrite Z.mod_small in E by lia. lia.
  - assert (Hstep : (i + 1) mod ts = i mod ts + 1).
    { destruct (Z.eq_dec (i mod ts) (ts - 1)) as [Heq|Hne].
      - exfalso. apply E. rewrite <- Zplus_mod_idemp_l, Heq.
        replace (ts - 1 + 1) with ts by lia. apply Z.mod_same. lia.
      - rewrite <- Zplus_mod_idemp_l. apply Z.mod_small. lia. }
    rewrite IH.
    + f_equal. unfold tab_gap. lia.
    + lia.
    + unfold tab_gap in *. lia.
Qed.

Lemma tab_width_range (col : Z) : 1 <= tab_width ts col <= ts.
Proof.
  unfold tab_width. pose proof (Z.mod_pos_bound (col + 1) ts ltac:(lia)). lia.
Qed.

Lemma render_loop_tab (cs out : list ascii) :
  render_loop ts (TAB :: cs) out
  = render_loop ts cs
      (out ++ repeat SPACE (Z.to_nat (tab_width ts (Z.of_nat (List.length out))))).
Proof.
  cbn [render_loop]. rewrite Ascii.eqb_refl.
  destruct (Z.eqb_spec ts 0); [lia|].
  pose proof (tab_gap_range (Z.of_nat (List.length out) + 1)).
  rewrite tab_fill_runs by lia.
  cbn [bind]. do 3 f_equal. unfold tab_width, tab_gap. lia.
Qed.

Lemma render_loop_app (pre cs out : list ascii) :
  render_loop ts (pre ++ cs) out
  = (r <- render_loop ts pre out ;; render_loop ts cs r).
Proof.
  revert out. induction pre as [|c pre IH]; intros out; [reflexivity|].
  destruct (Ascii.eqb_spec c TAB) as [->|Hc].
  - change ((TAB :: pre) ++ cs) with (TAB :: (pre ++ cs)).
    rewrite !render_loop_tab. apply IH.
  - cbn [render_loop app]. apply Ascii.eqb_neq in Hc. rewrite Hc. apply IH.
Qed.

Lemma render_loop_bound (cs out : list ascii) :
  exists r, render_loop ts cs out = Done r
    /\ Z.of_nat (List.length r)
       <= Z.of_nat (List.length out) + Z.of_nat (List.length cs) + count_tabs cs * (ts - 1).
Proof.
  revert out. induction cs as [|c cs IH]; intros out.
  - exists out. split; [reflexivity|]. unfold count_tabs. cbn. lia.
  - destruct (Ascii.eqb_spec c TAB) as [->|Hc].
    + rewrite render_loop_tab.
      destruct (IH (out ++ repeat SPACE
                  (Z.to_nat (tab_width ts (Z.of_nat (List.length out)))))) as (r & Hr & Hlen).
      exists r. split; [exact Hr|].
      rewrite length_app, repeat_length in Hlen.
      pose proof (tab_width_range (Z.of_nat (List.length out))).
      unfold count_tabs in *. cbn [filter List.length]. rewrite Ascii.eqb_refl.
      cbn [List.length]. lia.
    + cbn [render_loop]. pose proof Hc as Hc'. apply Ascii.eqb_neq in Hc. rewrite Hc.
      destruct (IH (out ++ [c])) as (r & Hr & Hlen).
      exists r. split; [exact Hr|].
      rewrite length_app in Hlen. unfold count_tabs in *. cbn [filter List.length].
      assert (Ascii.eqb TAB c = false) as -> by (apply Ascii.eqb_neq; congruence).
      cbn [List.length] in *. lia.
Qed.

Lemma editorUpdateRow_render_loop (cs : list ascii) :
  editorUpdateRow_render ts cs = render_loop ts cs [].
Proof.
  unfold editorUpdateRow_render.
  destruct (render_loop_bound cs []) as (r & Hr & Hlen).
  rewrite Hr. cbn [bind]. cbn [List.length] in Hlen.
  assert (0 <= count_tabs cs) by (unfold count_tabs; lia).
  destruct (Z.ltb_spec (Z.of_nat (List.length r))
              (Z.of_nat (List.length cs) + count_tabs cs * ts + 1)); [reflexivity|nia].
Qed.

End Rendering.

(** C2, as stated, fails: with [tab_size = 8] a TAB at render column 0
    produces 7 spaces, not 8, and the byte after a TAB lands on column 7. *)
Lemma tab_at_column_0_gives_7_spaces :
  editorUpdateRow_render 8 (TAB :: bytes "x")
  = Done (repeat SPACE 7 ++ bytes "x")
  /\ editorUpdateRow_render 8 (TAB :: bytes "x")
     <> Done (repeat SPACE 8 ++ bytes "x")
  /\ editorUpdateRow_render 8 (bytes "abc" ++ TAB :: bytes "x")
     <> Done (bytes "abc" ++ repeat SPACE 5 ++ bytes "x").
Proof.
  split; [reflexivity|split; intro H; vm_compute in H; discriminate H].
Qed.

(** C2 (amended).  For a positive [tab_size], [editorUpdateRow] copies every
    byte other than TAB unchanged and expands a TAB met when [col] bytes are
    rendered to [tab_size - (col + 1) mod tab_size] spaces: at least one, at
    most [tab_size], so that the byte after them lands on an index [j] with
    [(j + 1) mod tab_size = 0]; the bytes after the TAB are rendered from
    there on.  In particular, with [tab_size = 8], a TAB at render column 0
    produces exactly 7 spaces and a TAB at render column 3 produces 4, and in
    both cases the following byte lands on column 7. *)
Theorem tab_expansion_reaches_stop (ts : Z) (pre post : list ascii) :
  1 <= ts ->
  exists r_pre : list ascii,
    let col := Z.of_nat (List.length r_pre) in
    let n := tab_width ts col in
    editorUpdateRow_render ts pre = Done r_pre
    /\ 1 <= n <= ts
    /\ (col + n + 1) mod ts = 0
    /\ editorUpdateRow_render ts (pre ++ TAB :: post)
       = render_loop ts post (r_pre ++ repeat SPACE (Z.to_nat n))
    /\ (forall c : ascii, c <> TAB ->
          editorUpdateRow_render ts (pre ++ c :: post)
          = render_loop ts post (r_pre ++ [c]))
    /\ editorUpdateRow_render 8 (TAB :: bytes "x")
       = Done (repeat SPACE 7 ++ bytes "x")
    /\ editorUpdateRow_render 8 (bytes "abc" ++ TAB :: bytes "x")
       = Done (bytes "abc" ++ repeat SPACE 4 ++ bytes "x").
Proof.
  intros Hts.
  destruct (render_loop_bound ts Hts pre []) as (r_pre & Hpre & _).
  exists r_pre. cbv zeta.
  rewrite !(editorUpdateRow_render_loop ts Hts).
  pose proof (tab_width_range ts Hts (Z.of_nat (List.length r_pre))) as Hn.
  split; [exact Hpre|]. split; [exact Hn|]. split; [|split; [|split; [|split]]].
  - unfold tab_width.
    replace (Z.of_nat (List.length r_pre)
             + (ts - (Z.of_nat (List.length r_pre) + 1) mod ts) + 1)
      with ((Z.of_nat (List.length r_pre) + 1)
            - (Z.of_nat (List.length r_pre) + 1) mod ts + 1 * ts) by lia.
    rewrite Z.mod_add by lia.
    rewrite Zminus_mod_idemp_r, Z.sub_diag. apply Z.mod_0_l. lia.
  - rewrite (render_loop_app ts Hts), Hpre. cbn [bind].
    apply (render_loop_tab ts Hts).
  - intros c Hc. rewrite (editorUpdateRow_render_loop ts Hts).
    rewrite (render_loop_app ts Hts), Hpre. cbn [bind render_loop].
    apply Ascii.eqb_neq in Hc. now rewrite Hc.
  - reflexivity.
  - reflexivity.
Qed.

Lemma tab_expansion_reaches_stop_witness :
  1 <= 8
  /\ exists r_pre : list ascii,
       let col := Z.of_nat (List.length r_pre) in
       let n := tab_width 8 col in
       editorUpdateRow_render 8 (bytes "abc") = Done r_pre
       /\ 1 <= n <= 8
       /\ (col + n + 1) mod 8 = 0
       /\ editorUpdateRow_render 8 (bytes "abc" ++ TAB :: bytes "x")
          = render_loop 8 (bytes "x") (r_pre ++ repeat SPACE (Z.to_nat n))
       /\ (forall c : ascii, c <> TAB ->
             editorUpdateRow_render 8 (bytes "abc" ++ c :: bytes "x")
             = render_loop 8 (bytes "x") (r_pre ++ [c]))
       /\ editorUpdateRow_render 8 (TAB :: bytes "x")
          = Done (repeat SPACE 7 ++ bytes "x")
       /\ editorUpdateRow_render 8 (bytes "abc" ++ TAB :: bytes "x")
          = Done (bytes "abc" ++ repeat SPACE 4 ++ bytes "x").
Proof.
  split; [lia|].
  apply (tab_expansion_reaches_stop 8 (bytes "abc") (bytes "x")). lia.
Defined.

(** * The selection scenario S2 *)

(** C1, as stated, fails: with the mark at (11,0) the selection is [world]
    followed by a newline byte, and cutting it leaves [hello] without the
    blank. *)
Lemma selection_to_column_11_is_not_world :
  (f <- hello_world 11 ;; selected f) <> Done (Some "world"%string)
  /\ (f <- hello_world 11 ;; f' <- cut_selection_lua 22 80 f ;;
      Done (row_chars f')) <> Done ["hello "%string].
Proof. split; intro H; vm_compute in H; discriminate H. Qed.

(** C1 (amended).  The selection includes the cell under the mark.  With the
    single row [hello world] and the cursor at (6,0): when the mark is
    (11,0), one past the last byte, [selection] returns [world] followed by
    the newline byte that [at] reads there; when the mark is (10,0),
    [selection] returns exactly [world], and a subsequent [cut_selection]
    leaves the buffer as the single row [hello ], with the cursor at (6,0),
    and clears the mark to (-1,-1). *)
Theorem selection_reaches_the_mark_cell :
  (f <- hello_world 11 ;; Done (cx f + coloff f, cy f + rowoff f, markx f, marky f))
  = Done (6, 0, 11, 0)
  /\ (f <- hello_world 11 ;; selected f)
     = Done (Some (String.append "world" (String NEWLINE EmptyString)))
  /\ (f <- hello_world 10 ;; selected f) = Done (Some "world"%string)
  /\ (f <- hello_world 10 ;; f' <- cut_selection_lua 22 80 f ;;
      Done (row_chars f', row_renders f', numrows f',
            (cx f' + coloff f', cy f' + rowoff f'), (markx f', marky f')))
     = Done (["hello "%string], ["hello "%string], 1, (6, 0), (-1, -1)).
Proof. repeat split; vm_compute; reflexivity. Qed.

(** * Selection (C3) *)

Section Selection.

Variables sr sc : Z.
Variable rows : list erow.
Hypothesis fit : rows_fit sc rows.

Lemma valid_row (p : pos) :
  valid_pos rows p ->
  exists r, nth_error rows (Z.to_nat (snd p)) = Some r
            /\ row_size rows (snd p) = size r /\ size r < sc.
Proof.
  intros [Hy Hx]. unfold row_size in *.
  destruct (nth_error rows (Z.to_nat (snd p))) as [r|] eqn:E.
  - exists r. repeat split.
    unfold rows_fit in fit. rewrite Forall_forall in fit.
    apply (fit r). eapply nth_error_In; eauto.
  - apply nth_error_None in E. lia.
Qed.

Lemma holds_row_at (f : fileState) (p : pos) (y : Z) (r : erow) :
  holds rows f p -> 0 <= y -> nth_error rows (Z.to_nat y) = Some r ->
  row_at f y = Done r.
Proof.
  intros (Hrow & _) Hy Hr. unfold row_at.
  destruct (Z.ltb_spec y 0); [lia|]. now rewrite Hrow, Hr.
Qed.

Lemma next_pos_valid (p : pos) : steppable rows p -> valid_pos rows (next_pos rows p).
Proof.
  intros [[Hy Hx] Hs]. unfold next_pos, valid_pos.
  destruct (Z.ltb_spec (fst p) (row_size rows (snd p))); cbn [fst snd].
  - lia.
  - split; [lia|]. split; [lia|]. unfold row_size.
    destruct (nth_error rows (Z.to_nat (snd p + 1))); [unfold size|]; lia.
Qed.

(** One step to the right moves the cursor from [p] to its successor and
    changes nothing but the cursor. *)
Lemma move_right_next (f : fileState) (p : pos) :
  holds rows f p -> steppable rows p ->
  exists f', editorMoveCursor sr sc ARROW_RIGHT f = Done f'
             /\ holds rows f' (next_pos rows p)
             /\ restore_cursor f f' = f.
Proof.
  intros Hf [Hv Hs].
  destruct (valid_row p Hv) as (r & Hr & Hsz & Hfit).
  pose proof Hf as (Hrow & Hnum & Hco & Hcx & Hcy).
  destruct Hv as [Hy Hx].
  pose proof (next_pos_valid p (conj (conj Hy Hx) Hs)) as Hnv.
  unfold editorMoveCursor, row_ptr.
  rewrite Hcy, Hnum.
  destruct (Z.geb_spec (snd p) (Z.of_nat (List.length rows))); [lia|].
  rewrite (holds_row_at f p (snd p) r Hf ltac:(lia) Hr). cbn [bind].
  rewrite Hco, Hcx. cbn [Z.add]. rewrite <- Hsz.
  unfold next_pos in *.
  destruct (Z.ltb_spec (fst p) (row_size rows (snd p))) as [Hlt|Hge].
  - (* inside the row *)
    destruct (Z.eqb_spec (fst p) (sc - 1)); [lia|]. cbn [bind].
    cbn [rowoff cy coloff cx set_cx numrows row]. rewrite Hcy, Hnum, Hco.
    destruct (Z.geb_spec (snd p) (Z.of_nat (List.length rows))); [lia|].
    assert (Hr' : row_at (set_cx (fst p + 1) f) (snd p) = Done r).
    { unfold row_at. destruct (Z.ltb_spec (snd p) 0); [lia|].
      cbn [row set_cx]. now rewrite Hrow, Hr. }
    rewrite Hr'. cbn [bind]. rewrite <- Hsz.
    destruct (Z.gtb_spec (0 + (fst p + 1)) (row_size rows (snd p))); [lia|].
    eexists. split; [reflexivity|]. split.
    + repeat split; cbn; auto.
    + unfold restore_cursor. destruct f; cbn in *. subst. reflexivity.
  - (* at the end of the row *)
    assert (Hend : fst p = row_size rows (snd p)) by lia.
    destruct Hs as [Hs|Hs]; [lia|].
    destruct (Z.eqb_spec (fst p) (row_size rows (snd p))); [|lia].
    cbn [fst snd] in Hnv.
    destruct (valid_row (0, snd p + 1) Hnv) as (r' & Hr2 & Hsz2 & _).
    cbn [fst snd] in *.
    destruct (Z.eqb_spec (cy f) (sr - 1)).
    + cbn [bind]. cbn [rowoff cy coloff cx set_cx set_coloff set_rowoff numrows row].
      replace (rowoff f + 1 + cy f) with (snd p + 1) by lia. rewrite Hnum.
      destruct (Z.geb_spec (snd p + 1) (Z.of_nat (List.length rows))); [lia|].
      assert (Hr' : row_at (set_rowoff (rowoff f + 1) (set_coloff 0 (set_cx 0 f)))
                      (snd p + 1) = Done r').
      { unfold row_at. destruct (Z.ltb_spec (snd p + 1) 0); [lia|].
        cbn [row set_cx set_coloff set_rowoff]. now rewrite Hrow, Hr2. }
      rewrite Hr'. cbn [bind].
      destruct (Z.gtb_spec (0 + 0) (size r')); [unfold size in *; lia|].
      eexists. split; [reflexivity|]. split.
      * repeat split; cbn; auto; lia.
      * unfold restore_cursor. destruct f; cbn in *. subst. reflexivity.
    + destruct (Z.ltb_spec (snd p) (Z.of_nat (List.length rows) - 1)); [|lia].
      cbn [bind]. cbn [rowoff cy coloff cx set_cx set_coloff set_cy numrows row].
      replace (rowoff f + (cy f + 1)) with (snd p + 1) by lia. rewrite Hnum.
      destruct (Z.geb_spec (snd p + 1) (Z.of_nat (List.length rows))); [lia|].
      assert (Hr' : row_at (set_cy (cy f + 1) (set_coloff 0 (set_cx 0 f)))
                      (snd p + 1) = Done r').
      { unfold row_at. destruct (Z.ltb_spec (snd p + 1) 0); [lia|].
        cbn [row set_cx set_coloff set_cy]. now rewrite Hrow, Hr2. }
      rewrite Hr'. cbn [bind].
      destruct (Z.gtb_spec (0 + 0) (size r')); [unfold size in *; lia|].
      eexists. split; [reflexivity|]. split.
      * repeat split; cbn; auto; lia.
      * unfold restore_cursor. destruct f; cbn in *. subst. reflexivity.
Qed.

(** One step to the left moves the cursor from the successor of [p] back
    to [p]. *)
Lemma move_left_back (f : fileState) (p : pos) :
  holds rows f (next_pos rows p) -> steppable rows p ->
  exists f', editorMoveCursor sr sc ARROW_LEFT f = Done f'
             /\ holds rows f' p
             /\ restore_cursor f f' = f.
Proof.
  intros Hf [Hv Hs].
  destruct (valid_row p Hv) as (r & Hr & Hsz & Hfit).
  pose proof Hf as (Hrow & Hnum & Hco & Hcx & Hcy).
  destruct Hv as [Hy Hx].
  unfold editorMoveCursor, row_ptr. rewrite Hcy, Hco, Hcx.
  unfold next_pos in *.
  destruct (Z.ltb_spec (fst p) (row_size rows (snd p))) as [Hlt|Hge];
    cbn [fst snd] in *.
  - (* back inside the row *)
    destruct (Z.eqb_spec (fst p + 1) 0); [lia|]. cbn [bind].
    cbn [rowoff cy coloff cx set_cx numrows row]. rewrite Hcy, Hnum, Hco.
    destruct (Z.geb_spec (snd p) (Z.of_nat (List.length rows))); [lia|].
    assert (Hr' : row_at (set_cx (fst p + 1 - 1) f) (snd p) = Done r).
    { unfold row_at. destruct (Z.ltb_spec (snd p) 0); [lia|].
      cbn [row set_cx]. now rewrite Hrow, Hr. }
    rewrite Hr'. cbn [bind]. rewrite <- Hsz.
    destruct (Z.gtb_spec (0 + (fst p + 1 - 1)) (row_size rows (snd p))); [lia|].
    eexists. split; [reflexivity|]. split.
    + repeat split; cbn; auto; lia.
    + unfold restore_cursor. destruct f; cbn in *. subst. reflexivity.
  - (* back to the end of the row above *)
    assert (Hend : fst p = size r) by lia.
    cbn [Z.eqb negb].
    destruct (Z.gtb_spec (snd p + 1) 0); [|lia].
    replace (snd p + 1 - 1) with (snd p) by lia.
    rewrite (holds_row_at f _ (snd p) r Hf ltac:(lia) Hr). cbn [bind].
    cbn [cx set_cx].
    destruct (Z.gtb_spec (size r) (sc - 1)); [lia|]. cbn [bind].
    cbn [rowoff cy coloff cx set_cx set_cy numrows row].
    replace (rowoff f + (cy f - 1)) with (snd p) by lia. rewrite Hnum.
    destruct (Z.geb_spec (snd p) (Z.of_nat (List.length rows))); [lia|].
    assert (Hr' : row_at (set_cx (size r) (set_cy (cy f - 1) f)) (snd p) = Done r).
    { unfold row_at. destruct (Z.ltb_spec (snd p) 0); [lia|].
      cbn [row set_cx set_cy]. now rewrite Hrow, Hr. }
    rewrite Hr'. cbn [bind]. rewrite Hco.
    destruct (Z.gtb_spec (0 + size r) (size r)); [lia|].
    eexists. split; [reflexivity|]. split.
    + repeat split; cbn; auto; lia.
    + unfold restore_cursor. destruct f; cbn in *. subst. reflexivity.
Qed.

(** [at] yields the byte of the cursor position. *)
Lemma at_byte (f : fileState) (p : pos) :
  holds rows f p -> 0 <= fst p -> 0 <= snd p -> at_ f = Done (byte_at rows p).
Proof.
  intros Hf Hx Hy. pose proof Hf as (Hrow & Hnum & Hco & Hcx & Hcy).
  unfold at_, byte_at, row_ptr. rewrite Hcy, Hnum, Hcx.
  destruct (Z.geb_spec (snd p) (Z.of_nat (List.length rows))).
  - assert (nth_error rows (Z.to_nat (snd p)) = None) as ->
      by (apply nth_error_None; lia). reflexivity.
  - destruct (nth_error rows (Z.to_nat (snd p))) as [r|] eqn:Hr.
    + rewrite (holds_row_at f p (snd p) r Hf Hy Hr). cbn [bind].
      destruct (fst p <? rsize r); [|reflexivity].
      destruct (Z.ltb_spec (fst p) 0); [lia|reflexivity].
    + apply nth_error_None in Hr. lia.
Qed.

Lemma nth_next_shift (k : nat) (p : pos) :
  nth_next rows k (next_pos rows p) = nth_next rows (S k) p.
Proof.
  induction k as [|k IH]; [reflexivity|].
  cbn [nth_next] in *. now rewrite IH.
Qed.

Lemma span_snoc (n : nat) (p : pos) :
  span rows (S n) p = span rows n p ++ [nth_next rows n p].
Proof.
  revert p. induction n as [|n IH]; intros p; [reflexivity|].
  change (span rows (S (S n)) p) with (p :: span rows (S n) (next_pos rows p)).
  rewrite IH, nth_next_shift. reflexivity.
Qed.

Lemma only_cursor_trans (f g h : fileState) :
  only_cursor f g -> only_cursor g h -> only_cursor f h.
Proof.
  unfold only_cursor, restore_cursor. intros Hfg Hgh.
  rewrite <- Hfg at 5. rewrite <- Hgh. destruct h; reflexivity.
Qed.

Lemma only_cursor_mark (f g : fileState) (B : pos) :
  only_cursor f g -> mark_at f B -> mark_at g B.
Proof.
  unfold only_cursor, restore_cursor, mark_at. intros <-. destruct g; auto.
Qed.

Lemma at_mark_here (f : fileState) (q B : pos) :
  holds rows f q -> mark_at f B -> at_mark f = true <-> q = B.
Proof.
  intros (_ & _ & Hco & Hcx & Hcy) [Hmx Hmy]. unfold at_mark.
  rewrite Hco, Hcx, Hcy, Hmx, Hmy. cbn [Z.add].
  rewrite andb_true_iff, !Z.eqb_eq. destruct q, B; cbn. split.
  - intros [-> ->]. reflexivity.
  - intros [= -> ->]. auto.
Qed.

Lemma steppable_nonneg (p : pos) : steppable rows p -> 0 <= fst p /\ 0 <= snd p.
Proof. intros [[Hy Hx] _]. lia. Qed.

(** The walk to the right from [A] to its [(n + 1)]-th successor [B], the
    mark: it appends the bytes of [A] and of its first [n] successors. *)
Lemma walk_right (n : nat) (B : pos) :
  forall (fuel : nat) (f : fileState) (A : pos) (acc : list ascii),
    nth_next rows (S n) A = B ->
    (forall k, (k <= n)%nat -> steppable rows (nth_next rows k A)) ->
    (forall k, (1 <= k <= n)%nat -> nth_next rows k A <> B) ->
    holds rows f A -> mark_at f B -> (n < fuel)%nat ->
    exists f',
      selection_walk sr sc fuel ARROW_RIGHT f acc
      = Done (acc ++ text_from rows (S n) A, f')
      /\ holds rows f' B /\ only_cursor f f'.
Proof.
  induction n as [|n IH]; intros fuel f A acc HB Hstep Hne Hf Hm Hfuel;
    (destruct fuel as [|fuel]; [lia|]); cbn [selection_walk].
  - pose proof (Hstep 0%nat ltac:(lia)) as HA. cbn in HA.
    destruct (steppable_nonneg A HA) as [Hx Hy].
    rewrite (at_byte f A Hf Hx Hy). cbn [bind].
    destruct (move_right_next f A Hf HA) as (f1 & -> & Hf1 & Hoc). cbn [bind].
    assert (Hat : at_mark f1 = true).
    { apply (at_mark_here f1 (next_pos rows A) B Hf1).
      - eapply only_cursor_mark; eauto.
      - exact HB. }
    rewrite Hat. exists f1. cbn [nth_next] in HB. subst B.
    split; [reflexivity|split; [exact Hf1|exact Hoc]].
  - pose proof (Hstep 0%nat ltac:(lia)) as HA. cbn in HA.
    destruct (steppable_nonneg A HA) as [Hx Hy].
    rewrite (at_byte f A Hf Hx Hy). cbn [bind].
    destruct (move_right_next f A Hf HA) as (f1 & -> & Hf1 & Hoc). cbn [bind].
    assert (Hm1 : mark_at f1 B) by (eapply only_cursor_mark; eauto).
    assert (Hat : at_mark f1 = false).
    { destruct (at_mark f1) eqn:E; [|reflexivity].
      apply (at_mark_here f1 (next_pos rows A) B Hf1 Hm1) in E.
      exfalso. apply (Hne 1%nat ltac:(lia)). exact E. }
    rewrite Hat.
    assert (HB' : nth_next rows (S n) (next_pos rows A) = B)
      by (rewrite nth_next_shift; exact HB).
    assert (Hstep' : forall k, (k <= n)%nat ->
                       steppable rows (nth_next rows k (next_pos rows A)))
      by (intros k Hk; rewrite nth_next_shift; apply Hstep; lia).
    assert (Hne' : forall k, (1 <= k <= n)%nat ->
                     nth_next rows k (next_pos rows A) <> B)
      by (intros k Hk; rewrite nth_next_shift; apply Hne; lia).
    destruct (IH fuel f1 (next_pos rows A) (acc ++ [byte_at rows A])
                HB' Hstep' Hne' Hf1 Hm1 ltac:(lia))
      as (f' & Hwalk & Hf' & Hoc').
    exists f'. rewrite Hwalk. split; [|split; [exact Hf'|]].
    + rewrite <- app_assoc. reflexivity.
    + eapply only_cursor_trans; eauto.
Qed.

(** The walk to the left from the [(n + 1)]-th successor of [A] down to
    [A], the mark: it appends the bytes of these successors, last first. *)
Lemma walk_left (n : nat) (A : pos) :
  forall (fuel : nat) (f : fileState) (acc : list ascii),
    (forall k, (k <= n)%nat -> steppable rows (nth_next rows k A)) ->
    (forall k, (1 <= k <= n)%nat -> nth_next rows k A <> A) ->
    holds rows f (nth_next rows (S n) A) -> mark_at f A -> (n < fuel)%nat ->
    exists f',
      selection_walk sr sc fuel ARROW_LEFT f acc
      = Done (acc ++ rev (text_from rows (S n) (next_pos rows A)), f')
      /\ holds rows f' A /\ only_cursor f f'.
Proof.
  induction n as [|n IH]; intros fuel f acc Hstep Hne Hf Hm Hfuel;
    (destruct fuel as [|fuel]; [lia|]); cbn [selection_walk].
  - pose proof (Hstep 0%nat ltac:(lia)) as HA. cbn in HA.
    pose proof (next_pos_valid A HA) as [Hy Hx].
    change (nth_next rows 1 A) with (next_pos rows A) in Hf.
    rewrite (at_byte f _ Hf ltac:(lia) ltac:(lia)). cbn [bind].
    destruct (move_left_back f A Hf HA) as (f1 & -> & Hf1 & Hoc). cbn [bind].
    assert (Hat : at_mark f1 = true).
    { apply (at_mark_here f1 A A Hf1); [|reflexivity].
      eapply only_cursor_mark; eauto. }
    rewrite Hat. exists f1.
    split; [reflexivity|split; [exact Hf1|exact Hoc]].
  - pose proof (Hstep (S n) ltac:(lia)) as Hq.
    pose proof (next_pos_valid _ Hq) as [Hy Hx].
    change (nth_next rows (S (S n)) A)
      with (next_pos rows (nth_next rows (S n) A)) in Hf.
    rewrite (at_byte f _ Hf ltac:(lia) ltac:(lia)). cbn [bind].
    destruct (move_left_back f _ Hf Hq) as (f1 & -> & Hf1 & Hoc). cbn [bind].
    assert (Hm1 : mark_at f1 A) by (eapply only_cursor_mark; eauto).
    assert (Hat : at_mark f1 = false).
    { destruct (at_mark f1) eqn:E; [|reflexivity].
      apply (at_mark_here f1 _ A Hf1 Hm1) in E.
      exfalso. apply (Hne (S n) ltac:(lia)). exact E. }
    rewrite Hat.
    assert (Hstep' : forall k, (k <= n)%nat -> steppable rows (nth_next rows k A))
      by (intros k Hk; apply Hstep; lia).
    assert (Hne' : forall k, (1 <= k <= n)%nat -> nth_next rows k A <> A)
      by (intros k Hk; apply Hne; lia).
    destruct (IH fuel f1 (acc ++ [byte_at rows (next_pos rows (nth_next rows (S n) A))])
                Hstep' Hne' Hf1 Hm1 ltac:(lia))
      as (f' & Hwalk & Hf' & Hoc').
    exists f'. rewrite Hwalk. split; [|split; [exact Hf'|]].
    + rewrite <- app_assoc. f_equal. unfold text_from.
      rewrite (span_snoc (S n)), map_app, rev_app_distr. cbn [map rev app].
      rewrite nth_next_shift. reflexivity.
    + eapply only_cursor_trans; eauto.
Qed.

(** *** The rank of a position *)

Lemma total_cells_app (l1 l2 : list erow) :
  total_cells (l1 ++ l2) = total_cells l1 + total_cells l2.
Proof.
  unfold total_cells.
  induction l1 as [|r l1 IH]; cbn [app fold_right]; [lia|]. rewrite IH. lia.
Qed.

Lemma total_cells_nonneg (l : list erow) : 0 <= total_cells l.
Proof.
  unfold total_cells.
  induction l as [|r l IH]; cbn [fold_right]; [lia|].
  assert (0 <= size r) by (unfold size; lia). lia.
Qed.

Lemma firstn_succ_nth (l : list erow) (n : nat) (r : erow) :
  nth_error l n = Some r -> firstn (S n) l = firstn n l ++ [r].
Proof.
  revert n. induction l as [|a l IH]; intros [|n] H; cbn in *; try discriminate.
  - now injection H as ->.
  - f_equal. now apply IH.
Qed.

Lemma total_cells_firstn_le (l : list erow) (a b : nat) :
  (a <= b)%nat -> total_cells (firstn a l) <= total_cells (firstn b l).
Proof.
  intros Hab.
  rewrite <- (firstn_skipn a (firstn b l)), firstn_firstn, total_cells_app.
  rewrite Nat.min_l by lia.
  pose proof (total_cells_nonneg (skipn a (firstn b l))). lia.
Qed.

Lemma total_cells_firstn_all (a : nat) :
  total_cells (firstn a rows) <= total_cells rows.
Proof.
  rewrite <- (firstn_skipn a rows) at 2. rewrite total_cells_app.
  pose proof (total_cells_nonneg (skipn a rows)). lia.
Qed.

Lemma lin_next (p : pos) :
  steppable rows p -> lin rows (next_pos rows p) = lin rows p + 1.
Proof.
  intros [Hv Hs]. destruct (valid_row p Hv) as (r & Hr & Hsz & _).
  destruct Hv as [Hy Hx]. unfold lin, next_pos.
  destruct (Z.ltb_spec (fst p) (row_size rows (snd p))); cbn [fst snd]; [lia|].
  replace (Z.to_nat (snd p + 1)) with (S (Z.to_nat (snd p))) by lia.
  rewrite (firstn_succ_nth rows _ r Hr), total_cells_app.
  unfold total_cells at 2. cbn [fold_right]. lia.
Qed.

Lemma lin_nth_next (n : nat) (p : pos) :
  (forall k, (k < n)%nat -> steppable rows (nth_next rows k p)) ->
  lin rows (nth_next rows n p) = lin rows p + Z.of_nat n.
Proof.
  induction n as [|n IH]; intros H; cbn [nth_next]; [lia|].
  rewrite lin_next by (apply H; lia). rewrite IH by (intros k Hk; apply H; lia).
  lia.
Qed.

Lemma lin_row_end (p : pos) :
  valid_pos rows p ->
  lin rows p < total_cells (firstn (S (Z.to_nat (snd p))) rows).
Proof.
  intros Hv. destruct (valid_row p Hv) as (r & Hr & Hsz & _).
  destruct Hv as [Hy Hx]. unfold lin.
  rewrite (firstn_succ_nth rows _ r Hr), total_cells_app.
  unfold total_cells at 3. cbn [fold_right]. lia.
Qed.

Lemma lin_before (p q : pos) :
  valid_pos rows p -> valid_pos rows q -> before p q ->
  lin rows p < lin rows q.
Proof.
  intros Hp Hq [Hlt|[Heq Hlt]].
  - pose proof (lin_row_end p Hp).
    pose proof (total_cells_firstn_le rows (S (Z.to_nat (snd p)))
                  (Z.to_nat (snd q))) as Hle.
    destruct Hp as [Hpy _], Hq as [Hqy Hqx]. unfold lin at 2.
    specialize (Hle ltac:(lia)). lia.
  - unfold lin. rewrite Heq. lia.
Qed.

Lemma next_before (p B : pos) :
  valid_pos rows p -> valid_pos rows B -> before p B ->
  steppable rows p /\ (next_pos rows p = B \/ before (next_pos rows p) B).
Proof.
  intros Hp HB Hb. pose proof Hp as [Hpy Hpx]. pose proof HB as [Hby Hbx].
  assert (Hs : steppable rows p).
  { split; [exact Hp|]. destruct Hb as [Hlt|[Heq Hlt]]; [lia|].
    rewrite Heq. lia. }
  split; [exact Hs|]. unfold next_pos, before.
  destruct (Z.ltb_spec (fst p) (row_size rows (snd p))); cbn [fst snd].
  - destruct Hb as [Hlt|[Heq Hlt]]; [lia|].
    destruct (Z.eq_dec (fst p + 1) (fst B)) as [E|E].
    + left. destruct B; cbn in *. now subst.
    + right. lia.
  - destruct Hb as [Hlt|[Heq Hlt]]; [|rewrite Heq in *; lia].
    destruct (Z.eq_dec (snd p + 1) (snd B)) as [E|E]; [|lia].
    destruct (Z.eq_dec 0 (fst B)) as [E0|E0].
    + left. destruct B; cbn in *. now subst.
    + right. lia.
Qed.

(** Every later valid position is reached by stepping. *)
Lemma reach (B : pos) (m : nat) :
  forall p : pos,
    valid_pos rows p -> valid_pos rows B -> before p B ->
    lin rows B - lin rows p <= Z.of_nat (S m) ->
    exists n : nat,
      nth_next rows (S n) p = B
      /\ forall k, (k <= n)%nat -> steppable rows (nth_next rows k p).
Proof.
  induction m as [|m IH]; intros p Hp HB Hb Hlin;
    destruct (next_before p B Hp HB Hb) as [Hs [Hq|Hq]].
  - exists 0%nat. split; [exact Hq|]. intros k Hk.
    replace k with 0%nat by lia. exact Hs.
  - pose proof (lin_next p Hs).
    pose proof (lin_before _ _ (next_pos_valid p Hs) HB Hq). lia.
  - exists 0%nat. split; [exact Hq|]. intros k Hk.
    replace k with 0%nat by lia. exact Hs.
  - pose proof (lin_next p Hs) as Hl.
    destruct (IH (next_pos rows p) (next_pos_valid p Hs) HB Hq ltac:(lia))
      as (n & Hn & Hst).
    exists (S n). split.
    + rewrite <- nth_next_shift. exact Hn.
    + intros [|k] Hk; [exact Hs|]. rewrite <- nth_next_shift. apply Hst. lia.
Qed.

Lemma selection_fuel_cells (f : fileState) :
  Z.of_nat (selection_fuel f) = total_cells (row f) + 2.
Proof.
  unfold selection_fuel, total_cells.
  induction (row f) as [|r l IH]; cbn [fold_right]; [reflexivity|].
  unfold size at 1. lia.
Qed.

(** *** The text of a selection holds rows no NUL *)

Lemma byte_at_not_NUL (p : pos) : 0 <= fst p -> byte_at rows p <> NUL.
Proof.
  intros Hx. unfold byte_at.
  destruct (nth_error rows (Z.to_nat (snd p))) as [r|] eqn:Hr; [|discriminate].
  destruct (Z.ltb_spec (fst p) (rsize r)); [|discriminate].
  unfold rows_fit in fit. rewrite Forall_forall in fit.
  destruct (fit r (nth_error_In _ _ Hr)) as [_ Hnul].
  rewrite Forall_forall in Hnul. apply Hnul, nth_In. unfold rsize in *. lia.
Qed.

Lemma strlen_no_NUL (l : list ascii) :
  Forall (fun c => c <> NUL) l -> strlen l = List.length l.
Proof.
  induction 1 as [|c l Hc _ IH]; [reflexivity|].
  cbn [strlen List.length]. apply Ascii.eqb_neq in Hc. now rewrite Hc, IH.
Qed.

Lemma strrev_no_NUL (l : list ascii) :
  Forall (fun c => c <> NUL) l -> strrev l = rev l.
Proof.
  intros H. unfold strrev. rewrite (strlen_no_NUL l H).
  rewrite firstn_all, skipn_all. apply app_nil_r.
Qed.

Lemma text_from_no_NUL (n : nat) (p : pos) :
  (forall k, (k < n)%nat -> 0 <= fst (nth_next rows k p)) ->
  Forall (fun c => c <> NUL) (text_from rows n p).
Proof.
  revert p. induction n as [|n IH]; intros p H; [constructor|].
  unfold text_from. cbn [span map]. constructor.
  - apply byte_at_not_NUL. apply (H 0%nat). lia.
  - apply IH. intros k Hk. rewrite nth_next_shift. apply H. lia.
Qed.

(** *** Both directions *)

Lemma before_cursor_after_mark (f : fileState) (A B : pos) :
  holds rows f B -> mark_at f A -> before A B -> cursor_after_mark f = true.
Proof.
  intros (_ & _ & Hco & Hcx & Hcy) [Hmx Hmy] Hb. unfold cursor_after_mark.
  rewrite Hco, Hcx, Hcy, Hmx, Hmy. cbn [Z.add]. unfold before in Hb.
  destruct (Z.gtb_spec (snd B) (snd A)); [reflexivity|]. cbn [orb].
  destruct (Z.gtb_spec (fst B) (fst A)), (Z.eqb_spec (snd B) (snd A));
    cbn [andb]; lia.
Qed.

Lemma before_cursor_before_mark (f : fileState) (A B : pos) :
  holds rows f A -> mark_at f B -> before A B -> cursor_after_mark f = false.
Proof.
  intros (_ & _ & Hco & Hcx & Hcy) [Hmx Hmy] Hb. unfold cursor_after_mark.
  rewrite Hco, Hcx, Hcy, Hmx, Hmy. cbn [Z.add]. unfold before in Hb.
  destruct (Z.gtb_spec (snd A) (snd B)); [lia|]. cbn [orb].
  destruct (Z.gtb_spec (fst A) (fst B)), (Z.eqb_spec (snd A) (snd B));
    cbn [andb]; lia.
Qed.

(** With the cursor at the later position [B] and the mark at the earlier
    position [A], or the other way round, [get_selection] returns the bytes
    of the positions from [A] to [B], both included, and restores the
    cursor. *)
Lemma selection_both_ways (f1 f2 : fileState) (A B : pos) :
  valid_pos rows A -> valid_pos rows B -> before A B ->
  holds rows f1 B -> mark_at f1 A ->
  holds rows f2 A -> mark_at f2 B ->
  exists n : nat,
    nth_next rows (S n) A = B
    /\ get_selection sr sc f1 = Done (text_from rows (S (S n)) A, f1)
    /\ get_selection sr sc f2 = Done (text_from rows (S (S n)) A, f2).
Proof.
  intros HA HB Hb Hf1 Hm1 Hf2 Hm2.
  destruct (reach B (Z.to_nat (lin rows B - lin rows A)) A HA HB Hb ltac:(lia))
    as (n & Hn & Hstep).
  assert (Hlin : forall k, (k <= S n)%nat ->
                   lin rows (nth_next rows k A) = lin rows A + Z.of_nat k).
  { intros k Hk. apply lin_nth_next. intros j Hj. apply Hstep. lia. }
  assert (HneB : forall k, (1 <= k <= n)%nat -> nth_next rows k A <> B).
  { intros k Hk E. pose proof (Hlin k ltac:(lia)) as H1.
    pose proof (Hlin (S n) ltac:(lia)) as H2. rewrite E in H1. rewrite Hn in H2. lia. }
  assert (HneA : forall k, (1 <= k <= n)%nat -> nth_next rows k A <> A).
  { intros k Hk E. pose proof (Hlin k ltac:(lia)) as H1. rewrite E in H1. lia. }
  assert (Hfuel : forall f, row f = rows -> (n < selection_fuel f)%nat).
  { intros f Hrow. pose proof (selection_fuel_cells f) as Hc. rewrite Hrow in Hc.
    pose proof (Hlin (S n) ltac:(lia)) as H2. rewrite Hn in H2.
    pose proof (lin_row_end B HB) as He.
    pose proof (total_cells_firstn_all (S (Z.to_nat (snd B)))).
    assert (0 <= lin rows A).
    { unfold lin. pose proof (total_cells_nonneg (firstn (Z.to_nat (snd A)) rows)).
      destruct HA as [_ ?]. lia. }
    lia. }
  assert (Hnn : forall k, (k < S (S n))%nat -> 0 <= fst (nth_next rows k A)).
  { intros k Hk. destruct (Nat.eq_dec k (S n)) as [->|].
    - rewrite Hn. destruct HB as [_ ?]. lia.
    - apply steppable_nonneg, Hstep. lia. }
  exists n. split; [exact Hn|]. split.
  - unfold get_selection.
    rewrite (before_cursor_after_mark f1 A B Hf1 Hm1 Hb).
    rewrite <- Hn in Hf1.
    destruct (walk_left n A (selection_fuel f1) f1 [] Hstep HneA Hf1 Hm1
                (Hfuel f1 (proj1 Hf1))) as (f' & -> & Hf' & Hoc).
    cbn [bind app].
    destruct HA as [HAy HAx].
    rewrite (at_byte f' A Hf' ltac:(lia) ltac:(lia)). cbn [bind].
    change (set_rowoff (rowoff f1) (set_coloff (coloff f1) (set_cy (cy f1)
              (set_cx (cx f1) f')))) with (restore_cursor f1 f').
    rewrite Hoc. do 2 f_equal.
    assert (E : rev (text_from rows (S n) (next_pos rows A)) ++ [byte_at rows A]
                = rev (text_from rows (S (S n)) A)).
    { unfold text_from. cbn [span map rev]. reflexivity. }
    rewrite E, strrev_no_NUL.
    + apply rev_involutive.
    + apply Forall_rev, text_from_no_NUL, Hnn.
  - unfold get_selection.
    rewrite (before_cursor_before_mark f2 A B Hf2 Hm2 Hb).
    destruct (walk_right n B (selection_fuel f2) f2 A [] Hn Hstep HneB Hf2 Hm2
                (Hfuel f2 (proj1 Hf2))) as (f' & -> & Hf' & Hoc).
    cbn [bind app].
    destruct HB as [HBy HBx].
    rewrite (at_byte f' B Hf' ltac:(lia) ltac:(lia)). cbn [bind].
    change (set_rowoff (rowoff f2) (set_coloff (coloff f2) (set_cy (cy f2)
              (set_cx (cx f2) f')))) with (restore_cursor f2 f').
    rewrite Hoc. do 2 f_equal.
    unfold text_from. rewrite (span_snoc (S n)), map_app, Hn. reflexivity.
Qed.

End Selection.

(** C3, as stated, fails: the two calls return the same bytes, in document
    order, so one is not the reversal of the other. *)
Lemma selection_is_not_reversed :
  (f <- ab_row 1 0 ;; selection_text f) = Done (bytes "ab")
  /\ (f <- ab_row 0 1 ;; selection_text f) = Done (bytes "ab")
  /\ (f <- ab_row 1 0 ;; selection_text f)
     <> (f <- ab_row 0 1 ;; s <- selection_text f ;; Done (rev s)).
Proof.
  split; [vm_compute; reflexivity|]. split; [vm_compute; reflexivity|].
  intro H. vm_compute in H. discriminate H.
Qed.

(** C3 (amended).  For every buffer whose rows fit on a screen line and hold
    no NUL byte, with a view that is not scrolled sideways, and every pair
    of distinct valid positions A and B: [get_selection] with the mark at A
    and the cursor at B returns the same byte string as [get_selection]
    with the mark at B and the cursor at A.  It is the text of the positions
    from the earlier of the two to the later, both included, in document
    order (the walk to the left is reversed by [strrev]), and both calls
    leave the state as it was. *)
Theorem selection_is_document_order
    (sr sc : Z) (f1 f2 : fileState) (A B : pos) :
  rows_fit sc (row f1) ->
  valid_pos (row f1) A -> valid_pos (row f1) B -> A <> B ->
  holds (row f1) f1 B -> mark_at f1 A ->
  holds (row f1) f2 A -> mark_at f2 B ->
  exists (s : list ascii) (n : nat),
    get_selection sr sc f1 = Done (s, f1)
    /\ get_selection sr sc f2 = Done (s, f2)
    /\ ((before A B /\ nth_next (row f1) (S n) A = B
         /\ s = text_from (row f1) (S (S n)) A)
        \/ (before B A /\ nth_next (row f1) (S n) B = A
            /\ s = text_from (row f1) (S (S n)) B)).
Proof.
  intros Hfit HA HB Hne Hf1 Hm1 Hf2 Hm2.
  assert (Hord : before A B \/ before B A).
  { unfold before. destruct A as [ax ay], B as [bx by_]. cbn [fst snd].
    destruct (Z.lt_trichotomy ay by_) as [?|[?|?]]; [lia| |lia].
    destruct (Z.lt_trichotomy ax bx) as [?|[?|?]]; [lia| |lia].
    exfalso. apply Hne. subst. reflexivity. }
  destruct Hord as [Hb|Hb].
  - destruct (selection_both_ways sr sc (row f1) Hfit f1 f2 A B
                HA HB Hb Hf1 Hm1 Hf2 Hm2) as (n & Hn & H1 & H2).
    exists (text_from (row f1) (S (S n)) A), n.
    split; [exact H1|split; [exact H2|left; auto]].
  - destruct (selection_both_ways sr sc (row f1) Hfit f2 f1 B A
                HB HA Hb Hf2 Hm2 Hf1 Hm1) as (n & Hn & H2 & H1).
    exists (text_from (row f1) (S (S n)) B), n.
    split; [exact H1|split; [exact H2|right; auto]].
Qed.

Lemma selection_is_document_order_witness :
  let f1 := get (new_buffer None) (ab_row 1 0) in
  let f2 := get (new_buffer None) (ab_row 0 1) in
  exists (s : list ascii) (n : nat),
    get_selection 22 80 f1 = Done (s, f1)
    /\ get_selection 22 80 f2 = Done (s, f2)
    /\ ((before (0, 0) (1, 0) /\ nth_next (row f1) (S n) (0, 0) = (1, 0)
         /\ s = text_from (row f1) (S (S n)) (0, 0))
        \/ (before (1, 0) (0, 0) /\ nth_next (row f1) (S n) (1, 0) = (0, 0)
            /\ s = text_from (row f1) (S (S n)) (1, 0))).
Proof.
  intros f1 f2.
  apply (selection_is_document_order 22 80 f1 f2 (0, 0) (1, 0)).
  - vm_compute. repeat constructor; discriminate.
  - vm_compute. repeat split; discriminate.
  - vm_compute. repeat split; discriminate.
  - discriminate.
  - vm_compute. repeat split.
  - vm_compute. repeat split.
  - vm_compute. repeat split.
  - vm_compute. repeat split.
Defined.

(** * The highlighter *)

(** ** Propagation of the open-comment state (C6) *)

(** The scenario S3 of C6 holds on the code.  With the C delimiters, the
    rows [/* open], [still in], [done */ code] end up with row 0 open, every
    byte of row 1 MLCOMMENT, and row 2 MLCOMMENT up to and including the
    delimiter, the rest being KEYWORD1 (the blank) and NORMAL.  The same
    tags result when the slash that opens the comment is typed in front of
    [* open]: rows 1 and 2 are then repainted by the propagation alone. *)
Lemma comment_rows_are_propagated :
  (f <- comment_rows ;; Done (row_hl_oc f, row_hl f))
  = Done ([true; true; false],
          [repeat HL_MLCOMMENT 7;
           repeat HL_MLCOMMENT 8;
           repeat HL_MLCOMMENT 7 ++ HL_KEYWORD1 :: repeat HL_NORMAL 4])
  /\ (f <- comment_rows_unopened ;; Done (row_hl_oc f, row_hl f))
     = Done ([false; false; false],
             [HL_KEYWORD1 :: HL_KEYWORD1 :: repeat HL_NORMAL 4;
              [HL_NORMAL; HL_NORMAL; HL_NORMAL; HL_NORMAL; HL_NORMAL;
               HL_KEYWORD1; HL_NORMAL; HL_NORMAL];
              repeat HL_NORMAL 4 ++ repeat HL_KEYWORD1 4 ++ repeat HL_NORMAL 4])
  /\ (f <- comment_rows_unopened ;; f1 <- editorInsertChar 22 80 "/" f ;;
      Done (row_chars f1, row_hl_oc f1, row_hl f1))
     = Done (["/* open"; "still in"; "done */ code"]%string,
             [true; true; false],
             [repeat HL_MLCOMMENT 7;
              repeat HL_MLCOMMENT 8;
              repeat HL_MLCOMMENT 7 ++ HL_KEYWORD1 :: repeat HL_NORMAL 4]).
Proof. repeat split; vm_compute; reflexivity. Qed.

(** C6 fails on the code: a change of a row's open-comment state does not
    always reach the next row.

    [editorInsertRow] renders and highlights the new row while [numrows]
    still holds the old count, so the test [idx + 1 < numrows] of
    [editorUpdateSyntax] does not see the row that the insertion has pushed
    down.  Enter pressed in front of the opener of [x // /*zz] makes
    [/*zz] a row of its own, with its comment open, and leaves the row
    [ww yy] below it with the tags it had; the same three rows highlighted
    afresh have every byte of [ww yy] MLCOMMENT.

    The branch for a single-line comment returns from [editorUpdateSyntax]
    before the open-comment state is computed.  A slash typed in front of
    [/* a] turns the row into the single-line comment [//* a]; its
    [hl_oc] stays set and the row below stays MLCOMMENT, while afresh
    neither row has an open comment.

    [editorRowHasOpenComment] compares the last bytes of a row with the
    closing delimiter at [render + rsize - len]; on a row of one byte inside
    a comment that is [render - 1]. *)
Theorem open_comment_state_goes_stale :
  (f <- enter_before_comment ;; Done (row_chars f, row_hl_oc f, row_hl f))
  = Done (["x // "; "/*zz"; "ww yy"]%string,
          [false; true; false],
          [[HL_NORMAL; HL_KEYWORD1; HL_COMMENT; HL_COMMENT; HL_COMMENT];
           repeat HL_MLCOMMENT 4;
           [HL_NORMAL; HL_NORMAL; HL_KEYWORD1; HL_NORMAL; HL_NORMAL]])
  /\ (f <- enter_before_comment_fresh ;;
      Done (row_chars f, row_hl_oc f, row_hl f))
     = Done (["x // "; "/*zz"; "ww yy"]%string,
             [false; true; true],
             [[HL_NORMAL; HL_KEYWORD1; HL_COMMENT; HL_COMMENT; HL_COMMENT];
              repeat HL_MLCOMMENT 4;
              repeat HL_MLCOMMENT 5])
  /\ (f <- slash_before_comment ;; Done (row_chars f, row_hl_oc f, row_hl f))
     = Done (["//* a"; "still in"]%string,
             [true; true],
             [repeat HL_COMMENT 5; repeat HL_MLCOMMENT 8])
  /\ (f <- slash_before_comment_fresh ;;
      Done (row_chars f, row_hl_oc f, row_hl f))
     = Done (["//* a"; "still in"]%string,
             [false; false],
             [repeat HL_COMMENT 5;
              [HL_NORMAL; HL_NORMAL; HL_NORMAL; HL_NORMAL; HL_NORMAL;
               HL_KEYWORD1; HL_NORMAL; HL_NORMAL]])
  /\ short_row_in_comment = Fault (RenderReadOutOfRange (-1)).
Proof. repeat split; vm_compute; reflexivity. Qed.

(** ** The last step of the loop body (C8) *)

(** C8, as stated, fails: the [+] of [a+b] is tagged KEYWORD1. *)
Lemma plus_in_a_plus_b_is_keyword1 :
  (f <- buffer_of ["a+b"%string] ;; f1 <- with_C_syntax f ;; Done (row_hl f1))
  = Done [[HL_NORMAL; HL_KEYWORD1; HL_NORMAL]]
  /\ (f <- buffer_of ["a+b"%string] ;; f1 <- with_C_syntax f ;; Done (row_hl f1))
     <> Done [[HL_NORMAL; HL_NORMAL; HL_NORMAL]].
Proof.
  split; [vm_compute; reflexivity|intro H; vm_compute in H; discriminate H].
Qed.

(** C8 (amended).  A byte that reaches the final step of the loop body is
    tagged KEYWORD1 when it is a separator and keeps its tag (NORMAL since
    the initial fill) otherwise; [prev_sep] becomes [is_separator(byte)] and
    the scan advances by one.  In particular the [+] of [a+b] is tagged
    KEYWORD1, in [kilua.c] and in [kilo.c]. *)
Theorem final_step_tags_separators
    (v : source_variant) (syn : editorSyntax) (rnd : list ascii)
    (t : tok) (c : ascii) :
  reaches_final_step v syn rnd t c ->
  List.length (t_hl t) = List.length rnd ->
  syntax_step v syn rnd t
  = Done (Continue
            {| t_i := t_i t + 1;
               prev_sep := is_separator v c;
               in_string := NUL;
               in_comment := false;
               t_hl := if is_separator v c
                       then list_set (t_hl t) (Z.to_nat (t_i t)) HL_KEYWORD1
                       else t_hl t |})
  /\ (is_separator v c = false -> nth (Z.to_nat (t_i t)) (t_hl t) HL_NORMAL = HL_NORMAL ->
      forall t', syntax_step v syn rnd t = Done (Continue t') ->
                 nth (Z.to_nat (t_i t)) (t_hl t') HL_NORMAL = HL_NORMAL)
  /\ highlight_alone v C_syntax (bytes "a+b")
     = Done [HL_NORMAL; HL_KEYWORD1; HL_NORMAL].
Proof.
  intros (Hc & Hnul & Hcom & Hmcs & Hscs & Hstr & Hq & Hnp & Hnum & Hkw) Hlen.
  assert (Hstep : syntax_step v syn rnd t
    = Done (Continue
            {| t_i := t_i t + 1;
               prev_sep := is_separator v c;
               in_string := NUL;
               in_comment := false;
               t_hl := if is_separator v c
                       then list_set (t_hl t) (Z.to_nat (t_i t)) HL_KEYWORD1
                       else t_hl t |})).
  { unfold syntax_step. rewrite Hc. cbn [bind]. rewrite Hnul, Hcom, Hmcs, Hscs.
    rewrite Hstr. cbn [Ascii.eqb negb]. rewrite Ascii.eqb_refl. cbn [negb].
    rewrite Hq, Hnp, Hnum. cbn [bind].
    unfold syntax_step_word. rewrite Hkw, Hstr, Hcom.
    unfold put_if, hl_put.
    destruct (is_separator v c); [|reflexivity].
    unfold render_byte in Hc.
    destruct (Z.ltb_spec (t_i t) 0); [discriminate Hc|]. cbn [orb] in Hc.
    destruct (Z.ltb_spec (Z.of_nat (List.length rnd)) (t_i t)); [discriminate Hc|].
    injection Hc as Hc.
    assert (t_i t < Z.of_nat (List.length rnd)).
    { destruct (Z.eq_dec (t_i t) (Z.of_nat (List.length rnd))) as [E|]; [|lia].
      exfalso. rewrite E, Nat2Z.id, nth_overflow in Hc by lia.
      subst c. cbn in Hnul. discriminate. }
    rewrite Hlen. cbn [orb].
    destruct (Z.leb_spec (Z.of_nat (List.length rnd)) (t_i t)); [lia|reflexivity]. }
  split; [exact Hstep|]. split.
  - intros Hsep Hn t' Ht'. rewrite Hstep in Ht'. injection Ht' as <-.
    cbn [t_hl]. now rewrite Hsep.
  - destruct v; vm_compute; reflexivity.
Qed.

Lemma final_step_tags_separators_witness :
  let t := {| t_i := 1; prev_sep := false; in_string := NUL;
              in_comment := false; t_hl := repeat HL_NORMAL 3 |} in
  syntax_step Kilua C_syntax (bytes "a+b") t
  = Done (Continue
            {| t_i := 2; prev_sep := true; in_string := NUL;
               in_comment := false;
               t_hl := [HL_NORMAL; HL_KEYWORD1; HL_NORMAL] |}).
Proof.
  intros t.
  apply (final_step_tags_separators Kilua C_syntax (bytes "a+b") t "+"%char).
  - repeat split; vm_compute; reflexivity.
  - reflexivity.
Defined.

(** ** The escape inside a string (C10) *)

(** C10 fails on the code.  In a row whose last rendered byte is a backslash
    inside a string, the escape branch writes [hl[i + 1]] with
    [i + 1 = rsize], one past the [rsize] bytes of [hl]: here the row is a
    quote followed by a backslash, [rsize = 2], and the write goes to index
    2.  This happens in both source files, when such a row is loaded and
    highlighted, and when the backslash is typed at the end of the row. *)
Theorem string_escape_writes_hl_at_rsize :
  (forall v : source_variant,
      highlight_alone v C_syntax [DQUOTE; BACKSLASH]
      = Fault (HlWriteOutOfRange 2))
  /\ (f <- load_lines [[DQUOTE; BACKSLASH]] (new_buffer None) ;;
      with_C_syntax f) = Fault (HlWriteOutOfRange 2)
  /\ (f <- load_lines [[DQUOTE]] (new_buffer None) ;;
      f1 <- with_C_syntax f ;;
      Done (row_hl f1)) = Done [[HL_STRING]]
  /\ (f <- load_lines [[DQUOTE]] (new_buffer None) ;;
      f1 <- with_C_syntax f ;;
      f2 <- warp 22 80 1 0 f1 ;;
      editorInsertChar 22 80 BACKSLASH f2) = Fault (HlWriteOutOfRange 2).
Proof.
  repeat split; try (intros []); vm_compute; reflexivity.
Qed.

(** ** The fuel of the main loop suffices *)

Lemma fuel_sufficed_bind {A B : Type} (m : result A) (k : A -> result B) :
  fuel_sufficed m -> (forall a, m = Done a -> fuel_sufficed (k a)) ->
  fuel_sufficed (bind m k).
Proof.
  unfold fuel_sufficed. destruct m as [a|e]; cbn [bind]; intros Hm Hk.
  - now apply Hk.
  - intros [= ->]. now apply Hm.
Qed.

Lemma fuel_sufficed_done {A : Type} (a : A) : fuel_sufficed (Done a).
Proof. discriminate. Qed.

Lemma hl_put_fuel (h : list hl_t) (i : Z) (t : hl_t) : fuel_sufficed (hl_put h i t).
Proof. unfold hl_put. destruct (_ || _); discriminate. Qed.

Lemma hl_get_fuel (h : list hl_t) (i : Z) : fuel_sufficed (hl_get h i).
Proof. unfold hl_get. destruct (_ || _); discriminate. Qed.

Lemma render_byte_fuel (rnd : list ascii) (i : Z) : fuel_sufficed (render_byte rnd i).
Proof. unfold render_byte. destruct (_ || _); discriminate. Qed.

Lemma put_if_fuel (b : bool) (h : list hl_t) (i : Z) (t : hl_t) :
  fuel_sufficed (put_if b h i t).
Proof. destruct b; [apply hl_put_fuel|discriminate]. Qed.

Lemma hl_fill_fuel (n : nat) (t : hl_t) :
  forall (h : list hl_t) (i : Z), fuel_sufficed (hl_fill h i n t).
Proof.
  induction n as [|n IH]; intros h i; cbn [hl_fill]; [discriminate|].
  apply fuel_sufficed_bind; [apply hl_put_fuel|intros; apply IH].
Qed.

Lemma keyword_match_fuel (v : source_variant) (rnd : list ascii) (i : Z)
    (kws : list (list ascii)) :
  fuel_sufficed (keyword_match v kws rnd i).
Proof.
  induction kws as [|kw kws IH]; cbn [keyword_match]; [discriminate|].
  destruct (strlen kw); [discriminate|].
  destruct (memcmp_eq _ _ _); [|exact IH].
  apply fuel_sufficed_bind; [apply render_byte_fuel|].
  intros c _. destruct (is_separator v c); [discriminate|exact IH].
Qed.

Lemma number_test_fuel (t : tok) (c : ascii) : fuel_sufficed (number_test t c).
Proof.
  unfold number_test.
  apply fuel_sufficed_bind.
  - destruct (isdigit c); [|discriminate]. destruct (prev_sep t); [discriminate|].
    apply fuel_sufficed_bind; [apply hl_get_fuel|discriminate].
  - intros [|] _; [discriminate|]. destruct (_ && _); [|discriminate].
    apply fuel_sufficed_bind; [apply hl_get_fuel|discriminate].
Qed.

Ltac fuel_auto :=
  repeat first
    [ apply fuel_sufficed_done
    | apply hl_put_fuel | apply hl_get_fuel | apply render_byte_fuel
    | apply put_if_fuel | apply hl_fill_fuel | apply keyword_match_fuel
    | apply number_test_fuel
    | apply fuel_sufficed_bind; [|intros ? _]
    | match goal with
      | |- fuel_sufficed (if ?b then _ else _) => destruct b
      | |- fuel_sufficed (match ?m with Some _ => _ | None => _ end) => destruct m
      | |- fuel_sufficed (match ?m with (_, _) => _ end) => destruct m
      end ].

Lemma syntax_step_fuel (v : source_variant) (syn : editorSyntax)
    (rnd : list ascii) (t : tok) :
  fuel_sufficed (syntax_step v syn rnd t).
Proof.
  unfold syntax_step, syntax_step_word. fuel_auto.
Qed.

Lemma render_byte_in_row (rnd : list ascii) (i : Z) (c : ascii) :
  render_byte rnd i = Done c -> Ascii.eqb c NUL = false ->
  0 <= i < Z.of_nat (List.length rnd).
Proof.
  unfold render_byte. intros H Hc.
  destruct (Z.ltb_spec i 0); [discriminate H|]. cbn [orb] in H.
  destruct (Z.ltb_spec (Z.of_nat (List.length rnd)) i); [discriminate H|].
  injection H as H.
  destruct (Z.eq_dec i (Z.of_nat (List.length rnd))) as [E|]; [|lia].
  rewrite E, Nat2Z.id, nth_overflow in H by lia. subst c. discriminate Hc.
Qed.

Ltac step_case H :=
  match type of H with
  | bind ?m _ = Done _ =>
      let x := fresh "x" in
      let E := fresh "E" in
      destruct m as [x|] eqn:E; cbn [bind] in H; [|discriminate H]
  | (if ?b then _ else _) = Done _ =>
      let E := fresh "E" in destruct b eqn:E
  | match ?m with Some _ => _ | None => _ end = Done _ =>
      let E := fresh "E" in destruct m as [[? ?]|] eqn:E
  | Done (Break _) = Done (Continue _) => discriminate H
  | Done (Return _) = Done (Continue _) => discriminate H
  end.

(** Every iteration that continues decreases the measure. *)
Lemma syntax_step_decreases (v : source_variant) (syn : editorSyntax)
    (rnd : list ascii) (t t' : tok) :
  syntax_step v syn rnd t = Done (Continue t') ->
  (tok_measure (List.length rnd) t' < tok_measure (List.length rnd) t)%nat.
Proof.
  intros H. unfold syntax_step in H.
  step_case H. rename x into c, E into Hc.
  step_case H; [discriminate H|]. rename E into Hnul.
  pose proof (render_byte_in_row rnd (t_i t) c Hc Hnul) as Hi.
  unfold tok_measure.
  destruct (in_comment t) eqn:Hcom.
  { step_case H. step_case H.
    - step_case H. injection H as <-. cbn [t_i in_comment prev_sep].
      destruct (prev_sep t); lia.
    - injection H as <-. cbn [t_i in_comment prev_sep].
      destruct (prev_sep t); lia. }
  step_case H.
  { step_case H. injection H as <-. cbn [t_i in_comment prev_sep].
    apply andb_prop in E as [E _]. apply negb_true_iff, Nat.eqb_neq in E.
    destruct (prev_sep t); lia. }
  step_case H; [step_case H; discriminate H|].
  step_case H.
  { step_case H. step_case H.
    - step_case H. injection H as <-. cbn [t_i in_comment prev_sep].
      destruct (prev_sep t); lia.
    - injection H as <-. cbn [t_i in_comment prev_sep].
      destruct (prev_sep t); lia. }
  step_case H.
  { step_case H. injection H as <-. cbn [t_i in_comment prev_sep].
    destruct (prev_sep t); lia. }
  step_case H.
  { step_case H. injection H as <-. cbn [t_i in_comment prev_sep].
    destruct (prev_sep t); lia. }
  step_case H. step_case H.
  { step_case H. injection H as <-. cbn [t_i in_comment prev_sep].
    destruct (prev_sep t); lia. }
  unfold syntax_step_word in H. step_case H. step_case H.
  destruct x1 as [[klen kw2]|].
  - step_case H. injection H as <-. cbn [t_i in_comment prev_sep].
    destruct (prev_sep t); [|discriminate E7]. rewrite Hcom. lia.
  - injection H as <-. cbn [t_i in_comment prev_sep]. rewrite Hcom.
    destruct (prev_sep t), (is_separator v c); lia.
Qed.

(** The main loop never stops for lack of fuel when it is given
    [tok_measure] iterations or more; [syntax_fuel] is that many at the
    start of a row. *)
Lemma syntax_loop_fuel (v : source_variant) (syn : editorSyntax)
    (rnd : list ascii) (fuel : nat) :
  forall t : tok,
    (tok_measure (List.length rnd) t < fuel)%nat ->
    fuel_sufficed (syntax_loop fuel v syn rnd t).
Proof.
  induction fuel as [|fuel IH]; intros t Hm; [lia|].
  cbn [syntax_loop]. apply fuel_sufficed_bind; [apply syntax_step_fuel|].
  intros [t'| |] Hs; [|discriminate|discriminate].
  apply IH. apply syntax_step_decreases in Hs. lia.
Qed.

Lemma syntax_fuel_enough (rnd : list ascii) (t : tok) :
  0 <= t_i t ->
  (tok_measure (List.length rnd) t < syntax_fuel (List.length rnd))%nat.
Proof.
  unfold tok_measure, syntax_fuel. intros Hi.
  destruct (in_comment t), (prev_sep t); lia.
Qed.

Lemma skip_spaces_nonneg (rnd : list ascii) : 0 <= skip_spaces rnd.
Proof.
  induction rnd as [|c rnd IH]; cbn [skip_spaces]; [lia|].
  destruct (_ && _); lia.
Qed.

(** The loop that [editorUpdateSyntax] runs on a row always has enough
    fuel, in both source variants and whatever the syntax and the state of
    the previous row. *)
Lemma highlight_loop_has_fuel (v : source_variant) (syn : editorSyntax)
    (rnd : list ascii) (inc : bool) (h : list hl_t) :
  fuel_sufficed
    (syntax_loop (syntax_fuel (List.length rnd)) v syn rnd
       {| t_i := skip_spaces rnd; prev_sep := true; in_string := NUL;
          in_comment := inc; t_hl := h |}).
Proof.
  apply syntax_loop_fuel, syntax_fuel_enough. cbn [t_i].
  apply skip_spaces_nonneg.
Qed.

(** ** The fuel of the row recursions suffices *)

Lemma row_at_fuel (f : fileState) (i : Z) : fuel_sufficed (row_at f i).
Proof.
  unfold row_at. destruct (_ <? _); [discriminate|].
  destruct (nth_error _ _); discriminate.
Qed.

Lemma row_put_fuel (f : fileState) (i : Z) (r : erow) :
  fuel_sufficed (row_put f i r).
Proof. unfold row_put. destruct (_ || _); discriminate. Qed.

Lemma same_text_consistent (f f' : fileState) :
  same_text f f' -> index_consistent f -> index_consistent f'.
Proof.
  intros [_ M] Hc i r' Hr'.
  assert (H : nth_error (map row_text (row f')) i = Some (row_text r'))
    by now apply map_nth_error.
  rewrite M, nth_error_map in H.
  destruct (nth_error (row f) i) as [r|] eqn:Hr; [|discriminate H].
  cbn in H. injection H as Hi _ _. rewrite <- Hi. now apply Hc.
Qed.

Lemma row_at_idx (f : fileState) (i : Z) (r : erow) :
  index_consistent f -> row_at f i = Done r ->
  idx r = i /\ 0 <= i < Z.of_nat (List.length (row f)).
Proof.
  intros Hc Hr. apply row_at_nth in Hr as [Hi Hr].
  pose proof (Hc _ _ Hr) as E.
  assert (Z.to_nat i < List.length (row f))%nat
    by (apply nth_error_Some; congruence).
  lia.
Qed.

Lemma editorRowHasOpenComment_fuel (f : fileState) (fuel : nat) :
  index_consistent f ->
  forall r : erow,
    (Z.to_nat (idx r) < fuel)%nat ->
    fuel_sufficed (editorRowHasOpenComment fuel f r).
Proof.
  intros Hc. induction fuel as [|fuel IH]; intros r Hf; [lia|].
  cbn [editorRowHasOpenComment].
  destruct (rsize r =? 0).
  - destruct (Z.gtb_spec (idx r) 0); [|discriminate].
    apply fuel_sufficed_bind; [apply row_at_fuel|].
    intros prev Hp. apply IH.
    destruct (row_at_idx f _ prev Hc Hp) as [-> _]. lia.
  - apply fuel_sufficed_bind.
    + destruct (hl r); [discriminate|apply hl_get_fuel].
    + intros last _. destruct (negb _); [discriminate|].
      apply fuel_sufficed_bind.
      * unfold get_syntax. destruct (syntax f); discriminate.
      * intros syn _. repeat (destruct (_ <? _) || destruct (_ =? _)
                               || destruct (strncmp_eq _ _ _)); discriminate.
Qed.

Lemma row_fuel_covers (f : fileState) (i : Z) (r : erow) :
  index_consistent f -> row_at f i = Done r ->
  (Z.to_nat (idx r) < row_fuel f)%nat.
Proof.
  intros Hc Hr. destruct (row_at_idx f i r Hc Hr) as [-> Hi].
  unfold row_fuel. lia.
Qed.

(** On a buffer whose [idx] fields are consistent, [editorUpdateSyntax] has
    enough fuel as soon as it has more than the number of rows from [ri]
    on. *)
Lemma editorUpdateSyntax_fuel (fuel : nat) :
  forall (f : fileState) (ri : Z),
    index_consistent f ->
    (List.length (row f) - Z.to_nat ri < fuel)%nat ->
    fuel_sufficed (editorUpdateSyntax fuel f ri).
Proof.
  induction fuel as [|fuel IH]; intros f ri Hc Hf; [lia|].
  cbn [editorUpdateSyntax].
  apply fuel_sufficed_bind; [apply row_at_fuel|]. intros r Hr.
  destruct (row_at_idx f ri r Hc Hr) as [Hidx Hri].
  apply fuel_sufficed_bind; [apply row_put_fuel|]. intros f0 Hf0.
  assert (S0 : same_text f f0)
    by (eapply row_put_same_text; [exact Hr| |exact Hf0]; reflexivity).
  pose proof (same_text_consistent _ _ S0 Hc) as Hc0.
  pose proof (row_put_at _ _ _ _ Hf0) as Hr0.
  destruct (syntax f) as [syn|]; [|discriminate].
  apply fuel_sufficed_bind.
  { destruct (idx r >? 0); [|discriminate].
    apply fuel_sufficed_bind; [apply row_at_fuel|]. intros prev Hp.
    apply editorRowHasOpenComment_fuel; [exact Hc0|].
    eapply row_fuel_covers; eassumption. }
  intros inc _.
  apply fuel_sufficed_bind; [apply highlight_loop_has_fuel|].
  intros [t|h] _; [|apply row_put_fuel].
  apply fuel_sufficed_bind; [apply row_put_fuel|]. intros f1 Hf1.
  assert (S1 : same_text f0 f1)
    by (eapply row_put_same_text; [exact Hr0| |exact Hf1]; reflexivity).
  pose proof (same_text_consistent _ _ S1 Hc0) as Hc1.
  pose proof (row_put_at _ _ _ _ Hf1) as Hr1.
  apply fuel_sufficed_bind.
  { apply editorRowHasOpenComment_fuel; [exact Hc1|].
    eapply row_fuel_covers; eassumption. }
  intros oc _.
  apply fuel_sufficed_bind.
  { destruct (_ && _); [|discriminate]. apply IH; [exact Hc1|].
    cbn [idx set_hl]. rewrite Hidx.
    assert (List.length (row f1) = List.length (row f)) as ->.
    { destruct S0 as [_ M0], S1 as [_ M1].
      rewrite <- (length_map row_text (row f1)), M1, M0. apply length_map. }
    lia. }
  intros f2 _.
  apply fuel_sufficed_bind; [apply row_at_fuel|intros; apply row_put_fuel].
Qed.

Lemma tab_fill_fuel (ts i : Z) :
  ts <> 0 -> 0 <= i -> fuel_sufficed (tab_fill (S (Z.abs_nat ts)) ts i).
Proof.
  intros Hts Hi.
  assert (Habs : forall fuel j, tab_fill fuel ts j = tab_fill fuel (Z.abs ts) j).
  { induction fuel as [|fuel IH]; intros j; [reflexivity|]. cbn [tab_fill].
    rewrite IH. destruct (Z.abs_spec ts) as [[_ ->]|[_ ->]]; [reflexivity|].
    rewrite Z.rem_opp_r by lia. reflexivity. }
  rewrite Habs, (tab_fill_runs (Z.abs ts)); try lia; [discriminate|].
  pose proof (tab_gap_range (Z.abs ts) ltac:(lia) i). lia.
Qed.

Lemma render_loop_fuel (ts : Z) (cs : list ascii) :
  forall out : list ascii, fuel_sufficed (render_loop ts cs out).
Proof.
  induction cs as [|c cs IH]; intros out; cbn [render_loop]; [discriminate|].
  destruct (Ascii.eqb c TAB); [|apply IH].
  destruct (Z.eqb_spec ts 0); [discriminate|].
  apply fuel_sufficed_bind; [apply tab_fill_fuel; lia|intros; apply IH].
Qed.

(** The model of [editorUpdateRow] never stops for lack of fuel on a buffer
    whose [idx] fields are consistent: a fault it reports is a fault of the
    code. *)
Lemma editorUpdateRow_fuel (f : fileState) (ri : Z) :
  index_consistent f -> fuel_sufficed (editorUpdateRow f ri).
Proof.
  intros Hc. unfold editorUpdateRow.
  apply fuel_sufficed_bind; [apply row_at_fuel|]. intros r Hr.
  apply fuel_sufficed_bind.
  { unfold editorUpdateRow_render.
    apply fuel_sufficed_bind; [apply render_loop_fuel|].
    intros out _. destruct (_ <? _); discriminate. }
  intros rnd _.
  apply fuel_sufficed_bind; [apply row_put_fuel|]. intros f1 Hf1.
  apply editorUpdateSyntax_fuel.
  - intros i r' Hr'. unfold row_put in Hf1.
    destruct (_ || _); [discriminate|]. injection Hf1 as <-. cbn [row set_row] in Hr'.
    apply row_at_nth in Hr as [Hri Hr].
    destruct (Nat.eq_dec (Z.to_nat ri) i) as [<-|Hne].
    + rewrite nth_error_list_set_eq in Hr'
        by (apply nth_error_Some; congruence).
      injection Hr' as <-. cbn [idx set_render]. now apply Hc.
    + rewrite nth_error_list_set_neq in Hr' by exact Hne. now apply Hc.
  - unfold row_fuel. lia.
Qed.

(** * Serialising and saving the rows (C7) *)

Lemma row_at_app (f : fileState) (pre rows : list erow) (r : erow) :
  row f = pre ++ r :: rows ->
  row_at f (Z.of_nat (List.length pre)) = Done r.
Proof.
  intros E. unfold row_at.
  destruct (Z.ltb_spec (Z.of_nat (List.length pre)) 0); [lia|].
  rewrite Nat2Z.id, E, nth_error_app2, Nat.sub_diag by lia. reflexivity.
Qed.

Lemma rows_copy_all (f : fileState) (rows pre : list erow) :
  row f = pre ++ rows ->
  rows_copy f (List.length rows) (Z.of_nat (List.length pre))
  = Done (rows_with_newlines rows).
Proof.
  revert pre. induction rows as [|r rows IH]; intros pre E; [reflexivity|].
  cbn [List.length rows_copy]. rewrite (row_at_app f pre rows r E). cbn [bind].
  replace (Z.of_nat (List.length pre) + 1)
    with (Z.of_nat (List.length (pre ++ [r])))
    by (rewrite length_app; cbn; lia).
  rewrite IH by (rewrite <- app_assoc; exact E).
  cbn [bind]. unfold rows_with_newlines. cbn [map List.concat].
  now rewrite <- app_assoc.
Qed.

Lemma rows_total_all (f : fileState) (rows pre : list erow) :
  row f = pre ++ rows ->
  rows_total f (List.length rows) (Z.of_nat (List.length pre))
  = Done (Z.of_nat (List.length (rows_with_newlines rows))).
Proof.
  revert pre. induction rows as [|r rows IH]; intros pre E; [reflexivity|].
  cbn [List.length rows_total]. rewrite (row_at_app f pre rows r E). cbn [bind].
  replace (Z.of_nat (List.length pre) + 1)
    with (Z.of_nat (List.length (pre ++ [r])))
    by (rewrite length_app; cbn; lia).
  rewrite IH by (rewrite <- app_assoc; exact E).
  cbn [bind]. f_equal. unfold rows_with_newlines, size. cbn [map List.concat].
  rewrite !length_app. cbn [List.length]. lia.
Qed.

Lemma rows_with_newlines_length (rows : list erow) :
  Z.of_nat (List.length (rows_with_newlines rows))
  = fold_right (fun r n => size r + 1 + n) 0 rows.
Proof.
  unfold rows_with_newlines, size. induction rows as [|r rows IH]; [reflexivity|].
  cbn [map List.concat fold_right]. rewrite !length_app, <- IH.
  cbn [List.length]. lia.
Qed.

Lemma editorRowsToString_bytes (f : fileState) :
  numrows f = Z.of_nat (List.length (row f)) ->
  editorRowsToString f
  = Done (rows_with_newlines (row f) ++ [NUL],
          Z.of_nat (List.length (rows_with_newlines (row f)))).
Proof.
  intros Hn. unfold editorRowsToString. rewrite Hn, Nat2Z.id.
  pose proof (rows_total_all f (row f) [] eq_refl) as Ht.
  pose proof (rows_copy_all f (row f) [] eq_refl) as Hc.
  cbn [List.length Z.of_nat] in Ht, Hc. rewrite Ht, Hc. reflexivity.
Qed.

(** C7, as stated, fails: the newline follows every row, the last one
    included, and the returned length counts it. *)
Lemma rows_to_string_ends_with_newline :
  (f <- buffer_of ["a"; "b"]%string ;;
   '(buf, len) <- editorRowsToString f ;;
   Done (buf, len))
  = Done (bytes "a" ++ NEWLINE :: bytes "b" ++ [NEWLINE; NUL], 4)
  /\ (f <- buffer_of ["a"; "b"]%string ;;
      '(buf, len) <- editorRowsToString f ;;
      Done (firstn (Z.to_nat len) buf, len))
     <> (f <- buffer_of ["a"; "b"]%string ;;
         Done (rows_joined (row f), 3)).
Proof.
  split; [vm_compute; reflexivity|intro H; vm_compute in H; discriminate H].
Qed.

(** C7 (amended).  For every buffer whose row array holds its [numrows] rows,
    [editorRowsToString] returns the rows' chars, each followed by a newline
    byte (also the last one), then the terminating NUL; the returned length
    counts exactly the bytes before that NUL, that is the sum of
    [size + 1] over the rows.  A save that completes with the three system
    calls succeeding has written exactly these bytes to the file named by
    the buffer after the optional path argument is taken. *)
Theorem rows_to_string_terminates_every_row
    (STATUSMSG_SIZE : nat) (lua : lua_State) (path : option (list ascii))
    (E : editorConfig) (f : fileState) (res : save_result) :
  file_at E (current_file E) = Done f ->
  numrows f = Z.of_nat (List.length (row f)) ->
  save_lua STATUSMSG_SIZE lua path SaveOk E = Done res ->
  editorRowsToString f
  = Done (rows_with_newlines (row f) ++ [NUL],
          Z.of_nat (List.length (rows_with_newlines (row f))))
  /\ Z.of_nat (List.length (rows_with_newlines (row f)))
     = fold_right (fun r n => size r + 1 + n) 0 (row f)
  /\ match path, filename f with
     | Some p, _ => sr_written res = Some (c_string p, rows_with_newlines (row f))
     | None, Some name => sr_written res = Some (name, rows_with_newlines (row f))
     | None, None => sr_written res = None
     end.
Proof.
  intros Hf Hn Hsave.
  split; [apply editorRowsToString_bytes; exact Hn|]. split.
  - apply rows_with_newlines_length.
  - unfold save_lua in Hsave. rewrite Hf in Hsave. cbn [bind] in Hsave.
    bind_done Hsave. rename x into E1. clear E0.
    set (f1 := match path with
               | Some p => set_filename (Some (c_string p)) f
               | None => f
               end) in *.
    assert (Hrows : row f1 = row f /\ numrows f1 = numrows f)
      by (destruct path; split; reflexivity).
    destruct Hrows as [Hrow Hnum].
    assert (Hstr : editorRowsToString f1
                   = Done (rows_with_newlines (row f) ++ [NUL],
                           Z.of_nat (List.length (rows_with_newlines (row f))))).
    { rewrite <- Hrow. apply editorRowsToString_bytes. rewrite Hnum, Hrow. exact Hn. }
    assert (Hcut : firstn (Z.to_nat (Z.of_nat (List.length (rows_with_newlines (row f)))))
                     (rows_with_newlines (row f) ++ [NUL])
                   = rows_with_newlines (row f)).
    { rewrite Nat2Z.id, firstn_app, Nat.sub_diag, firstn_all. cbn. apply app_nil_r. }
    destruct (filename f1) as [name|] eqn:Hname.
    + rewrite Hstr in Hsave. cbn [bind] in Hsave.
      bind_done Hsave. clear E0. bind_done Hsave. clear E0.
      bind_done Hsave. clear E0. bind_done Hsave. clear E0.
      injection Hsave as <-. cbn [sr_written]. rewrite Hcut.
      subst f1. destruct path as [p|]; cbn in Hname.
      * congruence.
      * rewrite Hname. reflexivity.
    + bind_done Hsave. clear E0. injection Hsave as <-. cbn [sr_written].
      subst f1. destruct path as [p|]; cbn in Hname; [discriminate|].
      rewrite Hname. reflexivity.
Qed.

Lemma rows_to_string_terminates_every_row_witness :
  let f := get (new_buffer None) (buffer_of ["a"; "b"]%string) in
  let res := get (Build_save_result (editor_of f) 0 None)
               (save_lua 80 no_script (Some (bytes "t")) SaveOk (editor_of f)) in
  editorRowsToString f = Done (bytes "a" ++ NEWLINE :: bytes "b" ++ [NEWLINE; NUL], 4)
  /\ sr_written res
     = Some (bytes "t", bytes "a" ++ NEWLINE :: bytes "b" ++ [NEWLINE])
  /\ sr_return res = 0.
Proof.
  intros f res.
  destruct (rows_to_string_terminates_every_row 80 no_script (Some (bytes "t"))
              (editor_of f) f res) as (H1 & _ & H3);
    [vm_compute; reflexivity ..|].
  split; [exact H1|]. split; [exact H3|vm_compute; reflexivity].
Defined.

(** * Cursor motion (C4) *)

(** ** What the motions do preserve *)

(** A motion changes nothing but the cursor and the view. *)
Lemma editorMoveCursor_only_cursor
    (sr sc : Z) (key : KEY_ACTION) (f f' : fileState) :
  editorMoveCursor sr sc key f = Done f' -> only_cursor f f'.
Proof.
  unfold editorMoveCursor, only_cursor, restore_cursor. intros H.
  bind_done H. rename x into f1, E into H1.
  assert (E1 : set_rowoff (rowoff f) (set_coloff (coloff f) (set_cy (cy f)
                 (set_cx (cx f) f1))) = f).
  { destruct key;
      repeat match type of H1 with
             | bind ?m _ = Done _ =>
                 let x := fresh "x" in
                 destruct m as [x|]; cbn [bind] in H1; [|discriminate H1]
             | (if ?b then _ else _) = Done _ => destruct b
             | match ?m with Some _ => _ | None => _ end = Done _ => destruct m
             end;
      injection H1 as <-; destruct f; reflexivity. }
  bind_done H. clear E.
  repeat match type of H with
         | (if ?b then _ else _) = Done _ => destruct b
         end;
    injection H as <-; rewrite <- E1 at 5; destruct f1; reflexivity.
Qed.

(** From a state within the bounds, every motion keeps every bound but one:
    [0 <= cy] survives unless the key is ARROW_LEFT pressed on the top line
    of a scrolled view. *)
Lemma editorMoveCursor_bounds
    (sr sc : Z) (key : KEY_ACTION) (f f' : fileState) :
  cursor_in_screen sr sc f ->
  editorMoveCursor sr sc key f = Done f' ->
  0 <= cx f' < sc /\ cy f' < sr /\ 0 <= coloff f' /\ 0 <= rowoff f'
  /\ (key <> ARROW_LEFT \/ 0 < cy f \/ rowoff f = 0 -> 0 <= cy f').
Proof.
  intros (Hcx & Hcy & Hco & Hro) H. unfold editorMoveCursor in H.
  bind_done H. rename x into f1, E into H1.
  assert (B1 : 0 <= cx f1 < sc /\ cy f1 < sr /\ 0 <= coloff f1 /\ 0 <= rowoff f1
               /\ (key <> ARROW_LEFT \/ 0 < cy f \/ rowoff f = 0 -> 0 <= cy f1)).
  { destruct key; unfold row_ptr in H1; cbn [cx cy set_cx set_cy] in H1;
      repeat match type of H1 with
             | bind ?m _ = Done _ =>
                 let x := fresh "x" in
                 destruct m as [x|]; cbn [bind] in H1; [|discriminate H1]
             | (if ?a =? ?b then _ else _) = Done _ => destruct (Z.eqb_spec a b)
             | (if ?a <? ?b then _ else _) = Done _ => destruct (Z.ltb_spec a b)
             | (if ?a >? ?b then _ else _) = Done _ => destruct (Z.gtb_spec a b)
             | (if ?a >=? ?b then _ else _) = Done _ => destruct (Z.geb_spec a b)
             | (if negb (?a =? ?b) then _ else _) = Done _ =>
                 destruct (Z.eqb_spec a b); cbn [negb] in H1
             | match (if ?a >=? ?b then _ else _) with Some _ => _ | None => _ end = Done _ =>
                 destruct (Z.geb_spec a b)
             end;
      injection H1 as <-; cbn in *; unfold size in *; repeat split; try lia;
      try (intros [?|[?|?]]; try congruence; lia). }
  destruct B1 as (C1 & C2 & C3 & C4 & C5).
  bind_done H. rename x into rowlen. 
  assert (0 <= rowlen).
  { unfold row_ptr in E. destruct (_ >=? _).
    - now injection E as <-.
    - bind_done E. injection E as <-. unfold size. lia. }
  destruct (Z.gtb_spec (coloff f1 + cx f1) rowlen).
  - cbn [cx set_cx] in H.
    destruct (Z.ltb_spec (cx f1 - (coloff f1 + cx f1 - rowlen)) 0);
      injection H as <-; cbn; repeat split; try lia; exact C5.
  - injection H as <-. repeat split; try lia; exact C5.
Qed.

(** C4 fails on the code.  [scrolled_view] is reached from a loaded buffer by
    cursor motions alone and has the cursor on the top line of a view
    scrolled by one row.  ARROW_LEFT at column 0 then executes [cy--]
    without looking at [cy] (ARROW_UP, next to it, tests [cy == 0] and
    scrolls instead) and leaves [cy = -1].  [joined_long_row] is reached by
    one motion and one [delete]; its [cx] is 119 on 80 columns, and the
    motions that follow leave [cx >= screencols]. *)
Theorem arrow_left_leaves_the_screen :
  (f <- scrolled_view ;; Done (cursor_of f, numrows f)) = Done ((0, 0, 0, 1), 23)
  /\ (f <- scrolled_view ;; f' <- editorMoveCursor 22 80 ARROW_LEFT f ;;
      Done (cursor_of f')) = Done (1, -1, 0, 1)
  /\ (f <- joined_long_row ;; Done (cursor_of f)) = Done (119, 0, 0, 0)
  /\ (f <- joined_long_row ;; f' <- editorMoveCursor 22 80 ARROW_UP f ;;
      Done (cursor_of f')) = Done (101, 0, 0, 0).
Proof. repeat split; vm_compute; reflexivity. Qed.

(** * Non-interactive search (C9) *)

(** ** A search that completes *)

Lemma strncmp_eq_prefix (t s : list ascii) :
  strncmp_eq s t (strlen t) = true -> exists post, s = c_string t ++ post.
Proof.
  unfold c_string. revert s. induction t as [|b t IH]; intros s H.
  - exists s. reflexivity.
  - cbn [strlen] in *. destruct (Ascii.eqb_spec b NUL) as [->|Hb].
    + exists s. reflexivity.
    + cbn [strncmp_eq hd tl] in H.
      destruct (Ascii.eqb_spec (hd NUL s) b) as [Hab|]; [|discriminate H].
      cbn [negb] in H.
      destruct (Ascii.eqb_spec (hd NUL s) NUL) as [Ha|_]; [congruence|].
      destruct s as [|a s]; [cbn in Hab; congruence|].
      cbn [hd tl] in *. subst a.
      destruct (IH s H) as [post ->]. exists post. reflexivity.
Qed.

Lemma search_row_none (fuel : nat) (rnd term : list ascii) (x : Z)
    (m : option Z) :
  ~ occurs_in (c_string term) rnd ->
  search_row fuel rnd term x = Done m -> m = None.
Proof.
  intros Hno. revert x. induction fuel as [|k IH]; intros x H; cbn in H.
  - now injection H as <-.
  - destruct (x <? Z.of_nat (List.length rnd)); [|now injection H as <-].
    destruct (x <? 0); [discriminate H|].
    destruct (strncmp_eq (skipn (Z.to_nat x) rnd) term (strlen term)) eqn:Hm.
    + exfalso. apply Hno. destruct (strncmp_eq_prefix _ _ Hm) as [post Hp].
      exists (firstn (Z.to_nat x) rnd), post.
      rewrite <- Hp. symmetry. apply firstn_skipn.
    + exact (IH _ H).
Qed.

Lemma search_rows_none (n : nat) (sc : Z) (term : list ascii) (current : Z)
    (f f2 : fileState) (m : option Z) :
  (forall r, In r (row f) -> ~ occurs_in (c_string term) (render r)) ->
  search_rows n sc term current f = Done (f2, m) -> m = None.
Proof.
  revert current f. induction n as [|n IH]; intros current f Hno H;
    cbn [search_rows] in H.
  - now injection H as _ <-.
  - destruct (row_at f current) as [r|] eqn:Hr; cbn [bind] in H;
      [|discriminate H].
    destruct (search_row _ _ _ _) as [m1|] eqn:Hs; cbn [bind] in H;
      [|discriminate H].
    apply search_row_none in Hs;
      [|apply Hno; apply row_at_nth in Hr; eapply nth_error_In, Hr].
    subst m1. eapply IH; [|exact H]. destruct f; exact Hno.
Qed.

Lemma editorSetStatusMessage_current_file
    (sz : nat) (log : bool) (msg : list ascii) (E E' : editorConfig) :
  editorSetStatusMessage sz log msg E = Done E' ->
  current_file E' = current_file E.
Proof.
  unfold editorSetStatusMessage. intros H.
  destruct log; [|now injection H as <-].
  destruct (find_messages _ _ _) as [[i|]|]; cbn [bind] in H;
    [|now injection H as <-|discriminate H].
  unfold on_file in H.
  destruct (file_at _ i) as [f|]; cbn [bind] in H; [|discriminate H].
  match type of H with
  | bind ?m _ = _ => destruct m as [f'|]; cbn [bind] in H; [|discriminate H]
  end.
  apply file_put_at in H. destruct H as (_ & H & _). exact H.
Qed.

(** Whenever [search_lua] completes on a pattern that occurs in no row, it
    returns 0 and leaves the cursor and the view of the current buffer where
    they were. *)
Lemma search_without_match
    (sz : nat) (term : list ascii) (E E' : editorConfig) (f : fileState)
    (v : option Z) :
  file_at E (current_file E) = Done f ->
  (forall r, In r (row f) -> ~ occurs_in (c_string term) (render r)) ->
  search_lua sz (Some term) E = Done (E', v) ->
  v = Some 0 /\ current_file E' = current_file E
  /\ exists f', file_at E' (current_file E') = Done f'
                /\ cursor_of f' = cursor_of f.
Proof.
  intros Hf Hno H. unfold search_lua in H. rewrite Hf in H. cbn [bind] in H.
  destruct (editorMoveCursor _ _ _ f) as [f1|] eqn:Hmove; cbn [bind] in H;
    [|discriminate H].
  destruct (search_rows _ _ _ _ f1) as [[f2 m]|] eqn:Hs; cbn [bind] in H;
    [|discriminate H].
  apply search_rows_none in Hs.
  2:{ apply editorMoveCursor_only_cursor in Hmove. unfold only_cursor in Hmove.
      assert (Hrow : row (restore_cursor f f1) = row f1)
        by (destruct f1; reflexivity).
      rewrite Hmove in Hrow. rewrite <- Hrow. exact Hno. }
  subst m.
  destruct (file_put E _ f2) as [E2|] eqn:H2; cbn [bind] in H; [|discriminate H].
  destruct (editorSetStatusMessage _ _ _ E2) as [E3|] eqn:H3; cbn [bind] in H;
    [|discriminate H].
  destruct (file_at E3 _) as [f3|]; cbn [bind] in H; [|discriminate H].
  destruct (file_put E3 _ _) as [E4|] eqn:H4; cbn [bind] in H; [|discriminate H].
  injection H as <- <-.
  apply file_put_at in H4. destruct H4 as (Hat & Hcur & _).
  apply editorSetStatusMessage_current_file in H3.
  apply file_put_at in H2. destruct H2 as (_ & Hcur2 & _).
  split; [reflexivity|]. split; [congruence|].
  rewrite Hcur. eexists. split; [exact Hat|]. destruct f3; reflexivity.
Qed.

(** C9 fails on the code.  With the cursor at the end of the last row, on the
    bottom line of the screen, the step to the right that opens [search_lua]
    scrolls to row [numrows]; the scan then reads [row[numrows]], outside the
    row array (the other readers of the cursor row use
    [(filerow >= numrows) ? NULL : &row[filerow]]).  The pattern [zz] occurs
    in no row. *)
Theorem search_reads_past_the_last_row :
  (f <- cursor_at_bottom_right ;; Done (cursor_of f, numrows f))
  = Done ((2, 21, 0, 0), 22)
  /\ (f <- cursor_at_bottom_right ;;
      Done (forallb (fun r => list_ascii_eqb (render r) (bytes "ab")) (row f)))
     = Done true
  /\ (forall rnd, occurs_in (bytes "zz") rnd -> rnd <> bytes "ab")
  /\ (f <- cursor_at_bottom_right ;;
      f1 <- editorMoveCursor 22 80 ARROW_RIGHT f ;;
      Done (cursor_of f1)) = Done (0, 21, 0, 1)
  /\ (f <- cursor_at_bottom_right ;;
      search_lua 80 (Some (bytes "zz")) (editor_of f))
     = Fault (RowIndexOutOfRange 22).
Proof.
  split; [vm_compute; reflexivity|]. split; [vm_compute; reflexivity|].
  split; [|split; vm_compute; reflexivity].
  intros rnd (pre & post & ->) H.
  destruct pre as [|a [|b [|c pre]]]; cbn in H; discriminate H.
Qed.

(** * The dirty counter (C5) *)

(** [rows_only f f']: [f'] differs from [f] in its row array at most. *)
Lemma row_put_rows_only (f f' : fileState) (i : Z) (r : erow) :
  row_put f i r = Done f' -> set_row (row f') f = f'.
Proof.
  unfold row_put. destruct (_ || _); [discriminate|]. intros [= <-]. reflexivity.
Qed.

Lemma editorUpdateRow_rows_only (f f' : fileState) (ri : Z) :
  editorUpdateRow f ri = Done f' -> set_row (row f') f = f'.
Proof.
  intros H. destruct (editorUpdateRow_render_stored f f' ri H)
    as (r & r' & _ & _ & _ & _ & _ & E). exact E.
Qed.

Lemma rows_only_dirty (f f' : fileState) :
  set_row (row f') f = f' -> dirty f' = dirty f.
Proof. intros <-. reflexivity. Qed.

Lemma rows_only_numrows (f f' : fileState) :
  set_row (row f') f = f' -> numrows f' = numrows f.
Proof. intros <-. reflexivity. Qed.

Lemma rows_only_cursor (f f' : fileState) :
  set_row (row f') f = f' ->
  cx f' = cx f /\ cy f' = cy f /\ coloff f' = coloff f /\ rowoff f' = rowoff f.
Proof. intros <-. repeat split. Qed.

Lemma editorInsertRow_dirty (f f' : fileState) (at_ : Z) (s : list ascii) :
  at_ <= numrows f ->
  editorInsertRow f at_ s = Done f' ->
  dirty f' = dirty f + 1 /\ numrows f' = numrows f + 1
  /\ cursor_of f' = cursor_of f /\ 0 <= at_.
Proof.
  intros Hat H. unfold editorInsertRow in H.
  destruct (Z.gtb_spec at_ (numrows f)); [lia|].
  destruct (Z.ltb_spec at_ 0); [discriminate H|].
  bind_done H. injection H as <-.
  apply editorUpdateRow_rows_only in E. rewrite <- E. repeat split. lia.
Qed.

Lemma editorDelRow_dirty (f f' : fileState) (at_ : Z) :
  at_ < numrows f ->
  editorDelRow f at_ = Done f' ->
  dirty f' = dirty f + 1 /\ numrows f' = numrows f - 1
  /\ cursor_of f' = cursor_of f.
Proof.
  intros Hat H. unfold editorDelRow in H.
  destruct (Z.geb_spec at_ (numrows f)); [lia|].
  destruct (Z.ltb_spec at_ 0); [discriminate H|].
  injection H as <-. repeat split.
Qed.

Lemma editorRowInsertChar_dirty (f f' : fileState) (ri at_ : Z) (c : ascii) :
  editorRowInsertChar f ri at_ c = Done f' ->
  dirty f' = dirty f + 1 /\ numrows f' = numrows f
  /\ cursor_of f' = cursor_of f.
Proof.
  intros H. unfold editorRowInsertChar in H.
  bind_done H. clear E. bind_done H. clear E.
  bind_done H. apply row_put_rows_only in E.
  bind_done H. apply editorUpdateRow_rows_only in E0.
  injection H as <-. rewrite <- E0, <- E. repeat split.
Qed.

Lemma editorRowAppendString_dirty (f f' : fileState) (ri : Z) (s : list ascii) :
  editorRowAppendString f ri s = Done f' ->
  dirty f' = dirty f + 1 /\ numrows f' = numrows f
  /\ cursor_of f' = cursor_of f.
Proof.
  intros H. unfold editorRowAppendString in H.
  bind_done H. clear E.
  bind_done H. apply row_put_rows_only in E.
  bind_done H. apply editorUpdateRow_rows_only in E0.
  injection H as <-. rewrite <- E0, <- E. repeat split.
Qed.

Lemma editorRowDelChar_dirty (f f' : fileState) (ri at_ : Z) (r : erow) :
  row_at f ri = Done r ->
  editorRowDelChar f ri at_ = Done f' ->
  dirty f' = dirty f + (if (0 <=? at_) && (at_ <? size r) then 1 else 0)
  /\ numrows f' = numrows f /\ cursor_of f' = cursor_of f.
Proof.
  intros Hr H. unfold editorRowDelChar in H. rewrite Hr in H. cbn [bind] in H.
  destruct (Z.leb_spec (size r) at_).
  { injection H as <-. destruct (Z.ltb_spec at_ (size r)); [lia|].
    rewrite andb_false_r. repeat split. lia. }
  destruct (Z.ltb_spec at_ 0).
  { injection H as <-. destruct (Z.leb_spec 0 at_); [lia|]. repeat split.
    cbn [andb]. lia. }
  destruct (Z.leb_spec 0 at_); [|lia]. destruct (Z.ltb_spec at_ (size r)); [|lia].
  bind_done H. apply row_put_rows_only in E.
  bind_done H. apply editorUpdateRow_rows_only in E0.
  bind_done H. clear E1.
  bind_done H. apply row_put_rows_only in E1.
  injection H as <-. rewrite <- E1, <- E0, <- E. repeat split.
Qed.

Lemma fill_rows_dirty (n : nat) (filerow : Z) :
  forall f f' : fileState,
    fill_rows n filerow f = Done f' ->
    dirty f' - dirty f = numrows f' - numrows f
    /\ numrows f <= numrows f' /\ cursor_of f' = cursor_of f.
Proof.
  induction n as [|n IH]; intros f f' H; cbn [fill_rows] in H.
  - injection H as <-. repeat split; lia.
  - destruct (Z.leb_spec (numrows f) filerow).
    + bind_done H. apply editorInsertRow_dirty in E; [|lia].
      destruct E as (Hd & Hn & Hc & _). apply IH in H as (Hd' & Hn' & Hc').
      repeat split; try lia. congruence.
    + injection H as <-. repeat split; lia.
Qed.

Lemma editorInsertChar_dirty (sr sc : Z) (c : ascii) (f f' : fileState) :
  c <> NEWLINE ->
  editorInsertChar sr sc c f = Done f' ->
  dirty f' = dirty f + 2 + (numrows f' - numrows f)
  /\ numrows f <= numrows f'
  /\ (rowoff f + cy f < numrows f -> numrows f' = numrows f).
Proof.
  intros Hc H. unfold editorInsertChar in H.
  apply Ascii.eqb_neq in Hc. rewrite Hc in H.
  bind_done H. rename x into f1, E into Hfill.
  assert (Hf1 : dirty f1 - dirty f = numrows f1 - numrows f
                /\ numrows f <= numrows f1
                /\ (rowoff f + cy f < numrows f -> numrows f1 = numrows f)).
  { unfold row_ptr in Hfill.
    destruct (Z.geb_spec (rowoff f + cy f) (numrows f)).
    - apply fill_rows_dirty in Hfill. intuition lia.
    - injection Hfill as <-. intuition lia. }
  bind_done H. rename x into f2. apply editorRowInsertChar_dirty in E.
  destruct E as (Hd & Hn & _). injection H as <-.
  assert (Hfin : forall g, dirty (if cx f2 =? sc - 1 then set_coloff (coloff f2 + 1) f2
                           else set_cx (cx f2 + 1) f2) = dirty f2
                    /\ numrows (if cx f2 =? sc - 1 then set_coloff (coloff f2 + 1) f2
                           else set_cx (cx f2 + 1) f2) = numrows f2 + 0 * g)
    by (intros g; destruct (cx f2 =? sc - 1); split; cbn; lia).
  destruct (Hfin 0) as [Hd2 Hn2]. cbn [dirty numrows set_dirty].
  rewrite Hd2, Hn2. intuition lia.
Qed.

Lemma editorInsertNewline_dirty (sr : Z) (f f' : fileState) :
  editorInsertNewline sr f = Done f' ->
  dirty f' = dirty f + (if rowoff f + cy f <=? numrows f then 1 else 0).
Proof.
  intros H. unfold editorInsertNewline in H.
  assert (Hfix : forall g, dirty (set_coloff 0 (set_cx 0
                   (if cy g =? sr - 1 then set_rowoff (rowoff g + 1) g
                    else set_cy (cy g + 1) g))) = dirty g)
    by (intros g; destruct (cy g =? sr - 1); reflexivity).
  unfold row_ptr in H.
  destruct (Z.geb_spec (rowoff f + cy f) (numrows f)).
  - destruct (Z.eqb_spec (rowoff f + cy f) (numrows f)).
    + bind_done H. injection H as <-. rewrite Hfix.
      apply editorInsertRow_dirty in E; [|lia].
      destruct (Z.leb_spec (rowoff f + cy f) (numrows f)); lia.
    + injection H as <-. destruct (Z.leb_spec (rowoff f + cy f) (numrows f)); lia.
  - destruct (Z.leb_spec (rowoff f + cy f) (numrows f)); [|lia].
    bind_done H. rename x into r. clear E.
    destruct (_ =? 0).
    + bind_done H. injection H as <-. rewrite Hfix.
      apply editorInsertRow_dirty in E; lia.
    + destruct (_ <? 0); [discriminate H|].
      bind_done H. apply editorInsertRow_dirty in E; [|lia].
      bind_done H. clear E0. bind_done H. apply row_put_rows_only in E0.
      bind_done H. apply editorUpdateRow_rows_only in E1.
      injection H as <-. rewrite Hfix, <- E1, <- E0. cbn. lia.
Qed.

Lemma delete_lua_dirty (sc : Z) (f f' : fileState) :
  delete_lua sc f = Done f' ->
  dirty f' = dirty f + delete_lua_increase f.
Proof.
  intros H. unfold delete_lua, row_ptr in H. unfold delete_lua_increase.
  destruct (rowoff f + cy f >=? numrows f) eqn:Hrow; cbn [orb].
  { injection H as <-. lia. }
  destruct ((coloff f + cx f =? 0) && (rowoff f + cy f =? 0)) eqn:Horigin.
  { injection H as <-. lia. }
  bind_done H. destruct x as [f1 rowp]. rename E into Hbody.
  assert (Hclamp : forall g, dirty (if rowoff (if coloff g <? 0 then set_coloff 0 g else g) <? 0
                              then set_rowoff 0 (if coloff g <? 0 then set_coloff 0 g else g)
                              else (if coloff g <? 0 then set_coloff 0 g else g)) = dirty g).
  { intros g. destruct (coloff g <? 0); cbn [rowoff set_coloff];
    destruct (rowoff g <? 0); reflexivity. }
  assert (Hrest : dirty f' = dirty f1 + 1).
  { bind_done H. injection H as <-. cbn [dirty set_dirty].
    destruct rowp as [ri|].
    - apply editorUpdateRow_rows_only in E. rewrite <- E. cbn [dirty set_row].
      rewrite Hclamp. reflexivity.
    - injection E as <-. rewrite Hclamp. reflexivity. }
  rewrite Hrest. clear H Hrest Hclamp.
  rewrite Z.geb_leb in Hrow. apply Z.leb_gt in Hrow.
  destruct (Z.eqb_spec (coloff f + cx f) 0) as [Hcol|Hcol].
  - bind_done Hbody. clear E. bind_done Hbody. clear E.
    bind_done Hbody. apply editorRowAppendString_dirty in E.
    destruct E as (Hd1 & Hn1 & _).
    bind_done Hbody. apply editorDelRow_dirty in E; [|lia].
    destruct E as (Hd2 & _). injection Hbody as <- _.
    match goal with
    | |- dirty (if ?c then _ else _) + 1 = _ => destruct c
    end; cbn [dirty set_coloff set_cx];
    match goal with
    | |- dirty (if ?c then _ else _) + 1 = _ => destruct c
    end; cbn; lia.
  - bind_done Hbody.
    destruct (row_at f (rowoff f + cy f)) as [r|] eqn:Hr.
    + apply (editorRowDelChar_dirty _ _ _ _ r Hr) in E. destruct E as (Hd & _).
      injection Hbody as <- _.
      assert (Hcur : dirty (if (cx x =? 0) && negb (coloff x =? 0)
                            then set_coloff (coloff x - 1) x
                            else set_cx (cx x - 1) x) = dirty x)
        by (destruct ((cx x =? 0) && negb (coloff x =? 0)); reflexivity).
      rewrite Hcur, Hd.
      destruct (Z.leb_spec 0 (coloff f + cx f - 1)), (Z.ltb_spec (coloff f + cx f - 1) (size r)),
        (Z.ltb_spec 0 (coloff f + cx f)), (Z.leb_spec (coloff f + cx f) (size r));
        cbn [andb]; lia.
    + unfold editorRowDelChar in E. rewrite Hr in E. discriminate E.
Qed.

(** ** Saving and loading *)

Lemma find_messages_log (n : nat) (E : editorConfig) :
  forall i j : Z,
    find_messages n i E = Done (Some j) ->
    exists tmp, file_at E j = Done tmp /\ is_log_buffer tmp = true.
Proof.
  induction n as [|n IH]; intros i j H; [discriminate|].
  cbn [find_messages] in H. bind_done H. rename x into tmp.
  unfold is_log_buffer.
  destruct (filename tmp) as [name|] eqn:Hname; [|eauto].
  destruct (list_ascii_eqb (c_string name) (bytes "*Messages*")) eqn:Hlog;
    [|eauto].
  injection H as <-. exists tmp. rewrite Hname. auto.
Qed.

(** A status message leaves alone a current buffer that is not the log. *)
Lemma editorSetStatusMessage_current
    (sz : nat) (log : bool) (msg : list ascii) (E E' : editorConfig)
    (f : fileState) :
  editorSetStatusMessage sz log msg E = Done E' ->
  file_at E (current_file E) = Done f ->
  is_log_buffer f = false ->
  file_at E' (current_file E') = Done f /\ current_file E' = current_file E.
Proof.
  intros H Hf Hlog. unfold editorSetStatusMessage in H.
  set (E1 := set_statusmsg _ E) in H.
  assert (Hf1 : file_at E1 (current_file E1) = Done f) by exact Hf.
  destruct log; [|injection H as <-; auto].
  bind_done H. destruct x as [i|]; [|injection H as <-; auto].
  apply find_messages_log in E0 as (tmp & Htmp & Hl).
  assert (i <> current_file E1).
  { intros Heq. rewrite Heq in Htmp. rewrite Hf1 in Htmp.
    injection Htmp as <-. congruence. }
  unfold on_file in H. bind_done H. clear E0. bind_done H. clear E0.
  pose proof (file_put_other _ _ _ (current_file E1) _ H ltac:(assumption)) as Ho.
  apply file_put_at in H as (_ & Hc & _). rewrite Hc. split; [congruence|reflexivity].
Qed.

Lemma call_lua_dirty
    (sz : nat) (lua : lua_State) (name : string) (arg : option (list ascii))
    (E E' : editorConfig) (f : fileState) :
  callback_keeps_dirty lua name ->
  call_lua sz lua name arg E = Done E' ->
  file_at E (current_file E) = Done f ->
  is_log_buffer f = false ->
  exists f', file_at E' (current_file E') = Done f' /\ dirty f' = dirty f.
Proof.
  intros Hq H Hf Hlog. unfold call_lua in H.
  destruct (lua_getglobal lua name) as [fn|] eqn:Hfn.
  - bind_done H. destruct x as [E1 err].
    destruct (Hq fn arg E E1 err Hfn E0) as (-> & Hc & Hd).
    injection H as <-. exact (Hd f Hf).
  - exists f. split; [|reflexivity].
    eapply editorSetStatusMessage_current; eassumption.
Qed.

Lemma load_lines_numrows (lines : list (list ascii)) :
  forall f f' : fileState,
    load_lines lines f = Done f' -> filename f' = filename f.
Proof.
  induction lines as [|l ls IH]; intros f f' H; cbn [load_lines] in H.
  - now injection H as <-.
  - bind_done H. apply IH in H. rewrite H.
    unfold editorInsertRow in E.
    destruct (_ >? _); [now injection E as <-|].
    destruct (_ <? 0); [discriminate|]. bind_done E. injection E as <-.
    apply editorUpdateRow_rows_only in E0. rewrite <- E0. reflexivity.
Qed.

Lemma save_lua_resets_dirty
    (sz : nat) (lua : lua_State) (path : option (list ascii))
    (E : editorConfig) (f : fileState) (res : save_result) :
  file_at E (current_file E) = Done f ->
  filename (renamed path f) <> None ->
  is_log_buffer (renamed path f) = false ->
  callback_keeps_dirty lua "on_saved" ->
  save_lua sz lua path SaveOk E = Done res ->
  sr_return res = 0
  /\ exists f', file_at (sr_editor res) (current_file (sr_editor res)) = Done f'
                /\ dirty f' = 0.
Proof.
  intros Hf Hname Hlog Hq H. unfold save_lua in H.
  rewrite Hf in H. cbn [bind] in H. fold (renamed path f) in H.
  bind_done H. rename x into E1. apply file_put_at in E0 as (_ & Hc1 & _).
  destruct (filename (renamed path f)) as [name|] eqn:Hn; [|congruence].
  bind_done H. destruct x as [buf len]. clear E0.
  bind_done H. rename x into E2. apply file_put_at in E0 as (Hf2 & Hc2 & _).
  rewrite <- Hc2 in Hf2.
  bind_done H. rename x into E3.
  assert (Hlog2 : is_log_buffer (set_dirty 0 (renamed path f)) = false) by exact Hlog.
  destruct (editorSetStatusMessage_current _ _ _ _ _ _ E0 Hf2 Hlog2) as [Hf3 Hc3].
  rewrite Hf3 in H. cbn [bind] in H.
  bind_done H. injection H as <-. cbn [sr_return sr_editor]. split; [reflexivity|].
  destruct (call_lua_dirty _ _ _ _ _ _ _ Hq E4 Hf3 Hlog2) as (f' & Hf' & Hd).
  exists f'. split; [exact Hf'|exact Hd].
Qed.

Lemma editorOpen_resets_dirty
    (sz : nat) (lua : lua_State) (name : option (list ascii))
    (fo : fopen_result) (E E' : editorConfig) (f : fileState) (ret : Z) :
  file_at E (current_file E) = Done f ->
  is_log_buffer (set_filename name f) = false ->
  callback_keeps_dirty lua "on_loaded" ->
  editorOpen sz lua name fo E = Done (E', ret) ->
  exists f', file_at E' (current_file E') = Done f' /\ dirty f' = 0.
Proof.
  intros Hf Hlog Hq H. unfold editorOpen in H. rewrite Hf in H. cbn [bind] in H.
  set (f0 := if numrows f =? 0 then f else set_row [] f) in H.
  set (f2 := set_filename name (set_numrows 0 (set_mark (-1) (-1)
               (set_coloff 0 (set_rowoff 0 (set_cy 0 (set_cx 0
                  (set_dirty 0 f0)))))))) in H.
  assert (Hlog2 : is_log_buffer f2 = false) by exact Hlog.
  assert (Hd2 : dirty f2 = 0) by reflexivity.
  bind_done H. rename x into E2. apply file_put_at in E0 as (Hf2 & Hc2 & _).
  rewrite <- Hc2 in Hf2.
  destruct name as [n|].
  - destruct fo as [| |lines]; [|discriminate H|].
    + bind_done H. injection H as <- _.
      destruct (call_lua_dirty _ _ _ _ _ _ _ Hq E0 Hf2 Hlog2) as (f' & Hf' & Hd).
      exists f'. split; [exact Hf'|congruence].
    + bind_done H. rename x into f3.
      bind_done H. rename x into E3. apply file_put_at in E1 as (Hf3 & Hc3 & _).
      rewrite <- Hc3 in Hf3.
      bind_done H. injection H as <- _.
      assert (Hlog3 : is_log_buffer (set_dirty 0 f3) = false).
      { unfold is_log_buffer in *. cbn [filename set_dirty].
        rewrite (load_lines_numrows _ _ _ E0). exact Hlog2. }
      destruct (call_lua_dirty _ _ _ _ _ _ _ Hq E1 Hf3 Hlog3) as (f' & Hf' & Hd).
      exists f'. split; [exact Hf'|exact Hd].
  - bind_done H. rename x into E3. apply file_put_at in E0 as (Hf3 & Hc3 & _).
    rewrite <- Hc3 in Hf3.
    bind_done H. injection H as <- _.
    destruct (call_lua_dirty _ _ _ _ _ _ _ Hq E0 Hf3 Hlog2) as (f' & Hf' & Hd).
    exists f'. split; [exact Hf'|exact Hd].
Qed.

(** ** The row primitives complete on a buffer without syntax *)

Lemma row_put_done (f : fileState) (i : Z) (r r' : erow) :
  row_at f i = Done r -> exists f', row_put f i r' = Done f'.
Proof.
  intros Hr. apply row_at_nth in Hr as [Hi Hr].
  assert (Z.to_nat i < List.length (row f))%nat
    by (apply nth_error_Some; congruence).
  unfold row_put. destruct (Z.ltb_spec i 0); [lia|]. cbn [orb].
  destruct (Z.leb_spec (Z.of_nat (List.length (row f))) i); [lia|]. eauto.
Qed.

Lemma editorUpdateRow_completes (f : fileState) (ri : Z) (r : erow) :
  row_at f ri = Done r -> syntax f = None -> 1 <= tab_size f ->
  exists f', editorUpdateRow f ri = Done f'.
Proof.
  intros Hr Hsyn Hts. unfold editorUpdateRow. rewrite Hr. cbn [bind].
  rewrite (editorUpdateRow_render_loop _ Hts).
  destruct (render_loop_bound _ Hts (chars r) []) as (rnd & -> & _). cbn [bind].
  destruct (row_put_done f ri r (set_render rnd r) Hr) as (f1 & Hf1).
  rewrite Hf1. cbn [bind]. unfold row_fuel. cbn [editorUpdateSyntax].
  pose proof (row_put_at _ _ _ _ Hf1) as Hr1. rewrite Hr1. cbn [bind].
  destruct (row_put_done f1 ri _
              (set_hl (repeat HL_NORMAL (List.length (render (set_render rnd r))))
                 (set_render rnd r)) Hr1) as (f2 & Hf2).
  rewrite Hf2. cbn [bind].
  assert (syntax f1 = None) as ->.
  { apply row_put_rows_only in Hf1. rewrite <- Hf1. exact Hsyn. }
  eauto.
Qed.

Lemma row_primitives_complete (f : fileState) (ri : Z) (r : erow) :
  row_at f ri = Done r -> syntax f = None -> 1 <= tab_size f ->
  (forall at_ c, 0 <= at_ -> is_done (editorRowInsertChar f ri at_ c) = true)
  /\ (forall s, is_done (editorRowAppendString f ri s) = true)
  /\ (forall at_, is_done (editorRowDelChar f ri at_) = true).
Proof.
  intros Hr Hsyn Hts.
  assert (Hput : forall r', exists f1,
             row_put f ri r' = Done f1
             /\ exists f2, editorUpdateRow f1 ri = Done f2).
  { intros r'. destruct (row_put_done f ri r r' Hr) as (f1 & Hf1).
    exists f1. split; [exact Hf1|].
    pose proof (row_put_rows_only _ _ _ _ Hf1) as E.
    apply (editorUpdateRow_completes f1 ri r').
    - eapply row_put_at; exact Hf1.
    - rewrite <- E. exact Hsyn.
    - rewrite <- E. exact Hts. }
  split; [|split].
  - intros at_ c Hat. unfold editorRowInsertChar. rewrite Hr. cbn [bind].
    destruct (at_ >? size r).
    + cbn [bind]. destruct (Hput (set_chars (chars r ++ repeat SPACE
                  (Z.to_nat (at_ - size r)) ++ [c]) r)) as (f1 & -> & f2 & E).
      cbn [bind]. rewrite E. reflexivity.
    + destruct (Z.ltb_spec at_ 0); [lia|]. cbn [bind].
      destruct (Hput (set_chars (firstn (Z.to_nat at_) (chars r) ++ c
                  :: skipn (Z.to_nat at_) (chars r)) r)) as (f1 & -> & f2 & E).
      cbn [bind]. rewrite E. reflexivity.
  - intros s. unfold editorRowAppendString. rewrite Hr. cbn [bind].
    destruct (Hput (set_chars (chars r ++ s) r)) as (f1 & -> & f2 & E).
    cbn [bind]. rewrite E. reflexivity.
  - intros at_. unfold editorRowDelChar. rewrite Hr. cbn [bind].
    destruct (size r <=? at_); [reflexivity|].
    destruct (at_ <? 0); [reflexivity|].
    destruct (Hput (set_chars ((firstn (Z.to_nat at_) (chars r)
                ++ skipn (S (Z.to_nat at_)) (chars r)) ++ [NUL]) r))
      as (f1 & -> & f2 & E).
    cbn [bind]. rewrite E. cbn [bind].
    destruct (editorUpdateRow_render_stored _ _ _ E)
      as (r1 & r2 & _ & Hr2 & _).
    rewrite Hr2. cbn [bind].
    destruct (row_put_done f2 ri r2
                (set_chars (firstn (Z.to_nat at_) (chars r)
                            ++ skipn (S (Z.to_nat at_)) (chars r)) r2) Hr2)
      as (f3 & ->).
    reflexivity.
Qed.

Lemma editorInsertRow_completes (f : fileState) (at_ : Z) (s : list ascii) :
  syntax f = None -> 1 <= tab_size f ->
  0 <= at_ <= Z.of_nat (List.length (row f)) ->
  is_done (editorInsertRow f at_ s) = true.
Proof.
  intros Hsyn Hts Hat. unfold editorInsertRow.
  destruct (at_ >? numrows f); [reflexivity|].
  destruct (Z.ltb_spec at_ 0); [lia|].
  match goal with
  | |- context [editorUpdateRow ?g at_] =>
      destruct (editorUpdateRow_completes g at_
                  {| idx := at_; chars := s; render := []; hl := []; hl_oc := false |})
        as (f1 & ->); [|exact Hsyn|exact Hts|reflexivity]
  end.
  unfold row_at. destruct (Z.ltb_spec at_ 0); [lia|]. cbn [row set_row].
  rewrite nth_error_app2 by (rewrite length_firstn; lia).
  rewrite length_firstn, Nat.min_l by lia.
  rewrite Nat.sub_diag. reflexivity.
Qed.

(** *** [delete] completes *)

Lemma row_put_length (f f' : fileState) (i : Z) (r : erow) :
  row_put f i r = Done f' -> List.length (row f') = List.length (row f).
Proof.
  unfold row_put. destruct (_ || _); [discriminate|]. intros [= <-].
  cbn [row set_row]. apply list_set_length.
Qed.

Lemma editorUpdateRow_length (f f' : fileState) (ri : Z) :
  editorUpdateRow f ri = Done f' -> List.length (row f') = List.length (row f).
Proof.
  unfold editorUpdateRow. intros H.
  bind_done H. clear E. bind_done H. clear E. bind_done H.
  apply row_put_length in E. apply editorUpdateSyntax_same_text in H as [_ M].
  rewrite <- E, <- (length_map row_text (row f')), M. apply length_map.
Qed.

Lemma keeps_shape_put_update (f f1 f2 : fileState) (ri : Z) (r : erow) :
  row_put f ri r = Done f1 -> editorUpdateRow f1 ri = Done f2 ->
  keeps_shape f f2.
Proof.
  intros H1 H2.
  pose proof (row_put_length _ _ _ _ H1) as L1.
  pose proof (editorUpdateRow_length _ _ _ H2) as L2.
  apply row_put_rows_only in H1. apply editorUpdateRow_rows_only in H2.
  unfold keeps_shape. rewrite <- H2, <- H1 in *. cbn in *.
  repeat split; congruence.
Qed.

Lemma editorRowAppendString_shape (f f' : fileState) (ri : Z) (s : list ascii) :
  editorRowAppendString f ri s = Done f' -> keeps_shape f f'.
Proof.
  unfold editorRowAppendString. intros H.
  bind_done H. clear E. bind_done H. bind_done H. injection H as <-.
  exact (keeps_shape_put_update _ _ _ _ _ E E0).
Qed.

Lemma editorRowDelChar_shape (f f' : fileState) (ri at_ : Z) :
  editorRowDelChar f ri at_ = Done f' -> keeps_shape f f'.
Proof.
  unfold editorRowDelChar. intros H. bind_done H. clear E.
  assert (Hrefl : keeps_shape f f) by (repeat split).
  destruct (_ <=? _); [now injection H as <-|].
  destruct (_ <? 0); [now injection H as <-|].
  bind_done H. bind_done H. bind_done H. clear E1. bind_done H.
  injection H as <-.
  pose proof (keeps_shape_put_update _ _ _ _ _ E E0) as (S1 & S2 & S3 & S4 & S5).
  pose proof (row_put_length _ _ _ _ E1) as L.
  apply row_put_rows_only in E1.
  assert (S6 : syntax x3 = syntax x1 /\ tab_size x3 = tab_size x1
               /\ numrows x3 = numrows x1 /\ cursor_of x3 = cursor_of x1)
    by (rewrite <- E1; repeat split).
  destruct S6 as (T1 & T2 & T3 & T4).
  unfold keeps_shape. cbn [syntax tab_size numrows row set_dirty].
  unfold cursor_of in *. cbn [cx cy coloff rowoff set_dirty].
  repeat split; congruence.
Qed.

(** On a buffer without syntax whose row array holds its [numrows] rows,
    with a positive [tab_size] and the cursor at or below the first row,
    [delete] completes. *)
Lemma delete_lua_completes (sc : Z) (f : fileState) :
  syntax f = None -> 1 <= tab_size f ->
  numrows f = Z.of_nat (List.length (row f)) ->
  0 <= rowoff f + cy f ->
  is_done (delete_lua sc f) = true.
Proof.
  intros Hsyn Hts Hnum Hrow. unfold delete_lua, row_ptr.
  destruct (Z.geb_spec (rowoff f + cy f) (numrows f)); [reflexivity|].
  destruct ((coloff f + cx f =? 0) && (rowoff f + cy f =? 0)) eqn:Horigin;
    [reflexivity|].
  assert (Hat : forall g y, 0 <= y < Z.of_nat (List.length (row g)) ->
                  exists r, row_at g y = Done r).
  { intros g y Hy. unfold row_at. destruct (Z.ltb_spec y 0); [lia|].
    destruct (nth_error (row g) (Z.to_nat y)) eqn:E; [eauto|].
    apply nth_error_None in E. lia. }
  destruct (Hat f (rowoff f + cy f) ltac:(lia)) as (r & Hr).
  destruct (Z.eqb_spec (coloff f + cx f) 0) as [Hcol|Hcol].
  - destruct (Z.eqb_spec (rowoff f + cy f) 0); [cbn in Horigin; discriminate|].
    destruct (Hat f (rowoff f + cy f - 1) ltac:(lia)) as (prev & Hp).
    rewrite Hp, Hr. cbn [bind].
    destruct (row_primitives_complete f _ prev Hp Hsyn Hts) as (_ & Happ & _).
    specialize (Happ (chars r)).
    destruct (editorRowAppendString f (rowoff f + cy f - 1) (chars r))
      as [f1|] eqn:E1; [|discriminate Happ]. cbn [bind].
    unfold editorDelRow.
    destruct (_ >=? _); cbn [bind]; [reflexivity|].
    destruct (Z.ltb_spec (rowoff f + cy f) 0); [lia|]. reflexivity.
  - destruct (row_primitives_complete f _ r Hr Hsyn Hts) as (_ & _ & Hdel).
    specialize (Hdel (coloff f + cx f - 1)).
    destruct (editorRowDelChar f (rowoff f + cy f) (coloff f + cx f - 1))
      as [f1|] eqn:E1; [|discriminate Hdel]. cbn [bind].
    apply editorRowDelChar_shape in E1 as (S1 & S2 & S3 & S4 & S5).
    match goal with
    | |- context [editorUpdateRow ?g ?y] =>
        assert (Hg : syntax g = None /\ tab_size g = tab_size f
                     /\ List.length (row g) = List.length (row f))
    end.
    { repeat match goal with
             | |- context [if ?b then _ else _] => destruct b
             end; cbn; repeat split; congruence. }
    destruct Hg as (G1 & G2 & G3).
    match goal with
    | |- context [editorUpdateRow ?g ?y] =>
        destruct (Hat g y ltac:(lia)) as (r' & Hr');
        destruct (editorUpdateRow_completes g y r' Hr' G1 ltac:(lia)) as (f4 & ->)
    end.
    reflexivity.
Qed.

(** C5, as stated, fails: [delete] inside a row raises [dirty] by two, by
    three when it joins two rows, and inserting a byte raises it by two. *)
Lemma delete_raises_dirty_by_two :
  dirty_change (ab_cd 1 0) (delete_lua 80) = Done 2
  /\ dirty_change (ab_cd 1 0) (delete_lua 80) <> Done 1
  /\ dirty_change (ab_cd 0 1) (delete_lua 80) = Done 3
  /\ dirty_change (ab_cd 1 0) (editorInsertChar 22 80 "x") = Done 2.
Proof.
  split; [vm_compute; reflexivity|].
  split; [intro H; vm_compute in H; discriminate H|].
  split; vm_compute; reflexivity.
Qed.

(** C5 (amended).  Every mutation of the current buffer that completes
    raises its [dirty] counter.  The row primitives raise it by exactly one:
    [editorInsertRow] and [editorDelRow] at a valid index,
    [editorRowInsertChar], [editorRowAppendString], and [editorRowDelChar] at
    a valid offset.  The operations built from them raise it by more:
    [editorInsertChar] of a byte other than newline by two plus the number
    of rows it had to add (by exactly two when the cursor row exists),
    [editorInsertNewline] by one where it inserts, and [delete] by two
    inside a row and by three when it joins two rows (by nothing where it
    does nothing).  A successful save leaves [dirty = 0] and returns 0, and
    loading a file leaves [dirty = 0], provided the buffer is not the
    [*Messages*] log, to which the closing status message is appended, and
    the [on_saved] / [on_loaded] callback does not touch the counter.  On a
    buffer without syntax and with a positive [tab_size] the row primitives
    and [delete] always complete. *)
Theorem mutations_raise_dirty
    (sr sc : Z) (sz : nat) (lua : lua_State) (E : editorConfig) (f : fileState) :
  file_at E (current_file E) = Done f ->
  (forall at_ s f', at_ <= numrows f ->
      editorInsertRow f at_ s = Done f' -> dirty f' = dirty f + 1)
  /\ (forall at_ f', at_ < numrows f ->
        editorDelRow f at_ = Done f' -> dirty f' = dirty f + 1)
  /\ (forall ri at_ c f',
        editorRowInsertChar f ri at_ c = Done f' -> dirty f' = dirty f + 1)
  /\ (forall ri s f',
        editorRowAppendString f ri s = Done f' -> dirty f' = dirty f + 1)
  /\ (forall ri at_ r f', row_at f ri = Done r -> 0 <= at_ < size r ->
        editorRowDelChar f ri at_ = Done f' -> dirty f' = dirty f + 1)
  /\ (forall c f', c <> NEWLINE -> editorInsertChar sr sc c f = Done f' ->
        dirty f' = dirty f + 2 + (numrows f' - numrows f)
        /\ numrows f <= numrows f'
        /\ (rowoff f + cy f < numrows f -> dirty f' = dirty f + 2))
  /\ (forall f', editorInsertNewline sr f = Done f' ->
        dirty f' = dirty f + (if rowoff f + cy f <=? numrows f then 1 else 0))
  /\ (forall f', delete_lua sc f = Done f' ->
        dirty f' = dirty f + delete_lua_increase f
        /\ 0 <= delete_lua_increase f <= 3)
  /\ (forall path res,
        filename (renamed path f) <> None ->
        is_log_buffer (renamed path f) = false ->
        callback_keeps_dirty lua "on_saved" ->
        save_lua sz lua path SaveOk E = Done res ->
        sr_return res = 0
        /\ exists f', file_at (sr_editor res) (current_file (sr_editor res)) = Done f'
                      /\ dirty f' = 0)
  /\ (forall name fo E' ret,
        is_log_buffer (set_filename name f) = false ->
        callback_keeps_dirty lua "on_loaded" ->
        editorOpen sz lua name fo E = Done (E', ret) ->
        exists f', file_at E' (current_file E') = Done f' /\ dirty f' = 0)
  /\ (syntax f = None -> 1 <= tab_size f ->
      (forall ri r, row_at f ri = Done r ->
         (forall at_ c, 0 <= at_ ->
            is_done (editorRowInsertChar f ri at_ c) = true)
         /\ (forall s, is_done (editorRowAppendString f ri s) = true)
         /\ (forall at_, is_done (editorRowDelChar f ri at_) = true))
      /\ (forall at_ s, 0 <= at_ <= Z.of_nat (List.length (row f)) ->
            is_done (editorInsertRow f at_ s) = true)
      /\ (numrows f = Z.of_nat (List.length (row f)) ->
          0 <= rowoff f + cy f -> is_done (delete_lua sc f) = true)).
Proof.
  intros Hf.
  split; [intros at_ s f' Hat H; now apply editorInsertRow_dirty in H|].
  split; [intros at_ f' Hat H; now apply editorDelRow_dirty in H|].
  split; [intros ri at_ c f' H; now apply editorRowInsertChar_dirty in H|].
  split; [intros ri s f' H; now apply editorRowAppendString_dirty in H|].
  split.
  { intros ri at_ r f' Hr Hat H.
    apply (editorRowDelChar_dirty _ _ _ _ r Hr) in H as (H & _).
    destruct (Z.leb_spec 0 at_), (Z.ltb_spec at_ (size r)); cbn [andb] in H; lia. }
  split.
  { intros c f' Hc H. apply editorInsertChar_dirty in H; [|exact Hc].
    destruct H as (H1 & H2 & H3). repeat split; try assumption.
    intros Hrow. specialize (H3 Hrow). lia. }
  split; [intros f' H; now apply editorInsertNewline_dirty in H|].
  split.
  { intros f' H. split; [now apply (delete_lua_dirty sc)|].
    unfold delete_lua_increase.
    destruct (_ || _); [lia|]. destruct (_ =? 0); [lia|].
    destruct (row_at f _); [|lia]. destruct (_ && _); lia. }
  split.
  { intros path res Hn Hl Hq H. eapply save_lua_resets_dirty; eassumption. }
  split.
  { intros name fo E' ret Hl Hq H. eapply editorOpen_resets_dirty; eassumption. }
  intros Hsyn Hts. split; [|split].
  - intros ri r Hr. now apply (row_primitives_complete f ri r).
  - intros at_ s Hat. now apply editorInsertRow_completes.
  - intros Hnum Hrow. now apply delete_lua_completes.
Qed.

Lemma mutations_raise_dirty_witness :
  let f := get (new_buffer None) (ab_cd 1 0) in
  let E := editor_of f in
  file_at E (current_file E) = Done f
  /\ (forall f', delete_lua 80 f = Done f' ->
        dirty f' = dirty f + delete_lua_increase f
        /\ 0 <= delete_lua_increase f <= 3)
  /\ delete_lua_increase f = 2
  /\ is_done (delete_lua 80 f) = true
  /\ is_done (save_lua 80 no_script (Some (bytes "t")) SaveOk E) = true
  /\ is_done (editorOpen 80 no_script (Some (bytes "t"))
                (FopenLines [bytes "x"]) E) = true.
Proof.
  intros f E.
  assert (Hf : file_at E (current_file E) = Done f) by (vm_compute; reflexivity).
  split; [exact Hf|].
  split; [|repeat split; vm_compute; reflexivity].
  exact (proj1 (proj2 (proj2 (proj2 (proj2 (proj2 (proj2 (proj2
           (mutations_raise_dirty 22 80 80 no_script E f Hf))))))))).
Defined.

(** * What the highlighter keeps and what it writes *)

Section HlInvariant.

Variable v : source_variant.
Variable syn : editorSyntax.
Variable Q : list hl_t -> Prop.
Hypothesis Q_put :
  forall h i t h',
    tag_allowed v syn t = true -> Q h -> hl_put h i t = Done h' -> Q h'.

Lemma hl_fill_inv (n : nat) (t : hl_t) :
  tag_allowed v syn t = true ->
  forall h i h', Q h -> hl_fill h i n t = Done h' -> Q h'.
Proof.
  intros Ht. induction n as [|n IH]; intros h i h' HQ H; cbn in H.
  - now injection H as <-.
  - bind_done H. eapply IH; [|exact H]. eapply Q_put; eauto.
Qed.

Ltac tag_ok :=
  first [ reflexivity | assumption
        | cbn [tag_allowed]; assumption
        | cbn [tag_allowed]; destruct v; [reflexivity|discriminate]
        | match goal with
          | |- tag_allowed _ _ (if ?b then _ else _) = true =>
              destruct b; reflexivity
          end ].

Ltac solve_Q :=
  first
    [ assumption
    | match goal with
      | E : hl_put ?h ?i ?t = Done ?x |- Q ?x =>
          apply (Q_put h i t x); [tag_ok | solve_Q | exact E]
      | E : hl_fill ?h ?i ?n ?t = Done ?x |- Q ?x =>
          apply (hl_fill_inv n t ltac:(tag_ok) h i x); [solve_Q | exact E]
      | E : Done ?h = Done ?x |- Q ?x =>
          injection E as <-; solve_Q
      | E : (if ?c then _ else _) = Done ?x |- Q ?x =>
          destruct c; solve_Q
      end ].

Lemma syntax_step_inv (rnd : list ascii) (t : tok) (s : step_result) :
  Q (t_hl t) ->
  syntax_step v syn rnd t = Done s ->
  match s with
  | Continue t' | Break t' => Q (t_hl t')
  | Return h => Q h
  end.
Proof.
  intros HQ H. unfold syntax_step, syntax_step_word, put_if in H.
  destruct (has_flag syn HL_HIGHLIGHT_STRINGS) eqn:Hs;
    destruct (has_flag syn HL_HIGHLIGHT_NUMBERS) eqn:Hn;
    repeat step_case H; injection H as <-; cbn [t_hl]; solve_Q.
Qed.

Lemma syntax_loop_inv (rnd : list ascii) (fuel : nat) :
  forall (t : tok) (out : loop_result),
    Q (t_hl t) ->
    syntax_loop fuel v syn rnd t = Done out ->
    match out with
    | LoopEnd t' => Q (t_hl t')
    | EarlyReturn h => Q h
    end.
Proof.
  induction fuel as [|fuel IH]; intros t out HQ H; [discriminate|].
  cbn [syntax_loop] in H. bind_done H.
  pose proof (syntax_step_inv rnd t x HQ E) as Hx.
  destruct x as [t'|t'|h].
  - eapply IH; eauto.
  - now injection H as <-.
  - now injection H as <-.
Qed.

End HlInvariant.

Lemma row_put_rows (f f' : fileState) (i : Z) (r : erow) :
  row_put f i r = Done f' ->
  f' = set_row (list_set (row f) (Z.to_nat i) r) f
  /\ 0 <= i < Z.of_nat (List.length (row f)).
Proof.
  unfold row_put. destruct (Z.ltb_spec i 0); [discriminate|]. cbn [orb].
  destruct (Z.leb_spec (Z.of_nat (List.length (row f))) i); [discriminate|].
  intros [= <-]. split; [reflexivity|lia].
Qed.

(** The rows of [f'] after [row_put f i r]: slot [i] holds [r], the others
    are those of [f]. *)
Lemma row_put_nth (f f' : fileState) (i : Z) (r : erow) (j : nat) :
  row_put f i r = Done f' ->
  nth_error (row f') j
  = if Nat.eqb j (Z.to_nat i) then Some r else nth_error (row f) j.
Proof.
  intros H. apply row_put_rows in H as [-> Hi]. cbn [row set_row].
  destruct (Nat.eqb_spec j (Z.to_nat i)) as [->|Hne].
  - apply nth_error_list_set_eq. lia.
  - apply nth_error_list_set_neq. congruence.
Qed.

Section RowInvariant.

Variable osyn : option editorSyntax.
Variable Qr : list ascii -> list hl_t -> Prop.
Hypothesis Qr_init : forall rnd, Qr rnd (repeat HL_NORMAL (List.length rnd)).
Hypothesis Qr_put :
  forall syn, osyn = Some syn ->
  forall rnd h i t h',
    tag_allowed Kilua syn t = true -> Qr rnd h -> hl_put h i t = Done h' ->
    Qr rnd h'.

Lemma editorUpdateSyntax_inv (fuel : nat) :
  forall (f f' : fileState) (ri : Z),
    syntax f = osyn ->
    editorUpdateSyntax fuel f ri = Done f' ->
    forall (j : nat) (r' : erow),
      nth_error (row f') j = Some r' ->
      (j = Z.to_nat ri
       \/ exists r, nth_error (row f) j = Some r /\ Qr (render r) (hl r)) ->
      Qr (render r') (hl r').
Proof.
  induction fuel as [|k IH]; intros f f' ri Hsyn H j r' Hj Hpre;
    [discriminate|].
  cbn [editorUpdateSyntax] in H.
  bind_done H. rename x into r, E into Hr.
  bind_done H. rename x into f0, E into Hf0.
  pose proof (row_put_nth _ _ _ _ j Hf0) as N0.
  assert (Hsyn0 : syntax f0 = osyn)
    by (apply row_put_rows in Hf0 as [-> _]; exact Hsyn).
  assert (Hinit : Qr (render r) (repeat HL_NORMAL (List.length (render r))))
    by apply Qr_init.
  rewrite Hsyn in H. destruct osyn as [syn|] eqn:Hos.
  2:{ injection H as <-. rewrite N0 in Hj.
      destruct (Nat.eqb_spec j (Z.to_nat ri)) as [->|Hne].
      - injection Hj as <-. exact Hinit.
      - destruct Hpre as [?|(r1 & Hr1 & HR)]; [contradiction|]. congruence. }
  bind_done H. clear E. bind_done H. rename x0 into out, E into Hout.
  apply (syntax_loop_inv Kilua syn (Qr (render r))) in Hout;
    [|intros; eapply (Qr_put syn eq_refl); eauto|exact Hinit].
  destruct out as [t|h].
  - bind_done H. rename x0 into f1, E into Hf1.
    pose proof (row_put_nth _ _ _ _ j Hf1) as N1.
    assert (Hsyn1 : syntax f1 = Some syn)
      by (apply row_put_rows in Hf1 as [-> _]; exact Hsyn0).
    bind_done H. clear E. bind_done H. rename x1 into f2, E into Hf2.
    bind_done H. rename x1 into r2, E into Hr2.
    pose proof (row_put_nth _ _ _ _ j H) as N2.
    assert (C2 : forall j2 r2',
               nth_error (row f2) j2 = Some r2' ->
               (j2 = Z.to_nat ri
                \/ exists r0, nth_error (row f) j2 = Some r0
                              /\ Qr (render r0) (hl r0)) ->
               Qr (render r2') (hl r2')).
    { intros j2 r2' Hj2 Hpre2.
      pose proof (row_put_nth _ _ _ _ j2 Hf0) as M0.
      pose proof (row_put_nth _ _ _ _ j2 Hf1) as M1.
      assert (Hin1 : exists r1, nth_error (row f1) j2 = Some r1
                                /\ Qr (render r1) (hl r1)).
      { rewrite M1. destruct (Nat.eqb_spec j2 (Z.to_nat ri)) as [->|Hne].
        - eexists. split; [reflexivity|exact Hout].
        - destruct Hpre2 as [?|(r1 & Hr1 & HR)]; [contradiction|].
          exists r1. rewrite M0.
          destruct (Nat.eqb_spec j2 (Z.to_nat ri)); [contradiction|]. auto. }
      destruct (_ && _) in Hf2.
      - eapply (IH f1 f2 _ Hsyn1 Hf2); eauto.
      - injection Hf2 as <-. destruct Hin1 as (r1 & Hr1 & HR). congruence. }
    rewrite N2 in Hj. destruct (Nat.eqb_spec j (Z.to_nat ri)) as [->|Hne].
    + injection Hj as <-. cbn [render hl set_hl_oc].
      apply row_at_nth in Hr2 as [_ Hr2]. eapply C2; eauto.
    + eapply C2; eauto.
  - pose proof (row_put_nth _ _ _ _ j H) as N1. rewrite N1 in Hj.
    destruct (Nat.eqb_spec j (Z.to_nat ri)) as [->|Hne].
    + injection Hj as <-. exact Hout.
    + rewrite N0 in Hj.
      destruct (Nat.eqb_spec j (Z.to_nat ri)); [contradiction|].
      destruct Hpre as [?|(r1 & Hr1 & HR)]; [contradiction|]. congruence.
Qed.

End RowInvariant.

(** * The buffer invariant and the content of the rows *)

Lemma same_text_nth (f f' : fileState) (j : nat) (r' : erow) :
  same_text f f' -> nth_error (row f') j = Some r' ->
  exists r, nth_error (row f) j = Some r /\ row_text r = row_text r'.
Proof.
  intros [_ Hm] Hj.
  assert (H : nth_error (map row_text (row f')) j = Some (row_text r'))
    by (rewrite nth_error_map, Hj; reflexivity).
  rewrite Hm, nth_error_map in H.
  destruct (nth_error (row f) j) as [r|]; [|discriminate].
  exists r. split; [reflexivity|]. cbn [option_map] in H. congruence.
Qed.

Lemma same_text_fields (f f' : fileState) :
  same_text f f' ->
  syntax f' = syntax f /\ tab_size f' = tab_size f /\ numrows f' = numrows f
  /\ List.length (row f') = List.length (row f).
Proof.
  intros [E Hm]. rewrite <- E. cbn. repeat split.
  rewrite <- (length_map row_text), Hm, length_map. reflexivity.
Qed.

Lemma same_text_texts (f f' : fileState) :
  same_text f f' -> texts f' = texts f /\ map idx (row f') = map idx (row f).
Proof.
  intros [_ Hm]. unfold texts. split.
  - assert (H : map (fun t : Z * list ascii * list ascii => snd (fst t))
                  (map row_text (row f'))
                = map (fun t : Z * list ascii * list ascii => snd (fst t))
                    (map row_text (row f))) by (now rewrite Hm).
    now rewrite !map_map in H.
  - assert (H : map (fun t : Z * list ascii * list ascii => fst (fst t))
                  (map row_text (row f'))
                = map (fun t : Z * list ascii * list ascii => fst (fst t))
                    (map row_text (row f))) by (now rewrite Hm).
    now rewrite !map_map in H.
Qed.

(** The tags of a row stay as many as its rendered bytes. *)
Lemma hl_put_length (h h' : list hl_t) (i : Z) (t : hl_t) :
  hl_put h i t = Done h' -> List.length h' = List.length h.
Proof.
  unfold hl_put. destruct (_ || _); [discriminate|].
  intros [= <-]. apply list_set_length.
Qed.

(** [editorUpdateRow] renders its row and leaves every row rendered that
    was. *)
Lemma editorUpdateRow_rendered (f f' : fileState) (ri : Z) :
  editorUpdateRow f ri = Done f' ->
  forall (j : nat) (r' : erow),
    nth_error (row f') j = Some r' ->
    (j = Z.to_nat ri
     \/ exists r, nth_error (row f) j = Some r /\ row_rendered (tab_size f) r) ->
    row_rendered (tab_size f) r'.
Proof.
  unfold editorUpdateRow. intros H j r' Hj Hpre.
  bind_done H. rename x into r, E into Hr.
  bind_done H. rename x into rnd, E into Hrnd.
  bind_done H. rename x into f1, E into Hf1.
  pose proof (row_put_nth _ _ _ _ j Hf1) as N1.
  pose proof (editorUpdateSyntax_same_text _ _ _ _ H) as S.
  destruct (same_text_nth _ _ _ _ S Hj) as (r1 & Hr1 & Ht).
  injection Ht as Hi Hc Hre.
  assert (Hsyn : syntax f1 = syntax f)
    by (apply row_put_rows in Hf1 as [-> _]; reflexivity).
  split.
  - rewrite <- Hc, <- Hre. rewrite N1 in Hr1.
    destruct (Nat.eqb_spec j (Z.to_nat ri)) as [->|Hne].
    + injection Hr1 as <-. exact Hrnd.
    + destruct Hpre as [?|(r0 & Hr0 & HR & _)]; [contradiction|]. congruence.
  - apply (editorUpdateSyntax_inv (syntax f)
             (fun rnd h => List.length h = List.length rnd))
      with (fuel := row_fuel f1) (f := f1) (f' := f') (ri := ri) (j := j);
      auto.
    + intros. apply repeat_length.
    + intros syn _ rnd0 h i t h' _ Hh Hp.
      apply hl_put_length in Hp. congruence.
    + destruct Hpre as [->|(r0 & Hr0 & _ & HL)]; [now left|].
      destruct (Nat.eqb_spec j (Z.to_nat ri)) as [->|Hne]; [now left|].
      right. exists r0. rewrite N1.
      destruct (Nat.eqb_spec j (Z.to_nat ri)); [contradiction|]. auto.
Qed.

(** [editorUpdateRow] changes neither the content nor the indices. *)
Lemma editorUpdateRow_texts (f f' : fileState) (ri : Z) :
  editorUpdateRow f ri = Done f' ->
  texts f' = texts f /\ map idx (row f') = map idx (row f)
  /\ set_row (row f') f = f'.
Proof.
  intros H. pose proof (editorUpdateRow_rows_only _ _ _ H) as Hset.
  unfold editorUpdateRow in H.
  bind_done H. rename x into r, E into Hr.
  bind_done H. rename x into rnd, E into Hrnd.
  bind_done H. rename x into f1, E into Hf1.
  apply editorUpdateSyntax_same_text, same_text_texts in H as [Ht Hi].
  apply row_at_nth in Hr as [_ Hr].
  apply row_put_rows in Hf1 as [-> _]. unfold texts in *. cbn [row set_row] in *.
  rewrite Ht, Hi. repeat split; auto.
  - eapply map_list_set_same; [exact Hr|reflexivity].
  - eapply map_list_set_same; [exact Hr|reflexivity].
Qed.

Lemma index_consistent_map (f f' : fileState) :
  map idx (row f') = map idx (row f) ->
  index_consistent f -> index_consistent f'.
Proof.
  intros Hm Hc i r Hi.
  assert (H : nth_error (map idx (row f')) i = Some (idx r))
    by (rewrite nth_error_map, Hi; reflexivity).
  rewrite Hm, nth_error_map in H.
  destruct (nth_error (row f) i) as [r0|] eqn:E; [|discriminate].
  injection H as <-. eapply Hc; eauto.
Qed.

Lemma map_list_set {A B : Type} (g : A -> B) (l : list A) (n : nat) (v : A) :
  map g (list_set l n v) = list_set (map g l) n (g v).
Proof.
  revert n. induction l as [|a l IH]; intros [|n]; cbn; auto. now rewrite IH.
Qed.

Lemma well_formed_weaken (ri : Z) (f : fileState) :
  well_formed f -> well_formed_but ri f.
Proof.
  intros (H1 & H2 & H3). split; [exact H1|]. split; [exact H2|].
  intros j r Hj _. eapply H3; eauto.
Qed.

(** The invariants do not look at the cursor, the mark, the name or the
    counter. *)
Lemma well_formed_but_frame (ri : Z) (f g : fileState) :
  row g = row f -> numrows g = numrows f -> tab_size g = tab_size f ->
  well_formed_but ri f -> well_formed_but ri g.
Proof.
  intros Hr Hn Ht (H1 & H2 & H3). unfold well_formed_but, index_consistent.
  rewrite Hr, Hn, Ht. auto.
Qed.

Lemma well_formed_frame (f g : fileState) :
  row g = row f -> numrows g = numrows f -> tab_size g = tab_size f ->
  well_formed f -> well_formed g.
Proof.
  intros Hr Hn Ht (H1 & H2 & H3). unfold well_formed, index_consistent.
  rewrite Hr, Hn, Ht. auto.
Qed.

(** Storing new bytes in row [ri]. *)
Lemma row_put_well_formed_but (f f1 : fileState) (ri : Z) (r r1 : erow) :
  well_formed_but ri f -> row_at f ri = Done r -> idx r1 = idx r ->
  row_put f ri r1 = Done f1 ->
  well_formed_but ri f1
  /\ texts f1 = list_set (texts f) (Z.to_nat ri) (chars r1)
  /\ set_row (row f1) f = f1.
Proof.
  intros (Hn & Hc & Hr) Hrow Hidx Hp.
  pose proof (fun j => row_put_nth _ _ _ _ j Hp) as N1.
  pose proof (row_put_length _ _ _ _ Hp) as Hl1.
  apply row_put_rows in Hp as [Hf1 Hri].
  apply row_at_nth in Hrow as [_ Hrow].
  assert (Hs : set_row (row f1) f = f1) by (rewrite Hf1; reflexivity).
  split; [|split; [|exact Hs]].
  - split; [|split].
    + rewrite <- Hs. cbn. lia.
    + intros i r0 Hi0. rewrite N1 in Hi0.
      destruct (Nat.eqb_spec i (Z.to_nat ri)) as [->|Hne].
      * injection Hi0 as <-. rewrite Hidx. eapply Hc; eauto.
      * eapply Hc; eauto.
    + intros j r' Hj Hne. rewrite N1 in Hj.
      destruct (Nat.eqb_spec j (Z.to_nat ri)); [contradiction|].
      rewrite <- Hs. cbn [tab_size set_row]. eapply Hr; eauto.
  - unfold texts. rewrite Hf1. cbn [row set_row]. apply map_list_set.
Qed.

(** Rendering row [ri] establishes the invariant. *)
Lemma update_well_formed (f f2 : fileState) (ri : Z) :
  well_formed_but ri f -> editorUpdateRow f ri = Done f2 ->
  well_formed f2 /\ texts f2 = texts f /\ set_row (row f2) f = f2.
Proof.
  intros (Hn & Hc & Hr) Hu.
  pose proof (editorUpdateRow_texts _ _ _ Hu) as (Ht & Hi & Hs).
  pose proof (editorUpdateRow_length _ _ _ Hu) as Hl.
  split; [|split; assumption].
  split; [|split].
  - rewrite <- Hs. cbn. lia.
  - apply (index_consistent_map f f2 Hi Hc).
  - intros j r' Hj.
    assert (Hts : tab_size f2 = tab_size f) by (rewrite <- Hs; reflexivity).
    rewrite Hts. apply (editorUpdateRow_rendered _ _ _ Hu j r' Hj).
    destruct (Nat.eq_dec j (Z.to_nat ri)) as [->|Hne]; [now left|].
    right. destruct (nth_error (row f) j) as [r0|] eqn:E0.
    + exists r0. split; [reflexivity|]. eapply Hr; eauto.
    + apply nth_error_None in E0.
      assert (nth_error (row f2) j = None) by (apply nth_error_None; lia).
      congruence.
Qed.

(** Storing a row with new content and rendering it keeps the invariant. *)
Lemma put_update_well_formed (f f1 f2 : fileState) (ri : Z) (r r1 : erow) :
  well_formed f -> row_at f ri = Done r -> idx r1 = idx r ->
  row_put f ri r1 = Done f1 -> editorUpdateRow f1 ri = Done f2 ->
  well_formed f2
  /\ texts f2 = list_set (texts f) (Z.to_nat ri) (chars r1)
  /\ set_row (row f2) f = f2.
Proof.
  intros Hwf Hrow Hidx Hp Hu.
  destruct (row_put_well_formed_but f f1 ri r r1 (well_formed_weaken ri f Hwf)
              Hrow Hidx Hp) as (W1 & T1 & S1).
  destruct (update_well_formed f1 f2 ri W1 Hu) as (W2 & T2 & S2).
  split; [exact W2|]. split; [congruence|].
  rewrite <- S2, <- S1. reflexivity.
Qed.

(** ** Lists with one element inserted or removed *)

Lemma nth_error_inserted {A : Type} (l : list A) (n : nat) (x : A)
    (g : A -> A) (j : nat) :
  (n <= List.length l)%nat ->
  nth_error (firstn n l ++ x :: map g (skipn n l)) j
  = if (j <? n)%nat then nth_error l j
    else if (j =? n)%nat then Some x
    else option_map g (nth_error l (j - 1)).
Proof.
  intros Hn.
  assert (Hl : List.length (firstn n l) = n) by (rewrite length_firstn; lia).
  destruct (Nat.ltb_spec j n).
  - rewrite nth_error_app1 by lia. rewrite nth_error_firstn.
    destruct (Nat.ltb_spec j n); [reflexivity|lia].
  - rewrite nth_error_app2 by lia. rewrite Hl.
    destruct (Nat.eqb_spec j n) as [->|Hne].
    + now rewrite Nat.sub_diag.
    + destruct (j - n)%nat as [|k] eqn:Ek; [lia|]. cbn [nth_error].
      rewrite nth_error_map, nth_error_skipn. do 2 f_equal. lia.
Qed.

Lemma nth_error_removed {A : Type} (l : list A) (n : nat) (g : A -> A)
    (j : nat) :
  (n <= List.length l)%nat ->
  nth_error (firstn n l ++ map g (skipn (S n) l)) j
  = if (j <? n)%nat then nth_error l j
    else option_map g (nth_error l (S j)).
Proof.
  intros Hn.
  assert (Hl : List.length (firstn n l) = n) by (rewrite length_firstn; lia).
  destruct (Nat.ltb_spec j n).
  - rewrite nth_error_app1 by lia. rewrite nth_error_firstn.
    destruct (Nat.ltb_spec j n); [reflexivity|lia].
  - rewrite nth_error_app2 by lia. rewrite Hl.
    rewrite nth_error_map, nth_error_skipn. do 2 f_equal. lia.
Qed.

Lemma map_inserted {A B : Type} (h : A -> B) (l : list A) (n : nat) (x : A)
    (g : A -> A) :
  (forall a, h (g a) = h a) ->
  map h (firstn n l ++ x :: map g (skipn n l))
  = firstn n (map h l) ++ h x :: skipn n (map h l).
Proof.
  intros Hg. rewrite map_app, firstn_map. cbn [map].
  rewrite map_map, skipn_map. do 2 f_equal. now apply map_ext.
Qed.

Lemma map_removed {A B : Type} (h : A -> B) (l : list A) (n : nat)
    (g : A -> A) :
  (forall a, h (g a) = h a) ->
  map h (firstn n l ++ map g (skipn (S n) l))
  = firstn n (map h l) ++ skipn (S n) (map h l).
Proof.
  intros Hg. rewrite map_app, firstn_map, map_map, skipn_map.
  f_equal. now apply map_ext.
Qed.

(** ** The row primitives *)

(** [editorInsertRow] at a valid index: the new row holds [s], the rows
    keep their order, and only the rows, their number and the counter
    change. *)
Lemma editorInsertRow_spec (f f' : fileState) (at_ : Z) (s : list ascii) :
  well_formed f -> 0 <= at_ <= numrows f ->
  editorInsertRow f at_ s = Done f' ->
  well_formed f'
  /\ texts f' = firstn (Z.to_nat at_) (texts f) ++ s :: skipn (Z.to_nat at_) (texts f)
  /\ f' = set_dirty (dirty f + 1) (set_numrows (numrows f + 1)
            (set_row (row f') f)).
Proof.
  intros (Hn & Hc & Hr) Hat H. unfold editorInsertRow in H.
  destruct (Z.gtb_spec at_ (numrows f)); [lia|].
  destruct (Z.ltb_spec at_ 0); [lia|].
  bind_done H. rename x into f1, E into Hu. injection H as <-.
  set (n := Z.to_nat at_) in *.
  set (fresh := {| idx := at_; chars := s; render := []; hl := [];
                   hl_oc := false |}) in *.
  set (rows := firstn n (row f) ++ fresh :: map (incr_idx 1) (skipn n (row f)))
    in *.
  assert (Hnl : (n <= List.length (row f))%nat) by lia.
  pose proof (editorUpdateRow_texts _ _ _ Hu) as (Ht & Hi & Hs).
  pose proof (editorUpdateRow_length _ _ _ Hu) as Hl.
  cbn [row set_row] in Hi, Hl.
  assert (Hlen : List.length rows = S (List.length (row f))).
  { unfold rows. rewrite length_app, length_firstn. cbn [List.length].
    rewrite length_map, length_skipn. lia. }
  assert (Hs2 : set_row (row f1) f = f1) by (rewrite <- Hs; reflexivity).
  split; [|split].
  - split; [|split].
    + cbn. rewrite <- Hs2. cbn. lia.
    + cbn [index_consistent row set_dirty set_numrows].
      apply (index_consistent_map (set_row rows f) f1 Hi).
      intros i r0 Hrw. cbn [row set_row] in Hrw. unfold rows in Hrw.
      rewrite nth_error_inserted in Hrw by exact Hnl.
      destruct (Nat.ltb_spec i n); [eapply Hc; eauto|].
      destruct (Nat.eqb_spec i n) as [->|Hne].
      * injection Hrw as <-. cbn. unfold n. lia.
      * destruct (nth_error (row f) (i - 1)) as [r1|] eqn:E1; [|discriminate].
        injection Hrw as <-. cbn. rewrite (Hc _ _ E1). lia.
    + intros j r' Hj. cbn [row tab_size set_dirty set_numrows] in *.
      assert (Hts : tab_size f1 = tab_size (set_row rows f))
        by (rewrite <- Hs; reflexivity).
      rewrite Hts.
      apply (editorUpdateRow_rendered _ _ _ Hu j r' Hj).
      destruct (Nat.eq_dec j (Z.to_nat at_)) as [->|Hne]; [now left|].
      right. cbn [row set_row tab_size]. unfold rows.
      rewrite nth_error_inserted by exact Hnl. fold n.
      assert (Hjl : (j < List.length rows)%nat).
      { rewrite <- Hl. apply nth_error_Some. congruence. }
      destruct (Nat.ltb_spec j n).
      * destruct (nth_error (row f) j) as [r0|] eqn:E0.
        -- exists r0. split; [reflexivity|]. eapply Hr; eauto.
        -- apply nth_error_None in E0. lia.
      * destruct (Nat.eqb_spec j n); [contradiction|].
        destruct (nth_error (row f) (j - 1)) as [r0|] eqn:E0.
        -- exists (incr_idx 1 r0). split; [reflexivity|].
           apply (Hr _ _ E0).
        -- apply nth_error_None in E0. lia.
  - unfold texts in *. cbn [row set_dirty set_numrows]. rewrite Ht.
    cbn [row set_row]. unfold rows. apply map_inserted. reflexivity.
  - rewrite <- Hs2. reflexivity.
Qed.

(** [editorDelRow] at an existing row. *)
Lemma editorDelRow_spec (f f' : fileState) (at_ : Z) :
  well_formed f -> 0 <= at_ < numrows f ->
  editorDelRow f at_ = Done f' ->
  well_formed f'
  /\ texts f' = firstn (Z.to_nat at_) (texts f) ++ skipn (S (Z.to_nat at_)) (texts f)
  /\ f' = set_dirty (dirty f + 1) (set_numrows (numrows f - 1)
            (set_row (row f') f)).
Proof.
  intros (Hn & Hc & Hr) Hat H. unfold editorDelRow in H.
  destruct (Z.geb_spec at_ (numrows f)); [lia|].
  destruct (Z.ltb_spec at_ 0); [lia|]. injection H as <-.
  set (n := Z.to_nat at_) in *.
  assert (Hnl : (n < List.length (row f))%nat) by lia.
  change (match row f with [] => [] | _ :: l => skipn n l end)
    with (skipn (S n) (row f)).
  split; [|split].
  - split; [|split].
    + cbn [numrows row set_dirty set_numrows set_row].
      rewrite length_app, length_firstn, length_map, length_skipn. lia.
    + intros i r0 Hrw. cbn [row set_dirty set_numrows set_row] in Hrw.
      rewrite nth_error_removed in Hrw by lia.
      destruct (Nat.ltb_spec i n); [eapply Hc; eauto|].
      destruct (nth_error (row f) (S i)) as [r1|] eqn:E1; [|discriminate].
      injection Hrw as <-. cbn. rewrite (Hc _ _ E1). lia.
    + intros j r' Hj. cbn [row tab_size set_dirty set_numrows set_row] in *.
      rewrite nth_error_removed in Hj by lia.
      destruct (Nat.ltb_spec j n); [eapply Hr; eauto|].
      destruct (nth_error (row f) (S j)) as [r1|] eqn:E1; [|discriminate].
      injection Hj as <-. apply (Hr _ _ E1).
  - unfold texts. cbn [row set_dirty set_numrows set_row].
    apply map_removed. reflexivity.
  - reflexivity.
Qed.

Lemma editorRowInsertChar_spec (f f' : fileState) (ri at_ : Z) (c : ascii)
    (r : erow) :
  well_formed f -> row_at f ri = Done r ->
  editorRowInsertChar f ri at_ c = Done f' ->
  well_formed f'
  /\ texts f' = list_set (texts f) (Z.to_nat ri) (row_insert (chars r) at_ c)
  /\ f' = set_dirty (dirty f + 1) (set_row (row f') f).
Proof.
  intros Hwf Hr H. unfold editorRowInsertChar in H. rewrite Hr in H.
  cbn [bind] in H. bind_done H. rename x into cs, E into Hcs.
  bind_done H. rename x into f1, E into Hf1.
  bind_done H. rename x into f2, E into Hf2. injection H as <-.
  destruct (put_update_well_formed f f1 f2 ri r (set_chars cs r) Hwf Hr
              eq_refl Hf1 Hf2) as (W & T & S).
  assert (Hcs' : cs = row_insert (chars r) at_ c).
  { unfold row_insert, size in *. destruct (_ >? _); [congruence|].
    destruct (_ <? _); [discriminate|congruence]. }
  split; [|split].
  - destruct W as (W1 & W2 & W3). split; [|split]; assumption.
  - unfold texts in *. cbn [row set_dirty]. rewrite T. cbn. now rewrite Hcs'.
  - rewrite <- S. reflexivity.
Qed.

Lemma editorRowAppendString_spec (f f' : fileState) (ri : Z) (s : list ascii)
    (r : erow) :
  well_formed f -> row_at f ri = Done r ->
  editorRowAppendString f ri s = Done f' ->
  well_formed f'
  /\ texts f' = list_set (texts f) (Z.to_nat ri) (chars r ++ s)
  /\ f' = set_dirty (dirty f + 1) (set_row (row f') f).
Proof.
  intros Hwf Hr H. unfold editorRowAppendString in H. rewrite Hr in H.
  cbn [bind] in H.
  bind_done H. rename x into f1, E into Hf1.
  bind_done H. rename x into f2, E into Hf2. injection H as <-.
  destruct (put_update_well_formed f f1 f2 ri r (set_chars (chars r ++ s) r)
              Hwf Hr eq_refl Hf1 Hf2) as (W & T & S).
  split; [|split].
  - destruct W as (W1 & W2 & W3). split; [|split]; assumption.
  - unfold texts in *. cbn [row set_dirty]. rewrite T. reflexivity.
  - rewrite <- S. reflexivity.
Qed.

Lemma list_set_twice {A : Type} (l : list A) (n : nat) (a b : A) :
  list_set (list_set l n a) n b = list_set l n b.
Proof.
  revert n. induction l as [|x l IH]; intros [|n]; cbn; auto. now rewrite IH.
Qed.

Lemma list_set_same {A : Type} (l : list A) (n : nat) (a : A) :
  nth_error l n = Some a -> list_set l n a = l.
Proof.
  revert n. induction l as [|x l IH]; intros [|n] H; cbn in *; auto.
  - now injection H as ->.
  - now rewrite IH.
Qed.

Lemma texts_nth (f : fileState) (i : Z) (r : erow) :
  row_at f i = Done r -> nth_error (texts f) (Z.to_nat i) = Some (chars r).
Proof.
  intros H. apply row_at_nth in H as [_ H]. unfold texts.
  now rewrite nth_error_map, H.
Qed.

Lemma edits_only_refl (f : fileState) : edits_only f f.
Proof. destruct f; reflexivity. Qed.

Lemma edits_only_trans (f g h : fileState) :
  edits_only f g -> edits_only g h -> edits_only f h.
Proof.
  unfold edits_only, restore_cursor. destruct f, g, h; cbn.
  intros [= -> -> -> -> ->] [= -> -> -> -> ->]. reflexivity.
Qed.

Lemma edits_only_fields (f f' : fileState) :
  edits_only f f' ->
  markx f' = markx f /\ marky f' = marky f /\ filename f' = filename f
  /\ syntax f' = syntax f /\ tab_size f' = tab_size f.
Proof.
  unfold edits_only, restore_cursor. destruct f, f'; cbn.
  intros [= -> -> -> -> ->]. auto.
Qed.

(** [editorRowDelChar] inside a row: the byte is gone, and the row is left
    rendered with the NUL that the move has shifted in. *)
Lemma editorRowDelChar_spec (f f' : fileState) (ri at_ : Z) (r : erow) :
  well_formed f -> row_at f ri = Done r ->
  editorRowDelChar f ri at_ = Done f' ->
  well_formed_but ri f'
  /\ texts f' = list_set (texts f) (Z.to_nat ri) (row_delete (chars r) at_)
  /\ f' = set_dirty (dirty f') (set_row (row f') f).
Proof.
  intros Hwf Hr H. unfold editorRowDelChar in H. rewrite Hr in H.
  cbn [bind] in H. unfold row_delete. fold (size r).
  destruct (size r <=? at_).
  { injection H as <-. cbn [orb]. split; [now apply well_formed_weaken|].
    split; [|destruct f; reflexivity].
    symmetry. apply list_set_same. now apply texts_nth. }
  destruct (at_ <? 0).
  { injection H as <-. cbn [orb]. split; [now apply well_formed_weaken|].
    split; [|destruct f; reflexivity].
    symmetry. apply list_set_same. now apply texts_nth. }
  cbn [orb].
  set (moved := firstn (Z.to_nat at_) (chars r)
                ++ skipn (S (Z.to_nat at_)) (chars r)) in *.
  bind_done H. rename x into f1, E into Hf1.
  bind_done H. rename x into f2, E into Hf2.
  bind_done H. rename x into r2, E into Hr2.
  bind_done H. rename x into f3, E into Hf3. injection H as <-.
  destruct (put_update_well_formed f f1 f2 ri r (set_chars (moved ++ [NUL]) r)
              Hwf Hr eq_refl Hf1 Hf2)
    as (W2 & T2 & S2).
  destruct (row_put_well_formed_but f2 f3 ri r2 (set_chars moved r2)
              (well_formed_weaken ri f2 W2) Hr2 eq_refl Hf3) as (W3 & T3 & S3).
  split; [|split].
  - apply (well_formed_but_frame ri f3); auto.
  - unfold texts in *. cbn [row set_dirty]. rewrite T3, T2. cbn [chars set_chars].
    apply list_set_twice.
  - rewrite <- S3, <- S2. reflexivity.
Qed.

(** ** [delete_lua] on a well-formed buffer *)

Lemma row_ptr_in (f : fileState) (y : Z) :
  y < numrows f -> row_ptr f y = Some y.
Proof. unfold row_ptr. destruct (Z.geb_spec y (numrows f)); [lia|reflexivity]. Qed.

Lemma row_ptr_out (f : fileState) (y : Z) :
  numrows f <= y -> row_ptr f y = None.
Proof. unfold row_ptr. destruct (Z.geb_spec y (numrows f)); [reflexivity|lia]. Qed.

Lemma well_formed_row_at (f : fileState) (y : Z) :
  well_formed f -> 0 <= y < numrows f -> exists r, row_at f y = Done r.
Proof.
  intros (Hn & _) Hy. unfold row_at.
  destruct (Z.ltb_spec y 0); [lia|].
  destruct (nth_error (row f) (Z.to_nat y)) as [r|] eqn:E; [eauto|].
  apply nth_error_None in E. lia.
Qed.

(** Inside a row, [delete_lua] removes the byte before the cursor and steps
    back by one column. *)
Lemma delete_lua_in_row (sc : Z) (f f' : fileState) (r : erow) :
  well_formed f -> 0 <= cx f -> 0 <= coloff f -> 0 <= rowoff f ->
  0 <= file_row f < numrows f -> row_at f (file_row f) = Done r ->
  0 < file_col f ->
  delete_lua sc f = Done f' ->
  well_formed f'
  /\ texts f' = list_set (texts f) (Z.to_nat (file_row f))
                  (row_delete (chars r) (file_col f - 1))
  /\ file_col f' = file_col f - 1
  /\ cy f' = cy f /\ rowoff f' = rowoff f
  /\ 0 <= cx f' /\ 0 <= coloff f'
  /\ (0 < cx f -> cx f' = cx f - 1 /\ coloff f' = coloff f)
  /\ edits_only f f'.
Proof.
  intros Hwf Hcx Hco Hro Hfr Hr Hfc H. unfold file_row, file_col in *.
  unfold delete_lua in H. rewrite row_ptr_in in H by lia.
  destruct (Z.eqb_spec (coloff f + cx f) 0); [lia|]. cbn [andb] in H.
  bind_done H. destruct x as [g row]. rename E into Hg.
  bind_done Hg. rename x into f1, E into Hf1. injection Hg as <- <-.
  destruct (editorRowDelChar_spec f f1 _ _ r Hwf Hr Hf1) as (W1 & T1 & S1).
  bind_done H. rename x into f4, E into Hf4. injection H as <-.
  assert (C1 : cx f1 = cx f /\ cy f1 = cy f /\ coloff f1 = coloff f
               /\ rowoff f1 = rowoff f)
    by (rewrite S1; cbn; auto).
  destruct C1 as (C1 & C2 & C3 & C4).
  set (g := if (cx f1 =? 0) && negb (coloff f1 =? 0)
            then set_coloff (coloff f1 - 1) f1 else set_cx (cx f1 - 1) f1) in *.
  assert (G : row g = row f1 /\ numrows g = numrows f1
              /\ tab_size g = tab_size f1 /\ dirty g = dirty f1
              /\ cy g = cy f /\ rowoff g = rowoff f
              /\ coloff g + cx g = coloff f + cx f - 1
              /\ 0 <= cx g /\ 0 <= coloff g
              /\ (0 < cx f -> cx g = cx f - 1 /\ coloff g = coloff f)
              /\ edits_only f1 g).
  { unfold g. rewrite C1, C3.
    destruct (Z.eqb_spec (cx f) 0) as [E0|E0];
      destruct (Z.eqb_spec (coloff f) 0) as [E1|E1]; cbn [andb negb];
      cbn [row numrows tab_size dirty cy rowoff coloff cx set_coloff set_cx];
      repeat split; try lia; try assumption; destruct f1; reflexivity. }
  destruct G as (G1 & G2 & G3 & G4 & G5 & G6 & G7 & G8 & G9 & G10 & G11).
  assert (Hc0 : (coloff g <? 0) = false) by (apply Z.ltb_ge; lia).
  rewrite Hc0 in Hf4.
  assert (Hr0 : (rowoff g <? 0) = false) by (apply Z.ltb_ge; lia).
  rewrite Hr0 in Hf4.
  assert (Wg : well_formed_but (rowoff f + cy f) g)
    by (apply (well_formed_but_frame _ f1); auto).
  destruct (update_well_formed g f4 _ Wg Hf4) as (W4 & T4 & S4).
  assert (F4 : cx f4 = cx g /\ cy f4 = cy g /\ coloff f4 = coloff g
               /\ rowoff f4 = rowoff g)
    by (rewrite <- S4; cbn; auto).
  destruct F4 as (F1 & F2 & F3 & F5).
  split; [|split].
  { apply (well_formed_frame f4); auto. }
  { unfold texts in *. cbn [row set_dirty]. rewrite T4, G1. exact T1. }
  cbn [cx cy coloff rowoff set_dirty]. rewrite F1, F2, F3, F5.
  repeat split; try lia; try (apply G10; assumption).
  apply (edits_only_trans f f1); [rewrite S1; destruct f; reflexivity|].
  apply (edits_only_trans f1 g); [exact G11|].
  rewrite <- S4. destruct g; reflexivity.
Qed.

Lemma joined_rows {A : Type} (l : list A) (k : nat) (x : A) :
  (k < List.length l)%nat ->
  firstn (S k) (list_set l k x) ++ skipn (S (S k)) (list_set l k x)
  = firstn k l ++ x :: skipn (S (S k)) l.
Proof.
  revert k. induction l as [|a l IH]; intros [|k] Hk; cbn in *; try lia.
  - destruct l; reflexivity.
  - f_equal. apply IH. lia.
Qed.

(** At the start of a row that is not the first, [delete_lua] appends the
    row to the one before and removes it. *)
Lemma delete_lua_join (sc : Z) (f f' : fileState) (prev r : erow) :
  well_formed f -> cx f = 0 -> coloff f = 0 -> 0 <= cy f -> 0 <= rowoff f ->
  0 < file_row f < numrows f ->
  row_at f (file_row f - 1) = Done prev -> row_at f (file_row f) = Done r ->
  delete_lua sc f = Done f' ->
  well_formed f'
  /\ texts f' = firstn (Z.to_nat (file_row f - 1)) (texts f)
                ++ (chars prev ++ chars r)
                :: skipn (S (Z.to_nat (file_row f))) (texts f)
  /\ file_row f' = file_row f - 1
  /\ (size prev <= sc + 1 -> file_col f' = size prev)
  /\ (size prev < sc -> cx f' = size prev /\ coloff f' = 0)
  /\ (0 < cy f -> cy f' = cy f - 1 /\ rowoff f' = rowoff f)
  /\ 0 <= cy f' /\ 0 <= rowoff f' /\ 0 <= coloff f'
  /\ (1 <= sc -> 0 <= cx f')
  /\ edits_only f f'.
Proof.
  intros Hwf Hcx Hco Hcy Hro Hfr Hprev Hr H. unfold file_row, file_col in *.
  unfold delete_lua in H. rewrite row_ptr_in in H by lia.
  rewrite Hcx, Hco in H. cbn [Z.add Z.eqb andb] in H.
  destruct (Z.eqb_spec (rowoff f + cy f) 0); [lia|].
  rewrite Hprev, Hr in H. cbn [bind] in H.
  bind_done H. destruct x as [g row]. rename E into Hg.
  bind_done Hg. rename x into f1, E into Hf1.
  destruct (editorRowAppendString_spec f f1 _ _ prev Hwf Hprev Hf1)
    as (W1 & T1 & S1).
  assert (N1 : numrows f1 = numrows f) by (rewrite S1; reflexivity).
  bind_done Hg. rename x into f2, E into Hf2.
  assert (Hat : 0 <= rowoff f + cy f < numrows f1) by lia.
  destruct (editorDelRow_spec f1 f2 _ W1 Hat Hf2) as (W2 & T2 & S2).
  injection Hg as <- <-. cbn [bind] in H.
  assert (C : cx f2 = 0 /\ cy f2 = cy f /\ coloff f2 = 0 /\ rowoff f2 = rowoff f).
  { rewrite S2, S1. cbn. auto. }
  destruct C as (C1 & C2 & C3 & C4).
  set (g3 := if cy f2 =? 0 then set_rowoff (rowoff f2 - 1) f2
             else set_cy (cy f2 - 1) f2).
  assert (G3 : row g3 = row f2 /\ numrows g3 = numrows f2
               /\ tab_size g3 = tab_size f2
               /\ rowoff g3 + cy g3 = rowoff f + cy f - 1
               /\ cx g3 = 0 /\ coloff g3 = 0 /\ 0 <= rowoff g3
               /\ (0 < cy f -> cy g3 = cy f - 1 /\ rowoff g3 = rowoff f)
               /\ 0 <= cy g3
               /\ edits_only f2 g3).
  { unfold g3. rewrite C2.
    destruct (Z.eqb_spec (cy f) 0);
      cbn [row numrows tab_size cy rowoff coloff cx set_rowoff set_cy];
      repeat split; try lia; try assumption; destruct f2; reflexivity. }
  destruct G3 as (A1 & A2 & A3 & A4 & A5 & A6 & A7 & A8 & A11 & A9).
  set (g4 := set_cx (size prev) g3).
  set (g5 := if cx g4 >=? sc
             then set_coloff (coloff g4 + (sc - cx g4 + 1))
                    (set_cx (cx g4 - (sc - cx g4 + 1)) g4)
             else g4).
  set (g6 := if coloff g5 <? 0 then set_coloff 0 g5 else g5).
  set (g7 := if rowoff g6 <? 0 then set_rowoff 0 g6 else g6).
  assert (G7 : row g7 = row f2 /\ numrows g7 = numrows f2
               /\ tab_size g7 = tab_size f2
               /\ rowoff g7 + cy g7 = rowoff f + cy f - 1
               /\ (size prev <= sc + 1 -> coloff g7 + cx g7 = size prev)
               /\ (size prev < sc -> cx g7 = size prev /\ coloff g7 = 0)
               /\ (0 < cy f -> cy g7 = cy f - 1 /\ rowoff g7 = rowoff f)
               /\ 0 <= cy g7 /\ 0 <= rowoff g7 /\ 0 <= coloff g7
               /\ (1 <= sc -> 0 <= cx g7)
               /\ edits_only g3 g7 /\ dirty g7 = dirty f2).
  { assert (Hsz : 0 <= size prev) by (unfold size; lia).
    assert (D3 : dirty g3 = dirty f2)
      by (unfold g3; destruct (cy f2 =? 0); reflexivity).
    unfold g7, g6, g5, g4. clearbody g3.
    destruct g3 as [x3 y3 mx3 my3 ro3 co3 nr3 rw3 d3 fn3 sy3 ts3].
    cbn [row numrows tab_size cx cy coloff rowoff dirty] in *. subst x3 co3.
    unfold edits_only, restore_cursor.
    repeat (cbn [row numrows tab_size cx cy coloff rowoff dirty set_cx set_cy
                 set_coloff set_rowoff set_row set_dirty set_numrows];
            match goal with
            | |- context [?a >=? ?b] => destruct (Z.geb_spec a b)
            | |- context [?a <? ?b] => destruct (Z.ltb_spec a b)
            end);
      cbn [row numrows tab_size cx cy coloff rowoff dirty set_cx set_cy
           set_coloff set_rowoff set_row set_dirty set_numrows] in *;
      repeat split; try lia; try assumption; try reflexivity;
      try (intros; lia); apply A8; assumption. }
  assert (Hf' : f' = set_dirty (dirty g7 + 1) g7)
    by (injection H as <-; reflexivity).
  clear H. subst f'.
  destruct G7 as (B1 & B2 & B3 & B4 & B5 & B6 & B7 & Q1 & Q2 & Q3 & Q4 & B8 & B9).
  split; [|split].
  { apply (well_formed_frame f2); auto. }
  { unfold texts in *. cbn [row set_dirty]. rewrite B1, T2, T1.
    apply texts_nth in Hprev.
    replace (Z.to_nat (rowoff f + cy f)) with (S (Z.to_nat (rowoff f + cy f - 1)))
      by lia.
    apply joined_rows. apply nth_error_Some. unfold texts in Hprev. congruence. }
  cbn [cx cy coloff rowoff set_dirty].
  repeat split; try lia; try (apply B5; assumption);
    try (apply B6; assumption); try (apply B7; assumption);
    try (apply Q4; assumption).
  apply (edits_only_trans f f1); [rewrite S1; destruct f; reflexivity|].
  apply (edits_only_trans f1 f2); [rewrite S2; destruct f1; reflexivity|].
  apply (edits_only_trans f2 g3); [exact A9|].
  apply (edits_only_trans g3 g7); [exact B8|]. destruct g7; reflexivity.
Qed.

(** ** Insertion on a well-formed buffer *)

Lemma skipn_nth {A : Type} (l : list A) (n : nat) (a : A) :
  nth_error l n = Some a -> skipn n l = a :: skipn (S n) l.
Proof.
  revert n. induction l as [|x l IH]; intros [|n] H; cbn in *; try discriminate.
  - now injection H as ->.
  - now apply IH.
Qed.

Lemma list_set_split {A : Type} (l rest : list A) (n : nat) (x : A) :
  (n < List.length l)%nat ->
  list_set (firstn (S n) l ++ rest) n x = firstn n l ++ x :: rest.
Proof.
  revert n. induction l as [|a l IH]; intros [|n] Hn; cbn in *; try lia.
  - reflexivity.
  - f_equal. apply IH. lia.
Qed.

Lemma nth_error_firstn_app {A : Type} (l rest : list A) (n : nat) :
  (n < List.length l)%nat ->
  nth_error (firstn (S n) l ++ rest) n = nth_error l n.
Proof.
  intros Hn. rewrite nth_error_app1 by (rewrite length_firstn; lia).
  rewrite nth_error_firstn. destruct (Nat.ltb_spec n (S n)); [reflexivity|lia].
Qed.

(** The cursor after [fixcursor]. *)
Lemma fixcursor_fields (sr : Z) (g : fileState) :
  let g1 := if cy g =? sr - 1 then set_rowoff (rowoff g + 1) g
            else set_cy (cy g + 1) g in
  let g' := set_coloff 0 (set_cx 0 g1) in
  row g' = row g /\ numrows g' = numrows g /\ tab_size g' = tab_size g
  /\ dirty g' = dirty g
  /\ rowoff g' + cy g' = rowoff g + cy g + 1 /\ cx g' = 0 /\ coloff g' = 0
  /\ (cy g <> sr - 1 -> cy g' = cy g + 1 /\ rowoff g' = rowoff g)
  /\ (0 <= cy g -> 0 <= rowoff g -> 0 <= cy g' /\ 0 <= rowoff g')
  /\ edits_only g g'.
Proof.
  destruct g as [x y mx my ro co nr rw d fn sy ts]. unfold edits_only, restore_cursor.
  cbn. destruct (Z.eqb_spec y (sr - 1)); cbn; repeat split; lia.
Qed.

(** [editorInsertNewline] with the cursor on a row: the row is split at the
    cursor (at its end when the cursor is beyond it), and the cursor goes to
    the start of the second part. *)
Lemma editorInsertNewline_in_row (sr : Z) (f f' : fileState) (r : erow) :
  well_formed f -> 0 <= file_row f < numrows f ->
  row_at f (file_row f) = Done r -> 0 <= file_col f ->
  editorInsertNewline sr f = Done f' ->
  let k := Z.to_nat (Z.min (file_col f) (size r)) in
  well_formed f'
  /\ texts f' = firstn (Z.to_nat (file_row f)) (texts f)
                ++ firstn k (chars r) :: skipn k (chars r)
                :: skipn (S (Z.to_nat (file_row f))) (texts f)
  /\ file_row f' = file_row f + 1 /\ cx f' = 0 /\ coloff f' = 0
  /\ (cy f <> sr - 1 -> cy f' = cy f + 1 /\ rowoff f' = rowoff f)
  /\ (0 <= cy f -> 0 <= rowoff f -> 0 <= cy f' /\ 0 <= rowoff f')
  /\ edits_only f f'.
Proof.
  intros Hwf Hfr Hr Hfc H k. unfold file_row, file_col in *.
  unfold editorInsertNewline in H. rewrite row_ptr_in in H by lia.
  rewrite Hr in H. cbn [bind] in H.
  pose proof (texts_nth _ _ _ Hr) as HT.
  assert (Hlen : (Z.to_nat (rowoff f + cy f) < List.length (texts f))%nat)
    by (apply nth_error_Some; congruence).
  assert (Hsz : 0 <= size r) by (unfold size; lia).
  set (fc := if coloff f + cx f >=? size r then size r else coloff f + cx f) in *.
  assert (Hk : Z.of_nat k = fc).
  { unfold k, fc. destruct (Z.geb_spec (coloff f + cx f) (size r)); lia. }
  destruct (Z.eqb_spec fc 0) as [E0|E0].
  - bind_done H. rename x into f1, E into Hf1. injection H as <-.
    assert (Hat : 0 <= rowoff f + cy f <= numrows f) by lia.
    destruct (editorInsertRow_spec f f1 _ _ Hwf Hat Hf1) as (W1 & T1 & S1).
    destruct (fixcursor_fields sr f1) as (A1 & A2 & A3 & A4 & A5 & A6 & A7 & A8 & A10 & A9).
    split; [apply (well_formed_frame f1); auto|].
    split.
    { unfold texts in *. rewrite A1, T1.
      replace k with 0%nat by lia. cbn [firstn skipn].
      now rewrite (skipn_nth _ _ _ HT). }
    assert (C : cy f1 = cy f /\ rowoff f1 = rowoff f)
      by (rewrite S1; cbn; auto).
    destruct C as [C1 C2]. rewrite <- C1, <- C2.
    repeat split; try lia; try (apply A8; lia); try (apply A10; lia).
    apply (edits_only_trans f f1); [rewrite S1; destruct f; reflexivity|exact A9].
  - destruct (Z.ltb_spec fc 0); [lia|].
    bind_done H. rename x into f1, E into Hf1.
    assert (Hat : 0 <= rowoff f + cy f + 1 <= numrows f) by lia.
    destruct (editorInsertRow_spec f f1 _ _ Hwf Hat Hf1) as (W1 & T1 & S1).
    bind_done H. rename x into r1, E into Hr1.
    bind_done H. rename x into f2, E into Hf2.
    bind_done H. rename x into f3, E into Hf3. injection H as <-.
    destruct (put_update_well_formed f1 f2 f3 _ r1
                (set_chars (firstn (Z.to_nat fc) (chars r1)) r1)
                W1 Hr1 eq_refl Hf2 Hf3) as (W3 & T3 & S3).
    destruct (fixcursor_fields sr f3) as (A1 & A2 & A3 & A4 & A5 & A6 & A7 & A8 & A10 & A9).
    replace (Z.to_nat (rowoff f + cy f + 1)) with (S (Z.to_nat (rowoff f + cy f)))
      in T1 by lia.
    assert (Hc1 : chars r1 = chars r).
    { apply texts_nth in Hr1. rewrite T1, nth_error_firstn_app in Hr1 by exact Hlen.
      congruence. }
    split; [apply (well_formed_frame f3); auto|].
    split.
    { unfold texts in *. rewrite A1, T3, T1. cbn [chars set_chars].
      rewrite Hc1, list_set_split by exact Hlen.
      replace (Z.to_nat fc) with k by lia. reflexivity. }
    assert (C : cy f3 = cy f /\ rowoff f3 = rowoff f)
      by (rewrite <- S3, S1; cbn; auto).
    destruct C as [C1 C2]. rewrite <- C1, <- C2.
    repeat split; try lia; try (apply A8; lia); try (apply A10; lia).
    apply (edits_only_trans f f1); [rewrite S1; destruct f; reflexivity|].
    apply (edits_only_trans f1 f3); [rewrite <- S3; destruct f1; reflexivity|].
    exact A9.
Qed.

(** [editorInsertChar] of a byte other than a newline, with the cursor on
    a row. *)
Lemma editorInsertChar_in_row (sr sc : Z) (c : ascii) (f f' : fileState)
    (r : erow) :
  well_formed f -> c <> NEWLINE -> file_row f < numrows f ->
  row_at f (file_row f) = Done r ->
  editorInsertChar sr sc c f = Done f' ->
  well_formed f'
  /\ texts f' = list_set (texts f) (Z.to_nat (file_row f))
                  (row_insert (chars r) (file_col f) c)
  /\ file_col f' = file_col f + 1
  /\ cy f' = cy f /\ rowoff f' = rowoff f
  /\ (cx f <> sc - 1 -> cx f' = cx f + 1 /\ coloff f' = coloff f)
  /\ (0 <= cx f -> 0 <= coloff f -> 0 <= cx f' /\ 0 <= coloff f')
  /\ numrows f' = numrows f
  /\ edits_only f f'.
Proof.
  intros Hwf Hc Hfr Hr H. unfold file_row, file_col in *.
  unfold editorInsertChar in H.
  destruct (Ascii.eqb_spec c NEWLINE); [contradiction|].
  rewrite row_ptr_in in H by lia. cbn [bind] in H.
  bind_done H. rename x into f2, E into Hf2. injection H as <-.
  destruct (editorRowInsertChar_spec f f2 _ _ c r Hwf Hr Hf2) as (W2 & T2 & S2).
  assert (C : cx f2 = cx f /\ cy f2 = cy f /\ coloff f2 = coloff f
              /\ rowoff f2 = rowoff f /\ numrows f2 = numrows f)
    by (rewrite S2; cbn; auto).
  destruct C as (C1 & C2 & C3 & C4 & C5).
  set (g := if cx f2 =? sc - 1 then set_coloff (coloff f2 + 1) f2
            else set_cx (cx f2 + 1) f2).
  assert (G : row g = row f2 /\ numrows g = numrows f2
              /\ tab_size g = tab_size f2
              /\ coloff g + cx g = coloff f2 + cx f2 + 1
              /\ cy g = cy f2 /\ rowoff g = rowoff f2
              /\ (cx f2 <> sc - 1 -> cx g = cx f2 + 1 /\ coloff g = coloff f2)
              /\ (0 <= cx f2 -> 0 <= coloff f2 -> 0 <= cx g /\ 0 <= coloff g)
              /\ edits_only f2 g).
  { unfold g. clear. destruct f2 as [x y mx my ro co nr rw d fn sy ts].
    unfold edits_only, restore_cursor. cbn.
    destruct (Z.eqb_spec x (sc - 1)); cbn; repeat split; lia. }
  destruct G as (G1 & G2 & G3 & G4 & G5 & G6 & G7 & G9 & G8).
  split; [apply (well_formed_frame f2); auto|].
  split; [unfold texts in *; cbn [row set_dirty]; rewrite G1; exact T2|].
  cbn [cx cy coloff rowoff numrows set_dirty].
  repeat split; try lia; try (apply G7; lia); try (apply G9; lia).
  apply (edits_only_trans f f2); [rewrite S2; destruct f; reflexivity|].
  apply (edits_only_trans f2 g); [exact G8|destruct g; reflexivity].
Qed.

(** ** Checking the invariant by computation *)

Lemma list_ascii_eqb_eq (a b : list ascii) :
  list_ascii_eqb a b = true -> a = b.
Proof.
  revert b. induction a as [|x a IH]; intros [|y b] H; cbn in H;
    try discriminate; [reflexivity|].
  apply andb_prop in H as [H1 H2]. apply Ascii.eqb_eq in H1.
  f_equal; auto.
Qed.

Lemma indices_from_nth (rows : list erow) :
  forall (i : Z) (j : nat) (r : erow),
    indices_from i rows = true -> nth_error rows j = Some r ->
    idx r = i + Z.of_nat j.
Proof.
  induction rows as [|a rows IH]; intros i [|j] r H Hj; cbn in *;
    try discriminate; apply andb_prop in H as [H1 H2].
  - injection Hj as <-. lia.
  - rewrite (IH _ _ _ H2 Hj). lia.
Qed.

Lemma well_formed_check (f : fileState) :
  well_formed_b f = true -> well_formed f.
Proof.
  unfold well_formed_b. intros H.
  apply andb_prop in H as [H H3]. apply andb_prop in H as [H1 H2].
  split; [lia|]. split.
  - intros j r Hj. rewrite (indices_from_nth _ _ _ _ H2 Hj). lia.
  - intros j r Hj. apply nth_error_In in Hj.
    rewrite forallb_forall in H3. specialize (H3 r Hj).
    unfold row_rendered_b in H3. apply andb_prop in H3 as [Ha Hb].
    split.
    + destruct (editorUpdateRow_render _ _) as [x|]; [|discriminate].
      f_equal. now apply list_ascii_eqb_eq.
    + now apply Nat.eqb_eq.
Qed.

(** * Editing round trips *)

Lemma row_insert_at (cs : list ascii) (at_ : Z) (c : ascii) :
  0 <= at_ <= Z.of_nat (List.length cs) ->
  row_insert cs at_ c
  = firstn (Z.to_nat at_) cs ++ c :: skipn (Z.to_nat at_) cs.
Proof.
  intros H. unfold row_insert.
  destruct (Z.gtb_spec at_ (Z.of_nat (List.length cs))); [lia|reflexivity].
Qed.

Lemma row_delete_insert (cs : list ascii) (at_ : Z) (c : ascii) :
  0 <= at_ <= Z.of_nat (List.length cs) ->
  row_delete (row_insert cs at_ c) at_ = cs.
Proof.
  intros H. rewrite row_insert_at by exact H. unfold row_delete.
  assert (Hl : List.length (firstn (Z.to_nat at_) cs) = Z.to_nat at_)
    by (rewrite length_firstn; lia).
  rewrite length_app, Hl. cbn [List.length].
  destruct (Z.leb_spec (Z.of_nat (Z.to_nat at_ + S (List.length (skipn (Z.to_nat at_) cs)))) at_);
    [lia|].
  destruct (Z.ltb_spec at_ 0); [lia|]. cbn [orb].
  rewrite firstn_app, Hl, Nat.sub_diag, firstn_firstn, Nat.min_id.
  cbn [firstn]. rewrite app_nil_r.
  rewrite skipn_app, Hl.
  replace (S (Z.to_nat at_) - Z.to_nat at_)%nat with 1%nat by lia.
  rewrite skipn_all2 by (rewrite Hl; lia). cbn [skipn app].
  apply firstn_skipn.
Qed.

Lemma well_formed_row_chars (f : fileState) (y : Z) (cs : list ascii) :
  well_formed f -> 0 <= y < numrows f ->
  nth_error (texts f) (Z.to_nat y) = Some cs ->
  exists r, row_at f y = Done r /\ chars r = cs.
Proof.
  intros Hwf Hy Hn. destruct (well_formed_row_at f y Hwf Hy) as [r Hr].
  exists r. split; [exact Hr|]. apply texts_nth in Hr. congruence.
Qed.

Lemma nth_error_list_set_here {A : Type} (l : list A) (n : nat) (a x : A) :
  nth_error l n = Some a -> nth_error (list_set l n x) n = Some x.
Proof.
  intros H. apply nth_error_list_set_eq. apply nth_error_Some. congruence.
Qed.

(** Typing a byte and deleting it again gives back the text and the file
    position; the counter has grown by four. *)
Theorem insert_then_delete_restores
    (sr sc : Z) (c : ascii) (f f1 f2 : fileState) (r : erow) :
  well_formed f -> c <> NEWLINE ->
  0 <= cx f -> 0 <= coloff f -> 0 <= rowoff f ->
  0 <= file_row f < numrows f -> row_at f (file_row f) = Done r ->
  file_col f <= size r ->
  editorInsertChar sr sc c f = Done f1 -> delete_lua sc f1 = Done f2 ->
  texts f1 = list_set (texts f) (Z.to_nat (file_row f))
               (firstn (Z.to_nat (file_col f)) (chars r)
                ++ c :: skipn (Z.to_nat (file_col f)) (chars r))
  /\ texts f2 = texts f
  /\ file_col f2 = file_col f /\ file_row f2 = file_row f
  /\ (cx f <> sc - 1 -> cursor_of f2 = cursor_of f)
  /\ dirty f2 = dirty f + 4
  /\ well_formed f2 /\ edits_only f f2.
Proof.
  intros Hwf Hc Hcx Hco Hro Hfr Hr Hfc H1 H2.
  assert (Hfc0 : 0 <= file_col f) by (unfold file_col; lia).
  destruct (editorInsertChar_in_row sr sc c f f1 r Hwf Hc ltac:(lia) Hr H1)
    as (W1 & T1 & C1 & Y1 & R1 & X1 & P1 & N1 & E1).
  destruct (P1 Hcx Hco) as [P1x P1c].
  pose proof (texts_nth _ _ _ Hr) as HT.
  assert (HT1 : nth_error (texts f1) (Z.to_nat (file_row f))
                = Some (row_insert (chars r) (file_col f) c))
    by (rewrite T1; eapply nth_error_list_set_here; eauto).
  assert (Hfr1 : file_row f1 = file_row f) by (unfold file_row; lia).
  destruct (well_formed_row_chars f1 (file_row f) _ W1 ltac:(lia) HT1)
    as (r1 & Hr1 & Hc1).
  rewrite <- Hfr1 in Hr1.
  destruct (delete_lua_in_row sc f1 f2 r1 W1 P1x P1c ltac:(lia) ltac:(lia)
              Hr1 ltac:(lia) H2)
    as (W2 & T2 & C2 & Y2 & R2 & Px & Pc & X2 & E2).
  assert (Hsz : 0 <= file_col f <= Z.of_nat (List.length (chars r)))
    by (unfold size in Hfc; lia).
  split; [rewrite T1, row_insert_at by exact Hsz; reflexivity|].
  split.
  { rewrite T2, T1, Hfr1, list_set_twice, Hc1, C1.
    replace (file_col f + 1 - 1) with (file_col f) by lia.
    rewrite row_delete_insert by exact Hsz. now apply list_set_same. }
  split; [lia|]. split; [unfold file_row in *; lia|].
  split.
  { intros Hne. destruct (X1 Hne) as [Xa Xb].
    destruct (X2 ltac:(lia)) as [Xc Xd]. unfold cursor_of.
    rewrite Xc, Xd, Y2, R2, Xa, Xb, Y1, R1.
    replace (cx f + 1 - 1) with (cx f) by lia. reflexivity. }
  split.
  { destruct (editorInsertChar_dirty sr sc c f f1 Hc H1) as (D1 & _ & D3).
    rewrite (delete_lua_dirty sc f1 f2 H2).
    unfold delete_lua_increase. fold (file_row f1) (file_col f1).
    destruct (Z.geb_spec (file_row f1) (numrows f1)); [lia|].
    destruct (Z.eqb_spec (file_col f1) 0); [lia|]. cbn [andb orb].
    rewrite Hr1.
    assert (Hs1 : size r1 = size r + 1).
    { unfold size. rewrite Hc1, row_insert_at, length_app by exact Hsz.
      cbn [List.length]. rewrite length_firstn, length_skipn. lia. }
    destruct (Z.ltb_spec 0 (file_col f1)); [|lia].
    destruct (Z.leb_spec (file_col f1) (size r1)); [|lia]. cbn [andb].
    unfold file_row in *. lia. }
  split; [exact W2|]. eapply edits_only_trans; eauto.
Qed.

Lemma firstn_app_exact {A : Type} (l rest : list A) (n : nat) :
  (n <= List.length l)%nat -> firstn n (firstn n l ++ rest) = firstn n l.
Proof.
  intros H. rewrite firstn_app, length_firstn, firstn_firstn.
  replace (n - Nat.min n (List.length l))%nat with 0%nat by lia.
  cbn [firstn]. rewrite app_nil_r. f_equal. lia.
Qed.

Lemma skipn_app_exact {A : Type} (l rest : list A) (n k : nat) :
  (n <= List.length l)%nat ->
  skipn (n + k) (firstn n l ++ rest) = skipn k rest.
Proof.
  intros H. rewrite skipn_app, length_firstn.
  rewrite skipn_all2 by (rewrite length_firstn; lia). cbn [app].
  f_equal. lia.
Qed.

(** Breaking a line and deleting the break again gives back the text and
    the file row; the column comes back too when the cursor was inside the
    row and at most one column past the screen width. *)
Theorem newline_then_delete_restores
    (sr sc : Z) (f f1 f2 : fileState) (r : erow) :
  well_formed f -> 0 <= cy f -> 0 <= rowoff f ->
  0 <= file_row f < numrows f -> row_at f (file_row f) = Done r ->
  0 <= file_col f ->
  editorInsertNewline sr f = Done f1 -> delete_lua sc f1 = Done f2 ->
  let k := Z.to_nat (Z.min (file_col f) (size r)) in
  texts f1 = firstn (Z.to_nat (file_row f)) (texts f)
             ++ firstn k (chars r) :: skipn k (chars r)
             :: skipn (S (Z.to_nat (file_row f))) (texts f)
  /\ texts f2 = texts f
  /\ file_row f2 = file_row f
  /\ (file_col f <= size r -> file_col f <= sc + 1 -> file_col f2 = file_col f)
  /\ (cy f <> sr - 1 -> cy f2 = cy f /\ rowoff f2 = rowoff f)
  /\ numrows f1 = numrows f + 1 /\ numrows f2 = numrows f
  /\ well_formed f2 /\ edits_only f f2.
Proof.
  intros Hwf Hcy Hro Hfr Hr Hfc H1 H2 k.
  destruct (editorInsertNewline_in_row sr f f1 r Hwf Hfr Hr Hfc H1)
    as (W1 & T1 & R1 & X1 & C1 & Y1 & P1 & E1).
  fold k in T1. destruct (P1 Hcy Hro) as [P1y P1r].
  pose proof (texts_nth _ _ _ Hr) as HT.
  assert (Hlen : (Z.to_nat (file_row f) < List.length (texts f))%nat)
    by (apply nth_error_Some; congruence).
  set (n := Z.to_nat (file_row f)) in *.
  assert (Hl1 : List.length (texts f1) = S (List.length (texts f))).
  { rewrite T1, length_app, length_firstn. cbn [List.length].
    rewrite length_skipn. lia. }
  assert (N1 : numrows f1 = numrows f + 1).
  { destruct W1 as (W1 & _), Hwf as (Hn & _). rewrite W1, Hn.
    unfold texts in Hl1. rewrite !length_map in Hl1. lia. }
  assert (HTa : nth_error (texts f1) (Z.to_nat (file_row f1 - 1))
                = Some (firstn k (chars r))).
  { rewrite R1. replace (file_row f + 1 - 1) with (file_row f) by lia. fold n.
    rewrite T1, nth_error_app2 by (rewrite length_firstn; lia).
    rewrite length_firstn. replace (n - Nat.min n _)%nat with 0%nat by lia.
    reflexivity. }
  assert (HTb : nth_error (texts f1) (Z.to_nat (file_row f1))
                = Some (skipn k (chars r))).
  { rewrite R1. replace (Z.to_nat (file_row f + 1)) with (S n) by lia.
    rewrite T1, nth_error_app2 by (rewrite length_firstn; lia).
    rewrite length_firstn. replace (S n - Nat.min n _)%nat with 1%nat by lia.
    reflexivity. }
  destruct (well_formed_row_chars f1 (file_row f1 - 1) _ W1 ltac:(lia) HTa)
    as (prev & Hprev & Hcp).
  destruct (well_formed_row_chars f1 (file_row f1) _ W1 ltac:(lia) HTb)
    as (r1 & Hr1 & Hc1).
  destruct (delete_lua_join sc f1 f2 prev r1 W1 X1 C1 P1y P1r ltac:(lia)
              Hprev Hr1 H2)
    as (W2 & T2 & R2 & C2 & X2 & Y2 & _ & _ & _ & _ & E2).
  assert (Hsz : size prev = Z.of_nat k).
  { unfold size. rewrite Hcp, length_firstn. unfold k, size. lia. }
  split; [exact T1|]. split.
  { rewrite T2, Hcp, Hc1, firstn_skipn, R1.
    replace (Z.to_nat (file_row f + 1 - 1)) with n by lia.
    replace (S (Z.to_nat (file_row f + 1))) with (n + 2)%nat by lia.
    rewrite T1, firstn_app_exact, skipn_app_exact by lia. cbn [skipn].
    rewrite <- (firstn_skipn n (texts f)) at 3.
    now rewrite (skipn_nth _ _ _ HT). }
  split; [lia|]. split.
  { intros Hin Hsc. rewrite C2 by (unfold k in Hsz; lia). unfold k in Hsz. lia. }
  split.
  { intros Hne. destruct (Y1 Hne) as [Ya Yb]. destruct (Y2 ltac:(lia)). lia. }
  split; [exact N1|]. split.
  { destruct W2 as (W2 & _), Hwf as (Hn & _). rewrite W2, Hn.
    assert (Hl2 : List.length (texts f2) = List.length (texts f)).
    { rewrite T2, length_app, length_firstn. cbn [List.length].
      rewrite length_skipn. lia. }
    unfold texts in Hl2. rewrite !length_map in Hl2. lia. }
  split; [exact W2|]. eapply edits_only_trans; eauto.
Qed.

(** ** Inserting a string *)

Lemma spliced_once (cs : list ascii) (n : nat) (c : ascii) (s : list ascii) :
  (n <= List.length cs)%nat ->
  firstn (S n) (firstn n cs ++ c :: skipn n cs) ++ s
    ++ skipn (S n) (firstn n cs ++ c :: skipn n cs)
  = firstn n cs ++ (c :: s) ++ skipn n cs.
Proof.
  revert n. induction cs as [|a cs IH]; intros [|n] H; cbn in *; try lia;
    try reflexivity.
  f_equal. apply IH. lia.
Qed.

Lemma insert_chars_in_row (sr sc : Z) (s : list ascii) :
  forall (f f' : fileState) (r : erow),
    well_formed f -> Forall (fun c => c <> NEWLINE) s ->
    0 <= file_row f < numrows f -> row_at f (file_row f) = Done r ->
    0 <= file_col f <= size r ->
    insert_chars sr sc s f = Done f' ->
    well_formed f'
    /\ texts f' = list_set (texts f) (Z.to_nat (file_row f))
                    (firstn (Z.to_nat (file_col f)) (chars r) ++ s
                     ++ skipn (Z.to_nat (file_col f)) (chars r))
    /\ file_col f' = file_col f + Z.of_nat (List.length s)
    /\ cy f' = cy f /\ rowoff f' = rowoff f /\ numrows f' = numrows f
    /\ dirty f' = dirty f + 2 * Z.of_nat (List.length s)
    /\ edits_only f f'.
Proof.
  induction s as [|c s IH]; intros f f' r Hwf Hs Hfr Hr Hfc H;
    cbn [insert_chars] in H.
  - injection H as <-. split; [exact Hwf|]. split.
    + cbn [app]. rewrite firstn_skipn. symmetry. apply list_set_same.
      now apply texts_nth.
    + cbn [List.length]. repeat split; try lia. apply edits_only_refl.
  - bind_done H. rename x into f1, E into H1.
    inversion Hs as [|? ? Hc Hs']; subst.
    destruct (editorInsertChar_in_row sr sc c f f1 r Hwf Hc ltac:(lia) Hr H1)
      as (W1 & T1 & C1 & Y1 & R1 & _ & _ & N1 & E1).
    assert (Hsz : 0 <= file_col f <= Z.of_nat (List.length (chars r)))
      by (unfold size in Hfc; lia).
    rewrite row_insert_at in T1 by exact Hsz.
    pose proof (texts_nth _ _ _ Hr) as HT.
    assert (Hfr1 : file_row f1 = file_row f) by (unfold file_row; lia).
    assert (HT1 : nth_error (texts f1) (Z.to_nat (file_row f1))
                  = Some (firstn (Z.to_nat (file_col f)) (chars r)
                          ++ c :: skipn (Z.to_nat (file_col f)) (chars r)))
      by (rewrite T1, Hfr1; eapply nth_error_list_set_here; eauto).
    destruct (well_formed_row_chars f1 (file_row f1) _ W1 ltac:(lia) HT1)
      as (r1 & Hr1 & Hc1).
    assert (Hs1 : size r1 = size r + 1).
    { unfold size. rewrite Hc1, length_app. cbn [List.length].
      rewrite length_firstn, length_skipn. lia. }
    destruct (IH f1 f' r1 W1 Hs' ltac:(lia) Hr1 ltac:(lia) H)
      as (W2 & T2 & C2 & Y2 & R2 & N2 & D2 & E2).
    destruct (editorInsertChar_dirty sr sc c f f1 Hc H1) as (D1 & _ & _).
    split; [exact W2|]. split.
    { rewrite T2, T1, Hfr1, list_set_twice, Hc1, C1.
      replace (Z.to_nat (file_col f + 1)) with (S (Z.to_nat (file_col f)))
        by lia.
      rewrite spliced_once by lia. reflexivity. }
    cbn [List.length]. repeat split; try lia.
    eapply edits_only_trans; eauto.
Qed.

(** [insert_lua] with the cursor inside a row puts the bytes of its
    argument (up to the first NUL, and free of newlines) between the bytes
    before the cursor and those after it, and moves the cursor past them. *)
Theorem insert_lua_inserts_text
    (sr sc : Z) (s : list ascii) (f f' : fileState) (r : erow) :
  well_formed f -> Forall (fun c => c <> NEWLINE) (c_string s) ->
  0 <= file_row f < numrows f -> row_at f (file_row f) = Done r ->
  0 <= file_col f <= size r ->
  insert_lua sr sc (Some s) f = Done f' ->
  texts f' = list_set (texts f) (Z.to_nat (file_row f))
               (firstn (Z.to_nat (file_col f)) (chars r) ++ c_string s
                ++ skipn (Z.to_nat (file_col f)) (chars r))
  /\ file_col f' = file_col f + Z.of_nat (strlen s)
  /\ file_row f' = file_row f
  /\ numrows f' = numrows f
  /\ dirty f' = dirty f + 2 * Z.of_nat (strlen s)
  /\ well_formed f' /\ edits_only f f'.
Proof.
  intros Hwf Hs Hfr Hr Hfc H. unfold insert_lua in H.
  destruct (insert_chars_in_row sr sc (c_string s) f f' r Hwf Hs Hfr Hr Hfc H)
    as (W & T & C & Y & R & N & D & E).
  assert (Hlen : List.length (c_string s) = strlen s).
  { unfold c_string. rewrite length_firstn.
    assert (strlen s <= List.length s)%nat; [|lia].
    clear. induction s as [|a s IH]; cbn; [lia|].
    destruct (Ascii.eqb a NUL); lia. }
  rewrite Hlen in C, D.
  split; [exact T|]. split; [exact C|]. split; [unfold file_row; lia|].
  split; [exact N|]. split; [exact D|]. split; assumption.
Qed.

(** ** The round trips on the rows [ab], [cd] *)

Lemma insert_then_delete_restores_witness :
  let f := get (new_buffer None) (ab_cd 1 0) in
  let f1 := get f (editorInsertChar 22 80 "x" f) in
  let f2 := get f1 (delete_lua 80 f1) in
  let r := get (Build_erow 0 [] [] [] false) (row_at f 0) in
  texts f1 = list_set (texts f) (Z.to_nat (file_row f))
               (firstn (Z.to_nat (file_col f)) (chars r)
                ++ "x"%char :: skipn (Z.to_nat (file_col f)) (chars r))
  /\ texts f2 = texts f
  /\ file_col f2 = file_col f /\ file_row f2 = file_row f
  /\ (cx f <> 80 - 1 -> cursor_of f2 = cursor_of f)
  /\ dirty f2 = dirty f + 4
  /\ well_formed f2 /\ edits_only f f2.
Proof.
  intros f f1 f2 r.
  apply (insert_then_delete_restores 22 80 "x" f f1 f2 r).
  - apply well_formed_check. vm_compute. reflexivity.
  - discriminate.
  - vm_compute. discriminate.
  - vm_compute. discriminate.
  - vm_compute. discriminate.
  - vm_compute. split; [discriminate|reflexivity].
  - vm_compute. reflexivity.
  - vm_compute. discriminate.
  - vm_compute. reflexivity.
  - vm_compute. reflexivity.
Defined.

Lemma newline_then_delete_restores_witness :
  let f := get (new_buffer None) (ab_cd 1 0) in
  let f1 := get f (editorInsertNewline 22 f) in
  let f2 := get f1 (delete_lua 80 f1) in
  texts f1 = [bytes "a"; bytes "b"; bytes "cd"]
  /\ texts f2 = [bytes "ab"; bytes "cd"]
  /\ file_row f2 = 0 /\ file_col f2 = 1
  /\ numrows f1 = 3 /\ numrows f2 = 2.
Proof.
  intros f f1 f2.
  pose (r := get (Build_erow 0 [] [] [] false) (row_at f 0)).
  destruct (newline_then_delete_restores 22 80 f f1 f2 r)
    as (T1 & T2 & R2 & C2 & _ & N1 & N2 & _).
  - apply well_formed_check. vm_compute. reflexivity.
  - vm_compute. discriminate.
  - vm_compute. discriminate.
  - vm_compute. split; [discriminate|reflexivity].
  - vm_compute. reflexivity.
  - vm_compute. discriminate.
  - vm_compute. reflexivity.
  - vm_compute. reflexivity.
  - split; [exact T1|]. split; [exact T2|]. split; [exact R2|].
    split; [|split; [exact N1|exact N2]].
    apply C2; vm_compute; discriminate.
Defined.

Lemma insert_lua_inserts_text_witness :
  let f := get (new_buffer None) (ab_cd 1 0) in
  let f' := get f (insert_lua 22 80 (Some (bytes "xyz")) f) in
  texts f' = [bytes "axyzb"; bytes "cd"]
  /\ file_col f' = 4 /\ file_row f' = 0 /\ dirty f' = dirty f + 6.
Proof.
  intros f f'.
  pose (r := get (Build_erow 0 [] [] [] false) (row_at f 0)).
  destruct (insert_lua_inserts_text 22 80 (bytes "xyz") f f' r)
    as (T & C & R & _ & D & _).
  - apply well_formed_check. vm_compute. reflexivity.
  - vm_compute. repeat constructor; discriminate.
  - vm_compute. split; [discriminate|reflexivity].
  - vm_compute. reflexivity.
  - vm_compute. split; discriminate.
  - vm_compute. reflexivity.
  - split; [exact T|]. split; [exact C|]. split; [exact R|exact D].
Defined.

(** * The invariant through the editing operations *)

Lemma fill_rows_spec (n : nat) (filerow : Z) :
  forall f f' : fileState,
    well_formed f -> fill_rows n filerow f = Done f' ->
    well_formed f'
    /\ texts f' = texts f ++ repeat [] (Z.to_nat (numrows f' - numrows f))
    /\ numrows f <= numrows f'
    /\ (numrows f <= filerow -> filerow + 1 - numrows f <= Z.of_nat n ->
        numrows f' = filerow + 1)
    /\ (filerow < numrows f -> numrows f' = numrows f)
    /\ cursor_of f' = cursor_of f
    /\ edits_only f f'.
Proof.
  induction n as [|n IH]; intros f f' Hwf H; cbn [fill_rows] in H.
  - injection H as <-. split; [exact Hwf|].
    rewrite Z.sub_diag. cbn [Z.to_nat repeat]. rewrite app_nil_r.
    repeat split; try lia. apply edits_only_refl.
  - destruct (Z.leb_spec (numrows f) filerow).
    2:{ injection H as <-. split; [exact Hwf|].
        rewrite Z.sub_diag. cbn [Z.to_nat repeat]. rewrite app_nil_r.
        repeat split; try lia. apply edits_only_refl. }
    bind_done H. rename x into f1, E into H1.
    assert (Hn0 : 0 <= numrows f) by (destruct Hwf as (Hn & _); lia).
    assert (Hat : 0 <= numrows f <= numrows f) by lia.
    destruct (editorInsertRow_spec f f1 _ _ Hwf Hat H1) as (W1 & T1 & S1).
    assert (N1 : numrows f1 = numrows f + 1) by (rewrite S1; reflexivity).
    assert (C1 : cursor_of f1 = cursor_of f) by (rewrite S1; reflexivity).
    destruct (IH f1 f' W1 H) as (W2 & T2 & N2 & F2 & G2 & C2 & E2).
    split; [exact W2|]. split.
    { rewrite T2, T1.
      assert (Hl : List.length (texts f) = Z.to_nat (numrows f)).
      { destruct Hwf as (Hn & _). unfold texts. rewrite length_map. lia. }
      rewrite firstn_all2, skipn_all2 by lia.
      rewrite <- app_assoc. cbn [app]. f_equal.
      replace (Z.to_nat (numrows f' - numrows f))
        with (S (Z.to_nat (numrows f' - numrows f1))) by lia.
      reflexivity. }
    split; [lia|]. split.
    { intros. destruct (Z.ltb_spec filerow (numrows f1));
        [rewrite G2; lia|apply F2; lia]. }
    split; [intros; lia|].
    split; [congruence|].
    apply (edits_only_trans f f1); [rewrite S1; destruct f; reflexivity|].
    exact E2.
Qed.

(** [editorInsertChar] of a byte other than a newline keeps the invariant,
    whether the cursor is on a row or below the last one. *)
Lemma editorInsertChar_editable (sr sc : Z) (c : ascii) (f f' : fileState) :
  editable f -> c <> NEWLINE -> editorInsertChar sr sc c f = Done f' ->
  editable f'.
Proof.
  intros (Hwf & Hx & Hy & Hco & Hro) Hc H.
  destruct (Z.ltb_spec (file_row f) (numrows f)) as [Hin|Hout].
  - assert (Hfr : 0 <= file_row f < numrows f) by (unfold file_row in *; lia).
    destruct (well_formed_row_at f _ Hwf Hfr) as [r Hr].
    destruct (editorInsertChar_in_row sr sc c f f' r Hwf Hc Hin Hr H)
      as (W & _ & _ & Y & R & _ & P & _).
    destruct (P Hx Hco). split; [exact W|]. repeat split; lia.
  - unfold editorInsertChar in H.
    destruct (Ascii.eqb_spec c NEWLINE); [contradiction|].
    fold (file_row f) (file_col f) in H.
    rewrite row_ptr_out in H by exact Hout.
    bind_done H. rename x into f1, E into H1.
    bind_done H. rename x into f2, E into H2. injection H as <-.
    destruct (fill_rows_spec _ _ f f1 Hwf H1) as (W1 & _ & _ & F1 & _ & C1 & _).
    assert (N1 : numrows f1 = file_row f + 1) by (apply F1; lia).
    assert (Hfr : 0 <= file_row f < numrows f1) by (unfold file_row in *; lia).
    destruct (well_formed_row_at f1 _ W1 Hfr) as [r Hr].
    destruct (editorRowInsertChar_spec f1 f2 _ _ c r W1 Hr H2) as (W2 & _ & S2).
    assert (C2 : cursor_of f2 = cursor_of f) by (rewrite S2; exact C1).
    injection C2 as Cx Cy Cc Cr.
    split.
    { apply (well_formed_frame f2); auto;
        destruct (cx f2 =? sc - 1); reflexivity. }
    destruct (Z.eqb_spec (cx f2) (sc - 1)); cbn; repeat split; lia.
Qed.

(** [editorInsertNewline] keeps the invariant. *)
Lemma editorInsertNewline_editable (sr : Z) (f f' : fileState) :
  editable f -> editorInsertNewline sr f = Done f' -> editable f'.
Proof.
  intros (Hwf & Hx & Hy & Hco & Hro) H.
  destruct (Z.ltb_spec (file_row f) (numrows f)) as [Hin|Hout].
  - assert (Hfr : 0 <= file_row f < numrows f) by (unfold file_row in *; lia).
    destruct (well_formed_row_at f _ Hwf Hfr) as [r Hr].
    destruct (editorInsertNewline_in_row sr f f' r Hwf Hfr Hr
                ltac:(unfold file_col in *; lia) H)
      as (W & _ & _ & X & C & _ & P & _).
    destruct (P Hy Hro). split; [exact W|]. repeat split; lia.
  - unfold editorInsertNewline in H. fold (file_row f) in H.
    rewrite row_ptr_out in H by exact Hout.
    destruct (Z.eqb_spec (file_row f) (numrows f)) as [E|E].
    + bind_done H. rename x into f1, E0 into H1. injection H as <-.
      assert (Hat : 0 <= file_row f <= numrows f) by (unfold file_row in *; lia).
      destruct (editorInsertRow_spec f f1 _ _ Hwf Hat H1) as (W1 & _ & S1).
      destruct (fixcursor_fields sr f1)
        as (A1 & A2 & A3 & _ & _ & A6 & A7 & _ & A10 & _).
      assert (C1 : cy f1 = cy f /\ rowoff f1 = rowoff f)
        by (rewrite S1; cbn; auto).
      destruct (A10 ltac:(lia) ltac:(lia)).
      split; [apply (well_formed_frame f1); auto|].
      repeat split; try lia.
    + injection H as <-. split; [exact Hwf|]. repeat split; assumption.
Qed.

(** [delete_lua] keeps the invariant. *)
Lemma delete_lua_editable (sc : Z) (f f' : fileState) :
  1 <= sc -> editable f -> delete_lua sc f = Done f' -> editable f'.
Proof.
  intros Hsc (Hwf & Hx & Hy & Hco & Hro) H.
  destruct (Z.ltb_spec (file_row f) (numrows f)) as [Hin|Hout].
  2:{ unfold delete_lua in H. fold (file_row f) in H.
      rewrite row_ptr_out in H by exact Hout. injection H as <-.
      split; [exact Hwf|]. repeat split; assumption. }
  assert (Hfr : 0 <= file_row f < numrows f) by (unfold file_row in *; lia).
  destruct (well_formed_row_at f _ Hwf Hfr) as [r Hr].
  destruct (Z.eq_dec (file_col f) 0) as [E0|E0].
  - destruct (Z.eq_dec (file_row f) 0) as [E1|E1].
    + unfold delete_lua in H. fold (file_row f) (file_col f) in H.
      rewrite row_ptr_in in H by exact Hin. rewrite E0, E1 in H.
      injection H as <-. split; [exact Hwf|]. repeat split; assumption.
    + assert (Hp : 0 <= file_row f - 1 < numrows f) by lia.
      destruct (well_formed_row_at f _ Hwf Hp) as [prev Hprev].
      destruct (delete_lua_join sc f f' prev r Hwf
                  ltac:(unfold file_col in E0; lia)
                  ltac:(unfold file_col in E0; lia) Hy Hro
                  ltac:(lia) Hprev Hr H)
        as (W & _ & _ & _ & _ & _ & Q1 & Q2 & Q3 & Q4 & _).
      split; [exact W|]. repeat split; try assumption; try lia;
        now apply Q4.
  - destruct (delete_lua_in_row sc f f' r Hwf Hx Hco Hro Hfr Hr
                ltac:(unfold file_col in *; lia) H)
      as (W & _ & _ & Y & R & Px & Pc & _).
    split; [exact W|]. repeat split; lia.
Qed.

Lemma insert_chars_editable (sr sc : Z) (s : list ascii) :
  forall f f' : fileState,
    editable f -> insert_chars sr sc s f = Done f' -> editable f'.
Proof.
  induction s as [|c s IH]; intros f f' He H; cbn [insert_chars] in H.
  - now injection H as <-.
  - bind_done H. rename x into f1, E into H1. apply (IH f1 f'); [|exact H].
    destruct (Ascii.eqb_spec c NEWLINE) as [->|Hc].
    + unfold editorInsertChar in H1. cbn in H1.
      now apply (editorInsertNewline_editable sr f f1).
    + now apply (editorInsertChar_editable sr sc c f f1).
Qed.

Lemma load_lines_well_formed (lines : list (list ascii)) :
  forall f f' : fileState,
    well_formed f -> load_lines lines f = Done f' ->
    well_formed f' /\ texts f' = texts f ++ map strip_eol lines
    /\ cursor_of f' = cursor_of f /\ edits_only f f'.
Proof.
  induction lines as [|l ls IH]; intros f f' Hwf H; cbn [load_lines] in H.
  - injection H as <-. rewrite app_nil_r.
    split; [exact Hwf|]. split; [reflexivity|].
    split; [reflexivity|apply edits_only_refl].
  - bind_done H. rename x into f1, E into H1.
    assert (Hn0 : 0 <= numrows f <= numrows f)
      by (destruct Hwf as (Hn & _); lia).
    destruct (editorInsertRow_spec f f1 _ _ Hwf Hn0 H1) as (W1 & T1 & S1).
    destruct (IH f1 f' W1 H) as (W2 & T2 & C2 & E2).
    split; [exact W2|]. split.
    { rewrite T2, T1.
      assert (Hl : List.length (texts f) = Z.to_nat (numrows f)).
      { destruct Hwf as (Hn & _). unfold texts. rewrite length_map. lia. }
      rewrite firstn_all2, skipn_all2 by lia.
      rewrite <- app_assoc. reflexivity. }
    split; [rewrite C2, S1; reflexivity|].
    apply (edits_only_trans f f1); [rewrite S1; destruct f; reflexivity|].
    exact E2.
Qed.

Lemma new_buffer_editable (name : option (list ascii)) :
  editable (new_buffer name).
Proof.
  split; [|cbn; lia]. split; [reflexivity|]. split.
  - intros [|i] r Hi; discriminate Hi.
  - intros [|j] r Hj; discriminate Hj.
Qed.

(** Typing, deleting, inserting a string and loading lines keep every row
    rendered (its [render] is the tab expansion of its [chars], its [hl] has
    one tag per rendered byte), every [idx] equal to the row's position and
    [numrows] equal to the number of rows, with no negative cursor or view
    coordinate. *)
Theorem editing_keeps_the_invariant (sr sc : Z) (f : fileState) :
  1 <= sc -> editable f ->
  (forall c f', editorInsertChar sr sc c f = Done f' -> editable f')
  /\ (forall f', delete_lua sc f = Done f' -> editable f')
  /\ (forall s f', insert_lua sr sc s f = Done f' -> editable f')
  /\ (forall lines f', load_lines lines f = Done f' -> editable f')
  /\ (forall name, editable (new_buffer name)).
Proof.
  intros Hsc He. split; [|split; [|split; [|split]]].
  - intros c f' H. destruct (Ascii.eqb_spec c NEWLINE) as [->|Hc].
    + unfold editorInsertChar in H. cbn in H.
      now apply (editorInsertNewline_editable sr f f').
    + now apply (editorInsertChar_editable sr sc c f f').
  - intros f' H. now apply (delete_lua_editable sc f f').
  - intros [s|] f' H; cbn [insert_lua] in H.
    + now apply (insert_chars_editable sr sc (c_string s) f f').
    + now injection H as <-.
  - intros lines f' H. destruct He as (Hwf & Hx & Hy & Hco & Hro).
    destruct (load_lines_well_formed lines f f' Hwf H) as (W & _ & C & _).
    injection C as Cx Cy Cc Cr. split; [exact W|]. repeat split; lia.
  - apply new_buffer_editable.
Qed.

Lemma editing_keeps_the_invariant_witness :
  let f := get (new_buffer None) (ab_cd 1 0) in
  editable (get f (editorInsertChar 22 80 "x" f))
  /\ editable (get f (delete_lua 80 f))
  /\ editable (get f (insert_lua 22 80 (Some (bytes "p" ++ NEWLINE :: bytes "q")) f)).
Proof.
  intros f.
  assert (He : editable f).
  { split; [apply well_formed_check; vm_compute; reflexivity|].
    vm_compute. repeat split; discriminate. }
  destruct (editing_keeps_the_invariant 22 80 f ltac:(lia) He)
    as (A & B & C & _).
  split; [|split].
  - apply (A "x"%char). vm_compute. reflexivity.
  - apply B. vm_compute. reflexivity.
  - apply (C (Some (bytes "p" ++ NEWLINE :: bytes "q"))). vm_compute. reflexivity.
Defined.

(** * Motions on a well-formed buffer *)

Lemma row_ptr_frame (g f : fileState) (y : Z) :
  numrows g = numrows f -> row_ptr g y = row_ptr f y.
Proof. unfold row_ptr. now intros ->. Qed.

Lemma row_at_frame (g f : fileState) (y : Z) :
  row g = row f -> row_at g y = row_at f y.
Proof. unfold row_at. now intros ->. Qed.

Ltac frame_rows :=
  repeat match goal with
         | |- context [row_ptr (?s ?v ?f) ?y] =>
             rewrite (row_ptr_frame (s v f) f y) by reflexivity
         | |- context [row_at (?s ?v ?f) ?y] =>
             rewrite (row_at_frame (s v f) f y) by reflexivity
         end.

Ltac fields :=
  cbn [cx cy coloff rowoff numrows row dirty markx marky filename syntax
       tab_size set_cx set_cy set_coloff set_rowoff].

Lemma only_cursor_set (f g : fileState) :
  only_cursor f g ->
  forall v, only_cursor f (set_cx v g) /\ only_cursor f (set_cy v g)
            /\ only_cursor f (set_coloff v g) /\ only_cursor f (set_rowoff v g).
Proof.
  unfold only_cursor, restore_cursor. intros H v.
  destruct f, g; cbn in *. injection H as -> -> -> -> -> -> -> ->.
  repeat split.
Qed.

Lemma only_cursor_refl (f : fileState) : only_cursor f f.
Proof. unfold only_cursor, restore_cursor. destruct f; reflexivity. Qed.

Ltac only_cursor_step :=
  repeat first
    [ apply only_cursor_refl
    | apply (fun f g H v => proj1 (only_cursor_set f g H v))
    | apply (fun f g H v => proj1 (proj2 (only_cursor_set f g H v)))
    | apply (fun f g H v => proj1 (proj2 (proj2 (only_cursor_set f g H v))))
    | apply (fun f g H v => proj2 (proj2 (proj2 (only_cursor_set f g H v)))) ].

(** One step to the right inside a row. *)
Lemma right_in_row (sr sc : Z) (f : fileState) (r : erow) :
  file_row f < numrows f -> row_at f (file_row f) = Done r ->
  file_col f < size r ->
  exists f',
    editorMoveCursor sr sc ARROW_RIGHT f = Done f'
    /\ file_col f' = file_col f + 1
    /\ cy f' = cy f /\ rowoff f' = rowoff f
    /\ (0 <= cx f -> 0 <= coloff f -> 0 <= cx f' /\ 0 <= coloff f')
    /\ only_cursor f f'.
Proof.
  unfold file_row, file_col. intros Hfr Hr Hfc.
  unfold editorMoveCursor. rewrite row_ptr_in by lia. rewrite Hr. cbn [bind].
  destruct (Z.ltb_spec (coloff f + cx f) (size r)); [|lia].
  destruct (Z.eqb_spec (cx f) (sc - 1)); cbn [bind]; fields; frame_rows;
    rewrite row_ptr_in by lia; cbn [bind]; fields; frame_rows;
    rewrite Hr; cbn [bind];
    (match goal with
     | |- context [?a >? ?b] => destruct (Z.gtb_spec a b); [lia|]
     end);
    eexists; (split; [reflexivity|]); fields;
    repeat split; try lia; only_cursor_step.
Qed.

(** One step to the left inside a row. *)
Lemma left_in_row (sr sc : Z) (f : fileState) (r : erow) :
  file_row f < numrows f -> row_at f (file_row f) = Done r ->
  0 <= cx f -> 0 <= coloff f -> 0 < file_col f <= size r ->
  exists f',
    editorMoveCursor sr sc ARROW_LEFT f = Done f'
    /\ file_col f' = file_col f - 1
    /\ cy f' = cy f /\ rowoff f' = rowoff f
    /\ 0 <= cx f' /\ 0 <= coloff f'
    /\ only_cursor f f'.
Proof.
  unfold file_row, file_col. intros Hfr Hr Hx Hco Hfc.
  unfold editorMoveCursor.
  destruct (Z.eqb_spec (cx f) 0);
    [destruct (Z.eqb_spec (coloff f) 0); [lia|]; cbn [negb]|];
    cbn [bind]; fields; frame_rows;
    rewrite row_ptr_in by lia; cbn [bind]; fields; frame_rows;
    rewrite Hr; cbn [bind];
    (match goal with
     | |- context [?a >? ?b] => destruct (Z.gtb_spec a b); [lia|]
     end);
    eexists; (split; [reflexivity|]); fields;
    repeat split; try lia; only_cursor_step.
Qed.

Lemma only_cursor_rows (f g : fileState) :
  only_cursor f g ->
  row g = row f /\ numrows g = numrows f /\ tab_size g = tab_size f
  /\ dirty g = dirty f /\ markx g = markx f /\ marky g = marky f
  /\ filename g = filename f /\ syntax g = syntax f.
Proof.
  unfold only_cursor, restore_cursor. destruct f, g; cbn.
  intros [= -> -> -> -> -> -> -> ->]. repeat split.
Qed.

Lemma only_cursor_well_formed (f g : fileState) :
  only_cursor f g -> well_formed f -> well_formed g.
Proof.
  intros H. apply only_cursor_rows in H as (H1 & H2 & H3 & _).
  now apply well_formed_frame.
Qed.

Lemma only_cursor_row_at (f g : fileState) (y : Z) :
  only_cursor f g -> row_at g y = row_at f y.
Proof.
  intros H. apply only_cursor_rows in H as (H1 & _). now apply row_at_frame.
Qed.

Lemma move_right_times (sr sc : Z) (n : nat) :
  forall (f : fileState) (r : erow),
    file_row f < numrows f -> row_at f (file_row f) = Done r ->
    file_col f + Z.of_nat n <= size r ->
    exists f',
      move_times sr sc n ARROW_RIGHT f = Done f'
      /\ file_col f' = file_col f + Z.of_nat n
      /\ cy f' = cy f /\ rowoff f' = rowoff f
      /\ (0 <= cx f -> 0 <= coloff f -> 0 <= cx f' /\ 0 <= coloff f')
      /\ only_cursor f f'.
Proof.
  induction n as [|n IH]; intros f r Hfr Hr Hfc; cbn [move_times].
  - exists f. split; [reflexivity|].
    split; [lia|]. split; [lia|]. split; [lia|]. split; [auto|].
    apply only_cursor_refl.
  - destruct (right_in_row sr sc f r Hfr Hr ltac:(lia))
      as (f1 & H1 & C1 & Y1 & R1 & P1 & O1).
    rewrite H1. cbn [bind].
    pose proof (only_cursor_rows _ _ O1) as (_ & N1 & _).
    assert (Hfr1 : file_row f1 = file_row f) by (unfold file_row; lia).
    destruct (IH f1 r) as (f' & H2 & C2 & Y2 & R2 & P2 & O2).
    + lia.
    + rewrite Hfr1, (only_cursor_row_at f f1) by exact O1. exact Hr.
    + lia.
    + exists f'. split; [exact H2|].
      split; [lia|]. split; [lia|]. split; [lia|]. split.
      * intros Ha Hb. destruct (P1 Ha Hb). now apply P2.
      * eapply only_cursor_trans; eauto.
Qed.

Lemma move_left_times (sr sc : Z) (n : nat) :
  forall (f : fileState) (r : erow),
    file_row f < numrows f -> row_at f (file_row f) = Done r ->
    0 <= cx f -> 0 <= coloff f ->
    Z.of_nat n <= file_col f <= size r ->
    exists f',
      move_times sr sc n ARROW_LEFT f = Done f'
      /\ file_col f' = file_col f - Z.of_nat n
      /\ cy f' = cy f /\ rowoff f' = rowoff f
      /\ 0 <= cx f' /\ 0 <= coloff f'
      /\ only_cursor f f'.
Proof.
  induction n as [|n IH]; intros f r Hfr Hr Hx Hco Hfc; cbn [move_times].
  - exists f. split; [reflexivity|]. repeat split; try lia.
    apply only_cursor_refl.
  - destruct (left_in_row sr sc f r Hfr Hr Hx Hco ltac:(lia))
      as (f1 & H1 & C1 & Y1 & R1 & Px & Pc & O1).
    rewrite H1. cbn [bind].
    pose proof (only_cursor_rows _ _ O1) as (_ & N1 & _).
    assert (Hfr1 : file_row f1 = file_row f) by (unfold file_row; lia).
    destruct (IH f1 r) as (f' & H2 & C2 & Y2 & R2 & Qx & Qc & O2);
      try lia.
    + rewrite Hfr1, (only_cursor_row_at f f1) by exact O1. exact Hr.
    + exists f'. split; [exact H2|]. repeat split; try lia.
      eapply only_cursor_trans; eauto.
Qed.

(** [sol_lua] from a cursor on a row, not beyond its end: the cursor lands
    on column 0 of the same row with the view scrolled back, and nothing
    else changes; [get_line_lua] then yields the whole row. *)
Theorem sol_lua_reaches_column_0 (sr sc : Z) (f : fileState) (r : erow) :
  file_row f < numrows f -> row_at f (file_row f) = Done r ->
  0 <= cx f -> 0 <= coloff f -> file_col f <= size r ->
  exists f',
    sol_lua sr sc f = Done f'
    /\ cx f' = 0 /\ coloff f' = 0
    /\ cy f' = cy f /\ rowoff f' = rowoff f
    /\ only_cursor f f'
    /\ get_line_lua f' = Done (Some (c_string (chars r))).
Proof.
  intros Hfr Hr Hx Hco Hfc. unfold sol_lua, count_down.
  fold (file_col f).
  assert (H0 : 0 <= file_col f) by (unfold file_col; lia).
  destruct (Z.ltb_spec (file_col f) 0); [lia|].
  destruct (move_left_times sr sc (Z.to_nat (file_col f)) f r Hfr Hr Hx Hco
              ltac:(lia))
    as (f' & Hm & C & Y & R & Px & Pc & O).
  exists f'. split; [exact Hm|].
  assert (Hx0 : cx f' = 0) by (unfold file_col in *; lia).
  assert (Hc0 : coloff f' = 0) by (unfold file_col in *; lia).
  repeat split; try assumption.
  unfold get_line_lua.
  pose proof (only_cursor_rows _ _ O) as (_ & N & _).
  rewrite Y, R. fold (file_row f).
  rewrite row_ptr_in by lia. rewrite (only_cursor_row_at f f') by exact O.
  rewrite Hr. cbn [bind]. rewrite Hx0.
  assert (Hs : 0 <= size r) by (unfold size; lia).
  destruct (Z.ltb_spec 0 0); [lia|].
  destruct (Z.ltb_spec (size r) 0); [lia|]. reflexivity.
Qed.

Lemma sol_lua_reaches_column_0_witness :
  let f := get (new_buffer None) (ab_cd 2 1) in
  exists f',
    sol_lua 22 80 f = Done f'
    /\ cx f' = 0 /\ coloff f' = 0 /\ cy f' = 1 /\ rowoff f' = 0
    /\ only_cursor f f'
    /\ get_line_lua f' = Done (Some (bytes "cd")).
Proof.
  intros f.
  pose (r := get (Build_erow 0 [] [] [] false) (row_at f 1)).
  apply (sol_lua_reaches_column_0 22 80 f r); vm_compute;
    try reflexivity; discriminate.
Defined.

(** [eol_lua] counts the columns on the rendered row: on a row whose
    rendering is as long as its content (a row without TAB) the cursor
    lands on the end of the row; on the row [TAB x], whose rendering is six
    bytes longer, it runs on into the next row. *)
Theorem eol_lua_reaches_the_end (sr sc : Z) (f : fileState) (r : erow) :
  file_row f < numrows f -> row_at f (file_row f) = Done r ->
  rsize r = size r -> file_col f <= size r ->
  (exists f',
     eol_lua sr sc f = Done f'
     /\ file_col f' = size r
     /\ cy f' = cy f /\ rowoff f' = rowoff f
     /\ only_cursor f f')
  /\ (g <- load_lines [TAB :: bytes "x"; bytes "y"] (new_buffer None) ;;
      g' <- eol_lua 22 80 g ;;
      Done (row_renders g, file_col g', file_row g'))
     = Done ([("       x")%string; "y"%string], 1, 1).
Proof.
  intros Hfr Hr Hrs Hfc. split; [|vm_compute; reflexivity].
  unfold eol_lua. fold (file_row f) (file_col f).
  rewrite row_ptr_in by lia. rewrite Hr. cbn [bind]. rewrite Hrs.
  destruct (move_right_times sr sc (Z.to_nat (size r - file_col f)) f r Hfr Hr
              ltac:(lia))
    as (f' & Hm & C & Y & R & _ & O).
  exists f'. split; [exact Hm|]. repeat split; try assumption. lia.
Qed.

Lemma eol_lua_reaches_the_end_witness :
  let f := get (new_buffer None) (ab_cd 0 1) in
  exists f',
    eol_lua 22 80 f = Done f'
    /\ file_col f' = 2 /\ cy f' = 1 /\ rowoff f' = 0 /\ only_cursor f f'.
Proof.
  intros f.
  pose (r := get (Build_erow 0 [] [] [] false) (row_at f 1)).
  apply (eol_lua_reaches_the_end 22 80 f r); vm_compute;
    try reflexivity; discriminate.
Defined.

(** ** Every motion completes *)

Ltac z_cases :=
  match goal with
  | |- context [if ?a =? ?b then _ else _] => destruct (Z.eqb_spec a b)
  | |- context [if negb (?a =? ?b) then _ else _] =>
      destruct (Z.eqb_spec a b); cbn [negb]
  | |- context [if ?a <? ?b then _ else _] => destruct (Z.ltb_spec a b)
  | |- context [if ?a >? ?b then _ else _] => destruct (Z.gtb_spec a b)
  | |- context [if ?a >=? ?b then _ else _] => destruct (Z.geb_spec a b)
  end.

(** On a well-formed buffer whose cursor is at most one row below the last
    row, with no negative row coordinate, [editorMoveCursor] reads no row
    outside the array. *)
Lemma editorMoveCursor_total (sr sc : Z) (key : KEY_ACTION) (f : fileState) :
  well_formed f -> 0 <= cy f -> 0 <= rowoff f -> file_row f <= numrows f ->
  exists f', editorMoveCursor sr sc key f = Done f'.
Proof.
  unfold file_row. intros Hwf Hy Hro Hle.
  assert (R : forall g y, row g = row f -> 0 <= y < numrows f ->
                          exists r, row_at g y = Done r).
  { intros g y Hg Hy'. rewrite (row_at_frame g f y Hg).
    now apply well_formed_row_at. }
  unfold editorMoveCursor. cbv zeta.
  match goal with
  | |- exists f', bind ?m _ = _ =>
      assert (P1 : exists f1, m = Done f1
                 /\ row f1 = row f /\ numrows f1 = numrows f
                 /\ 0 <= rowoff f1 + cy f1)
  end.
  { destruct key.
    - destruct (Z.eqb_spec (cx f) 0);
        [destruct (Z.eqb_spec (coloff f) 0); cbn [negb];
         [destruct (Z.gtb_spec (rowoff f + cy f) 0)|]|];
        try (eexists; split; [reflexivity|]; fields; repeat split; lia).
      destruct (R f (rowoff f + cy f - 1) eq_refl ltac:(lia)) as [prev ->].
      cbn [bind]. fields.
      repeat z_cases; eexists; (split; [reflexivity|]); fields;
        repeat split; lia.
    - unfold row_ptr.
      destruct (Z.geb_spec (rowoff f + cy f) (numrows f));
        [eexists; split; [reflexivity|]; fields; repeat split; lia|].
      destruct (R f (rowoff f + cy f) eq_refl ltac:(lia)) as [r ->].
      cbn [bind].
      repeat z_cases; eexists; (split; [reflexivity|]); fields;
        repeat split; lia.
    - repeat z_cases; eexists; (split; [reflexivity|]); fields;
        repeat split; lia.
    - repeat z_cases; eexists; (split; [reflexivity|]); fields;
        repeat split; lia. }
  destruct P1 as (f1 & H1 & Hrow & Hnum & Hfr).
  rewrite H1. cbn [bind].
  unfold row_ptr. rewrite Hnum.
  destruct (Z.geb_spec (rowoff f1 + cy f1) (numrows f)); cbn [bind].
  - repeat z_cases; eexists; reflexivity.
  - destruct (R f1 (rowoff f1 + cy f1) Hrow ltac:(lia)) as [r ->].
    cbn [bind]. repeat z_cases; eexists; reflexivity.
Qed.

(** The last phase of [editorMoveCursor] never moves the cursor to another
    row, and leaves a cursor on column 0 alone. *)
Lemma vertical_step (sr sc : Z) (key : KEY_ACTION) (f : fileState) :
  key = ARROW_DOWN \/ key = ARROW_UP ->
  well_formed f -> 0 <= cy f -> 0 <= rowoff f -> file_row f <= numrows f ->
  exists f',
    editorMoveCursor sr sc key f = Done f'
    /\ only_cursor f f'
    /\ file_row f'
       = match key with
         | ARROW_DOWN =>
             if file_row f <? numrows f - 1 then file_row f + 1
             else file_row f
         | _ => if file_row f =? 0 then 0 else file_row f - 1
         end
    /\ 0 <= cy f' /\ 0 <= rowoff f'
    /\ (cx f = 0 -> coloff f = 0 -> cx f' = 0 /\ coloff f' = 0).
Proof.
  intros Hkey Hwf Hy Hro Hle.
  destruct (editorMoveCursor_total sr sc key f Hwf Hy Hro Hle) as [f' H].
  exists f'. split; [exact H|].
  split; [exact (editorMoveCursor_only_cursor _ _ _ _ _ H)|].
  unfold file_row in *.
  unfold editorMoveCursor in H.
  bind_done H. rename x into f1, E into H1.
  bind_done H. rename x into len, E into H2.
  assert (Hlen : 0 <= len).
  { destruct (row_ptr f1 (rowoff f1 + cy f1)).
    - bind_done H2. injection H2 as <-. unfold size. lia.
    - injection H2 as <-. lia. }
  assert (S1 : rowoff f1 + cy f1
               = match key with
                 | ARROW_DOWN =>
                     if rowoff f + cy f <? numrows f - 1
                     then rowoff f + cy f + 1 else rowoff f + cy f
                 | _ => if rowoff f + cy f =? 0 then 0 else rowoff f + cy f - 1
                 end
               /\ 0 <= cy f1 /\ 0 <= rowoff f1
               /\ cx f1 = cx f /\ coloff f1 = coloff f).
  { destruct Hkey as [-> | ->];
      repeat match type of H1 with
             | context [if negb (?a =? ?b) then _ else _] =>
                 destruct (Z.eqb_spec a b); cbn [negb] in H1
             | context [if ?a =? ?b then _ else _] =>
                 destruct (Z.eqb_spec a b)
             | context [if ?a <? ?b then _ else _] =>
                 destruct (Z.ltb_spec a b)
             end;
      injection H1 as <-; fields;
      repeat match goal with
             | |- context [if ?a =? ?b then _ else _] =>
                 destruct (Z.eqb_spec a b)
             | |- context [if ?a <? ?b then _ else _] =>
                 destruct (Z.ltb_spec a b)
             end; repeat split; lia. }
  destruct S1 as (S1 & Y1 & R1 & X1 & C1).
  repeat match type of H with
         | context [if ?a >? ?b then _ else _] => destruct (Z.gtb_spec a b)
         | context [if ?a <? ?b then _ else _] => destruct (Z.ltb_spec a b)
         end;
    injection H as <-; fields; (split; [exact S1|]);
    (split; [lia|]); (split; [lia|]); intros; fields; lia.
Qed.

(** [n] steps down or up. *)
Lemma vertical_times (sr sc : Z) (key : KEY_ACTION) (n : nat) :
  key = ARROW_DOWN \/ key = ARROW_UP ->
  forall f : fileState,
    well_formed f -> 0 <= cy f -> 0 <= rowoff f -> file_row f < numrows f ->
    exists f',
      move_times sr sc n key f = Done f'
      /\ only_cursor f f'
      /\ file_row f'
         = match key with
           | ARROW_DOWN => Z.min (file_row f + Z.of_nat n) (numrows f - 1)
           | _ => Z.max (file_row f - Z.of_nat n) 0
           end
      /\ 0 <= cy f' /\ 0 <= rowoff f'
      /\ (cx f = 0 -> coloff f = 0 -> cx f' = 0 /\ coloff f' = 0).
Proof.
  intros Hkey. induction n as [|n IH]; intros f Hwf Hy Hro Hlt;
    cbn [move_times].
  - exists f. split; [reflexivity|]. split; [apply only_cursor_refl|].
    assert (0 <= file_row f) by (unfold file_row; lia).
    split; [destruct Hkey as [-> | ->]; lia|]. auto.
  - destruct (vertical_step sr sc key f Hkey Hwf Hy Hro ltac:(lia))
      as (f1 & H1 & O1 & S1 & Y1 & R1 & C1).
    rewrite H1. cbn [bind].
    pose proof (only_cursor_rows _ _ O1) as (_ & N1 & _).
    assert (0 <= file_row f) by (unfold file_row; lia).
    assert (Hlt1 : file_row f1 < numrows f1).
    { rewrite S1, N1. destruct Hkey as [-> | ->].
      - destruct (Z.ltb_spec (file_row f) (numrows f - 1)); lia.
      - destruct (Z.eqb_spec (file_row f) 0); lia. }
    destruct (IH f1 (only_cursor_well_formed _ _ O1 Hwf) Y1 R1 Hlt1)
      as (f' & H2 & O2 & S2 & Y2 & R2 & C2).
    exists f'. split; [exact H2|].
    split; [eapply only_cursor_trans; eauto|].
    split.
    + rewrite S2, S1, N1. destruct Hkey as [-> | ->].
      * destruct (Z.ltb_spec (file_row f) (numrows f - 1)); lia.
      * destruct (Z.eqb_spec (file_row f) 0); lia.
    + split; [exact Y2|]. split; [exact R2|].
      intros Ha Hb. destruct (C1 Ha Hb). now apply C2.
Qed.

(** ** The arrow keys *)

(** [editorMoveCursor] on a well-formed buffer whose cursor is on a row of
    the text, or on the line below the last one: the call reads no row
    outside the array, changes nothing but the cursor and the view, leaves
    the cursor on a row of the text if it was on one, and leaves it at most
    one column behind the last byte of its row.  The exception is
    ARROW_RIGHT on the bottom line of the screen: behind the last byte of a
    row it scrolls by one row without looking for a next row, so from the
    last row the cursor comes to stand below the text. *)
Theorem arrow_keys_stay_on_the_text
    (sr sc : Z) (key : KEY_ACTION) (f : fileState) :
  well_formed f -> 0 <= cy f -> 0 <= rowoff f -> file_row f <= numrows f ->
  exists f',
    editorMoveCursor sr sc key f = Done f'
    /\ only_cursor f f'
    /\ 0 <= file_row f' <= numrows f
    /\ (key <> ARROW_RIGHT \/ cy f <> sr - 1 ->
        file_row f < numrows f -> file_row f' < numrows f)
    /\ (key = ARROW_RIGHT -> cy f = sr - 1 ->
        forall r, row_at f (file_row f) = Done r -> file_col f = size r ->
                  file_row f < numrows f -> file_row f' = file_row f + 1)
    /\ (forall r, row_at f' (file_row f') = Done r -> file_col f' <= size r)
    /\ (file_row f' = numrows f -> file_col f' <= 0).
Proof.
  intros Hwf Hy Hro Hle.
  destruct (editorMoveCursor_total sr sc key f Hwf Hy Hro Hle) as [f' H].
  exists f'. split; [exact H|].
  split; [exact (editorMoveCursor_only_cursor _ _ _ _ _ H)|].
  unfold file_row, file_col in *.
  unfold editorMoveCursor in H.
  bind_done H. rename x into f1, E into H1.
  bind_done H. rename x into len, E into H2.
  assert (S1 : row f1 = row f /\ numrows f1 = numrows f
               /\ 0 <= rowoff f1 + cy f1 <= numrows f
               /\ (key <> ARROW_RIGHT \/ cy f <> sr - 1 ->
                   rowoff f + cy f < numrows f
                   -> rowoff f1 + cy f1 < numrows f)
               /\ (key = ARROW_RIGHT -> cy f = sr - 1 ->
                   forall r, row_at f (rowoff f + cy f) = Done r ->
                             coloff f + cx f = size r ->
                             rowoff f + cy f < numrows f ->
                             rowoff f1 + cy f1 = rowoff f + cy f + 1)).
  { destruct key; unfold row_ptr in H1;
      repeat match type of H1 with
             | bind ?m _ = Done _ =>
                 let x := fresh "x" in
                 let E := fresh "E" in
                 destruct m as [x|] eqn:E; cbn [bind] in H1;
                 [|discriminate H1]
             | context [if negb (?a =? ?b) then _ else _] =>
                 destruct (Z.eqb_spec a b); cbn [negb] in H1
             | context [if ?a =? ?b then _ else _] =>
                 destruct (Z.eqb_spec a b)
             | context [if ?a <? ?b then _ else _] =>
                 destruct (Z.ltb_spec a b)
             | context [if ?a >? ?b then _ else _] =>
                 destruct (Z.gtb_spec a b)
             | context [if ?a >=? ?b then _ else _] =>
                 destruct (Z.geb_spec a b)
             end;
      injection H1 as <-; fields; repeat split; try lia;
      try (intros [Hk|Hk] ?; (lia || congruence));
      try (intros Hk; discriminate Hk);
      intros _ Hcy r' Hr' Hc' Hn'; try lia;
      injection Hr' as <-; lia. }
  destruct S1 as (Hrow & Hnum & Hfr & Hin & Hout).
  assert (Hlen : (forall r, row_at f1 (rowoff f1 + cy f1) = Done r
                            -> len = size r)
                 /\ (rowoff f1 + cy f1 = numrows f -> len = 0)).
  { unfold row_ptr in H2. rewrite Hnum in H2.
    destruct (Z.geb_spec (rowoff f1 + cy f1) (numrows f)).
    - injection H2 as <-. split; [|reflexivity].
      intros r Hr. unfold row_at in Hr.
      destruct (Z.ltb_spec (rowoff f1 + cy f1) 0); [discriminate|].
      destruct (nth_error (row f1) (Z.to_nat (rowoff f1 + cy f1))) eqn:E;
        [|discriminate].
      assert (Hn : nth_error (row f1) (Z.to_nat (rowoff f1 + cy f1)) <> None)
        by congruence.
      apply nth_error_Some in Hn. destruct Hwf as (Hl & _).
      rewrite Hrow in Hn. lia.
    - bind_done H2. injection H2 as <-. split; [|lia].
      intros r Hr. congruence. }
  destruct Hlen as (L1 & L2).
  assert (F : row f' = row f1 /\ rowoff f' = rowoff f1 /\ cy f' = cy f1
              /\ coloff f' + cx f' <= Z.max len (coloff f1 + cx f1)
              /\ (len < coloff f1 + cx f1 -> coloff f' + cx f' = len)
              /\ (coloff f1 + cx f1 <= len
                  -> coloff f' + cx f' = coloff f1 + cx f1)).
  { repeat match type of H with
           | context [if ?a >? ?b then _ else _] => destruct (Z.gtb_spec a b)
           | context [if ?a <? ?b then _ else _] => destruct (Z.ltb_spec a b)
           end;
      injection H as <-; fields; repeat split; lia. }
  destruct F as (F1 & F2 & F3 & F4 & F5 & F6).
  rewrite F2, F3.
  split; [exact Hfr|]. split; [exact Hin|]. split; [exact Hout|]. split.
  - intros r Hr. rewrite (row_at_frame f' f1 _ F1) in Hr.
    rewrite <- (L1 r Hr).
    destruct (Z.lt_ge_cases len (coloff f1 + cx f1)); [rewrite F5|rewrite F6];
      lia.
  - intros Hlast. specialize (L2 Hlast). subst len.
    destruct (Z.lt_ge_cases 0 (coloff f1 + cx f1)); [rewrite F5|rewrite F6];
      lia.
Qed.

(** ** Pages *)

(** [page_down_lua] and [page_up_lua] on a screen of at least one row, from
    a cursor on a row of the text: the cursor goes [screenrows - 1] rows
    down, or as far as the last row; and as many rows up, or as far as the
    first. *)
Theorem page_moves_by_a_screen (sr sc : Z) (f : fileState) :
  1 <= sr ->
  well_formed f -> 0 <= cy f -> 0 <= rowoff f -> file_row f < numrows f ->
  (exists d,
      page_down_lua sr sc f = Done d /\ only_cursor f d
      /\ file_row d = Z.min (file_row f + (sr - 1)) (numrows f - 1))
  /\ (exists u,
         page_up_lua sr sc f = Done u /\ only_cursor f u
         /\ file_row u = Z.max (file_row f - (sr - 1)) 0).
Proof.
  intros Hsr Hwf Hy Hro Hlt. unfold page_down_lua, page_up_lua, count_down.
  destruct (Z.ltb_spec (sr - 1) 0); [lia|]. split.
  - destruct (vertical_times sr sc ARROW_DOWN (Z.to_nat (sr - 1))
                (or_introl eq_refl) f Hwf Hy Hro Hlt)
      as (d & H1 & O1 & S1 & _).
    exists d. split; [exact H1|]. split; [exact O1|]. rewrite S1. lia.
  - destruct (vertical_times sr sc ARROW_UP (Z.to_nat (sr - 1))
                (or_intror eq_refl) f Hwf Hy Hro Hlt)
      as (u & H1 & O1 & S1 & _).
    exists u. split; [exact H1|]. split; [exact O1|]. rewrite S1. lia.
Qed.

(** ** Going to a position *)

(** [point_lua] with two numbers: for a row [y] of the text and a column [x]
    of that row, both counted from one (and both an [int]), the cursor is
    moved there, and the two numbers returned are the position counted from
    zero. *)
Theorem point_lua_reaches_the_position
    (sr sc x y : Z) (f : fileState) (r : erow) :
  well_formed f ->
  1 <= y <= numrows f -> row_at f (y - 1) = Done r -> 1 <= x <= size r + 1 ->
  x <= INT_MAX -> y <= INT_MAX ->
  exists f',
    point_lua sr sc (Some (x, y)) f = Done (f', (x - 1, y - 1))
    /\ only_cursor f f'
    /\ file_col f' = x - 1 /\ file_row f' = y - 1.
Proof.
  intros Hwf Hy Hr Hx Hxi Hyi. unfold point_lua. cbv zeta.
  rewrite !lua_to_int_id by (unfold INT_MIN, INT_MAX in *; lia).
  unfold warp.
  destruct (Z.ltb_spec (y - 1) 0); [lia|].
  destruct (Z.ltb_spec (x - 1) 0); [lia|].
  set (f0 := set_rowoff 0 (set_cy 0 (set_coloff 0 (set_cx 0 f)))).
  assert (O0 : only_cursor f f0) by (unfold f0; only_cursor_step).
  pose proof (only_cursor_rows _ _ O0) as (Hrow0 & N0 & _).
  destruct ((x - 1 =? 0) && (y - 1 =? 0)) eqn:E.
  - apply andb_prop in E as (E1 & E2).
    apply Z.eqb_eq in E1, E2. cbn [bind].
    exists f0. unfold file_col, file_row, f0. fields.
    split; [do 3 f_equal; lia|]. split; [exact O0|]. lia.
  - destruct (vertical_times sr sc ARROW_DOWN (Z.to_nat (y - 1))
                (or_introl eq_refl) f0)
      as (f1 & H1 & O1 & S1 & Y1 & R1 & C1).
    + exact (only_cursor_well_formed _ _ O0 Hwf).
    + unfold f0. fields. lia.
    + unfold f0. fields. lia.
    + unfold file_row, f0. fields. lia.
    + rewrite H1. cbn [bind].
      destruct (C1 eq_refl eq_refl) as (Cx & Co).
      pose proof (only_cursor_rows _ _ O1) as (_ & N1 & _).
      assert (Hrow1 : file_row f1 = y - 1).
      { rewrite S1. unfold file_row, f0. fields. lia. }
      destruct (move_right_times sr sc (Z.to_nat (x - 1)) f1 r)
        as (f' & H2 & C2 & Y2 & R2 & _ & O2).
      * lia.
      * rewrite Hrow1, (only_cursor_row_at f0 f1), (only_cursor_row_at f f0)
          by assumption. exact Hr.
      * unfold file_col. lia.
      * rewrite H2. cbn [bind]. exists f'.
        assert (Hc : file_col f' = x - 1) by (rewrite C2; unfold file_col; lia).
        assert (Hrw : file_row f' = y - 1) by (unfold file_row in *; lia).
        unfold file_col, file_row in *.
        split; [do 3 f_equal; lia|].
        split; [|lia].
        eapply only_cursor_trans; [exact O0|].
        eapply only_cursor_trans; eauto.
Qed.

Lemma arrow_keys_stay_on_the_text_witness :
  let f := get (new_buffer None) (ab_cd 2 1) in
  exists f',
    editorMoveCursor 2 80 ARROW_RIGHT f = Done f'
    /\ only_cursor f f' /\ file_row f' = 2 /\ file_col f' <= 0.
Proof.
  intros f.
  pose (r := get (Build_erow 0 [] [] [] false) (row_at f 1)).
  destruct (arrow_keys_stay_on_the_text 2 80 ARROW_RIGHT f)
    as (f' & H & O & _ & _ & Hout & _ & Hcol).
  - apply well_formed_check. vm_compute. reflexivity.
  - vm_compute. discriminate.
  - vm_compute. discriminate.
  - vm_compute. discriminate.
  - assert (Hrow : file_row f' = 2).
    { apply (Hout eq_refl eq_refl r); vm_compute; reflexivity. }
    exists f'. split; [exact H|]. split; [exact O|]. split; [exact Hrow|].
    apply Hcol. exact Hrow.
Defined.

Lemma page_moves_by_a_screen_witness :
  let f := get (new_buffer None) (ab_cd 1 0) in
  (exists d,
      page_down_lua 22 80 f = Done d /\ only_cursor f d
      /\ file_row d = Z.min (0 + (22 - 1)) (2 - 1))
  /\ (exists u,
         page_up_lua 22 80 f = Done u /\ only_cursor f u
         /\ file_row u = Z.max (0 - (22 - 1)) 0).
Proof.
  intros f. apply (page_moves_by_a_screen 22 80 f).
  - lia.
  - apply well_formed_check. vm_compute. reflexivity.
  - vm_compute. discriminate.
  - vm_compute. discriminate.
  - vm_compute. reflexivity.
Defined.

Lemma point_lua_reaches_the_position_witness :
  let f := get (new_buffer None) (ab_cd 0 0) in
  exists f',
    point_lua 22 80 (Some (3, 2)) f = Done (f', (2, 1))
    /\ only_cursor f f' /\ file_col f' = 2 /\ file_row f' = 1.
Proof.
  intros f.
  pose (r := get (Build_erow 0 [] [] [] false) (row_at f 1)).
  apply (point_lua_reaches_the_position 22 80 3 2 f r).
  - apply well_formed_check. vm_compute. reflexivity.
  - vm_compute. split; discriminate.
  - vm_compute. reflexivity.
  - vm_compute. split; discriminate.
  - vm_compute. discriminate.
  - vm_compute. discriminate.
Defined.

(** * Loading and saving *)

Lemma strip_eol_newline (body : list ascii) :
  strip_eol (body ++ [NEWLINE]) = body.
Proof.
  unfold strip_eol. rewrite rev_app_distr. cbn [rev app].
  rewrite Ascii.eqb_refl. cbn [orb]. apply removelast_last.
Qed.

Lemma rows_with_newlines_texts (rows : list erow) :
  rows_with_newlines rows
  = List.concat (map (fun t => t ++ [NEWLINE]) (map chars rows)).
Proof. unfold rows_with_newlines. now rewrite map_map. Qed.

Lemma terminated_lines (lines : list (list ascii)) :
  Forall (fun l => exists body, l = body ++ [NEWLINE]) lines ->
  List.concat (map (fun t => t ++ [NEWLINE]) (map strip_eol lines))
  = List.concat lines.
Proof.
  induction 1 as [|l ls (body & ->) _ IH]; [reflexivity|].
  cbn [map List.concat]. rewrite strip_eol_newline, IH. reflexivity.
Qed.

Lemma call_lua_buffer
    (sz : nat) (lua : lua_State) (name : string) (arg : option (list ascii))
    (E E' : editorConfig) (f : fileState) :
  callback_keeps_buffer lua name ->
  call_lua sz lua name arg E = Done E' ->
  file_at E (current_file E) = Done f ->
  is_log_buffer f = false ->
  exists f', file_at E' (current_file E') = Done f'
             /\ row f' = row f /\ numrows f' = numrows f
             /\ filename f' = filename f.
Proof.
  intros Hq H Hf Hlog. unfold call_lua in H.
  destruct (lua_getglobal lua name) as [fn|] eqn:Hfn.
  - bind_done H. destruct x as [E1 err].
    destruct (Hq fn arg E E1 err Hfn E0) as (Hc & Hd).
    destruct (Hd f Hf) as (f1 & Hf1 & R1 & N1 & F1).
    destruct err as [e|].
    + assert (Hlog1 : is_log_buffer f1 = false).
      { unfold is_log_buffer in *. now rewrite F1. }
      destruct (editorSetStatusMessage_current _ _ _ _ _ _ H Hf1 Hlog1)
        as (Hf' & _).
      exists f1. auto.
    + injection H as <-. exists f1. auto.
  - exists f. split; [|auto].
    eapply editorSetStatusMessage_current; eassumption.
Qed.

(** The buffer that [editorOpen] leaves current holds the lines of the
    file. *)
Lemma editorOpen_loads
    (sz : nat) (lua : lua_State) (name : list ascii)
    (lines : list (list ascii)) (E E' : editorConfig) (f : fileState)
    (ret : Z) :
  file_at E (current_file E) = Done f ->
  numrows f = Z.of_nat (List.length (row f)) ->
  is_log_buffer (set_filename (Some name) f) = false ->
  callback_keeps_buffer lua "on_loaded" ->
  editorOpen sz lua (Some name) (FopenLines lines) E = Done (E', ret) ->
  ret = 0
  /\ exists f', file_at E' (current_file E') = Done f'
                /\ numrows f' = Z.of_nat (List.length (row f'))
                /\ texts f' = map strip_eol lines
                /\ filename f' = Some name.
Proof.
  intros Hf Hn Hlog Hq H. unfold editorOpen in H. rewrite Hf in H.
  cbn [bind] in H.
  set (f0 := if numrows f =? 0 then f else set_row [] f) in H.
  set (f2 := set_filename (Some name) (set_numrows 0 (set_mark (-1) (-1)
               (set_coloff 0 (set_rowoff 0 (set_cy 0 (set_cx 0
                  (set_dirty 0 f0)))))))) in H.
  assert (Hrow2 : row f2 = []).
  { unfold f2, f0. destruct (Z.eqb_spec (numrows f) 0) as [Hz|_];
      [|reflexivity].
    cbn. destruct (row f); [reflexivity|]. cbn [List.length] in Hn. lia. }
  assert (W2 : well_formed f2).
  { split; [rewrite Hrow2; reflexivity|]. split.
    - unfold index_consistent. rewrite Hrow2. intros [|j] r Hj; discriminate.
    - rewrite Hrow2. intros [|j] r Hj; discriminate. }
  bind_done H. rename x into E2. apply file_put_at in E0 as (Hf2 & Hc2 & _).
  rewrite <- Hc2 in Hf2.
  bind_done H. rename x into f3, E0 into Hload.
  bind_done H. rename x into E3. apply file_put_at in E0 as (Hf3 & Hc3 & _).
  rewrite <- Hc3 in Hf3.
  bind_done H. injection H as <- <-. split; [reflexivity|].
  destruct (load_lines_well_formed lines f2 f3 W2 Hload) as (W3 & T3 & _).
  assert (Hname3 : filename f3 = Some name)
    by (rewrite (load_lines_numrows _ _ _ Hload); reflexivity).
  assert (Hlog3 : is_log_buffer (set_dirty 0 f3) = false).
  { unfold is_log_buffer in *. cbn [filename set_dirty]. rewrite Hname3.
    exact Hlog. }
  destruct (call_lua_buffer _ _ _ _ _ _ _ Hq E0 Hf3 Hlog3)
    as (f' & Hf' & R' & N' & F').
  exists f'. split; [exact Hf'|].
  cbn [row numrows filename set_dirty] in R', N', F'.
  destruct W3 as (N3 & _).
  split; [rewrite N', R'; exact N3|].
  split; [|congruence].
  unfold texts in *. rewrite R', T3, Hrow2. reflexivity.
Qed.

(** A file whose lines all end in a newline byte is opened and saved under
    the same name: when the two calls return, the bytes handed to [write]
    are the bytes that were read.  The buffer is not the message log, and
    the [on_loaded] callback leaves its rows alone. *)
Theorem open_then_save_writes_the_file_back
    (sz : nat) (lua : lua_State) (name : list ascii)
    (lines : list (list ascii)) (E E1 : editorConfig) (f : fileState)
    (ret : Z) (res : save_result) :
  file_at E (current_file E) = Done f ->
  numrows f = Z.of_nat (List.length (row f)) ->
  is_log_buffer (set_filename (Some name) f) = false ->
  callback_keeps_buffer lua "on_loaded" ->
  Forall (fun l => exists body, l = body ++ [NEWLINE]) lines ->
  editorOpen sz lua (Some name) (FopenLines lines) E = Done (E1, ret) ->
  save_lua sz lua None SaveOk E1 = Done res ->
  ret = 0 /\ sr_return res = 0
  /\ sr_written res = Some (name, List.concat lines).
Proof.
  intros Hf Hn Hlog Hq Hlines Hopen Hsave.
  destruct (editorOpen_loads _ _ _ _ _ _ _ _ Hf Hn Hlog Hq Hopen)
    as (-> & f' & Hf' & N' & T' & F').
  split; [reflexivity|].
  unfold save_lua in Hsave. rewrite Hf' in Hsave. cbn [bind] in Hsave.
  bind_done Hsave. rename x into E2. rewrite F' in Hsave.
  rewrite (editorRowsToString_bytes f' N') in Hsave. cbn [bind] in Hsave.
  bind_done Hsave. bind_done Hsave. bind_done Hsave. bind_done Hsave.
  injection Hsave as <-. cbn [sr_return sr_written].
  split; [reflexivity|]. do 2 f_equal.
  rewrite Nat2Z.id, firstn_app, Nat.sub_diag, firstn_all. cbn [firstn].
  rewrite app_nil_r, rows_with_newlines_texts.
  fold (texts f'). rewrite T'. now apply terminated_lines.
Qed.

Lemma open_then_save_writes_the_file_back_witness :
  let E := editor_of (get (new_buffer None) (ab_cd 1 0)) in
  let lines := [bytes "one" ++ [NEWLINE]; [TAB; "x"%char; "013"%char; NEWLINE]] in
  exists E1 res,
    editorOpen 80 no_script (Some (bytes "t")) (FopenLines lines) E
    = Done (E1, 0)
    /\ save_lua 80 no_script None SaveOk E1 = Done res
    /\ sr_return res = 0
    /\ sr_written res = Some (bytes "t", List.concat lines).
Proof.
  intros E lines.
  pose (E1 := fst (get (E, 0)
                     (editorOpen 80 no_script (Some (bytes "t"))
                        (FopenLines lines) E))).
  pose (res := get {| sr_editor := E; sr_return := 1; sr_written := None |}
                 (save_lua 80 no_script None SaveOk E1)).
  assert (Hopen : editorOpen 80 no_script (Some (bytes "t")) (FopenLines lines) E
                  = Done (E1, 0)) by (vm_compute; reflexivity).
  assert (Hsave : save_lua 80 no_script None SaveOk E1 = Done res)
    by (vm_compute; reflexivity).
  exists E1, res. split; [exact Hopen|]. split; [exact Hsave|].
  refine (proj2 (open_then_save_writes_the_file_back 80 no_script (bytes "t")
                   lines E E1 (get (new_buffer None) (ab_cd 1 0)) 0 res
                   _ _ _ _ _ Hopen Hsave)).
  - vm_compute. reflexivity.
  - vm_compute. reflexivity.
  - vm_compute. reflexivity.
  - intros fn arg E0 E2 err Hfn. discriminate Hfn.
  - repeat constructor.
    + now exists (bytes "one").
    + now exists [TAB; "x"%char; "013"%char].
Defined.

(** * The terminal cursor *)




(** * Forced re-rendering *)

(** ** The loop over the rows *)

Section Rerender.

Variable P : erow -> Prop.
Variable I : fileState -> Prop.
Hypothesis step :
  forall (f f' : fileState) (ri : Z),
    I f -> editorUpdateRow f ri = Done f' ->
    I f'
    /\ forall (j : nat) (r' : erow),
         nth_error (row f') j = Some r' ->
         (j = Z.to_nat ri \/ exists r, nth_error (row f) j = Some r /\ P r) ->
         P r'.

Lemma rerender_rows_all (n : nat) :
  forall (i : Z) (f f' : fileState),
    0 <= i -> I f ->
    (forall j r, Z.of_nat j < i -> nth_error (row f) j = Some r -> P r) ->
    rerender_rows n i f = Done f' ->
    I f'
    /\ forall j r, Z.of_nat j < i + Z.of_nat n ->
                   nth_error (row f') j = Some r -> P r.
Proof.
  induction n as [|n IH]; intros i f f' Hi HI Hpre H; cbn [rerender_rows] in H.
  - injection H as <-. split; [exact HI|].
    intros j r Hj. apply Hpre. lia.
  - bind_done H. rename x into f1, E into H1.
    destruct (step f f1 i HI H1) as (HI1 & Hstep).
    pose proof (editorUpdateRow_length _ _ _ H1) as Hlen.
    destruct (IH (i + 1) f1 f' ltac:(lia) HI1) as (HI' & Hall); [|exact H|].
    + intros j r1 Hj Hr1. apply (Hstep j r1 Hr1).
      destruct (Z.eq_dec (Z.of_nat j) i) as [<-|Hne].
      * left. now rewrite Nat2Z.id.
      * right.
        assert (Hin : (j < List.length (row f))%nat).
        { rewrite <- Hlen. apply nth_error_Some. congruence. }
        destruct (nth_error (row f) j) as [r|] eqn:Hr;
          [|apply nth_error_None in Hr; lia].
        exists r. split; [reflexivity|]. eapply Hpre; [|exact Hr]. lia.
    + split; [exact HI'|]. intros j r Hj. apply Hall. lia.
Qed.

Lemma rerender_all_all (f f' : fileState) :
  numrows f = Z.of_nat (List.length (row f)) -> I f ->
  rerender_all f = Done f' ->
  I f' /\ forall j r, nth_error (row f') j = Some r -> P r.
Proof.
  intros Hn HI H. unfold rerender_all in H.
  destruct (rerender_rows_all _ 0 f f' ltac:(lia) HI ltac:(intros; lia) H)
    as (HI' & Hall).
  split; [exact HI'|]. intros j r Hr. apply (Hall j r); [|exact Hr].
  assert (Hlen : List.length (row f') = List.length (row f)).
  { clear - H. revert H. generalize 0 as i. generalize (Z.to_nat (numrows f)).
    intros n. revert f. induction n as [|n IH]; intros f i H;
      cbn [rerender_rows] in H.
    - now injection H as <-.
    - bind_done H. apply IH in H. rewrite H.
      now apply editorUpdateRow_length in E. }
  assert ((j < List.length (row f'))%nat) by (apply nth_error_Some; congruence).
  lia.
Qed.

End Rerender.

Lemma rerender_rows_texts (n : nat) :
  forall (i : Z) (f f' : fileState),
    rerender_rows n i f = Done f' ->
    texts f' = texts f /\ map idx (row f') = map idx (row f)
    /\ set_row (row f') f = f'.
Proof.
  induction n as [|n IH]; intros i f f' H; cbn [rerender_rows] in H.
  - injection H as <-. destruct f; auto.
  - bind_done H. apply editorUpdateRow_texts in E as (T1 & I1 & S1).
    apply IH in H as (T2 & I2 & S2).
    split; [congruence|]. split; [congruence|].
    rewrite <- S2, <- S1. reflexivity.
Qed.

(** After the loop every row is rendered for the buffer's [tab_size] and
    carries the tags of the buffer's syntax; the bytes of the rows are what
    they were. *)
Lemma rerender_all_spec (f f' : fileState) :
  numrows f = Z.of_nat (List.length (row f)) -> index_consistent f ->
  rerender_all f = Done f' ->
  well_formed f' /\ texts f' = texts f /\ set_row (row f') f = f'
  /\ forall j r, nth_error (row f') j = Some r ->
                 forallb (tag_expected (syntax f)) (hl r) = true.
Proof.
  intros Hn Hc H.
  pose proof (rerender_rows_texts _ _ _ _ H) as (T & Ix & S).
  assert (Hlen : List.length (row f') = List.length (row f))
    by (rewrite <- (length_map idx (row f')), Ix; apply length_map).
  split; [|split; [exact T|split; [exact S|]]].
  - split; [rewrite <- S; cbn [numrows set_row row]; lia|]. split.
    + apply (index_consistent_map f f' Ix Hc).
    + destruct (rerender_all_all (row_rendered (tab_size f))
                  (fun g => tab_size g = tab_size f)) with (f := f) (f' := f')
        as (Hts & Hall); try assumption; try reflexivity.
      * intros g g' ri Hg Hu. split.
        -- apply editorUpdateRow_rows_only in Hu. rewrite <- Hu. exact Hg.
        -- intros j r' Hj Hpre. rewrite <- Hg.
           apply (editorUpdateRow_rendered _ _ _ Hu j r' Hj).
           rewrite Hg. exact Hpre.
      * rewrite Hts. exact Hall.
  - destruct (rerender_all_all
                (fun r => forallb (tag_expected (syntax f)) (hl r) = true)
                (fun g => syntax g = syntax f)) with (f := f) (f' := f')
      as (_ & Hall); try assumption; try reflexivity.
    intros g g' ri Hg Hu. split.
    + apply editorUpdateRow_rows_only in Hu. rewrite <- Hu. exact Hg.
    + intros j r' Hj Hpre. unfold editorUpdateRow in Hu.
      bind_done Hu. rename x into r0, E into Hr0.
      bind_done Hu. rename x into rnd, E into Hrnd.
      bind_done Hu. rename x into g1, E into Hg1.
      assert (Hsyn1 : syntax g1 = syntax f)
        by (apply row_put_rows in Hg1 as [-> _]; exact Hg).
      apply (editorUpdateSyntax_inv (syntax f)
               (fun _ h => forallb (tag_expected (syntax f)) h = true))
        with (fuel := row_fuel g1) (f := g1) (f' := g') (ri := ri) (j := j);
        try assumption.
      * intros rnd0. apply forallb_forall. intros t Ht.
        apply repeat_spec in Ht. subst t.
        unfold tag_expected. destruct (syntax f); reflexivity.
      * intros syn Hsyn rnd0 h i t h' Ht Hh Hput. unfold hl_put in Hput.
        destruct (_ || _); [discriminate|]. injection Hput as <-.
        rewrite forallb_forall in *. intros t' Hin.
        assert (Hcase : t' = t \/ In t' h).
        { clear - Hin. revert Hin. generalize (Z.to_nat i).
          induction h as [|a h IH]; intros [|n] Hin; cbn in *; try tauto.
          - destruct Hin as [?|?]; auto.
          - destruct Hin as [?|Hin]; auto. apply IH in Hin. tauto. }
        destruct Hcase as [->|Hin']; [|now apply Hh].
        unfold tag_expected. rewrite Hsyn. exact Ht.
      * pose proof (row_put_nth _ _ _ _ j Hg1) as N1.
        destruct Hpre as [->|(r & Hr & HP)]; [now left|].
        destruct (Nat.eqb_spec j (Z.to_nat ri)) as [->|Hne]; [now left|].
        right. exists r. rewrite N1.
        destruct (Nat.eqb_spec j (Z.to_nat ri)); [contradiction|]. auto.
Qed.

(** The loop completes on a buffer without syntax whose [tab_size] is
    positive. *)
Lemma rerender_rows_completes (n : nat) :
  forall (i : Z) (f : fileState),
    syntax f = None -> 1 <= tab_size f -> 0 <= i ->
    i + Z.of_nat n <= Z.of_nat (List.length (row f)) ->
    exists f', rerender_rows n i f = Done f'.
Proof.
  induction n as [|n IH]; intros i f Hsyn Hts Hi Hn; cbn [rerender_rows];
    [eauto|].
  assert (Hr : exists r, row_at f i = Done r).
  { unfold row_at. destruct (Z.ltb_spec i 0); [lia|].
    destruct (nth_error (row f) (Z.to_nat i)) as [r|] eqn:E; [eauto|].
    apply nth_error_None in E. lia. }
  destruct Hr as [r Hr].
  destruct (editorUpdateRow_completes f i r Hr Hsyn Hts) as (f1 & H1).
  rewrite H1. cbn [bind].
  pose proof (editorUpdateRow_length _ _ _ H1) as Hlen.
  pose proof (editorUpdateRow_rows_only _ _ _ H1) as Hs.
  apply IH; try lia.
  - rewrite <- Hs. exact Hsyn.
  - rewrite <- Hs. exact Hts.
Qed.

(** ** The tab width *)








(** ** The highlighter switches *)

Lemma flag_cleared (s : editorSyntax) (bit : Z) :
  has_flag (set_flags (Z.land (flags s) (Z.lnot bit)) s) bit = false.
Proof.
  unfold has_flag. cbn [flags set_flags].
  rewrite <- Z.land_assoc, (Z.land_comm (Z.lnot bit) bit), Z.land_lnot_diag,
    Z.land_0_r.
  reflexivity.
Qed.

Lemma switch_flag_off (bit cond : Z) (f f' : fileState) (syn : editorSyntax) :
  well_formed f -> syntax f = Some syn -> cond <> 1 ->
  switch_flag bit cond f = Done f' ->
  well_formed f' /\ texts f' = texts f /\ cursor_of f' = cursor_of f
  /\ exists syn', syntax f' = Some syn' /\ has_flag syn' bit = false
     /\ forall r t, In r (row f') -> In t (hl r) ->
                    tag_allowed Kilua syn' t = true.
Proof.
  intros (Hn & Hc & _) Hsyn Hcond H. unfold switch_flag in H.
  rewrite Hsyn in H. apply lua_to_int_not_1 in Hcond.
  destruct (Z.eqb_spec (lua_to_int cond) 1); [contradiction|].
  set (syn' := set_flags (Z.land (flags syn) (Z.lnot bit)) syn) in H.
  destruct (rerender_all_spec (set_syntax (Some syn') f) f' Hn Hc H)
    as (W & T & S & Htags).
  split; [exact W|]. split; [exact T|].
  split; [rewrite <- S; reflexivity|].
  exists syn'. split; [rewrite <- S; reflexivity|].
  split; [apply flag_cleared|].
  intros r t Hr Ht. destruct (In_nth_error _ _ Hr) as (j & Hj).
  specialize (Htags j r Hj). rewrite forallb_forall in Htags.
  exact (Htags t Ht).
Qed.

(** [syntax_highlight_numbers_lua] and [syntax_highlight_strings_lua] with
    an argument other than 1, on a well-formed buffer that has a syntax:
    when the call returns, no byte of the buffer is tagged as a number (as a
    string), nor as non-printable, as a search match or as selected; the
    bytes of the rows and the cursor are untouched. *)
Theorem highlight_switches_take_effect
    (cond : Z) (f f' : fileState) (syn : editorSyntax) :
  well_formed f -> syntax f = Some syn -> cond <> 1 ->
  (syntax_highlight_numbers_lua cond f = Done f' ->
     well_formed f' /\ texts f' = texts f /\ cursor_of f' = cursor_of f
     /\ forall r t, In r (row f') -> In t (hl r) ->
          t <> HL_NUMBER /\ t <> HL_NONPRINT /\ t <> HL_MATCH
          /\ t <> HL_SELECTION)
  /\ (syntax_highlight_strings_lua cond f = Done f' ->
        well_formed f' /\ texts f' = texts f /\ cursor_of f' = cursor_of f
        /\ forall r t, In r (row f') -> In t (hl r) ->
             t <> HL_STRING /\ t <> HL_NONPRINT /\ t <> HL_MATCH
             /\ t <> HL_SELECTION).
Proof.
  intros Hwf Hsyn Hcond.
  split; intros H;
    destruct (switch_flag_off _ cond f f' syn Hwf Hsyn Hcond H)
      as (W & T & C & syn' & _ & Hflag & Htags);
    (split; [exact W|]); (split; [exact T|]); (split; [exact C|]);
    intros r t Hr Ht; specialize (Htags r t Hr Ht);
    destruct t; cbn [tag_allowed] in Htags; rewrite ?Hflag in Htags;
    repeat split; congruence.
Qed.

Lemma highlight_switches_take_effect_witness :
  let f := get (new_buffer None)
             (g <- buffer_of ["x = 12;"; "s = 'a';"]%string ;;
              with_C_syntax g) in
  exists f',
    syntax_highlight_numbers_lua 0 f = Done f'
    /\ In HL_NUMBER (List.concat (row_hl f))
    /\ texts f' = texts f
    /\ forall r t, In r (row f') -> In t (hl r) ->
         t <> HL_NUMBER /\ t <> HL_NONPRINT /\ t <> HL_MATCH
         /\ t <> HL_SELECTION.
Proof.
  intros f.
  destruct (syntax_highlight_numbers_lua 0 f) as [f'|] eqn:H;
    [|vm_compute in H; discriminate H].
  destruct (highlight_switches_take_effect 0 f f' C_syntax) as (H1 & _).
  - apply well_formed_check. vm_compute. reflexivity.
  - vm_compute. reflexivity.
  - discriminate.
  - destruct (H1 H) as (_ & T & _ & Htags).
    exists f'. split; [reflexivity|].
    split; [vm_compute; tauto|]. split; [exact T|exact Htags].
Defined.

(** * The buffer list *)

Lemma file_at_in_range (E : editorConfig) (i : Z) :
  0 <= i < Z.of_nat (List.length (file E)) ->
  exists g, file_at E i = Done g /\ nth_error (file E) (Z.to_nat i) = Some g.
Proof.
  intros Hi. unfold file_at. destruct (Z.ltb_spec i 0); [lia|].
  destruct (nth_error (file E) (Z.to_nat i)) as [g|] eqn:Hg; [eauto|].
  apply nth_error_None in Hg. lia.
Qed.

(** The re-rendering that closes the functions of this section touches no
    byte of any buffer. *)
Lemma rerender_current_spec (E E' : editorConfig) :
  rerender_current E = Done E' ->
  current_file E' = current_file E /\ max_files E' = max_files E
  /\ map texts (file E') = map texts (file E)
  /\ map filename (file E') = map filename (file E).
Proof.
  unfold rerender_current, on_current, on_file. intros H.
  bind_done H. rename x into g, E0 into Hg.
  bind_done H. rename x into g', E0 into Hr.
  apply file_at_nth in Hg as (Hi & Hg).
  unfold rerender_all in Hr.
  apply rerender_rows_texts in Hr as (T & _ & S).
  unfold file_put in H. destruct (_ || _); [discriminate|].
  injection H as <-. cbn [current_file max_files file set_file].
  split; [reflexivity|]. split; [reflexivity|]. split.
  - eapply map_list_set_same; [exact Hg|exact T].
  - eapply map_list_set_same; [exact Hg|]. rewrite <- S. reflexivity.
Qed.

Lemma rerender_current_completes (E : editorConfig) :
  0 <= current_file E < Z.of_nat (List.length (file E)) ->
  Forall plain_buffer (file E) ->
  exists E', rerender_current E = Done E'.
Proof.
  intros Hi Hall. unfold rerender_current, on_current, on_file.
  destruct (file_at_in_range E _ Hi) as (g & -> & Hg). cbn [bind].
  rewrite Forall_forall in Hall.
  destruct (Hall g (nth_error_In _ _ Hg)) as (Hsyn & Hts & Hn).
  unfold rerender_all.
  destruct (rerender_rows_completes (Z.to_nat (numrows g)) 0 g Hsyn Hts)
    as (g' & ->); try lia.
  cbn [bind]. unfold file_put.
  destruct (Z.ltb_spec (current_file E) 0); [lia|]. cbn [orb].
  destruct (Z.leb_spec (Z.of_nat (List.length (file E))) (current_file E));
    [lia|]. eauto.
Qed.

(** [next_buffer_lua] and [prev_buffer_lua], for a current buffer inside
    the list: the index goes one up, or from the last buffer to the first,
    and one down, or from the first buffer to the last, so that each call
    undoes the other; no byte and no name of any buffer changes.  Where
    every buffer can be rendered again, both calls return. *)
Theorem next_and_prev_buffer_cycle (E : editorConfig) :
  0 <= current_file E < max_files E ->
  (forall E', next_buffer_lua E = Done E' ->
     current_file E' = (current_file E + 1) mod max_files E
     /\ max_files E' = max_files E
     /\ map texts (file E') = map texts (file E)
     /\ map filename (file E') = map filename (file E)
     /\ forall E'', prev_buffer_lua E' = Done E'' ->
          current_file E'' = current_file E)
  /\ (forall E', prev_buffer_lua E = Done E' ->
        current_file E' = (current_file E - 1) mod max_files E
        /\ max_files E' = max_files E
        /\ map texts (file E') = map texts (file E)
        /\ map filename (file E') = map filename (file E)
        /\ forall E'', next_buffer_lua E' = Done E'' ->
             current_file E'' = current_file E)
  /\ (max_files E = Z.of_nat (List.length (file E)) ->
      Forall plain_buffer (file E) ->
      is_done (next_buffer_lua E) = true /\ is_done (prev_buffer_lua E) = true).
Proof.
  intros Hc. split; [|split].
  - intros E' H. unfold next_buffer_lua in H.
    apply rerender_current_spec in H as (C & M & T & N).
    assert (C' : current_file E' = (current_file E + 1) mod max_files E).
    { rewrite C. destruct (Z.ltb_spec (current_file E) (max_files E - 1));
        cbn [current_file set_current_file].
      - rewrite Z.mod_small; lia.
      - replace (current_file E + 1) with (max_files E) by lia.
        rewrite Z.mod_same; lia. }
    assert (M' : max_files E' = max_files E)
      by (rewrite M; destruct (_ <? _); reflexivity).
    split; [exact C'|]. split; [exact M'|].
    split; [rewrite T; destruct (_ <? _); reflexivity|].
    split; [rewrite N; destruct (_ <? _); reflexivity|].
    intros E'' H2. unfold prev_buffer_lua in H2.
    apply rerender_current_spec in H2 as (C2 & _). rewrite C2.
    revert C'. rewrite M'.
    destruct (Z.ltb_spec (current_file E) (max_files E - 1)).
    + rewrite Z.mod_small by lia. intros ->.
      destruct (Z.gtb_spec (current_file E + 1) 0); [|lia].
      cbn [current_file set_current_file]. lia.
    + replace (current_file E + 1) with (max_files E) by lia.
      rewrite Z.mod_same by lia. intros ->.
      destruct (Z.gtb_spec 0 0); [lia|].
      cbn [current_file set_current_file]. lia.
  - intros E' H. unfold prev_buffer_lua in H.
    apply rerender_current_spec in H as (C & M & T & N).
    assert (C' : current_file E' = (current_file E - 1) mod max_files E).
    { rewrite C. destruct (Z.gtb_spec (current_file E) 0);
        cbn [current_file set_current_file].
      - rewrite Z.mod_small; lia.
      - replace (current_file E - 1) with (-1) by lia.
        rewrite <- (Z.mod_add _ 1) by lia. rewrite Z.mod_small; lia. }
    assert (M' : max_files E' = max_files E)
      by (rewrite M; destruct (_ >? _); reflexivity).
    split; [exact C'|]. split; [exact M'|].
    split; [rewrite T; destruct (_ >? _); reflexivity|].
    split; [rewrite N; destruct (_ >? _); reflexivity|].
    intros E'' H2. unfold next_buffer_lua in H2.
    apply rerender_current_spec in H2 as (C2 & _). rewrite C2.
    revert C'. rewrite M'.
    destruct (Z.gtb_spec (current_file E) 0).
    + rewrite Z.mod_small by lia. intros ->.
      destruct (Z.ltb_spec (current_file E - 1) (max_files E - 1)); [|lia].
      cbn [current_file set_current_file]. lia.
    + replace (current_file E - 1) with (-1) by lia.
      rewrite <- (Z.mod_add _ 1) by lia. rewrite Z.mod_small by lia.
      intros ->.
      destruct (Z.ltb_spec (-1 + 1 * max_files E) (max_files E - 1)); [lia|].
      cbn [current_file set_current_file]. lia.
  - intros Hm Hall. unfold next_buffer_lua, prev_buffer_lua. split.
    + match goal with
      | |- is_done (rerender_current ?E1) = true =>
          destruct (rerender_current_completes E1) as (E' & ->)
      end; [| |reflexivity].
      * destruct (Z.ltb_spec (current_file E) (max_files E - 1));
          cbn [current_file set_current_file file]; lia.
      * destruct (_ <? _); exact Hall.
    + match goal with
      | |- is_done (rerender_current ?E1) = true =>
          destruct (rerender_current_completes E1) as (E' & ->)
      end; [| |reflexivity].
      * destruct (Z.gtb_spec (current_file E) 0);
          cbn [current_file set_current_file file]; lia.
      * destruct (_ >? _); exact Hall.
Qed.

Lemma next_and_prev_buffer_cycle_witness :
  let E := editor_of (get (new_buffer None) (ab_cd 1 0)) in
  (forall E', next_buffer_lua E = Done E' ->
     current_file E' = 0
     /\ forall E'', prev_buffer_lua E' = Done E'' -> current_file E'' = 1)
  /\ is_done (next_buffer_lua E) = true
  /\ is_done (prev_buffer_lua E) = true.
Proof.
  intros E.
  destruct (next_and_prev_buffer_cycle E) as (H1 & _ & H3).
  - vm_compute. split; [discriminate|reflexivity].
  - split.
    + intros E' H. destruct (H1 E' H) as (C & _ & _ & _ & Hback).
      split; [exact C|exact Hback].
    + apply H3; [reflexivity|].
      repeat constructor; vm_compute; discriminate.
Defined.

(** ** Choosing a buffer by its name *)

Lemma find_buffer_spec (name : list ascii) (E : editorConfig) (n : nat) :
  forall i : Z,
    0 <= i -> i + Z.of_nat n <= Z.of_nat (List.length (file E)) ->
    exists m,
      find_buffer n i name E = Done m
      /\ match m with
         | Some k =>
             i <= k < i + Z.of_nat n
             /\ (exists g, file_at E k = Done g /\ has_name name g = true)
             /\ forall j h, i <= j < k -> file_at E j = Done h ->
                            has_name name h = false
         | None =>
             forall j h, i <= j < i + Z.of_nat n -> file_at E j = Done h ->
                         has_name name h = false
         end.
Proof.
  induction n as [|n IH]; intros i Hi Hn; cbn [find_buffer].
  - exists None. split; [reflexivity|]. intros; lia.
  - destruct (file_at_in_range E i ltac:(lia)) as (g & Hg & _).
    rewrite Hg. cbn [bind].
    destruct (IH (i + 1) ltac:(lia) ltac:(lia)) as (m & Hm & Hspec).
    assert (Hcase : has_name name g = true
                    \/ (has_name name g = false
                        /\ match filename g with
                           | Some fn =>
                               if list_ascii_eqb (c_string fn) (c_string name)
                               then Done (Some i)
                               else find_buffer n (i + 1) name E
                           | None => find_buffer n (i + 1) name E
                           end = find_buffer n (i + 1) name E)).
    { unfold has_name. destruct (filename g) as [fn|]; [|right; auto].
      destruct (list_ascii_eqb _ _); [left|right]; auto. }
    destruct Hcase as [Hyes|(Hno & Heq)].
    + exists (Some i). split.
      * unfold has_name in Hyes. destruct (filename g) as [fn|];
          [|discriminate]. now rewrite Hyes.
      * split; [lia|]. split; [eauto|]. intros; lia.
    + exists m. rewrite Heq. split; [exact Hm|].
      assert (Hhere : forall j h, j = i -> file_at E j = Done h ->
                                  has_name name h = false).
      { intros j h -> Hh. congruence. }
      destruct m as [k|].
      * destruct Hspec as (Hk & Hg' & Hbefore).
        split; [lia|]. split; [exact Hg'|].
        intros j h Hj Hh. destruct (Z.eq_dec j i) as [Hji|Hji];
          [eapply Hhere; eauto|apply (Hbefore j h); [lia|exact Hh]].
      * intros j h Hj Hh. destruct (Z.eq_dec j i) as [Hji|Hji];
          [eapply Hhere; eauto|apply (Hspec j h); [lia|exact Hh]].
Qed.

(** [select_buffer_lua] with a string that is not a number, on a buffer list
    of [max_files] buffers: the call makes current the first buffer that
    carries the name and pushes 1, and where no buffer carries it the call
    changes nothing and pushes 0. *)
Theorem select_buffer_lua_takes_the_first_name
    (name : list ascii) (E : editorConfig) :
  max_files E = Z.of_nat (List.length (file E)) ->
  exists E' ret,
    select_buffer_lua (ByName name) E = Done (E', ret)
    /\ ((ret = 1
         /\ E' = set_current_file (current_file E') E
         /\ 0 <= current_file E' < max_files E
         /\ (exists g, file_at E (current_file E') = Done g
                       /\ has_name name g = true)
         /\ forall j h, 0 <= j < current_file E' -> file_at E j = Done h ->
                        has_name name h = false)
        \/ (ret = 0 /\ E' = E
            /\ forall h, In h (file E) -> has_name name h = false)).
Proof.
  intros Hm. unfold select_buffer_lua.
  destruct (find_buffer_spec name E (Z.to_nat (max_files E)) 0)
    as (m & -> & Hspec); [lia|lia|].
  cbn [bind]. destruct m as [k|].
  - destruct Hspec as (Hk & Hg & Hbefore).
    exists (set_current_file k E), 1. split; [reflexivity|]. left.
    cbn [current_file set_current_file].
    split; [reflexivity|]. split; [reflexivity|]. split; [lia|].
    split; [exact Hg|exact Hbefore].
  - exists E, 0. split; [reflexivity|]. right.
    split; [reflexivity|]. split; [reflexivity|].
    intros h Hin. destruct (In_nth_error _ _ Hin) as (j & Hj).
    assert (Hlt : (j < List.length (file E))%nat)
      by (apply nth_error_Some; congruence).
    apply (Hspec (Z.of_nat j) h); [lia|].
    unfold file_at. destruct (Z.ltb_spec (Z.of_nat j) 0); [lia|].
    now rewrite Nat2Z.id, Hj.
Qed.

Lemma select_buffer_lua_takes_the_first_name_witness :
  let E := editor_of (get (new_buffer None) (ab_cd 1 0)) in
  exists E' ret,
    select_buffer_lua (ByName (bytes "*Messages*")) E = Done (E', ret)
    /\ ret = 1 /\ current_file E' = 0.
Proof.
  intros E.
  destruct (select_buffer_lua_takes_the_first_name (bytes "*Messages*") E)
    as (E' & ret & H & Hcase); [reflexivity|].
  exists E', ret. split; [exact H|].
  vm_compute in H. injection H as <- <-. split; reflexivity.
Defined.

(** ** Killing the current buffer *)

Lemma copy_buffers_spec (l : list (option fileState)) :
  forall pre : list (option fileState),
    copy_buffers (List.length l) (Z.of_nat (List.length pre)) (pre ++ l)
    = Done (flat_map (fun o => match o with
                               | Some g => [g]
                               | None => []
                               end) l).
Proof.
  induction l as [|o l IH]; intros pre; [reflexivity|].
  cbn [List.length copy_buffers flat_map].
  rewrite Nat2Z.id, nth_error_app2, Nat.sub_diag by lia. cbn [nth_error].
  replace (pre ++ o :: l) with ((pre ++ [o]) ++ l)
    by (rewrite <- app_assoc; reflexivity).
  replace (Z.of_nat (List.length pre) + 1)
    with (Z.of_nat (List.length (pre ++ [o])))
    by (rewrite length_app; cbn [List.length]; lia).
  rewrite IH. destruct o; reflexivity.
Qed.

Lemma copy_buffers_without (fs : list fileState) (n : nat) :
  (n < List.length fs)%nat ->
  copy_buffers (List.length fs) 0 (list_set (map Some fs) n None)
  = Done (firstn n fs ++ skipn (S n) fs).
Proof.
  intros Hn.
  assert (Hlen : List.length fs
                 = List.length (list_set (map Some fs) n None))
    by (rewrite list_set_length, length_map; reflexivity).
  rewrite Hlen at 1.
  pose proof (copy_buffers_spec (list_set (map Some fs) n None) []) as Hs.
  cbn [List.length app Z.of_nat] in Hs. rewrite Hs.
  f_equal. clear Hlen Hs. revert n Hn.
  induction fs as [|g fs IH]; intros [|n] Hn; cbn [List.length] in Hn;
    try lia; cbn [map list_set flat_map firstn skipn app].
  - clear. induction fs as [|h fs IH]; [reflexivity|].
    cbn [map flat_map app]. now rewrite IH.
  - rewrite IH by lia. reflexivity.
Qed.

Lemma map_without {A B : Type} (g : A -> B) (l : list A) (n : nat) :
  map g (firstn n l ++ skipn (S n) l)
  = firstn n (map g l) ++ skipn (S n) (map g l).
Proof.
  rewrite map_app, firstn_map. f_equal.
  change (S n) with (1 + n)%nat. rewrite <- !skipn_skipn.
  rewrite skipn_map. destruct (skipn n l); reflexivity.
Qed.

(** [kill_buffer_lua], for a current buffer inside a list of [max_files]
    buffers.  With a single buffer the process exits with code 0.  With
    more, a call that returns has removed the current buffer from the list
    and kept the others in their order, bytes and names untouched; the
    buffer before it is current, and the last one when the first buffer was
    killed.  Where every buffer can be rendered again, the call returns. *)
Theorem kill_buffer_lua_removes_the_current (E : editorConfig) :
  max_files E = Z.of_nat (List.length (file E)) ->
  0 <= current_file E < max_files E ->
  (max_files E <= 1 -> kill_buffer_lua E = Fault (ProcessExit 0))
  /\ (forall E', kill_buffer_lua E = Done E' ->
        max_files E' = max_files E - 1
        /\ current_file E'
           = (if current_file E >? 0 then current_file E - 1
              else max_files E - 2)
        /\ map texts (file E')
           = firstn (Z.to_nat (current_file E)) (map texts (file E))
             ++ skipn (S (Z.to_nat (current_file E))) (map texts (file E))
        /\ map filename (file E')
           = firstn (Z.to_nat (current_file E)) (map filename (file E))
             ++ skipn (S (Z.to_nat (current_file E)))
                  (map filename (file E)))
  /\ (1 < max_files E -> Forall plain_buffer (file E) ->
      is_done (kill_buffer_lua E) = true).
Proof.
  intros Hm Hc.
  assert (Hcopy : copy_buffers (Z.to_nat (max_files E)) 0
                    (list_set (map Some (file E))
                       (Z.to_nat (current_file E)) None)
                  = Done (firstn (Z.to_nat (current_file E)) (file E)
                          ++ skipn (S (Z.to_nat (current_file E))) (file E))).
  { rewrite Hm, Nat2Z.id. apply copy_buffers_without. lia. }
  destruct (file_at_in_range E (current_file E) ltac:(lia)) as (g & Hg & _).
  split; [|split].
  - intros Hone. unfold kill_buffer_lua.
    destruct (Z.gtb_spec (max_files E) 1); [lia|reflexivity].
  - intros E' H. unfold kill_buffer_lua in H.
    destruct (Z.gtb_spec (max_files E) 1); [|discriminate].
    rewrite Hg in H. cbn [bind] in H. rewrite Hcopy in H. cbn [bind] in H.
    apply rerender_current_spec in H as (C & M & T & N).
    cbn [current_file max_files file set_current_file set_max_files set_file]
      in *.
    split; [rewrite M; destruct (_ >? _); reflexivity|].
    split.
    + rewrite C. destruct (Z.gtb_spec (current_file E) 0);
        cbn [current_file set_current_file set_max_files set_file max_files];
        lia.
    + split.
      * rewrite T. destruct (_ >? _);
          cbn [file set_current_file set_max_files set_file];
          apply map_without.
      * rewrite N. destruct (_ >? _);
          cbn [file set_current_file set_max_files set_file];
          apply map_without.
  - intros Hmore Hall. unfold kill_buffer_lua.
    destruct (Z.gtb_spec (max_files E) 1); [|lia].
    rewrite Hg. cbn [bind]. rewrite Hcopy. cbn [bind].
    match goal with
    | |- is_done (rerender_current ?E1) = true =>
        destruct (rerender_current_completes E1) as (E' & ->)
    end; [| |reflexivity].
    + assert (Hlen : Z.of_nat (List.length
                       (firstn (Z.to_nat (current_file E)) (file E)
                        ++ skipn (S (Z.to_nat (current_file E))) (file E)))
                     = max_files E - 1).
      { rewrite length_app, length_firstn, length_skipn. lia. }
      cbn [current_file set_max_files set_file max_files].
      destruct (Z.gtb_spec (current_file E) 0);
        cbn [current_file set_current_file set_max_files set_file max_files
             file]; lia.
    + assert (Hsub : Forall plain_buffer
                       (firstn (Z.to_nat (current_file E)) (file E)
                        ++ skipn (S (Z.to_nat (current_file E))) (file E))).
      { rewrite Forall_forall in *. intros h Hin. apply Hall.
        apply in_app_or in Hin as [Hin|Hin].
        - rewrite <- (firstn_skipn (Z.to_nat (current_file E)) (file E)).
          apply in_or_app. now left.
        - rewrite <- (firstn_skipn (S (Z.to_nat (current_file E))) (file E)).
          apply in_or_app. now right. }
      destruct (_ >? _); exact Hsub.
Qed.

Lemma kill_buffer_lua_removes_the_current_witness :
  let E := editor_of (get (new_buffer None) (ab_cd 1 0)) in
  is_done (kill_buffer_lua E) = true
  /\ forall E', kill_buffer_lua E = Done E' ->
       max_files E' = 1 /\ current_file E' = 0
       /\ map texts (file E') = [[]]
       /\ map filename (file E') = [Some (bytes "*Messages*")].
Proof.
  intros E.
  destruct (kill_buffer_lua_removes_the_current E) as (_ & H2 & H3).
  - reflexivity.
  - vm_compute. split; [discriminate|reflexivity].
  - split.
    + apply H3; [reflexivity|]. repeat constructor; vm_compute; discriminate.
    + intros E' H. destruct (H2 E' H) as (M & C & T & N).
      split; [exact M|]. split; [exact C|]. split; [exact T|exact N].
Defined.

(** ** A new buffer *)

(** [create_buffer_lua] asks [realloc] for one byte more than the pointers
    that the list holds, and stores the pointer to the new buffer behind
    them: for every pointer size above one byte the store ends outside the
    block. *)
Theorem create_buffer_lua_writes_past_the_block
    (ptr : Z) (name : option (list ascii)) (E : editorConfig) :
  1 < ptr -> 0 <= max_files E ->
  create_buffer_lua ptr name E = Fault (FileIndexOutOfRange (max_files E)).
Proof.
  intros Hp Hm. unfold create_buffer_lua.
  cbn [current_file set_current_file max_files set_max_files].
  replace (max_files E + 1 - 1) with (max_files E) by lia.
  destruct (Z.ltb_spec (max_files E) 0); [lia|]. cbn [orb].
  destruct (Z.ltb_spec (ptr * max_files E + 1) (ptr * (max_files E + 1)));
    [reflexivity|nia].
Qed.

Lemma create_buffer_lua_writes_past_the_block_witness :
  create_buffer_lua 8 (Some (bytes "t"))
    (editor_of (get (new_buffer None) (ab_cd 1 0)))
  = Fault (FileIndexOutOfRange 2).
Proof.
  apply (create_buffer_lua_writes_past_the_block 8); vm_compute;
    [reflexivity|discriminate].
Defined.

(** * A search that finds *)




